(** * Skyline GPU texture layer: descriptors, views, dirty state, format translation

    A shallow embedding of [gpu/texture/texture.h] and of the parts of the
    Maxwell3D [GraphicsContext] that build texture and buffer descriptors,
    followed by the properties checked against them.

    Conventions.  Fixed-width unsigned integers ([u8], [u16], [u32]) are
    values of [Z]; where the C++ arithmetic is carried out in a 32-bit
    unsigned type the reduction modulo [2^32] is written out.  Shared
    pointers are addresses into an explicit store.  A C++ exception is the
    [Throw] outcome of [Result]. *)

From Stdlib Require Import ZArith List String Bool Lia.
From Stdlib Require SpecFloat.
From stdpp Require Import gmap list.
Import ListNotations.
Open Scope Z_scope.

(** ** Machine integers *)

Definition u32_modulus : Z := 2 ^ 32.

(** Multiplication of two [unsigned int] operands (C++ [u32 * u32]). *)
Definition u32_mul (a b : Z) : Z := (a * b) mod u32_modulus.

Definition is_u8 (x : Z) : Prop := 0 <= x < 2 ^ 8.
Definition is_u16 (x : Z) : Prop := 0 <= x < 2 ^ 16.
Definition is_u32 (x : Z) : Prop := 0 <= x < 2 ^ 32.

(** ** The Vulkan value types used by the header *)

Module vk.

(** [vk::ImageType] *)
Module ImageType.
Inductive t := e1D | e2D | e3D.
End ImageType.

(** [vk::ImageViewType] *)
Module ImageViewType.
Inductive t := e1D | e2D | e3D | eCube | e1DArray | e2DArray | eCubeArray.

Definition eqb (a b : t) : bool :=
  match a, b with
  | e1D, e1D | e2D, e2D | e3D, e3D | eCube, eCube
  | e1DArray, e1DArray | e2DArray, e2DArray | eCubeArray, eCubeArray => true
  | _, _ => false
  end.
End ImageViewType.

(** [vk::ComponentSwizzle] *)
Module ComponentSwizzle.
Inductive t := eIdentity | eZero | eOne | eR | eG | eB | eA.

Definition eqb (a b : t) : bool :=
  match a, b with
  | eIdentity, eIdentity | eZero, eZero | eOne, eOne
  | eR, eR | eG, eG | eB, eB | eA, eA => true
  | _, _ => false
  end.
End ComponentSwizzle.

(** [vk::ComponentMapping]; its [operator==] is member-wise. *)
Record ComponentMapping := {
  r : ComponentSwizzle.t;
  g : ComponentSwizzle.t;
  b : ComponentSwizzle.t;
  a : ComponentSwizzle.t;
}.

Definition ComponentMapping_eqb (x y : ComponentMapping) : bool :=
  ComponentSwizzle.eqb (r x) (r y) && ComponentSwizzle.eqb (g x) (g y)
  && ComponentSwizzle.eqb (b x) (b y) && ComponentSwizzle.eqb (a x) (a y).

(** [vk::ImageSubresourceRange]; its [operator==] is member-wise. *)
Record ImageSubresourceRange := {
  aspectMask : Z;
  baseMipLevel : Z;
  levelCount : Z;
  baseArrayLayer : Z;
  layerCount : Z;
}.

Definition ImageSubresourceRange_eqb (x y : ImageSubresourceRange) : bool :=
  (aspectMask x =? aspectMask y) && (baseMipLevel x =? baseMipLevel y)
  && (levelCount x =? levelCount y) && (baseArrayLayer x =? baseArrayLayer y)
  && (layerCount x =? layerCount y).

(** [vk::ImageAspectFlagBits] *)
Definition ImageAspect_eColor : Z := 1.
Definition ImageAspect_eDepth : Z := 2.
Definition ImageAspect_eStencil : Z := 4.

(** [vk::ImageLayout] and [vk::ImageTiling], by their enumerator values. *)
Definition ImageLayout := Z.
Definition ImageLayout_eUndefined : ImageLayout := 0.
Definition ImageTiling := Z.
Definition SampleCountFlagBits := Z.

(** [vk::Format], by its enumerator value; [eUndefined] is [0]. *)
Definition Format := Z.
Definition Format_eUndefined : Format := 0.

End vk.

(** ** namespace [texture] *)

Module texture.

Record Dimensions := {
  width : Z;   (* u32 *)
  height : Z;  (* u32 *)
  depth : Z;   (* u32 *)
}.

(** [Dimensions::operator<=>] is defaulted, so [==] is member-wise. *)
Definition Dimensions_eqb (x y : Dimensions) : bool :=
  (width x =? width y) && (height x =? height y) && (depth x =? depth y).

Definition GetType (d : Dimensions) : vk.ImageType.t :=
  if depth d >? 1 then vk.ImageType.e3D
  else if height d >? 1 then vk.ImageType.e2D
  else vk.ImageType.e1D.

Record FormatBase := {
  bpb : Z;            (* u8, bytes per block *)
  vkFormat : vk.Format;
  vkAspect : Z;       (* vk::ImageAspectFlags *)
  blockHeight : Z;    (* u16 *)
  blockWidth : Z;     (* u16 *)
  swizzleMapping : vk.ComponentMapping;
  stencilFirst : bool;
}.

Definition IsCompressed (f : FormatBase) : bool :=
  negb (blockHeight f =? 1) || negb (blockWidth f =? 1).

(** Modelled from the spec: [util::DivideCeil] is defined in the common
    utilities, which this development does not embed; the size is described
    as using [ceil(width / blockWidth)], so this is the quotient rounded up,
    at the operands' type [u32]. *)
Definition DivideCeil (dividend divisor : Z) : Z :=
  dividend / divisor + (if dividend mod divisor =? 0 then 0 else 1).

(** [FormatBase::GetSize(u32, u32, u32)].  Every operand of the product is
    an [unsigned int] (the [u8] [bpb] is promoted), so each multiplication
    is taken modulo [2^32]; the result is then widened to [size_t]. *)
Definition GetSize (f : FormatBase) (width height depth : Z) : Z :=
  u32_mul
    (u32_mul
       (u32_mul (DivideCeil width (blockWidth f)) (DivideCeil height (blockHeight f)))
       (bpb f))
    depth.

Definition GetSize_dim (f : FormatBase) (d : Dimensions) : Z :=
  GetSize f (texture.width d) (texture.height d) (texture.depth d).

(** [FormatBase::operator==] and [operator!=]: only [vkFormat] is compared. *)
Definition FormatBase_eqb (x y : FormatBase) : bool := vkFormat x =? vkFormat y.
Definition FormatBase_neqb (x y : FormatBase) : bool := negb (vkFormat x =? vkFormat y).

Definition IsCompatible (x y : FormatBase) : bool :=
  (bpb x =? bpb y) && (blockHeight x =? blockHeight y) && (blockWidth x =? blockWidth y).

(** [texture::Format] wraps a nullable pointer to format metadata.  None of
    its operations compares two non-null pointers by address, so the
    pointer is represented by the value it points to. *)
Definition Format := option FormatBase.

(** [Format::operator==]: when both pointers are non-null the pointees are
    compared with [FormatBase::operator==], otherwise the pointers
    themselves are compared (equal only when both are null). *)
Definition Format_eqb (x y : Format) : bool :=
  match x, y with
  | Some bx, Some by_ => FormatBase_eqb bx by_
  | None, None => true
  | _, _ => false
  end.

Definition Format_bool (x : Format) : bool :=
  match x with Some _ => true | None => false end.

Inductive TileMode := Linear | Pitch | Block.

Definition TileMode_eqb (x y : TileMode) : bool :=
  match x, y with
  | Linear, Linear | Pitch, Pitch | Block, Block => true
  | _, _ => false
  end.

(** [TileConfig] holds the mode and a union of [u32 pitch] with the pair
    [u8 blockHeight; u8 blockDepth].  The union is kept as its 32-bit
    storage word; on the little-endian targets of the emulator the two
    bytes are the two low bytes of the word. *)
Record TileConfig := {
  mode : TileMode;
  storage : Z;  (* u32 *)
}.

Definition pitch (c : TileConfig) : Z := storage c.
Definition tileBlockHeight (c : TileConfig) : Z := Z.land (storage c) 255.
Definition tileBlockDepth (c : TileConfig) : Z := Z.land (Z.shiftr (storage c) 8) 255.

Definition TileConfig_eqb (x y : TileConfig) : bool :=
  if TileMode_eqb (mode x) (mode y) then
    match mode x with
    | Linear => true
    | Pitch => pitch x =? pitch y
    | Block => (tileBlockHeight x =? tileBlockHeight y) && (tileBlockDepth x =? tileBlockDepth y)
    end
  else false.

(** [texture::TextureType], whose enumerators are the [VK_IMAGE_VIEW_TYPE_*]
    values. *)
Inductive TextureType := e1D | e2D | e3D | eCube | e1DArray | e2DArray | eCubeArray.

Definition TextureType_eqb (x y : TextureType) : bool :=
  match x, y with
  | e1D, e1D | e2D, e2D | e3D, e3D | eCube, eCube
  | e1DArray, e1DArray | e2DArray, e2DArray | eCubeArray, eCubeArray => true
  | _, _ => false
  end.

(** [static_cast<texture::TextureType>(vk::ImageType)]:
    [VK_IMAGE_TYPE_1D/2D/3D] and [VK_IMAGE_VIEW_TYPE_1D/2D/3D] are both
    [0], [1], [2]. *)
Definition TextureType_of_ImageType (t : vk.ImageType.t) : TextureType :=
  match t with
  | vk.ImageType.e1D => e1D
  | vk.ImageType.e2D => e2D
  | vk.ImageType.e3D => e3D
  end.

End texture.

(** ** Outcomes of operations that may throw *)

(** [Ok] is a normal return, [Throw] an exception that reaches the caller,
    and [Undefined] a call whose behaviour C++ leaves undefined ([front()]
    of an empty vector, a division by zero). *)
Inductive Result (A : Type) : Type :=
| Ok (value : A)
| Throw (what : string)
| Undefined.

Arguments Ok {A} value.
Arguments Throw {A} what.
Arguments Undefined {A}.

(** Sequencing: an exception raised by the first computation propagates.
    The instances give [Result] the notation [x ← m; k]. *)
#[export] Instance Result_ret : MRet Result := fun A x => Ok x.

#[export] Instance Result_bind : MBind Result := fun A B k m =>
  match m with
  | Ok x => k x
  | Throw e => Throw e
  | Undefined => Undefined
  end.

Definition throws {A : Type} (m : Result A) : Prop := exists what, m = Throw what.
Definition returns {A : Type} (m : Result A) (x : A) : Prop := m = Ok x.

(** ** Guest memory spans *)

(** [span<u8>]: a pointer and a length. *)
Record span := {
  span_data : Z;
  span_size : Z;
}.

Definition span_eqb (x y : span) : bool :=
  (span_data x =? span_data y) && (span_size x =? span_size y).

Fixpoint Mappings_eqb (xs ys : list span) : bool :=
  match xs, ys with
  | [], [] => true
  | x :: xs', y :: ys' => span_eqb x y && Mappings_eqb xs' ys'
  | _, _ => false
  end.

(** ** [GuestTexture]: the descriptor of a texture in guest memory *)

Module GuestTexture.

Record t := {
  mappings : list span;
  dimensions : texture.Dimensions;
  format : texture.Format;
  tileConfig : texture.TileConfig;
  type : texture.TextureType;
  baseArrayLayer : Z;  (* u16 *)
  layerCount : Z;      (* u16 *)
  layerStride : Z;     (* u32 *)
  swizzle : vk.ComponentMapping;
  aspect : Z;          (* vk::ImageAspectFlags *)
}.

(** Modelled from the spec: the header declares no comparison for
    [GuestTexture] and the texture manager that compares descriptors is
    not embedded here.  Two descriptors are cache-equal when their
    mappings, dimensions, format, tile configuration, type, base layer,
    layer count and layer stride compare equal; each field is compared
    with the [operator==] its type has in the header. *)
Definition cache_equal (x y : t) : bool :=
  Mappings_eqb (mappings x) (mappings y)
  && texture.Dimensions_eqb (dimensions x) (dimensions y)
  && texture.Format_eqb (format x) (format y)
  && texture.TileConfig_eqb (tileConfig x) (tileConfig y)
  && texture.TextureType_eqb (type x) (type y)
  && (baseArrayLayer x =? baseArrayLayer y)
  && (layerCount x =? layerCount y)
  && (layerStride x =? layerStride y).

End GuestTexture.

(** ** [TextureView] *)

(** A host [vk::ImageView] object: what it was created from. *)
Record ImageView := {
  iv_image : Z;  (* the vk::Image it targets *)
  iv_viewType : vk.ImageViewType.t;
  iv_format : vk.Format;
  iv_components : vk.ComponentMapping;
  iv_subresourceRange : vk.ImageSubresourceRange;
}.

Module TextureView.

Record t := {
  view : option ImageView;  (* std::optional<vk::raii::ImageView> *)
  texture : Z;              (* std::shared_ptr<Texture>, as an address *)
  type : vk.ImageViewType.t;
  format : texture.Format;
  mapping : vk.ComponentMapping;
  range : vk.ImageSubresourceRange;
}.

(** [TextureView::operator==] *)
Definition eqb (lhs rhs : t) : bool :=
  (texture lhs =? texture rhs)
  && vk.ImageViewType.eqb (type lhs) (type rhs)
  && texture.Format_eqb (format lhs) (format rhs)
  && vk.ComponentMapping_eqb (mapping lhs) (mapping rhs)
  && vk.ImageSubresourceRange_eqb (range lhs) (range rhs).

End TextureView.

(** ** [Texture] *)

Inductive DirtyState := Clean | CpuDirty | GpuDirty.

(** [std::variant<vk::Image, vk::raii::Image, memory::Image>]; every
    alternative carries a nullable image handle. *)
Inductive BackingType :=
| Backing_Image (image : Z)
| Backing_RaiiImage (image : Z)
| Backing_MemoryImage (vkImage : Z) (allocation : Z).

(** What the traps installed over the guest mappings intercept. *)
Inductive TrapProtection := TrapNone | TrapWrite | TrapReadWrite.

Module Texture.

Record t := {
  mutex : bool;  (* true while some thread holds the lock *)
  backing : BackingType;
  mirror : span;
  alignedMirror : span;
  trapHandle : option Z;
  trapProtection : TrapProtection;
  dirtyState : DirtyState;
  views : list Z;  (* std::vector<std::weak_ptr<TextureView>> *)
  cycle : option Z;
  guest : option GuestTexture.t;
  dimensions : texture.Dimensions;
  format : texture.Format;
  layout : vk.ImageLayout;
  tiling : vk.ImageTiling;
  mipLevels : Z;
  layerCount : Z;
  sampleCount : vk.SampleCountFlagBits;
}.

(** The default member initialiser of [dirtyState]. *)
Definition dirtyState_default : DirtyState := CpuDirty.

(** [Texture::GetBacking] *)
Definition GetBacking (x : t) : Z :=
  match backing x with
  | Backing_Image image => image
  | Backing_RaiiImage image => image
  | Backing_MemoryImage vkImage _ => vkImage
  end.

(** Field updates. *)
Definition set_mutex (m : bool) (x : t) : t :=
  {| mutex := m; backing := backing x;
     mirror := mirror x; alignedMirror := alignedMirror x;
     trapHandle := trapHandle x;
     trapProtection := trapProtection x; dirtyState := dirtyState x;
     views := views x; cycle := cycle x; guest := guest x;
     dimensions := dimensions x; format := format x; layout := layout x;
     tiling := tiling x; mipLevels := mipLevels x; layerCount := layerCount x;
     sampleCount := sampleCount x |}.

Definition set_sync (d : DirtyState) (p : TrapProtection) (x : t) : t :=
  {| mutex := mutex x; backing := backing x;
     mirror := mirror x; alignedMirror := alignedMirror x;
     trapHandle := trapHandle x;
     trapProtection := p; dirtyState := d;
     views := views x; cycle := cycle x; guest := guest x;
     dimensions := dimensions x; format := format x; layout := layout x;
     tiling := tiling x; mipLevels := mipLevels x; layerCount := layerCount x;
     sampleCount := sampleCount x |}.

Definition set_backing (b : BackingType) (l : vk.ImageLayout) (x : t) : t :=
  {| mutex := mutex x; backing := b;
     mirror := mirror x; alignedMirror := alignedMirror x;
     trapHandle := trapHandle x;
     trapProtection := trapProtection x; dirtyState := dirtyState x;
     views := views x; cycle := cycle x; guest := guest x;
     dimensions := dimensions x; format := format x; layout := l;
     tiling := tiling x; mipLevels := mipLevels x; layerCount := layerCount x;
     sampleCount := sampleCount x |}.

Definition set_views (vs : list Z) (x : t) : t :=
  {| mutex := mutex x; backing := backing x;
     mirror := mirror x; alignedMirror := alignedMirror x;
     trapHandle := trapHandle x;
     trapProtection := trapProtection x; dirtyState := dirtyState x;
     views := vs; cycle := cycle x; guest := guest x;
     dimensions := dimensions x; format := format x; layout := layout x;
     tiling := tiling x; mipLevels := mipLevels x; layerCount := layerCount x;
     sampleCount := sampleCount x |}.

(** [lock], [unlock] and [try_lock] forward to the mutex; [try_lock]
    reports whether the lock was taken. *)
Definition try_lock (x : t) : bool * t :=
  if mutex x then (false, x) else (true, set_mutex true x).

Definition unlock (x : t) : t := set_mutex false x.

(** What the host environment supplies when a texture is constructed from
    a descriptor: the image allocated for it, the mirror set up over the
    guest mappings, and the handle of the traps installed over them. *)
Record Host := {
  AllocateImage : GuestTexture.t -> BackingType;
  CreateMirror : list span -> span * span;
  TrapRegions : list span -> Z;
  ImageTilingFor : GuestTexture.t -> vk.ImageTiling;
}.

(** Modelled from the spec: the body of [Texture(GPU &, GuestTexture)] is
    in [texture.cpp], which is not embedded here.  A Resource is
    constructed from its descriptor with the device mirror and its trap
    installed; every member the constructor is not handed keeps the default
    member initialiser of the header, [dirtyState] among them. *)
Definition of_guest (host : Host) (g : GuestTexture.t) : t :=
  {| mutex := false;
     backing := AllocateImage host g;
     mirror := fst (CreateMirror host (GuestTexture.mappings g));
     alignedMirror := snd (CreateMirror host (GuestTexture.mappings g));
     trapHandle := Some (TrapRegions host (GuestTexture.mappings g));
     trapProtection := TrapNone;
     dirtyState := dirtyState_default;
     views := [];
     cycle := None;
     guest := Some g;
     dimensions := GuestTexture.dimensions g;
     format := GuestTexture.format g;
     layout := vk.ImageLayout_eUndefined;
     tiling := ImageTilingFor host g;
     mipLevels := 1;
     layerCount := GuestTexture.layerCount g;
     sampleCount := 1 |}.

(** The bodies of the methods below are in [texture.cpp], which is not
    embedded here; the header gives their names, parameters and notes, the
    spec their contract (as [EnsureHostCurrent], [EnsureDeviceCurrent],
    [MarkDeviceDirty] and [SwapBacking]). *)

(** Modelled from the spec: the body of [SynchronizeHost(rwTrap)].  In
    [CpuDirty] the mirror is copied into the backing; without [rwTrap] the
    mirror is then trapped for writes and the state becomes [Clean].  With
    [rwTrap] the mirror is trapped for reads and writes, which the header's
    note on the parameter gives as the more efficient form of calling
    [MarkGpuDirty] directly after: the call ends where that pair of calls
    ends, in [GpuDirty].  (The spec's sentence on the operation has the
    state become [Clean] whatever the flag; the header is followed.)
    Nothing happens in the other states.  The bytes copied are not
    represented, the state and the trap are. *)
Definition SynchronizeHost (rwTrap : bool) (x : t) : t :=
  match dirtyState x with
  | CpuDirty =>
      if rwTrap
      then set_sync GpuDirty TrapReadWrite x
      else set_sync Clean TrapWrite x
  | Clean | GpuDirty => x
  end.

(** Modelled from the spec: the body of [SynchronizeGuest(skipTrap)].  In
    [GpuDirty] the backing is copied into the mirror; the write trap is
    re-installed and the state becomes [Clean], or with [skipTrap] no trap
    is set up and the state becomes [CpuDirty]. *)
Definition SynchronizeGuest (skipTrap : bool) (x : t) : t :=
  match dirtyState x with
  | GpuDirty =>
      if skipTrap
      then set_sync CpuDirty TrapNone x
      else set_sync Clean TrapWrite x
  | Clean | CpuDirty => x
  end.

(** Modelled from the spec: the body of [MarkGpuDirty].  [Clean] becomes
    [GpuDirty]; in [GpuDirty] it does nothing; in [CpuDirty] the call is a
    caller error and is rejected. *)
Definition MarkGpuDirty (x : t) : Result t :=
  match dirtyState x with
  | Clean => Ok (set_sync GpuDirty (trapProtection x) x)
  | GpuDirty => Ok x
  | CpuDirty => Throw "MarkGpuDirty called on a texture that is dirty on the CPU"
  end.

(** Modelled from the spec: the callback installed with the traps, which
    runs when a trapped access to the mirror faults.  The state becomes
    [CpuDirty]. *)
Definition TrapCallback (x : t) : t :=
  set_sync CpuDirty TrapNone x.

(** Modelled from the spec: the body of [SwapBacking(backing, layout)].
    The backing and its layout are replaced; the contents of the old
    backing are not carried over. *)
Definition SwapBacking (b : BackingType) (l : vk.ImageLayout) (x : t) : t :=
  set_backing b l x.

End Texture.

(** ** The dirty-state machine as a sequence of calls *)

Inductive Call :=
| CallLock
| CallUnlock
| CallSynchronizeHost (rwTrap : bool)
| CallSynchronizeGuest (skipTrap : bool)
| CallMarkGpuDirty
| CallTrap.

(** The preconditions the header and the spec state: the state-machine
    methods are called with the texture locked, and [MarkGpuDirty] only
    after the texture has been synchronised to the host.  [lock] needs the mutex to be free; the trap
    callback takes the lock itself and so only runs while nobody holds it. *)
Definition precondition (c : Call) (x : Texture.t) : bool :=
  match c with
  | CallLock => negb (Texture.mutex x)
  | CallUnlock => Texture.mutex x
  | CallSynchronizeHost _ => Texture.mutex x
  | CallSynchronizeGuest _ => Texture.mutex x
  | CallMarkGpuDirty =>
      Texture.mutex x
      && match Texture.dirtyState x with CpuDirty => false | _ => true end
  | CallTrap => negb (Texture.mutex x)
  end.

Definition perform (c : Call) (x : Texture.t) : Result Texture.t :=
  match c with
  | CallLock => Ok (Texture.set_mutex true x)
  | CallUnlock => Ok (Texture.unlock x)
  | CallSynchronizeHost rwTrap => Ok (Texture.SynchronizeHost rwTrap x)
  | CallSynchronizeGuest skipTrap => Ok (Texture.SynchronizeGuest skipTrap x)
  | CallMarkGpuDirty => Texture.MarkGpuDirty x
  | CallTrap => Ok (Texture.TrapCallback x)
  end.

(** [run calls x] is the list of states the texture goes through, [x]
    first, when the calls are made in order; it is [None] when a call is
    made outside its precondition or is rejected. *)
Fixpoint run (calls : list Call) (x : Texture.t) : option (list Texture.t) :=
  match calls with
  | [] => Some [x]
  | c :: rest =>
      if precondition c x then
        match perform c x with
        | Ok x' =>
            match run rest x' with
            | Some trace => Some (x :: trace)
            | None => None
            end
        | Throw _ | Undefined => None
        end
      else None
  end.

(** The pairs of consecutive elements of a list. *)
Fixpoint adjacent {A : Type} (l : list A) : list (A * A) :=
  match l with
  | x :: ((y :: _) as tl) => (x, y) :: adjacent tl
  | _ => []
  end.

(** ** The store of shared objects *)

(** Textures and views are held through shared pointers: a view names its
    texture by address and reads it from the store at each use. *)
Record Store := {
  textures : gmap Z Texture.t;
  textureViews : gmap Z TextureView.t;
  managed : list Z;  (* the textures the texture manager holds, oldest first *)
  nextAddress : Z;
}.

Definition set_textures (ts : gmap Z Texture.t) (s : Store) : Store :=
  {| textures := ts; textureViews := textureViews s; managed := managed s;
     nextAddress := nextAddress s |}.

Definition set_textureViews (vs : gmap Z TextureView.t) (s : Store) : Store :=
  {| textures := textures s; textureViews := vs; managed := managed s;
     nextAddress := nextAddress s |}.

(** [texture->SwapBacking(backing, layout)] through a shared pointer. *)
Definition SwapBacking_at (p : Z) (b : BackingType) (l : vk.ImageLayout) (s : Store) : option Store :=
  match textures s !! p with
  | Some x => Some (set_textures (<[p := Texture.SwapBacking b l x]> (textures s)) s)
  | None => None
  end.

(** The host view object a [TextureView] describes over a given image.  A
    view declared without a format takes the format of its texture. *)
Definition make_ImageView (v : TextureView.t) (x : Texture.t) : ImageView :=
  {| iv_image := Texture.GetBacking x;
     iv_viewType := TextureView.type v;
     iv_format :=
       match TextureView.format v, Texture.format x with
       | Some f, _ => texture.vkFormat f
       | None, Some f => texture.vkFormat f
       | None, None => vk.Format_eUndefined
       end;
     iv_components := TextureView.mapping v;
     iv_subresourceRange := TextureView.range v |}.

Definition set_view (iv : option ImageView) (v : TextureView.t) : TextureView.t :=
  {| TextureView.view := iv; TextureView.texture := TextureView.texture v;
     TextureView.type := TextureView.type v; TextureView.format := TextureView.format v;
     TextureView.mapping := TextureView.mapping v; TextureView.range := TextureView.range v |}.

(** Modelled from the spec: the body of [TextureView::GetView] (the spec's
    [Resolve]) is in [texture.cpp], which is not embedded here.  It
    returns, creating it on first use, the host view object matching the
    declared range, shape and remap against the current backing of the
    texture; when the backing has changed since the last call a new view
    object is constructed.  The result is [None] when the view or its
    texture is not in the store. *)
Definition GetView (p : Z) (s : Store) : option (ImageView * Store) :=
  match textureViews s !! p with
  | None => None
  | Some v =>
      match textures s !! TextureView.texture v with
      | None => None
      | Some x =>
          match TextureView.view v with
          | Some iv =>
              if iv_image iv =? Texture.GetBacking x then Some (iv, s)
              else
                let iv' := make_ImageView v x in
                Some (iv', set_textureViews (<[p := set_view (Some iv') v]> (textureViews s)) s)
          | None =>
              let iv' := make_ImageView v x in
              Some (iv', set_textureViews (<[p := set_view (Some iv') v]> (textureViews s)) s)
          end
      end
  end.

(** ** The texture manager *)

(** [static_cast<vk::ImageViewType>(texture::TextureType)] *)
Definition ImageViewType_of_TextureType (t : texture.TextureType) : vk.ImageViewType.t :=
  match t with
  | texture.e1D => vk.ImageViewType.e1D
  | texture.e2D => vk.ImageViewType.e2D
  | texture.e3D => vk.ImageViewType.e3D
  | texture.eCube => vk.ImageViewType.eCube
  | texture.e1DArray => vk.ImageViewType.e1DArray
  | texture.e2DArray => vk.ImageViewType.e2DArray
  | texture.eCubeArray => vk.ImageViewType.eCubeArray
  end.

(** The first managed texture whose stored descriptor is cache-equal to [g]. *)
Fixpoint lookup_descriptor (ts : gmap Z Texture.t) (entries : list Z) (g : GuestTexture.t) : option Z :=
  match entries with
  | [] => None
  | p :: rest =>
      match ts !! p with
      | Some x =>
          match Texture.guest x with
          | Some stored =>
              if GuestTexture.cache_equal stored g then Some p
              else lookup_descriptor ts rest g
          | None => lookup_descriptor ts rest g
          end
      | None => lookup_descriptor ts rest g
      end
  end.

(** The view of the full extent a descriptor describes. *)
Definition full_view (p : Z) (g : GuestTexture.t) : TextureView.t :=
  {| TextureView.view := None;
     TextureView.texture := p;
     TextureView.type := ImageViewType_of_TextureType (GuestTexture.type g);
     TextureView.format := GuestTexture.format g;
     TextureView.mapping := GuestTexture.swizzle g;
     TextureView.range :=
       {| vk.aspectMask := GuestTexture.aspect g;
          vk.baseMipLevel := 0;
          vk.levelCount := 1;
          vk.baseArrayLayer := 0;
          vk.layerCount := GuestTexture.layerCount g |} |}.

(** Modelled from the spec: [TextureManager::FindOrCreate] is defined with
    the texture manager, which is not embedded here.  It looks up an entry
    whose stored descriptor is structurally equal to the one given; on a
    hit it returns a view of the full extent of that texture, on a miss it
    constructs a new texture from the descriptor, inserts it and returns a
    view of it.  The result is the address of the view, whether the lookup
    hit, and the new store. *)
Definition FindOrCreate (host : Texture.Host) (g : GuestTexture.t) (s : Store) : Z * bool * Store :=
  match lookup_descriptor (textures s) (managed s) g with
  | Some p =>
      let vp := nextAddress s in
      (vp, true,
       {| textures := textures s;
          textureViews := <[vp := full_view p g]> (textureViews s);
          managed := managed s;
          nextAddress := nextAddress s + 1 |})
  | None =>
      let p := nextAddress s in
      let vp := nextAddress s + 1 in
      (vp, false,
       {| textures := <[p := Texture.of_guest host g]> (textures s);
          textureViews := <[vp := full_view p g]> (textureViews s);
          managed := managed s ++ [p];
          nextAddress := nextAddress s + 2 |})
  end.

(** ** Host formats and guest register values *)

(** The names of the format constants of namespace [format]; the constants
    themselves are defined in [gpu/texture/format.h], which is not embedded
    here. *)
Module format.
Inductive id :=
| R8Snorm | R8Unorm | R8Sint | R8Uint | R16Snorm | R16Unorm | R16Sint | R16Uint
| R16Float | R8G8Snorm | R8G8Unorm | R8G8Sint | R8G8Uint | B5G6R5Unorm
| B5G5R5A1Unorm | R32Sint | R32Uint | R32Float | B10G11R11Float | R16G16Snorm
| R16G16Unorm | R16G16Sint | R16G16Uint | R16G16Float | R8G8B8A8Unorm
| R8G8B8A8Srgb | R8G8B8A8Snorm | R8G8B8A8Sint | R8G8B8A8Uint | B8G8R8A8Unorm
| B8G8R8A8Srgb | A2B10G10R10Unorm | A2B10G10R10Uint | R32G32Sint | R32G32Uint
| R32G32Float | R16G16B16A16Float | R16G16B16A16Snorm | R16G16B16A16Unorm
| R16G16B16A16Sint | R16G16B16A16Uint | R32G32B32A32Float | R32G32B32A32Sint
| R32G32B32A32Uint | D16Unorm | D32Float | S8UintD24Unorm | D24UnormS8Uint
| D32FloatS8Uint | R4G4B4A4Unorm | A1B5G5R5Unorm | A8B8G8R8Unorm | A8B8G8R8Snorm
| A8B8G8R8Uint | A8B8G8R8Sint | A8B8G8R8Srgb | A2B10G10R10Snorm | A2B10G10R10Sint
| E5B9G9R9Float | BC1Unorm | BC1Srgb | BC4Unorm | BC4Snorm | Astc4x4Unorm
| Astc4x4Srgb | Astc6x6Unorm | Astc6x6Srgb | Astc8x8Unorm | Astc8x8Srgb | BC2Unorm
| BC2Srgb | BC3Unorm | BC3Srgb | BC5Unorm | BC5Snorm | Bc6HUfloat | Bc6HSfloat
| BC7Unorm | BC7Srgb.
End format.

Module maxwell3d.

(** [maxwell3d::ColorRenderTarget::Format].  The enumerators are those the
    translation names; [Unlisted raw] is any other value of the register. *)
Module ColorRenderTarget.
Module Format.
Inductive t :=
| None
| R8Snorm | R8Unorm | R8Sint | R8Uint | R16Snorm | R16Unorm | R16Sint | R16Uint
| R16Float | R8G8Snorm | R8G8Unorm | R8G8Sint | R8G8Uint | B5G6R5Unorm
| B5G5R5A1Unorm | R32Sint | R32Uint | R32Float | B10G11R11Float | R16G16Snorm
| R16G16Unorm | R16G16Sint | R16G16Uint | R16G16Float | R8G8B8A8Unorm
| R8G8B8A8Srgb | R8G8B8X8Snorm | R8G8B8X8Unorm | R8G8B8X8Sint | R8G8B8X8Uint
| R8G8B8X8Srgb | B8G8R8A8Unorm | B8G8R8A8Srgb | A2B10G10R10Unorm
| A2B10G10R10Uint | R32G32Sint | R32G32Uint | R32G32Float | R16G16B16A16Float
| R16G16B16X16Snorm | R16G16B16X16Unorm | R16G16B16X16Sint | R16G16B16X16Uint
| R16G16B16X16Float | R32G32B32A32Float | R32G32B32X32Sint | R32G32B32X32Uint
| R32G32B32X32Float
| Unlisted (raw : Z).
End Format.
End ColorRenderTarget.

(** [maxwell3d::DepthRtFormat], likewise. *)
Module DepthRtFormat.
Inductive t :=
| D16Unorm | D32Float | S8D24Unorm | D24S8Unorm | D32S8X24Float
| Unlisted (raw : Z).
End DepthRtFormat.

End maxwell3d.

(** ** [GraphicsContext]: render targets *)

Module GuestTextureUpdate.

Definition set_format (f : texture.Format) (g : GuestTexture.t) : GuestTexture.t :=
  {| GuestTexture.mappings := GuestTexture.mappings g;
     GuestTexture.dimensions := GuestTexture.dimensions g;
     GuestTexture.format := f;
     GuestTexture.tileConfig := GuestTexture.tileConfig g;
     GuestTexture.type := GuestTexture.type g;
     GuestTexture.baseArrayLayer := GuestTexture.baseArrayLayer g;
     GuestTexture.layerCount := GuestTexture.layerCount g;
     GuestTexture.layerStride := GuestTexture.layerStride g;
     GuestTexture.swizzle := GuestTexture.swizzle g;
     GuestTexture.aspect := GuestTexture.aspect g |}.

Definition set_aspect (a : Z) (g : GuestTexture.t) : GuestTexture.t :=
  {| GuestTexture.mappings := GuestTexture.mappings g;
     GuestTexture.dimensions := GuestTexture.dimensions g;
     GuestTexture.format := GuestTexture.format g;
     GuestTexture.tileConfig := GuestTexture.tileConfig g;
     GuestTexture.type := GuestTexture.type g;
     GuestTexture.baseArrayLayer := GuestTexture.baseArrayLayer g;
     GuestTexture.layerCount := GuestTexture.layerCount g;
     GuestTexture.layerStride := GuestTexture.layerStride g;
     GuestTexture.swizzle := GuestTexture.swizzle g;
     GuestTexture.aspect := a |}.

Definition set_width (w : Z) (g : GuestTexture.t) : GuestTexture.t :=
  {| GuestTexture.mappings := GuestTexture.mappings g;
     GuestTexture.dimensions :=
       {| texture.width := w;
          texture.height := texture.height (GuestTexture.dimensions g);
          texture.depth := texture.depth (GuestTexture.dimensions g) |};
     GuestTexture.format := GuestTexture.format g;
     GuestTexture.tileConfig := GuestTexture.tileConfig g;
     GuestTexture.type := GuestTexture.type g;
     GuestTexture.baseArrayLayer := GuestTexture.baseArrayLayer g;
     GuestTexture.layerCount := GuestTexture.layerCount g;
     GuestTexture.layerStride := GuestTexture.layerStride g;
     GuestTexture.swizzle := GuestTexture.swizzle g;
     GuestTexture.aspect := GuestTexture.aspect g |}.

Definition set_mappings (ms : list span) (g : GuestTexture.t) : GuestTexture.t :=
  {| GuestTexture.mappings := ms;
     GuestTexture.dimensions := GuestTexture.dimensions g;
     GuestTexture.format := GuestTexture.format g;
     GuestTexture.tileConfig := GuestTexture.tileConfig g;
     GuestTexture.type := GuestTexture.type g;
     GuestTexture.baseArrayLayer := GuestTexture.baseArrayLayer g;
     GuestTexture.layerCount := GuestTexture.layerCount g;
     GuestTexture.layerStride := GuestTexture.layerStride g;
     GuestTexture.swizzle := GuestTexture.swizzle g;
     GuestTexture.aspect := GuestTexture.aspect g |}.

Definition set_type (ty : texture.TextureType) (g : GuestTexture.t) : GuestTexture.t :=
  {| GuestTexture.mappings := GuestTexture.mappings g;
     GuestTexture.dimensions := GuestTexture.dimensions g;
     GuestTexture.format := GuestTexture.format g;
     GuestTexture.tileConfig := GuestTexture.tileConfig g;
     GuestTexture.type := ty;
     GuestTexture.baseArrayLayer := GuestTexture.baseArrayLayer g;
     GuestTexture.layerCount := GuestTexture.layerCount g;
     GuestTexture.layerStride := GuestTexture.layerStride g;
     GuestTexture.swizzle := GuestTexture.swizzle g;
     GuestTexture.aspect := GuestTexture.aspect g |}.

End GuestTextureUpdate.

(** [GraphicsContext::RenderTarget] *)
Record RenderTarget := {
  disabled : bool;
  iova : Z;        (* the 64-bit IOVA assembled from the low and high registers *)
  widthBytes : Z;  (* u32 *)
  guest : GuestTexture.t;
  view : option Z; (* std::shared_ptr<TextureView>, empty when reset *)
}.

(** [GraphicsContext::VertexBuffer]; the binding descriptions play no part
    in the lookup of the buffer and are left out. *)
Record VertexBuffer := {
  start : Z;  (* IOVA *)
  end_ : Z;   (* IOVA *)
  vertexBufferView : option Z;  (* BufferView, nullable *)
}.

(** [GraphicsContext::ConstantBuffer] *)
Record ConstantBuffer := {
  cb_iova : Z;
  cb_size : Z;
  cb_view : option Z;
}.

(** [Shader::StorageBufferDescriptor], as far as it is read here. *)
Record StorageBufferDescriptor := {
  cbuf_index : nat;
  cbuf_offset : Z;
}.

(** The state of a [GraphicsContext] that the operations below read or
    write, together with what they hand to their collaborators: the
    messages given to [Logger::Warn] (format string and argument), the spans
    given to the buffer manager and the descriptors given to the texture
    manager, each latest first. *)
Record GraphicsContext := {
  colorRenderTargets : list RenderTarget;
  depthRenderTarget : RenderTarget;
  vertexBuffers : list VertexBuffer;
  warnings : list (string * Z);
  bufferRequests : list span;
  textureRequests : list GuestTexture.t;
}.

Module CRT := maxwell3d.ColorRenderTarget.Format.
Module DRT := maxwell3d.DepthRtFormat.

Definition u64_modulus : Z := 2 ^ 64.

(** [std::array::at]: an index out of range throws [std::out_of_range]. *)
Definition at_ {A : Type} (l : list A) (index : nat) : Result A :=
  match l !! index with
  | Some x => Ok x
  | None => Throw "array::at"
  end.

(** [vector::front()], undefined on an empty vector. *)
Definition front {A : Type} (l : list A) : Result A :=
  match l with
  | x :: _ => Ok x
  | [] => Undefined
  end.

Section Interconnect.

(** The collaborators of [GraphicsContext] that are defined elsewhere in
    the repository: the table of format constants, the address translation
    of the GMMU, [GuestTexture::GetLayerSize], and the buffer and texture
    managers, which return the address of the view they find or create. *)
Variable fmt : format.id -> texture.FormatBase.
Variable TranslateRange : Z -> Z -> list span.
Variable GetLayerSize : GuestTexture.t -> Z.
Variable buffer_FindOrCreate : span -> Z.
Variable texture_FindOrCreate : GuestTexture.t -> Z.
(** [ConstantBuffer::Read<SsboDescriptor>(offset)]: the IOVA and the size
    stored in the constant buffer at that offset. *)
Variable ConstantBuffer_Read : ConstantBuffer -> Z -> Z * Z.

(** The lambda of [SetColorRenderTargetFormat] that translates the guest
    format, with the case macros expanded. *)
Definition TranslateColorRenderTargetFormat (format : CRT.t) : Result texture.Format :=
  match format with
  | CRT.None => Ok None
  | CRT.R8Snorm => Ok (Some (fmt format.R8Snorm))
  | CRT.R8Unorm => Ok (Some (fmt format.R8Unorm))
  | CRT.R8Sint => Ok (Some (fmt format.R8Sint))
  | CRT.R8Uint => Ok (Some (fmt format.R8Uint))
  | CRT.R16Snorm => Ok (Some (fmt format.R16Snorm))
  | CRT.R16Unorm => Ok (Some (fmt format.R16Unorm))
  | CRT.R16Sint => Ok (Some (fmt format.R16Sint))
  | CRT.R16Uint => Ok (Some (fmt format.R16Uint))
  | CRT.R16Float => Ok (Some (fmt format.R16Float))
  | CRT.R8G8Snorm => Ok (Some (fmt format.R8G8Snorm))
  | CRT.R8G8Unorm => Ok (Some (fmt format.R8G8Unorm))
  | CRT.R8G8Sint => Ok (Some (fmt format.R8G8Sint))
  | CRT.R8G8Uint => Ok (Some (fmt format.R8G8Uint))
  | CRT.B5G6R5Unorm => Ok (Some (fmt format.B5G6R5Unorm))
  | CRT.B5G5R5A1Unorm => Ok (Some (fmt format.B5G5R5A1Unorm))
  | CRT.R32Sint => Ok (Some (fmt format.R32Sint))
  | CRT.R32Uint => Ok (Some (fmt format.R32Uint))
  | CRT.R32Float => Ok (Some (fmt format.R32Float))
  | CRT.B10G11R11Float => Ok (Some (fmt format.B10G11R11Float))
  | CRT.R16G16Snorm => Ok (Some (fmt format.R16G16Snorm))
  | CRT.R16G16Unorm => Ok (Some (fmt format.R16G16Unorm))
  | CRT.R16G16Sint => Ok (Some (fmt format.R16G16Sint))
  | CRT.R16G16Uint => Ok (Some (fmt format.R16G16Uint))
  | CRT.R16G16Float => Ok (Some (fmt format.R16G16Float))
  | CRT.R8G8B8A8Unorm => Ok (Some (fmt format.R8G8B8A8Unorm))
  | CRT.R8G8B8A8Srgb => Ok (Some (fmt format.R8G8B8A8Srgb))
  | CRT.R8G8B8X8Snorm => Ok (Some (fmt format.R8G8B8A8Snorm))
  | CRT.R8G8B8X8Unorm => Ok (Some (fmt format.R8G8B8A8Unorm))
  | CRT.R8G8B8X8Sint => Ok (Some (fmt format.R8G8B8A8Sint))
  | CRT.R8G8B8X8Uint => Ok (Some (fmt format.R8G8B8A8Uint))
  | CRT.R8G8B8X8Srgb => Ok (Some (fmt format.R8G8B8A8Srgb))
  | CRT.B8G8R8A8Unorm => Ok (Some (fmt format.B8G8R8A8Unorm))
  | CRT.B8G8R8A8Srgb => Ok (Some (fmt format.B8G8R8A8Srgb))
  | CRT.A2B10G10R10Unorm => Ok (Some (fmt format.A2B10G10R10Unorm))
  | CRT.A2B10G10R10Uint => Ok (Some (fmt format.A2B10G10R10Uint))
  | CRT.R32G32Sint => Ok (Some (fmt format.R32G32Sint))
  | CRT.R32G32Uint => Ok (Some (fmt format.R32G32Uint))
  | CRT.R32G32Float => Ok (Some (fmt format.R32G32Float))
  | CRT.R16G16B16A16Float => Ok (Some (fmt format.R16G16B16A16Float))
  | CRT.R16G16B16X16Snorm => Ok (Some (fmt format.R16G16B16A16Snorm))
  | CRT.R16G16B16X16Unorm => Ok (Some (fmt format.R16G16B16A16Unorm))
  | CRT.R16G16B16X16Sint => Ok (Some (fmt format.R16G16B16A16Sint))
  | CRT.R16G16B16X16Uint => Ok (Some (fmt format.R16G16B16A16Uint))
  | CRT.R16G16B16X16Float => Ok (Some (fmt format.R16G16B16A16Float))
  | CRT.R32G32B32A32Float => Ok (Some (fmt format.R32G32B32A32Float))
  | CRT.R32G32B32X32Sint => Ok (Some (fmt format.R32G32B32A32Sint))
  | CRT.R32G32B32X32Uint => Ok (Some (fmt format.R32G32B32A32Uint))
  | CRT.R32G32B32X32Float => Ok (Some (fmt format.R32G32B32A32Float))
  | CRT.Unlisted _ => Throw "Cannot translate the supplied color RT format: 0x{:X}"
  end.

(** The lambda of [SetDepthRenderTargetFormat]. *)
Definition TranslateDepthRenderTargetFormat (format : DRT.t) : Result texture.Format :=
  match format with
  | DRT.D16Unorm => Ok (Some (fmt format.D16Unorm))
  | DRT.D32Float => Ok (Some (fmt format.D32Float))
  | DRT.S8D24Unorm => Ok (Some (fmt format.S8UintD24Unorm))
  | DRT.D24S8Unorm => Ok (Some (fmt format.D24UnormS8Uint))
  | DRT.D32S8X24Float => Ok (Some (fmt format.D32FloatS8Uint))
  | DRT.Unlisted _ => Throw "Cannot translate the supplied depth RT format: 0x{:X}"
  end.

(** The statements shared by both setters once the format is assigned:
    the aspect follows the format, and a linear render target has its
    width in bytes converted to a width in format units. *)
Definition apply_format (widthBytes : Z) (f : texture.Format) (g : GuestTexture.t)
  : Result GuestTexture.t :=
  let g1 := GuestTextureUpdate.set_format f g in
  let g2 :=
    match f with
    | Some base => GuestTextureUpdate.set_aspect (texture.vkAspect base) g1
    | None => g1
    end in
  match texture.mode (GuestTexture.tileConfig g2), f with
  | texture.Linear, Some base =>
      if texture.bpb base =? 0 then Undefined
      else Ok (GuestTextureUpdate.set_width (widthBytes / texture.bpb base) g2)
  | _, _ => Ok g2
  end.

Definition SetColorRenderTargetFormat (index : nat) (format : CRT.t) (ctx : GraphicsContext)
  : Result GraphicsContext :=
  renderTarget ← at_ (colorRenderTargets ctx) index;
  f ← TranslateColorRenderTargetFormat format;
  g ← apply_format (widthBytes renderTarget) f (guest renderTarget);
  let renderTarget' :=
    {| disabled := negb (texture.Format_bool f);
       iova := iova renderTarget;
       widthBytes := widthBytes renderTarget;
       guest := g;
       view := None |} in
  Ok {| colorRenderTargets := <[index := renderTarget']> (colorRenderTargets ctx);
        depthRenderTarget := depthRenderTarget ctx;
        vertexBuffers := vertexBuffers ctx;
        warnings := warnings ctx;
        bufferRequests := bufferRequests ctx;
        textureRequests := textureRequests ctx |}.

Definition SetDepthRenderTargetFormat (format : DRT.t) (ctx : GraphicsContext)
  : Result GraphicsContext :=
  let renderTarget := depthRenderTarget ctx in
  f ← TranslateDepthRenderTargetFormat format;
  g ← apply_format (widthBytes renderTarget) f (guest renderTarget);
  let renderTarget' :=
    {| disabled := disabled renderTarget;
       iova := iova renderTarget;
       widthBytes := widthBytes renderTarget;
       guest := g;
       view := None |} in
  Ok {| colorRenderTargets := colorRenderTargets ctx;
        depthRenderTarget := renderTarget';
        vertexBuffers := vertexBuffers ctx;
        warnings := warnings ctx;
        bufferRequests := bufferRequests ctx;
        textureRequests := textureRequests ctx |}.

(** [GetRenderTarget(RenderTarget &)]: the result is the view, null for a
    disabled render target, and the render target as it is left. *)
Definition GetRenderTarget (renderTarget : RenderTarget) (requests : list GuestTexture.t)
  : option Z * RenderTarget * list GuestTexture.t :=
  if disabled renderTarget then (None, renderTarget, requests)
  else
    match view renderTarget with
    | Some v => (Some v, renderTarget, requests)
    | None =>
        let g := guest renderTarget in
        let g1 :=
          match GuestTexture.mappings g with
          | [] =>
              let layerStride := GetLayerSize g in
              let size :=
                (layerStride * (GuestTexture.layerCount g - GuestTexture.baseArrayLayer g))
                  mod u64_modulus in
              GuestTextureUpdate.set_mappings (TranslateRange (iova renderTarget) size) g
          | _ :: _ => g
          end in
        let g2 :=
          GuestTextureUpdate.set_type
            (texture.TextureType_of_ImageType (texture.GetType (GuestTexture.dimensions g1))) g1 in
        let v := texture_FindOrCreate g2 in
        (Some v,
         {| disabled := disabled renderTarget;
            iova := iova renderTarget;
            widthBytes := widthBytes renderTarget;
            guest := g2;
            view := Some v |},
         g2 :: requests)
    end.

(** The translation and lookup shared, statement for statement, by
    [GetSsboViewFromDescriptor] and [GetVertexBuffer]: translate the
    range, warn unless exactly one mapping came back, and ask the buffer
    manager for a view of the first mapping. *)
Definition lookup_buffer (address size : Z) (ctx : GraphicsContext)
  : Result (Z * GraphicsContext) :=
  let mappings := TranslateRange address size in
  let warnings' :=
    if negb (Z.of_nat (length mappings) =? 1)
    then ("Multiple buffer mappings ({}) are not supported"%string, Z.of_nat (length mappings))
           :: warnings ctx
    else warnings ctx in
  first ← front mappings;
  Ok (buffer_FindOrCreate first,
      {| colorRenderTargets := colorRenderTargets ctx;
         depthRenderTarget := depthRenderTarget ctx;
         vertexBuffers := vertexBuffers ctx;
         warnings := warnings';
         bufferRequests := first :: bufferRequests ctx;
         textureRequests := textureRequests ctx |}).

(** [GetVertexBuffer(size_t index)] *)
Definition GetVertexBuffer (index : nat) (ctx : GraphicsContext)
  : Result (option Z * GraphicsContext) :=
  vertexBuffer ← at_ (vertexBuffers ctx) index;
  if (start vertexBuffer >? end_ vertexBuffer)
     || (start vertexBuffer =? 0) || (end_ vertexBuffer =? 0)
  then Ok (None, ctx)
  else
    match vertexBufferView vertexBuffer with
    | Some v => Ok (Some v, ctx)
    | None =>
        '(v, ctx1) ← lookup_buffer (start vertexBuffer)
                       (((end_ vertexBuffer + 1) - start vertexBuffer) mod u64_modulus) ctx;
        let vertexBuffer' :=
          {| start := start vertexBuffer; end_ := end_ vertexBuffer;
             vertexBufferView := Some v |} in
        Ok (Some v,
            {| colorRenderTargets := colorRenderTargets ctx1;
               depthRenderTarget := depthRenderTarget ctx1;
               vertexBuffers := <[index := vertexBuffer']> (vertexBuffers ctx1);
               warnings := warnings ctx1;
               bufferRequests := bufferRequests ctx1;
               textureRequests := textureRequests ctx1 |})
    end.

(** [GetSsboViewFromDescriptor]: the [SsboDescriptor] (IOVA and size) is
    read from the constant buffer the shader's descriptor names, at the
    descriptor's offset; [operator[]] of [std::array] is undefined past the
    end. *)
Definition GetSsboViewFromDescriptor (descriptor : StorageBufferDescriptor)
    (constantBuffers : list ConstantBuffer) (ctx : GraphicsContext)
  : Result (Z * GraphicsContext) :=
  match constantBuffers !! cbuf_index descriptor with
  | None => Undefined
  | Some cbuf =>
      let ssbo := ConstantBuffer_Read cbuf (cbuf_offset descriptor) in
      lookup_buffer (fst ssbo) (snd ssbo) ctx
  end.

End Interconnect.

(** ** [GraphicsContext]: the texture pool *)

(** [TextureImageControl] (TIC), the guest's texture descriptor, with its
    bit-fields decoded.  Each enumeration has the enumerators the
    conversion names and one constructor for every other value. *)
Module TIC.

Inductive ImageFormat :=
| Invalid
| R8 | R16 | D16 | R8G8 | B5G6R5 | R4G4B4A4 | A1B5G5R5 | R32 | D32 | R16G16 | R8G24
| S8D24 | B10G11R11 | A8B8G8R8 | A2B10G10R10 | E5B9G9R9 | BC1 | BC4 | R32G32
| D32S8 | R16G16B16A16 | Astc4x4 | Astc6x6 | Astc8x8 | BC2 | BC3 | BC5 | Bc6HUfloat
| Bc6HSfloat | BC7 | R32G32B32A32
| ImageFormat_other (raw : Z).

Inductive ImageComponent :=
| Snorm | Unorm | Sint | Uint | Float
| ImageComponent_other (raw : Z).

Inductive ImageSwizzle :=
| Zero | R | G | B | A | OneInt | OneFloat
| ImageSwizzle_other (raw : Z).

Definition ImageSwizzle_is_R (s : ImageSwizzle) : bool :=
  match s with R => true | _ => false end.

Definition ImageFormat_is_Invalid (f : ImageFormat) : bool :=
  match f with Invalid => true | _ => false end.

Inductive TextureType :=
| e1D | e2D | e3D | eCubemap | e1DArray | e2DArray | e1DBuffer | e2DNoMipmap | eCubeArray
| TextureType_other (raw : Z).

Inductive HeaderType :=
| Pitch | BlockLinear
| HeaderType_other (raw : Z).

Record FormatWord := {
  format : ImageFormat;
  componentR : ImageComponent;
  componentG : ImageComponent;
  componentB : ImageComponent;
  componentA : ImageComponent;
  swizzleX : ImageSwizzle;
  swizzleY : ImageSwizzle;
  swizzleZ : ImageSwizzle;
  swizzleW : ImageSwizzle;
  _pad_ : bool;
}.

Record TileConfig := {
  pitchHigh : Z;
  tileHeightGobsLog2 : Z;
  tileDepthGobsLog2 : Z;
}.

Record t := {
  formatWord : FormatWord;
  isSrgb : bool;
  BaseLayer : Z;
  widthMinusOne : Z;
  heightMinusOne : Z;
  depthMinusOne : Z;
  textureType : TextureType;
  headerType : HeaderType;
  tileConfig : TileConfig;
  Iova : Z;
}.

End TIC.

(** [FormatBase::Aspect(bool first)] *)
Definition Aspect (f : texture.FormatBase) (first : bool) : Z :=
  if negb (Z.land (texture.vkAspect f) vk.ImageAspect_eDepth =? 0)
     && negb (Z.land (texture.vkAspect f) vk.ImageAspect_eStencil =? 0)
  then
    if first
    then (if texture.stencilFirst f then vk.ImageAspect_eStencil else vk.ImageAspect_eDepth)
    else (if texture.stencilFirst f then vk.ImageAspect_eDepth else vk.ImageAspect_eStencil)
  else texture.vkAspect f.

Definition u16_modulus : Z := 2 ^ 16.
Definition u8_modulus : Z := 2 ^ 8.

Section TexturePool.

Variable fmt : format.id -> texture.FormatBase.
Variable TranslateRange : Z -> Z -> list span.
Variable GetLayerSize : GuestTexture.t -> Z.
(** [TextureImageControl::TileConfig::PitchAlignmentBits] *)
Variable PitchAlignmentBits : Z.

(** [ConvertTicFormat]: the switch is over the format, the four component
    types and the sRGB flag stored in the pad bit; the swizzle bits are
    masked out.  The case macros are expanded. *)
Definition ConvertTicFormat (format : TIC.FormatWord) (srgb : bool) : Result texture.Format :=
  match (TIC.format format, TIC.componentR format, TIC.componentG format,
         TIC.componentB format, TIC.componentA format, srgb) with
  | (TIC.R8, TIC.Unorm, TIC.Unorm, TIC.Unorm, TIC.Unorm, false) => Ok (Some (fmt format.R8Unorm))
  | (TIC.R8, TIC.Snorm, TIC.Snorm, TIC.Snorm, TIC.Snorm, false) => Ok (Some (fmt format.R8Snorm))
  | (TIC.R8, TIC.Uint, TIC.Uint, TIC.Uint, TIC.Uint, false) => Ok (Some (fmt format.R8Uint))
  | (TIC.R8, TIC.Sint, TIC.Sint, TIC.Sint, TIC.Sint, false) => Ok (Some (fmt format.R8Sint))
  | (TIC.R16, TIC.Unorm, TIC.Unorm, TIC.Unorm, TIC.Unorm, false) => Ok (Some (fmt format.R16Unorm))
  | (TIC.R16, TIC.Snorm, TIC.Snorm, TIC.Snorm, TIC.Snorm, false) => Ok (Some (fmt format.R16Snorm))
  | (TIC.R16, TIC.Uint, TIC.Uint, TIC.Uint, TIC.Uint, false) => Ok (Some (fmt format.R16Uint))
  | (TIC.R16, TIC.Sint, TIC.Sint, TIC.Sint, TIC.Sint, false) => Ok (Some (fmt format.R16Sint))
  | (TIC.R16, TIC.Float, TIC.Float, TIC.Float, TIC.Float, false) => Ok (Some (fmt format.R16Float))
  | (TIC.D16, TIC.Unorm, TIC.Unorm, TIC.Unorm, TIC.Unorm, false) => Ok (Some (fmt format.D16Unorm))
  | (TIC.R8G8, TIC.Unorm, TIC.Unorm, TIC.Unorm, TIC.Unorm, false) => Ok (Some (fmt format.R8G8Unorm))
  | (TIC.R8G8, TIC.Snorm, TIC.Snorm, TIC.Snorm, TIC.Snorm, false) => Ok (Some (fmt format.R8G8Snorm))
  | (TIC.R8G8, TIC.Uint, TIC.Uint, TIC.Uint, TIC.Uint, false) => Ok (Some (fmt format.R8G8Uint))
  | (TIC.R8G8, TIC.Sint, TIC.Sint, TIC.Sint, TIC.Sint, false) => Ok (Some (fmt format.R8G8Sint))
  | (TIC.B5G6R5, TIC.Unorm, TIC.Unorm, TIC.Unorm, TIC.Unorm, false) => Ok (Some (fmt format.B5G6R5Unorm))
  | (TIC.R4G4B4A4, TIC.Unorm, TIC.Unorm, TIC.Unorm, TIC.Unorm, false) => Ok (Some (fmt format.R4G4B4A4Unorm))
  | (TIC.A1B5G5R5, TIC.Unorm, TIC.Unorm, TIC.Unorm, TIC.Unorm, false) => Ok (Some (fmt format.A1B5G5R5Unorm))
  | (TIC.R32, TIC.Uint, TIC.Uint, TIC.Uint, TIC.Uint, false) => Ok (Some (fmt format.R32Uint))
  | (TIC.R32, TIC.Sint, TIC.Sint, TIC.Sint, TIC.Sint, false) => Ok (Some (fmt format.R32Sint))
  | (TIC.R32, TIC.Float, TIC.Float, TIC.Float, TIC.Float, false) => Ok (Some (fmt format.R32Float))
  | (TIC.D32, TIC.Float, TIC.Float, TIC.Float, TIC.Float, false) => Ok (Some (fmt format.D32Float))
  | (TIC.R16G16, TIC.Unorm, TIC.Unorm, TIC.Unorm, TIC.Unorm, false) => Ok (Some (fmt format.R16G16Unorm))
  | (TIC.R16G16, TIC.Snorm, TIC.Snorm, TIC.Snorm, TIC.Snorm, false) => Ok (Some (fmt format.R16G16Snorm))
  | (TIC.R16G16, TIC.Uint, TIC.Uint, TIC.Uint, TIC.Uint, false) => Ok (Some (fmt format.R16G16Uint))
  | (TIC.R16G16, TIC.Sint, TIC.Sint, TIC.Sint, TIC.Sint, false) => Ok (Some (fmt format.R16G16Sint))
  | (TIC.R16G16, TIC.Float, TIC.Float, TIC.Float, TIC.Float, false) => Ok (Some (fmt format.R16G16Float))
  | (TIC.R8G24, TIC.Uint, TIC.Unorm, TIC.Unorm, TIC.Unorm, false) => Ok (Some (fmt format.D24UnormS8Uint))
  | (TIC.S8D24, TIC.Uint, TIC.Unorm, TIC.Uint, TIC.Uint, false) => Ok (Some (fmt format.D24UnormS8Uint))
  | (TIC.S8D24, TIC.Uint, TIC.Unorm, TIC.Unorm, TIC.Unorm, false) => Ok (Some (fmt format.D24UnormS8Uint))
  | (TIC.B10G11R11, TIC.Float, TIC.Float, TIC.Float, TIC.Float, false) => Ok (Some (fmt format.B10G11R11Float))
  | (TIC.A8B8G8R8, TIC.Unorm, TIC.Unorm, TIC.Unorm, TIC.Unorm, false) => Ok (Some (fmt format.A8B8G8R8Unorm))
  | (TIC.A8B8G8R8, TIC.Snorm, TIC.Snorm, TIC.Snorm, TIC.Snorm, false) => Ok (Some (fmt format.A8B8G8R8Snorm))
  | (TIC.A8B8G8R8, TIC.Uint, TIC.Uint, TIC.Uint, TIC.Uint, false) => Ok (Some (fmt format.A8B8G8R8Uint))
  | (TIC.A8B8G8R8, TIC.Sint, TIC.Sint, TIC.Sint, TIC.Sint, false) => Ok (Some (fmt format.A8B8G8R8Sint))
  | (TIC.A8B8G8R8, TIC.Unorm, TIC.Unorm, TIC.Unorm, TIC.Unorm, true) => Ok (Some (fmt format.A8B8G8R8Srgb))
  | (TIC.A2B10G10R10, TIC.Unorm, TIC.Unorm, TIC.Unorm, TIC.Unorm, false) => Ok (Some (fmt format.A2B10G10R10Unorm))
  | (TIC.A2B10G10R10, TIC.Snorm, TIC.Snorm, TIC.Snorm, TIC.Snorm, false) => Ok (Some (fmt format.A2B10G10R10Snorm))
  | (TIC.A2B10G10R10, TIC.Uint, TIC.Uint, TIC.Uint, TIC.Uint, false) => Ok (Some (fmt format.A2B10G10R10Uint))
  | (TIC.A2B10G10R10, TIC.Sint, TIC.Sint, TIC.Sint, TIC.Sint, false) => Ok (Some (fmt format.A2B10G10R10Sint))
  | (TIC.E5B9G9R9, TIC.Float, TIC.Float, TIC.Float, TIC.Float, false) => Ok (Some (fmt format.E5B9G9R9Float))
  | (TIC.BC1, TIC.Unorm, TIC.Unorm, TIC.Unorm, TIC.Unorm, false) => Ok (Some (fmt format.BC1Unorm))
  | (TIC.BC1, TIC.Unorm, TIC.Unorm, TIC.Unorm, TIC.Unorm, true) => Ok (Some (fmt format.BC1Srgb))
  | (TIC.BC4, TIC.Unorm, TIC.Unorm, TIC.Unorm, TIC.Unorm, false) => Ok (Some (fmt format.BC4Unorm))
  | (TIC.BC4, TIC.Snorm, TIC.Snorm, TIC.Snorm, TIC.Snorm, false) => Ok (Some (fmt format.BC4Snorm))
  | (TIC.R32G32, TIC.Uint, TIC.Uint, TIC.Uint, TIC.Uint, false) => Ok (Some (fmt format.R32G32Uint))
  | (TIC.R32G32, TIC.Sint, TIC.Sint, TIC.Sint, TIC.Sint, false) => Ok (Some (fmt format.R32G32Sint))
  | (TIC.R32G32, TIC.Float, TIC.Float, TIC.Float, TIC.Float, false) => Ok (Some (fmt format.R32G32Float))
  | (TIC.D32S8, TIC.Float, TIC.Uint, TIC.Uint, TIC.Unorm, false) => Ok (Some (fmt format.D32FloatS8Uint))
  | (TIC.D32S8, TIC.Float, TIC.Uint, TIC.Unorm, TIC.Unorm, false) => Ok (Some (fmt format.D32FloatS8Uint))
  | (TIC.R16G16B16A16, TIC.Unorm, TIC.Unorm, TIC.Unorm, TIC.Unorm, false) => Ok (Some (fmt format.R16G16B16A16Unorm))
  | (TIC.R16G16B16A16, TIC.Snorm, TIC.Snorm, TIC.Snorm, TIC.Snorm, false) => Ok (Some (fmt format.R16G16B16A16Snorm))
  | (TIC.R16G16B16A16, TIC.Uint, TIC.Uint, TIC.Uint, TIC.Uint, false) => Ok (Some (fmt format.R16G16B16A16Uint))
  | (TIC.R16G16B16A16, TIC.Sint, TIC.Sint, TIC.Sint, TIC.Sint, false) => Ok (Some (fmt format.R16G16B16A16Sint))
  | (TIC.R16G16B16A16, TIC.Float, TIC.Float, TIC.Float, TIC.Float, false) => Ok (Some (fmt format.R16G16B16A16Float))
  | (TIC.Astc4x4, TIC.Unorm, TIC.Unorm, TIC.Unorm, TIC.Unorm, false) => Ok (Some (fmt format.Astc4x4Unorm))
  | (TIC.Astc4x4, TIC.Unorm, TIC.Unorm, TIC.Unorm, TIC.Unorm, true) => Ok (Some (fmt format.Astc4x4Srgb))
  | (TIC.Astc6x6, TIC.Unorm, TIC.Unorm, TIC.Unorm, TIC.Unorm, false) => Ok (Some (fmt format.Astc6x6Unorm))
  | (TIC.Astc6x6, TIC.Unorm, TIC.Unorm, TIC.Unorm, TIC.Unorm, true) => Ok (Some (fmt format.Astc6x6Srgb))
  | (TIC.Astc8x8, TIC.Unorm, TIC.Unorm, TIC.Unorm, TIC.Unorm, false) => Ok (Some (fmt format.Astc8x8Unorm))
  | (TIC.Astc8x8, TIC.Unorm, TIC.Unorm, TIC.Unorm, TIC.Unorm, true) => Ok (Some (fmt format.Astc8x8Srgb))
  | (TIC.BC2, TIC.Unorm, TIC.Unorm, TIC.Unorm, TIC.Unorm, false) => Ok (Some (fmt format.BC2Unorm))
  | (TIC.BC2, TIC.Unorm, TIC.Unorm, TIC.Unorm, TIC.Unorm, true) => Ok (Some (fmt format.BC2Srgb))
  | (TIC.BC3, TIC.Unorm, TIC.Unorm, TIC.Unorm, TIC.Unorm, false) => Ok (Some (fmt format.BC3Unorm))
  | (TIC.BC3, TIC.Unorm, TIC.Unorm, TIC.Unorm, TIC.Unorm, true) => Ok (Some (fmt format.BC3Srgb))
  | (TIC.BC5, TIC.Unorm, TIC.Unorm, TIC.Unorm, TIC.Unorm, false) => Ok (Some (fmt format.BC5Unorm))
  | (TIC.BC5, TIC.Snorm, TIC.Snorm, TIC.Snorm, TIC.Snorm, false) => Ok (Some (fmt format.BC5Snorm))
  | (TIC.Bc6HUfloat, TIC.Float, TIC.Float, TIC.Float, TIC.Float, false) => Ok (Some (fmt format.Bc6HUfloat))
  | (TIC.Bc6HSfloat, TIC.Float, TIC.Float, TIC.Float, TIC.Float, false) => Ok (Some (fmt format.Bc6HSfloat))
  | (TIC.BC7, TIC.Unorm, TIC.Unorm, TIC.Unorm, TIC.Unorm, false) => Ok (Some (fmt format.BC7Unorm))
  | (TIC.BC7, TIC.Unorm, TIC.Unorm, TIC.Unorm, TIC.Unorm, true) => Ok (Some (fmt format.BC7Srgb))
  | (TIC.R32G32B32A32, TIC.Uint, TIC.Uint, TIC.Uint, TIC.Uint, false) => Ok (Some (fmt format.R32G32B32A32Uint))
  | (TIC.R32G32B32A32, TIC.Sint, TIC.Sint, TIC.Sint, TIC.Sint, false) => Ok (Some (fmt format.R32G32B32A32Sint))
  | (TIC.R32G32B32A32, TIC.Float, TIC.Float, TIC.Float, TIC.Float, false) => Ok (Some (fmt format.R32G32B32A32Float))
  | _ => Throw "Cannot translate TIC format: 0x{:X}"
  end.

(** [ConvertTicSwizzleMapping] *)
Definition convertComponentSwizzle (swizzleMapping : vk.ComponentMapping) (swizzle : TIC.ImageSwizzle)
  : Result vk.ComponentSwizzle.t :=
  match swizzle with
  | TIC.R => Ok (vk.r swizzleMapping)
  | TIC.G => Ok (vk.g swizzleMapping)
  | TIC.B => Ok (vk.b swizzleMapping)
  | TIC.A => Ok (vk.a swizzleMapping)
  | TIC.Zero => Ok vk.ComponentSwizzle.eZero
  | TIC.OneFloat | TIC.OneInt => Ok vk.ComponentSwizzle.eOne
  | TIC.ImageSwizzle_other _ => Throw "Invalid swizzle: {:X}"
  end.

Definition ConvertTicSwizzleMapping (format : TIC.FormatWord) (swizzleMapping : vk.ComponentMapping)
  : Result vk.ComponentMapping :=
  r ← convertComponentSwizzle swizzleMapping (TIC.swizzleX format);
  g ← convertComponentSwizzle swizzleMapping (TIC.swizzleY format);
  b ← convertComponentSwizzle swizzleMapping (TIC.swizzleZ format);
  a ← convertComponentSwizzle swizzleMapping (TIC.swizzleW format);
  Ok {| vk.r := r; vk.g := g; vk.b := b; vk.a := a |}.

(** The [switch] of [GetPoolTextureView] over the TIC texture type: the
    type, the layer count and the depth of the guest texture.  It has no
    default, so another value leaves the three as they were. *)
Definition ConvertTicTextureType (ty : TIC.TextureType) (depth : Z)
    (current : texture.TextureType * Z * Z)
  : Result (texture.TextureType * Z * Z) :=
  let CubeFaceCount := 6 in
  let '(_, _, currentDepth) := current in
  match ty with
  | TIC.e1D => Ok (texture.e1D, 1, currentDepth)
  | TIC.e1DArray => Ok (texture.e1DArray, depth, currentDepth)
  | TIC.e1DBuffer => Throw "1D Buffers are not supported"
  | TIC.e2D | TIC.e2DNoMipmap => Ok (texture.e2D, 1, currentDepth)
  | TIC.e2DArray => Ok (texture.e2DArray, depth, currentDepth)
  | TIC.e3D => Ok (texture.e3D, 1, depth)
  | TIC.eCubemap => Ok (texture.eCube, CubeFaceCount, currentDepth)
  | TIC.eCubeArray => Ok (texture.eCubeArray, (depth * CubeFaceCount) mod u16_modulus, currentDepth)
  | TIC.TextureType_other _ => Ok current
  end.

(** The decoding of the TIC header type in [GetPoolTextureView]: the tile
    configuration of a pitch-linear or block-linear texture, and an
    exception for every other header type. *)
Definition ConvertTicHeaderType (textureControl : TIC.t) : Result texture.TileConfig :=
  match TIC.headerType textureControl with
  | TIC.Pitch =>
      Ok {| texture.mode := texture.Pitch;
            texture.storage :=
              Z.shiftl (TIC.pitchHigh (TIC.tileConfig textureControl)) PitchAlignmentBits
                mod u32_modulus |}
  | TIC.BlockLinear =>
      let blockHeight :=
        Z.shiftl 1 (TIC.tileHeightGobsLog2 (TIC.tileConfig textureControl)) mod u8_modulus in
      let blockDepth :=
        Z.shiftl 1 (TIC.tileDepthGobsLog2 (TIC.tileConfig textureControl)) mod u8_modulus in
      Ok {| texture.mode := texture.Block;
            texture.storage := blockHeight + 256 * blockDepth |}
  | TIC.HeaderType_other _ => Throw "Unsupported TIC Header Type: {}"
  end.

(** What [GetPoolTextureView] does with a TIC entry that is new to the
    pool.  An entry whose format is [Invalid] is given the null view and
    the function returns at once: nothing is converted and the result is
    [None].  Any other entry is converted into the [GuestTexture] that is
    handed to the texture manager. *)
Definition ConvertTextureControl (textureControl : TIC.t) : Result (option GuestTexture.t) :=
  if TIC.ImageFormat_is_Invalid (TIC.format (TIC.formatWord textureControl)) then Ok None
  else
  f ← ConvertTicFormat (TIC.formatWord textureControl) (TIC.isSrgb textureControl);
  match f with
  | None => Undefined
  | Some base =>
      let aspect := Aspect base (TIC.ImageSwizzle_is_R (TIC.swizzleX (TIC.formatWord textureControl))) in
      swizzle ← ConvertTicSwizzleMapping (TIC.formatWord textureControl) (texture.swizzleMapping base);
      let baseArrayLayer := TIC.BaseLayer textureControl mod u16_modulus in
      let depth := (TIC.depthMinusOne textureControl + 1) mod u16_modulus in
      '(type, layerCount, depth') ←
        ConvertTicTextureType (TIC.textureType textureControl) depth (texture.e1D, 0, 1);
      tileConfig ← ConvertTicHeaderType textureControl;
      let g :=
        {| GuestTexture.mappings := [];
           GuestTexture.dimensions :=
             {| texture.width := TIC.widthMinusOne textureControl + 1;
                texture.height := TIC.heightMinusOne textureControl + 1;
                texture.depth := depth' |};
           GuestTexture.format := Some base;
           GuestTexture.tileConfig := tileConfig;
           GuestTexture.type := type;
           GuestTexture.baseArrayLayer := baseArrayLayer;
           GuestTexture.layerCount := layerCount;
           GuestTexture.layerStride := 0;
           GuestTexture.swizzle := swizzle;
           GuestTexture.aspect := aspect |} in
      let size := (GetLayerSize g * (layerCount - baseArrayLayer)) mod u32_modulus in
      Ok (Some (GuestTextureUpdate.set_mappings (TranslateRange (TIC.Iova textureControl) size) g))
  end.

End TexturePool.

(** ** The rest of the header's value operations *)

(** The converting constructors [Dimensions()], [Dimensions(width)] and
    [Dimensions(width, height)]. *)
Definition Dimensions_default : texture.Dimensions :=
  {| texture.width := 0; texture.height := 0; texture.depth := 0 |}.

Definition Dimensions_1 (width : Z) : texture.Dimensions :=
  {| texture.width := width; texture.height := 1; texture.depth := 1 |}.

Definition Dimensions_2 (width height : Z) : texture.Dimensions :=
  {| texture.width := width; texture.height := height; texture.depth := 1 |}.

(** [Dimensions::operator bool]: [width && height && depth]. *)
Definition Dimensions_bool (d : texture.Dimensions) : bool :=
  negb (texture.width d =? 0) && negb (texture.height d =? 0) && negb (texture.depth d =? 0).

(** [FormatBase::operator bool]: [bpb], converted. *)
Definition FormatBase_bool (f : texture.FormatBase) : bool := negb (texture.bpb f =? 0).

(** [Format::operator!=]: when both pointers are non-null the pointees are
    compared with [FormatBase::operator!=], otherwise the pointers are. *)
Definition Format_neqb (x y : texture.Format) : bool :=
  match x, y with
  | Some bx, Some by_ => texture.FormatBase_neqb bx by_
  | None, None => false
  | _, _ => true
  end.

(** ** [GraphicsContext]: the render target registers *)

Definition u32_wrap (x : Z) : Z := x mod u32_modulus.

(** The [IOVA] union: a [u64] overlaid with its low and its high [u32]
    (little-endian).  Writing one half keeps the other. *)
Definition IOVA_low (iova : Z) : Z := iova mod u32_modulus.
Definition IOVA_high (iova : Z) : Z := iova / u32_modulus.
Definition IOVA_set_high (high iova : Z) : Z := high * u32_modulus + IOVA_low iova.
Definition IOVA_set_low (low iova : Z) : Z := IOVA_high iova * u32_modulus + low.

Definition RenderTarget_set_guest (g : GuestTexture.t) (rt : RenderTarget) : RenderTarget :=
  {| disabled := disabled rt; iova := iova rt; widthBytes := widthBytes rt;
     guest := g; view := view rt |}.

Definition RenderTarget_reset_view (rt : RenderTarget) : RenderTarget :=
  {| disabled := disabled rt; iova := iova rt; widthBytes := widthBytes rt;
     guest := guest rt; view := None |}.

Definition GuestTexture_set_dimensions (d : texture.Dimensions) (g : GuestTexture.t) : GuestTexture.t :=
  {| GuestTexture.mappings := GuestTexture.mappings g;
     GuestTexture.dimensions := d;
     GuestTexture.format := GuestTexture.format g;
     GuestTexture.tileConfig := GuestTexture.tileConfig g;
     GuestTexture.type := GuestTexture.type g;
     GuestTexture.baseArrayLayer := GuestTexture.baseArrayLayer g;
     GuestTexture.layerCount := GuestTexture.layerCount g;
     GuestTexture.layerStride := GuestTexture.layerStride g;
     GuestTexture.swizzle := GuestTexture.swizzle g;
     GuestTexture.aspect := GuestTexture.aspect g |}.

Definition GuestTexture_set_tileConfig (c : texture.TileConfig) (g : GuestTexture.t) : GuestTexture.t :=
  {| GuestTexture.mappings := GuestTexture.mappings g;
     GuestTexture.dimensions := GuestTexture.dimensions g;
     GuestTexture.format := GuestTexture.format g;
     GuestTexture.tileConfig := c;
     GuestTexture.type := GuestTexture.type g;
     GuestTexture.baseArrayLayer := GuestTexture.baseArrayLayer g;
     GuestTexture.layerCount := GuestTexture.layerCount g;
     GuestTexture.layerStride := GuestTexture.layerStride g;
     GuestTexture.swizzle := GuestTexture.swizzle g;
     GuestTexture.aspect := GuestTexture.aspect g |}.

Definition GuestTexture_set_layers (baseArrayLayer layerStride : Z) (g : GuestTexture.t) : GuestTexture.t :=
  {| GuestTexture.mappings := GuestTexture.mappings g;
     GuestTexture.dimensions := GuestTexture.dimensions g;
     GuestTexture.format := GuestTexture.format g;
     GuestTexture.tileConfig := GuestTexture.tileConfig g;
     GuestTexture.type := GuestTexture.type g;
     GuestTexture.baseArrayLayer := baseArrayLayer;
     GuestTexture.layerCount := GuestTexture.layerCount g;
     GuestTexture.layerStride := layerStride;
     GuestTexture.swizzle := GuestTexture.swizzle g;
     GuestTexture.aspect := GuestTexture.aspect g |}.

(** [SetRenderTargetAddressHigh] and [SetRenderTargetAddressLow] *)
Definition SetRenderTargetAddressHigh (high : Z) (rt : RenderTarget) : RenderTarget :=
  {| disabled := disabled rt;
     iova := IOVA_set_high high (iova rt);
     widthBytes := widthBytes rt;
     guest := GuestTextureUpdate.set_mappings [] (guest rt);
     view := None |}.

Definition SetRenderTargetAddressLow (low : Z) (rt : RenderTarget) : RenderTarget :=
  {| disabled := disabled rt;
     iova := IOVA_set_low low (iova rt);
     widthBytes := widthBytes rt;
     guest := GuestTextureUpdate.set_mappings [] (guest rt);
     view := None |}.

(** [SetRenderTargetWidth]: the register holds bytes for a linear render
    target; the division is undefined for a format of zero bytes per block. *)
Definition SetRenderTargetWidth (value : Z) (rt : RenderTarget) : Result RenderTarget :=
  match texture.mode (GuestTexture.tileConfig (guest rt)), GuestTexture.format (guest rt) with
  | texture.Linear, Some base =>
      if texture.bpb base =? 0 then Undefined
      else Ok {| disabled := disabled rt; iova := iova rt; widthBytes := value;
                 guest := GuestTextureUpdate.set_width (value / texture.bpb base) (guest rt);
                 view := None |}
  | _, _ =>
      Ok {| disabled := disabled rt; iova := iova rt; widthBytes := value;
            guest := GuestTextureUpdate.set_width value (guest rt);
            view := None |}
  end.

(** [SetRenderTargetHeight] *)
Definition SetRenderTargetHeight (value : Z) (rt : RenderTarget) : RenderTarget :=
  RenderTarget_reset_view
    (RenderTarget_set_guest
       (GuestTexture_set_dimensions
          {| texture.width := texture.width (GuestTexture.dimensions (guest rt));
             texture.height := value;
             texture.depth := texture.depth (GuestTexture.dimensions (guest rt)) |}
          (guest rt))
       rt).

(** [maxwell3d::RenderTargetTileMode], as far as it is read. *)
Record RenderTargetTileMode := {
  isLinear : bool;
  blockHeightLog2 : Z;
  blockDepthLog2 : Z;
}.

(** [maxwell3d::RenderTargetArrayMode] *)
Record RenderTargetArrayMode := {
  arrayLayerCount : Z;  (* the member [layerCount], u16 *)
  volume : bool;
}.

(** [SetRenderTargetTileMode] *)
Definition SetRenderTargetTileMode (mode : RenderTargetTileMode) (rt : RenderTarget)
  : Result RenderTarget :=
  let g := guest rt in
  let config := GuestTexture.tileConfig g in
  if isLinear mode then
    let linear := {| texture.mode := texture.Linear; texture.storage := texture.storage config |} in
    match texture.mode config, GuestTexture.format g with
    | texture.Linear, _ | _, None =>
        Ok {| disabled := disabled rt; iova := iova rt; widthBytes := widthBytes rt;
              guest := GuestTexture_set_tileConfig linear g; view := None |}
    | _, Some base =>
        if texture.bpb base =? 0 then Undefined
        else
          let width := texture.width (GuestTexture.dimensions g) in
          Ok {| disabled := disabled rt; iova := iova rt; widthBytes := width;
                guest := GuestTexture_set_tileConfig linear
                           (GuestTextureUpdate.set_width (width / texture.bpb base) g);
                view := None |}
    end
  else
    let block :=
      {| texture.mode := texture.Block;
         texture.storage :=
           Z.shiftl 1 (blockHeightLog2 mode) mod u8_modulus
           + 256 * (Z.shiftl 1 (blockDepthLog2 mode) mod u8_modulus) |} in
    let g1 :=
      match texture.mode config, GuestTexture.format g with
      | texture.Linear, Some _ => GuestTextureUpdate.set_width (widthBytes rt) g
      | _, _ => g
      end in
    Ok {| disabled := disabled rt; iova := iova rt; widthBytes := widthBytes rt;
          guest := GuestTexture_set_tileConfig block g1; view := None |}.

(** [SetRenderTargetArrayMode]: the layer count is stored as the depth. *)
Definition SetRenderTargetArrayMode (mode : RenderTargetArrayMode) (rt : RenderTarget) : RenderTarget :=
  RenderTarget_reset_view
    (RenderTarget_set_guest
       (GuestTexture_set_dimensions
          {| texture.width := texture.width (GuestTexture.dimensions (guest rt));
             texture.height := texture.height (GuestTexture.dimensions (guest rt));
             texture.depth := arrayLayerCount mode |}
          (guest rt))
       rt).

(** [SetRenderTargetLayerStride]: [layerStrideLsr2 << 2] in [u32]. *)
Definition SetRenderTargetLayerStride (layerStrideLsr2 : Z) (rt : RenderTarget) : RenderTarget :=
  RenderTarget_reset_view
    (RenderTarget_set_guest
       (GuestTexture_set_layers (GuestTexture.baseArrayLayer (guest rt))
          (u32_wrap (Z.shiftl layerStrideLsr2 2)) (guest rt))
       rt).

Definition set_colorRenderTargets (rts : list RenderTarget) (ctx : GraphicsContext) : GraphicsContext :=
  {| colorRenderTargets := rts;
     depthRenderTarget := depthRenderTarget ctx;
     vertexBuffers := vertexBuffers ctx;
     warnings := warnings ctx;
     bufferRequests := bufferRequests ctx;
     textureRequests := textureRequests ctx |}.

Definition set_depthRenderTarget (rt : RenderTarget) (ctx : GraphicsContext) : GraphicsContext :=
  {| colorRenderTargets := colorRenderTargets ctx;
     depthRenderTarget := rt;
     vertexBuffers := vertexBuffers ctx;
     warnings := warnings ctx;
     bufferRequests := bufferRequests ctx;
     textureRequests := textureRequests ctx |}.

(** [SetColorRenderTargetBaseLayer] *)
Definition SetColorRenderTargetBaseLayer (index : nat) (baseArrayLayer : Z) (ctx : GraphicsContext)
  : Result GraphicsContext :=
  renderTarget ← at_ (colorRenderTargets ctx) index;
  if baseArrayLayer >? 65535
  then Throw "Base array layer ({}) exceeds the range of array count ({}) (with layer count = {})"
  else
    let renderTarget' :=
      RenderTarget_reset_view
        (RenderTarget_set_guest
           (GuestTexture_set_layers (baseArrayLayer mod u16_modulus)
              (GuestTexture.layerStride (guest renderTarget)) (guest renderTarget))
           renderTarget) in
    Ok (set_colorRenderTargets (<[index := renderTarget']> (colorRenderTargets ctx)) ctx).

(** [SetColorRenderTargetArrayMode] *)
Definition SetColorRenderTargetArrayMode (index : nat) (mode : RenderTargetArrayMode)
    (ctx : GraphicsContext) : Result GraphicsContext :=
  if volume mode
  then Throw "Color RT Array Volumes are not supported (with layer count = {})"
  else
    renderTarget ← at_ (colorRenderTargets ctx) index;
    Ok (set_colorRenderTargets
          (<[index := SetRenderTargetArrayMode mode renderTarget]> (colorRenderTargets ctx)) ctx).

(** [SetColorRenderTargetAddressHigh], [SetColorRenderTargetAddressLow],
    [SetColorRenderTargetHeight]: the render target is taken with [at]. *)
Definition SetColorRenderTargetAddressHigh (index : nat) (high : Z) (ctx : GraphicsContext)
  : Result GraphicsContext :=
  renderTarget ← at_ (colorRenderTargets ctx) index;
  Ok (set_colorRenderTargets
        (<[index := SetRenderTargetAddressHigh high renderTarget]> (colorRenderTargets ctx)) ctx).

Definition SetColorRenderTargetAddressLow (index : nat) (low : Z) (ctx : GraphicsContext)
  : Result GraphicsContext :=
  renderTarget ← at_ (colorRenderTargets ctx) index;
  Ok (set_colorRenderTargets
        (<[index := SetRenderTargetAddressLow low renderTarget]> (colorRenderTargets ctx)) ctx).

Section RenderTargetLookup.

Variable TranslateRange : Z -> Z -> list span.
Variable GetLayerSize : GuestTexture.t -> Z.
Variable texture_FindOrCreate : GuestTexture.t -> Z.

(** [GetColorRenderTarget(size_t index)] *)
Definition GetColorRenderTarget (index : nat) (ctx : GraphicsContext)
  : Result (option Z * GraphicsContext) :=
  renderTarget ← at_ (colorRenderTargets ctx) index;
  let '(v, renderTarget', requests) :=
    GetRenderTarget TranslateRange GetLayerSize texture_FindOrCreate renderTarget
      (textureRequests ctx) in
  Ok (v,
      {| colorRenderTargets := <[index := renderTarget']> (colorRenderTargets ctx);
         depthRenderTarget := depthRenderTarget ctx;
         vertexBuffers := vertexBuffers ctx;
         warnings := warnings ctx;
         bufferRequests := bufferRequests ctx;
         textureRequests := requests |}).

(** [GetDepthRenderTarget()] *)
Definition GetDepthRenderTarget (ctx : GraphicsContext) : option Z * GraphicsContext :=
  let '(v, renderTarget', requests) :=
    GetRenderTarget TranslateRange GetLayerSize texture_FindOrCreate (depthRenderTarget ctx)
      (textureRequests ctx) in
  (v,
   {| colorRenderTargets := colorRenderTargets ctx;
      depthRenderTarget := renderTarget';
      vertexBuffers := vertexBuffers ctx;
      warnings := warnings ctx;
      bufferRequests := bufferRequests ctx;
      textureRequests := requests |}).

End RenderTargetLookup.

(** ** [GraphicsContext]: scissors *)

(** [vk::Rect2D]: a signed offset and an unsigned extent. *)
Record Rect2D := {
  offset_x : Z;       (* i32 *)
  offset_y : Z;       (* i32 *)
  extent_width : Z;   (* u32 *)
  extent_height : Z;  (* u32 *)
}.

(** [maxwell3d::Scissor::ScissorBounds] and [maxwell3d::Scissor]: 16-bit
    bounds. *)
Record ScissorBounds := {
  minimum : Z;
  maximum : Z;
}.

Record Scissor := {
  horizontal : ScissorBounds;
  vertical : ScissorBounds;
}.

Definition i32_max : Z := 2 ^ 31 - 1.

(** [DefaultScissor] *)
Definition DefaultScissor : Rect2D :=
  {| offset_x := 0; offset_y := 0; extent_width := i32_max; extent_height := i32_max |}.

(** [SetScissor(index, std::optional<Scissor>)]; the differences of the
    promoted bounds are converted to [u32]. *)
Definition SetScissor (index : nat) (scissor : option Scissor) (scissors : list Rect2D)
  : Result (list Rect2D) :=
  _ ← at_ scissors index;
  Ok (<[index :=
        match scissor with
        | Some s =>
            {| offset_x := minimum (horizontal s);
               extent_width := u32_wrap (maximum (horizontal s) - minimum (horizontal s));
               offset_y := minimum (vertical s);
               extent_height := u32_wrap (maximum (horizontal s) - minimum (vertical s)) |}
        | None => DefaultScissor
        end]> scissors).

(** [SetScissorHorizontal] and [SetScissorVertical] *)
Definition SetScissorHorizontal (index : nat) (bounds : ScissorBounds) (scissors : list Rect2D)
  : Result (list Rect2D) :=
  scissor ← at_ scissors index;
  Ok (<[index :=
        {| offset_x := minimum bounds;
           offset_y := offset_y scissor;
           extent_width := u32_wrap (maximum bounds - minimum bounds);
           extent_height := extent_height scissor |}]> scissors).

Definition SetScissorVertical (index : nat) (bounds : ScissorBounds) (scissors : list Rect2D)
  : Result (list Rect2D) :=
  scissor ← at_ scissors index;
  Ok (<[index :=
        {| offset_x := offset_x scissor;
           offset_y := minimum bounds;
           extent_width := extent_width scissor;
           extent_height := u32_wrap (maximum bounds - minimum bounds) |}]> scissors).

(** ** [GraphicsContext]: clearing a colour render target *)

(** A [u32] reinterpreted as [i32], and back. *)
Definition to_i32 (x : Z) : Z := (x + 2 ^ 31) mod u32_modulus - 2 ^ 31.

(** What [ClearColorRt] hands to the command executor. *)
Inductive ClearAction :=
| NoClear
| ClearColorSubpass
| ClearAttachments (rect : Rect2D) (baseArrayLayer : Z).

(** [ClearColorRt]: the scissor is clamped to the texture and the clear is
    a whole-subpass clear when it covers the first and only layer
    entirely, a [clearAttachments] of the rectangle otherwise.  [dimensions]
    and [range] are those of the render target's texture and view. *)
Definition ClearColorRt (dimensions : texture.Dimensions) (range : vk.ImageSubresourceRange)
    (scissor : Rect2D) (layerIndex : Z) : ClearAction :=
  let width :=
    u32_wrap (Z.min (to_i32 (texture.width dimensions) - offset_x scissor)
                    (to_i32 (extent_width scissor))) in
  let height :=
    u32_wrap (Z.min (to_i32 (texture.height dimensions) - offset_y scissor)
                    (to_i32 (extent_height scissor))) in
  if negb (width =? 0) && negb (height =? 0) then
    if (width =? texture.width dimensions) && (height =? texture.height dimensions)
       && (vk.baseArrayLayer range =? 0) && (vk.layerCount range =? 1) && (layerIndex =? 0)
    then ClearColorSubpass
    else ClearAttachments
           {| offset_x := offset_x scissor; offset_y := offset_y scissor;
              extent_width := width; extent_height := height |}
           layerIndex
  else NoClear.

(** ** [GraphicsContext]: the constant buffer selector and its cache *)

(** [ConstantBufferCache]: an [unordered_map] from the key [(size, iova)],
    compared member-wise, to a buffer view. *)
Definition ConstantBufferCache_Lookup (size iova : Z) (cache : gmap (Z * Z) Z) : option Z :=
  cache !! (size, iova).

Definition ConstantBufferCache_Insert (size iova : Z) (v : Z) (cache : gmap (Z * Z) Z)
  : gmap (Z * Z) Z :=
  <[(size, iova) := v]> cache.

(** The constant buffer selector, its cache, and the spans handed to the
    buffer manager (latest first). *)
Record ConstantBufferState := {
  constantBufferSelector : ConstantBuffer;
  constantBufferCache : gmap (Z * Z) Z;
  constantBufferRequests : list span;
}.

Definition ConstantBuffer_set_view (v : option Z) (cb : ConstantBuffer) : ConstantBuffer :=
  {| cb_iova := cb_iova cb; cb_size := cb_size cb; cb_view := v |}.

(** [SetConstantBufferSelectorSize], [SetConstantBufferSelectorIovaHigh]
    and [SetConstantBufferSelectorIovaLow] *)
Definition SetConstantBufferSelectorSize (size : Z) (st : ConstantBufferState) : ConstantBufferState :=
  {| constantBufferSelector :=
       {| cb_iova := cb_iova (constantBufferSelector st); cb_size := size; cb_view := None |};
     constantBufferCache := constantBufferCache st;
     constantBufferRequests := constantBufferRequests st |}.

Definition SetConstantBufferSelectorIovaHigh (high : Z) (st : ConstantBufferState) : ConstantBufferState :=
  {| constantBufferSelector :=
       {| cb_iova := IOVA_set_high high (cb_iova (constantBufferSelector st));
          cb_size := cb_size (constantBufferSelector st); cb_view := None |};
     constantBufferCache := constantBufferCache st;
     constantBufferRequests := constantBufferRequests st |}.

Definition SetConstantBufferSelectorIovaLow (low : Z) (st : ConstantBufferState) : ConstantBufferState :=
  {| constantBufferSelector :=
       {| cb_iova := IOVA_set_low low (cb_iova (constantBufferSelector st));
          cb_size := cb_size (constantBufferSelector st); cb_view := None |};
     constantBufferCache := constantBufferCache st;
     constantBufferRequests := constantBufferRequests st |}.

Section ConstantBuffers.

Variable TranslateRange : Z -> Z -> list span.
Variable buffer_FindOrCreate : span -> Z.

(** [GetConstantBufferSelector]: nothing for a selector of size zero, the
    selector as it is when it holds a view, otherwise the view from the
    cache or, on a miss, the view of the first mapping of the translated
    range, which is then cached.  The synchronisation of the new buffer
    with the guest is not represented. *)
Definition GetConstantBufferSelector (st : ConstantBufferState)
  : Result (option ConstantBuffer * ConstantBufferState) :=
  let selector := constantBufferSelector st in
  if cb_size selector =? 0 then Ok (None, st)
  else
    match cb_view selector with
    | Some _ => Ok (Some selector, st)
    | None =>
        match ConstantBufferCache_Lookup (cb_size selector) (cb_iova selector)
                (constantBufferCache st) with
        | Some v =>
            let selector' := ConstantBuffer_set_view (Some v) selector in
            Ok (Some selector',
                {| constantBufferSelector := selector';
                   constantBufferCache := constantBufferCache st;
                   constantBufferRequests := constantBufferRequests st |})
        | None =>
            first ← front (TranslateRange (cb_iova selector) (cb_size selector));
            let v := buffer_FindOrCreate first in
            let selector' := ConstantBuffer_set_view (Some v) selector in
            Ok (Some selector',
                {| constantBufferSelector := selector';
                   constantBufferCache :=
                     ConstantBufferCache_Insert (cb_size selector) (cb_iova selector) v
                       (constantBufferCache st);
                   constantBufferRequests := first :: constantBufferRequests st |})
        end
    end.

End ConstantBuffers.

(** ** [GraphicsContext]: looking at shader bytecode *)

Definition BraSelf1 : Z := 0xE2400FFFFF87000F.
Definition BraSelf2 : Z := 0xE2400FFFFF07000F.

(** The callback [CompileShaderProgramState] gives to [ReadTill]: the byte
    offset of the first instruction that is a branch to itself, if any.
    [shaderInstructions] is the data seen as 64-bit instructions, [index]
    the distance from its beginning. *)
Fixpoint FindShaderEnd_from (index : Z) (shaderInstructions : list Z) : option Z :=
  match shaderInstructions with
  | [] => None
  | instruction :: rest =>
      if (instruction =? BraSelf1) || (instruction =? BraSelf2)
      then Some (index * 8)
      else FindShaderEnd_from (index + 1) rest
  end.

Definition FindShaderEnd (shaderInstructions : list Z) : option Z :=
  FindShaderEnd_from 0 shaderInstructions.

Definition bytes_eqb (xs ys : list Z) : bool :=
  if decide (xs = ys) then true else false.

(** The loop of the lambda [shouldParseShader]: each translated range is
    compared, over its own length, with the stored bytecode at the running
    position; a range without data or with different bytes means the
    shader has to be parsed again.  A range is the bytes it points to, or
    [None] for a null data pointer.  ([memcmp] past the end of the stored
    bytecode, which the translation of a range of the bytecode's size does
    not lead to, is taken as a difference.) *)
Fixpoint ranges_differ (newIovaRanges : list (option (list Z))) (originalShader : list Z) : bool :=
  match newIovaRanges with
  | [] => false
  | None :: _ => true
  | Some bytes :: rest =>
      if bytes_eqb bytes (take (length bytes) originalShader)
      then ranges_differ rest (drop (length bytes) originalShader)
      else true
  end.

(** The lambda [shouldParseShader]: whether to parse, and [shouldCheckSame]
    as it is left.  [newIovaRanges] is the translation of the shader's
    range, read only when the check is made. *)
Definition shouldParseShader (data : list Z) (shouldCheckSame : bool)
    (newIovaRanges : list (option (list Z))) : bool * bool :=
  if negb (match data with [] => true | _ => false end) && shouldCheckSame
  then (ranges_differ newIovaRanges data, shouldCheckSame)
  else (true, true).

(** ** [GraphicsContext]: runtime information and the rasterizer *)

(** [maxwell3d::PipelineStage], which indexes [pipelineStages]. *)
Inductive PipelineStageId :=
| StageVertex | StageTessellationControl | StageTessellationEvaluation
| StageGeometry | StageFragment.

Definition PipelineStageId_eqb (x y : PipelineStageId) : bool :=
  match x, y with
  | StageVertex, StageVertex
  | StageTessellationControl, StageTessellationControl
  | StageTessellationEvaluation, StageTessellationEvaluation
  | StageGeometry, StageGeometry
  | StageFragment, StageFragment => true
  | _, _ => false
  end.

(** [UpdateRuntimeInformation(member, value, stages...)]: when the value
    differs from the member it is stored and every listed stage is marked
    for recompilation.  [needsRecompile] gives the mark of each stage;
    [eqb] is the [!=] of the member's type, negated. *)
Definition UpdateRuntimeInformation {T : Type} (eqb : T -> T -> bool) (member value : T)
    (stages : list PipelineStageId) (needsRecompile : PipelineStageId -> bool)
  : T * (PipelineStageId -> bool) :=
  if negb (eqb member value)
  then (value,
        fun stage =>
          if existsb (PipelineStageId_eqb stage) stages then true else needsRecompile stage)
  else (member, needsRecompile).

(** [vk::FrontFace], [vk::CullModeFlags] and the guest's enumerations. *)
Inductive VkFrontFace := eCounterClockwise | eClockwise.
Inductive VkCullMode := eCullNone | eCullFront | eCullBack | eCullFrontAndBack.
Inductive MaxwellFrontFace := Clockwise | CounterClockwise.
Inductive MaxwellCullFace := CullFront | CullBack | CullFrontAndBack.

(** The rasterizer state the face setters touch. *)
Record Rasterizer := {
  rasterizer_cullMode : VkCullMode;    (* rasterizerState's cullMode *)
  rasterizer_frontFace : VkFrontFace;  (* rasterizerState's frontFace *)
  cullFaceEnabled : bool;
  cullMode : VkCullMode;
  frontFaceFlip : bool;
  y_negate : bool;                     (* runtimeInfo.y_negate *)
  needsRecompile : PipelineStageId -> bool;
}.

(** The state of a freshly constructed context: every member is
    value-initialised. *)
Definition Rasterizer_initial : Rasterizer :=
  {| rasterizer_cullMode := eCullNone;
     rasterizer_frontFace := eCounterClockwise;
     cullFaceEnabled := false;
     cullMode := eCullNone;
     frontFaceFlip := false;
     y_negate := false;
     needsRecompile := fun _ => false |}.

(** [SetCullFaceEnabled] *)
Definition SetCullFaceEnabled (enabled : bool) (r : Rasterizer) : Rasterizer :=
  {| rasterizer_cullMode := if negb enabled then eCullNone else rasterizer_cullMode r;
     rasterizer_frontFace := rasterizer_frontFace r;
     cullFaceEnabled := enabled;
     cullMode := cullMode r;
     frontFaceFlip := frontFaceFlip r;
     y_negate := y_negate r;
     needsRecompile := needsRecompile r |}.

(** [SetCullFace] *)
Definition SetCullFace (face : MaxwellCullFace) (r : Rasterizer) : Rasterizer :=
  let mode :=
    match face with
    | CullFront => eCullFront
    | CullBack => eCullBack
    | CullFrontAndBack => eCullFrontAndBack
    end in
  {| rasterizer_cullMode := if cullFaceEnabled r then mode else rasterizer_cullMode r;
     rasterizer_frontFace := rasterizer_frontFace r;
     cullFaceEnabled := cullFaceEnabled r;
     cullMode := mode;
     frontFaceFlip := frontFaceFlip r;
     y_negate := y_negate r;
     needsRecompile := needsRecompile r |}.

(** [SetFrontFace] *)
Definition SetFrontFace (face : MaxwellFrontFace) (r : Rasterizer) : Rasterizer :=
  {| rasterizer_cullMode := rasterizer_cullMode r;
     rasterizer_frontFace :=
       match face with
       | Clockwise => if frontFaceFlip r then eCounterClockwise else eClockwise
       | CounterClockwise => if frontFaceFlip r then eClockwise else eCounterClockwise
       end;
     cullFaceEnabled := cullFaceEnabled r;
     cullMode := cullMode r;
     frontFaceFlip := frontFaceFlip r;
     y_negate := y_negate r;
     needsRecompile := needsRecompile r |}.

(** [SetFrontFaceFlipEnabled] *)
Definition SetFrontFaceFlipEnabled (enabled : bool) (r : Rasterizer) : Rasterizer :=
  if negb (Bool.eqb enabled (frontFaceFlip r)) then
    let face :=
      match rasterizer_frontFace r with
      | eClockwise => eCounterClockwise
      | eCounterClockwise => eClockwise
      end in
    let '(y_negate', needsRecompile') :=
      UpdateRuntimeInformation Bool.eqb (y_negate r) enabled [StageVertex; StageFragment]
        (needsRecompile r) in
    {| rasterizer_cullMode := rasterizer_cullMode r;
       rasterizer_frontFace := face;
       cullFaceEnabled := cullFaceEnabled r;
       cullMode := cullMode r;
       frontFaceFlip := enabled;
       y_negate := y_negate';
       needsRecompile := needsRecompile' |}
  else r.

(** The calls that act on the faces, to run sequences of them. *)
Inductive RasterizerCall :=
| CallSetCullFaceEnabled (enabled : bool)
| CallSetCullFace (face : MaxwellCullFace)
| CallSetFrontFace (face : MaxwellFrontFace)
| CallSetFrontFaceFlipEnabled (enabled : bool).

Definition Rasterizer_perform (c : RasterizerCall) (r : Rasterizer) : Rasterizer :=
  match c with
  | CallSetCullFaceEnabled enabled => SetCullFaceEnabled enabled r
  | CallSetCullFace face => SetCullFace face r
  | CallSetFrontFace face => SetFrontFace face r
  | CallSetFrontFaceFlipEnabled enabled => SetFrontFaceFlipEnabled enabled r
  end.

Definition Rasterizer_run (calls : list RasterizerCall) (r : Rasterizer) : Rasterizer :=
  fold_left (fun r c => Rasterizer_perform c r) calls r.

(** ** [GraphicsContext]: the stencil state *)

(** [maxwell3d::StencilOp] and [vk::StencilOp] *)
Inductive MaxwellStencilOp :=
| StencilKeep | StencilZero | StencilReplace | StencilIncrementAndClamp
| StencilDecrementAndClamp | StencilInvert | StencilIncrementAndWrap | StencilDecrementAndWrap.

Inductive VkStencilOp :=
| eKeep | eZero | eReplace | eIncrementAndClamp | eDecrementAndClamp | eInvert
| eIncrementAndWrap | eDecrementAndWrap.

(** [ConvertStencilOp] *)
Definition ConvertStencilOp (op : MaxwellStencilOp) : VkStencilOp :=
  match op with
  | StencilKeep => eKeep
  | StencilZero => eZero
  | StencilReplace => eReplace
  | StencilIncrementAndClamp => eIncrementAndClamp
  | StencilDecrementAndClamp => eDecrementAndClamp
  | StencilInvert => eInvert
  | StencilIncrementAndWrap => eIncrementAndWrap
  | StencilDecrementAndWrap => eDecrementAndWrap
  end.

(** [maxwell3d::CompareOp], with its OpenGL twins, and [vk::CompareOp] *)
Inductive MaxwellCompareOp :=
| Never | Less | Equal | LessOrEqual | Greater | NotEqual | GreaterOrEqual | Always
| NeverGL | LessGL | EqualGL | LessOrEqualGL | GreaterGL | NotEqualGL | GreaterOrEqualGL | AlwaysGL.

Inductive VkCompareOp :=
| eNever | eLess | eEqual | eLessOrEqual | eGreater | eNotEqual | eGreaterOrEqual | eAlways.

(** [ConvertCompareOp] *)
Definition ConvertCompareOp (op : MaxwellCompareOp) : VkCompareOp :=
  match op with
  | Never | NeverGL => eNever
  | Less | LessGL => eLess
  | Equal | EqualGL => eEqual
  | LessOrEqual | LessOrEqualGL => eLessOrEqual
  | Greater | GreaterGL => eGreater
  | NotEqual | NotEqualGL => eNotEqual
  | GreaterOrEqual | GreaterOrEqualGL => eGreaterOrEqual
  | Always | AlwaysGL => eAlways
  end.

(** [vk::StencilOpState] *)
Record StencilOpState := {
  failOp : VkStencilOp;
  passOp : VkStencilOp;
  depthFailOp : VkStencilOp;
  compareOp : VkCompareOp;
  compareMask : Z;
  writeMask : Z;
  reference : Z;
}.

(** The stencil members of the context: the two sides of [depthState], the
    back side kept for two-sided stencil, and the two-side flag. *)
Record StencilState := {
  depthState_front : StencilOpState;
  depthState_back : StencilOpState;
  stencilBack : StencilOpState;
  twoSideStencilEnabled : bool;
}.

Definition StencilOpState_zero : StencilOpState :=
  {| failOp := eKeep; passOp := eKeep; depthFailOp := eKeep; compareOp := eNever;
     compareMask := 0; writeMask := 0; reference := 0 |}.

Definition StencilState_initial : StencilState :=
  {| depthState_front := StencilOpState_zero; depthState_back := StencilOpState_zero;
     stencilBack := StencilOpState_zero; twoSideStencilEnabled := false |}.

(** [SetStencilTwoSideEnabled] *)
Definition SetStencilTwoSideEnabled (enabled : bool) (s : StencilState) : StencilState :=
  if Bool.eqb (twoSideStencilEnabled s) enabled then
    {| depthState_front := depthState_front s;
       depthState_back := if enabled then stencilBack s else depthState_front s;
       stencilBack := stencilBack s;
       twoSideStencilEnabled := enabled |}
  else s.

(** The writes of one member of a stencil side. *)
Inductive StencilField :=
| FieldFailOp (op : MaxwellStencilOp)
| FieldPassOp (op : MaxwellStencilOp)
| FieldDepthFailOp (op : MaxwellStencilOp)
| FieldCompareOp (op : MaxwellCompareOp)
| FieldCompareMask (mask : Z)
| FieldWriteMask (mask : Z)
| FieldReference (reference : Z).

Definition StencilOpState_write (f : StencilField) (s : StencilOpState) : StencilOpState :=
  match f with
  | FieldFailOp op =>
      {| failOp := ConvertStencilOp op; passOp := passOp s; depthFailOp := depthFailOp s;
         compareOp := compareOp s; compareMask := compareMask s; writeMask := writeMask s;
         reference := reference s |}
  | FieldPassOp op =>
      {| failOp := failOp s; passOp := ConvertStencilOp op; depthFailOp := depthFailOp s;
         compareOp := compareOp s; compareMask := compareMask s; writeMask := writeMask s;
         reference := reference s |}
  | FieldDepthFailOp op =>
      {| failOp := failOp s; passOp := passOp s; depthFailOp := ConvertStencilOp op;
         compareOp := compareOp s; compareMask := compareMask s; writeMask := writeMask s;
         reference := reference s |}
  | FieldCompareOp op =>
      {| failOp := failOp s; passOp := passOp s; depthFailOp := depthFailOp s;
         compareOp := ConvertCompareOp op; compareMask := compareMask s;
         writeMask := writeMask s; reference := reference s |}
  | FieldCompareMask mask =>
      {| failOp := failOp s; passOp := passOp s; depthFailOp := depthFailOp s;
         compareOp := compareOp s; compareMask := mask; writeMask := writeMask s;
         reference := reference s |}
  | FieldWriteMask mask =>
      {| failOp := failOp s; passOp := passOp s; depthFailOp := depthFailOp s;
         compareOp := compareOp s; compareMask := compareMask s; writeMask := mask;
         reference := reference s |}
  | FieldReference r =>
      {| failOp := failOp s; passOp := passOp s; depthFailOp := depthFailOp s;
         compareOp := compareOp s; compareMask := compareMask s; writeMask := writeMask s;
         reference := r |}
  end.

(** The seven [SetStencilFront...] setters ([FailOp], [PassOp],
    [DepthFailOp], [CompareOp], [CompareMask], [WriteMask], [Reference]):
    the member is written to the front side, and copied to the back side
    unless two-sided stencil is enabled. *)
Definition SetStencilFront (f : StencilField) (s : StencilState) : StencilState :=
  {| depthState_front := StencilOpState_write f (depthState_front s);
     depthState_back :=
       if negb (twoSideStencilEnabled s) then StencilOpState_write f (depthState_back s)
       else depthState_back s;
     stencilBack := stencilBack s;
     twoSideStencilEnabled := twoSideStencilEnabled s |}.

(** The seven [SetStencilBack...] setters: the member is written to the
    kept back side, and copied to the back side in use when two-sided
    stencil is enabled. *)
Definition SetStencilBack (f : StencilField) (s : StencilState) : StencilState :=
  {| depthState_front := depthState_front s;
     depthState_back :=
       if twoSideStencilEnabled s then StencilOpState_write f (depthState_back s)
       else depthState_back s;
     stencilBack := StencilOpState_write f (stencilBack s);
     twoSideStencilEnabled := twoSideStencilEnabled s |}.

Inductive StencilCall :=
| CallSetStencilTwoSideEnabled (enabled : bool)
| CallSetStencilFront (f : StencilField)
| CallSetStencilBack (f : StencilField).

Definition Stencil_perform (c : StencilCall) (s : StencilState) : StencilState :=
  match c with
  | CallSetStencilTwoSideEnabled enabled => SetStencilTwoSideEnabled enabled s
  | CallSetStencilFront f => SetStencilFront f s
  | CallSetStencilBack f => SetStencilBack f s
  end.

Definition Stencil_run (calls : list StencilCall) (s : StencilState) : StencilState :=
  fold_left (fun s c => Stencil_perform c s) calls s.

(** ** [GraphicsContext]: colour blending *)

(** [maxwell3d::BlendOp] and [vk::BlendOp] *)
Inductive MaxwellBlendOp :=
| BlendOp_Add | BlendOp_Subtract | BlendOp_ReverseSubtract | BlendOp_Minimum | BlendOp_Maximum
| BlendOp_AddGL | BlendOp_SubtractGL | BlendOp_ReverseSubtractGL | BlendOp_MinimumGL
| BlendOp_MaximumGL.

Inductive VkBlendOp := eAdd | eSubtract | eReverseSubtract | eMin | eMax.

(** [ConvertBlendOp] *)
Definition ConvertBlendOp (op : MaxwellBlendOp) : VkBlendOp :=
  match op with
  | BlendOp_Add | BlendOp_AddGL => eAdd
  | BlendOp_Subtract | BlendOp_SubtractGL => eSubtract
  | BlendOp_ReverseSubtract | BlendOp_ReverseSubtractGL => eReverseSubtract
  | BlendOp_Minimum | BlendOp_MinimumGL => eMin
  | BlendOp_Maximum | BlendOp_MaximumGL => eMax
  end.

(** [vk::BlendFactor] *)
Inductive VkBlendFactor :=
| eFactorZero | eFactorOne | eSrcColor | eOneMinusSrcColor | eSrcAlpha
| eOneMinusSrcAlpha | eDstAlpha | eOneMinusDstAlpha | eDstColor | eOneMinusDstColor
| eSrcAlphaSaturate | eSrc1Color | eOneMinusSrc1Color | eSrc1Alpha | eOneMinusSrc1Alpha
| eConstantColor | eOneMinusConstantColor | eConstantAlpha | eOneMinusConstantAlpha.

(** [maxwell3d::BlendFactor]: each factor has an enumerator for its
    Direct3D and one for its OpenGL encoding. *)
Inductive MaxwellBlendFactor :=
| Factor_Zero | Factor_ZeroGL | Factor_One | Factor_OneGL | Factor_SourceColor
| Factor_SourceColorGL | Factor_OneMinusSourceColor | Factor_OneMinusSourceColorGL
| Factor_SourceAlpha | Factor_SourceAlphaGL | Factor_OneMinusSourceAlpha
| Factor_OneMinusSourceAlphaGL | Factor_DestAlpha | Factor_DestAlphaGL
| Factor_OneMinusDestAlpha | Factor_OneMinusDestAlphaGL | Factor_DestColor
| Factor_DestColorGL | Factor_OneMinusDestColor | Factor_OneMinusDestColorGL
| Factor_SourceAlphaSaturate | Factor_SourceAlphaSaturateGL | Factor_Source1Color
| Factor_Source1ColorGL | Factor_OneMinusSource1Color | Factor_OneMinusSource1ColorGL
| Factor_Source1Alpha | Factor_Source1AlphaGL | Factor_OneMinusSource1Alpha
| Factor_OneMinusSource1AlphaGL | Factor_ConstantColor | Factor_ConstantColorGL
| Factor_OneMinusConstantColor | Factor_OneMinusConstantColorGL | Factor_ConstantAlpha
| Factor_ConstantAlphaGL | Factor_OneMinusConstantAlpha
| Factor_OneMinusConstantAlphaGL.

(** [ConvertBlendFactor] *)
Definition ConvertBlendFactor (factor : MaxwellBlendFactor) : VkBlendFactor :=
  match factor with
  | Factor_Zero | Factor_ZeroGL => eFactorZero
  | Factor_One | Factor_OneGL => eFactorOne
  | Factor_SourceColor | Factor_SourceColorGL => eSrcColor
  | Factor_OneMinusSourceColor | Factor_OneMinusSourceColorGL => eOneMinusSrcColor
  | Factor_SourceAlpha | Factor_SourceAlphaGL => eSrcAlpha
  | Factor_OneMinusSourceAlpha | Factor_OneMinusSourceAlphaGL => eOneMinusSrcAlpha
  | Factor_DestAlpha | Factor_DestAlphaGL => eDstAlpha
  | Factor_OneMinusDestAlpha | Factor_OneMinusDestAlphaGL => eOneMinusDstAlpha
  | Factor_DestColor | Factor_DestColorGL => eDstColor
  | Factor_OneMinusDestColor | Factor_OneMinusDestColorGL => eOneMinusDstColor
  | Factor_SourceAlphaSaturate | Factor_SourceAlphaSaturateGL => eSrcAlphaSaturate
  | Factor_Source1Color | Factor_Source1ColorGL => eSrc1Color
  | Factor_OneMinusSource1Color | Factor_OneMinusSource1ColorGL => eOneMinusSrc1Color
  | Factor_Source1Alpha | Factor_Source1AlphaGL => eSrc1Alpha
  | Factor_OneMinusSource1Alpha | Factor_OneMinusSource1AlphaGL => eOneMinusSrc1Alpha
  | Factor_ConstantColor | Factor_ConstantColorGL => eConstantColor
  | Factor_OneMinusConstantColor | Factor_OneMinusConstantColorGL => eOneMinusConstantColor
  | Factor_ConstantAlpha | Factor_ConstantAlphaGL => eConstantAlpha
  | Factor_OneMinusConstantAlpha | Factor_OneMinusConstantAlphaGL => eOneMinusConstantAlpha
  end.

(** [vk::PipelineColorBlendAttachmentState] *)
Record BlendAttachment := {
  blendEnable : bool;
  srcColorBlendFactor : VkBlendFactor;
  dstColorBlendFactor : VkBlendFactor;
  colorBlendOp : VkBlendOp;
  srcAlphaBlendFactor : VkBlendFactor;
  dstAlphaBlendFactor : VkBlendFactor;
  alphaBlendOp : VkBlendOp;
  colorWriteMask : Z;  (* vk::ColorComponentFlags: R = 1, G = 2, B = 4, A = 8 *)
}.

(** One write to a member of a blend attachment, after conversion. *)
Inductive BlendField :=
| BlendEnabled (enable : bool)
| ColorBlendOp (op : MaxwellBlendOp)
| SrcColorBlendFactor (factor : MaxwellBlendFactor)
| DstColorBlendFactor (factor : MaxwellBlendFactor)
| AlphaBlendOp (op : MaxwellBlendOp)
| SrcAlphaBlendFactor (factor : MaxwellBlendFactor)
| DstAlphaBlendFactor (factor : MaxwellBlendFactor).

Definition BlendAttachment_write (f : BlendField) (b : BlendAttachment) : BlendAttachment :=
  {| blendEnable := match f with BlendEnabled e => e | _ => blendEnable b end;
     srcColorBlendFactor :=
       match f with SrcColorBlendFactor x => ConvertBlendFactor x | _ => srcColorBlendFactor b end;
     dstColorBlendFactor :=
       match f with DstColorBlendFactor x => ConvertBlendFactor x | _ => dstColorBlendFactor b end;
     colorBlendOp := match f with ColorBlendOp op => ConvertBlendOp op | _ => colorBlendOp b end;
     srcAlphaBlendFactor :=
       match f with SrcAlphaBlendFactor x => ConvertBlendFactor x | _ => srcAlphaBlendFactor b end;
     dstAlphaBlendFactor :=
       match f with DstAlphaBlendFactor x => ConvertBlendFactor x | _ => dstAlphaBlendFactor b end;
     alphaBlendOp := match f with AlphaBlendOp op => ConvertBlendOp op | _ => alphaBlendOp b end;
     colorWriteMask := colorWriteMask b |}.

Definition BlendAttachment_set_mask (mask : Z) (b : BlendAttachment) : BlendAttachment :=
  {| blendEnable := blendEnable b;
     srcColorBlendFactor := srcColorBlendFactor b;
     dstColorBlendFactor := dstColorBlendFactor b;
     colorBlendOp := colorBlendOp b;
     srcAlphaBlendFactor := srcAlphaBlendFactor b;
     dstAlphaBlendFactor := dstAlphaBlendFactor b;
     alphaBlendOp := alphaBlendOp b;
     colorWriteMask := mask |}.

(** The blend members of the context; [independentBlending] tells which of
    the two arrays [blendState.pAttachments] points to. *)
Record BlendState := {
  commonRtBlendState : list BlendAttachment;
  independentRtBlendState : list BlendAttachment;
  independentBlending : bool;
}.

(** [maxwell3d::ColorWriteMask] *)
Record ColorWriteMask := {
  red : bool;
  green : bool;
  blue : bool;
  alpha : bool;
}.

(** The blend state the constructor leaves: [RenderTargetCount]
    value-initialised attachments in each array, with every colour
    component written. *)
Definition BlendAttachment_initial : BlendAttachment :=
  {| blendEnable := false;
     srcColorBlendFactor := eFactorZero; dstColorBlendFactor := eFactorZero; colorBlendOp := eAdd;
     srcAlphaBlendFactor := eFactorZero; dstAlphaBlendFactor := eFactorZero; alphaBlendOp := eAdd;
     colorWriteMask := Z.lor (Z.lor (Z.lor 1 2) 4) 8 |}.

Definition BlendState_initial (RenderTargetCount : nat) : BlendState :=
  {| commonRtBlendState := replicate RenderTargetCount BlendAttachment_initial;
     independentRtBlendState := replicate RenderTargetCount BlendAttachment_initial;
     independentBlending := false |}.

(** [operator[]] of [std::array], undefined past the end. *)
Definition subscript {A : Type} (l : list A) (index : nat) : Result A :=
  match l !! index with
  | Some x => Ok x
  | None => Undefined
  end.

(** [SetIndependentBlendingEnabled] *)
Definition SetIndependentBlendingEnabled (enable : bool) (s : BlendState) : BlendState :=
  {| commonRtBlendState := commonRtBlendState s;
     independentRtBlendState := independentRtBlendState s;
     independentBlending := enable |}.

(** The setters without an index ([SetColorBlendEnabled(bool)],
    [SetColorBlendOp(op)], ...): the member is written in every common
    attachment. *)
Definition SetCommonBlend (f : BlendField) (s : BlendState) : BlendState :=
  {| commonRtBlendState := map (BlendAttachment_write f) (commonRtBlendState s);
     independentRtBlendState := independentRtBlendState s;
     independentBlending := independentBlending s |}.

(** The setters with an index ([SetColorBlendEnabled(index, bool)], ...):
    the member is written in one independent attachment. *)
Definition SetIndependentBlend (index : nat) (f : BlendField) (s : BlendState) : Result BlendState :=
  b ← subscript (independentRtBlendState s) index;
  Ok {| commonRtBlendState := commonRtBlendState s;
        independentRtBlendState := <[index := BlendAttachment_write f b]> (independentRtBlendState s);
        independentBlending := independentBlending s |}.

(** [SetColorWriteMask] *)
Definition SetColorWriteMask (index : nat) (mask : ColorWriteMask) (s : BlendState)
  : Result BlendState :=
  let m0 := 0 in
  let m1 := if red mask then Z.lor m0 1 else m0 in
  let m2 := if green mask then Z.lor m1 2 else m1 in
  let m3 := if blue mask then Z.lor m2 4 else m2 in
  let colorWriteMask := if alpha mask then Z.lor m3 8 else m3 in
  i ← subscript (independentRtBlendState s) index;
  c ← subscript (commonRtBlendState s) index;
  Ok {| commonRtBlendState :=
          <[index := BlendAttachment_set_mask colorWriteMask c]> (commonRtBlendState s);
        independentRtBlendState :=
          <[index := BlendAttachment_set_mask colorWriteMask i]> (independentRtBlendState s);
        independentBlending := independentBlending s |}.

Inductive BlendCall :=
| CallSetIndependentBlendingEnabled (enable : bool)
| CallSetCommonBlend (f : BlendField)
| CallSetIndependentBlend (index : nat) (f : BlendField)
| CallSetColorWriteMask (index : nat) (mask : ColorWriteMask).

Definition Blend_perform (c : BlendCall) (s : BlendState) : Result BlendState :=
  match c with
  | CallSetIndependentBlendingEnabled enable => Ok (SetIndependentBlendingEnabled enable s)
  | CallSetCommonBlend f => Ok (SetCommonBlend f s)
  | CallSetIndependentBlend index f => SetIndependentBlend index f s
  | CallSetColorWriteMask index mask => SetColorWriteMask index mask s
  end.

Fixpoint Blend_run (calls : list BlendCall) (s : BlendState) : Result BlendState :=
  match calls with
  | [] => Ok s
  | c :: rest => s' ← Blend_perform c s; Blend_run rest s'
  end.

(** ** [GraphicsContext]: the index buffer *)

(** [vk::IndexType] *)
Inductive VkIndexType := eUint16 | eUint32 | eNoneKHR | eUint8EXT.

(** [maxwell3d::IndexBuffer::Format] *)
Inductive IndexBufferFormat := Uint8 | Uint16 | Uint32.

(** [GraphicsContext::IndexBuffer] *)
Record IndexBuffer := {
  ib_start : Z;
  ib_end : Z;
  ib_type : VkIndexType;
  viewSize : Z;
  ib_view : option Z;
}.

(** [IndexBuffer::GetIndexBufferSize]: the element size times the count,
    in [vk::DeviceSize]. *)
Definition GetIndexBufferSize (elementCount : Z) (ib : IndexBuffer) : Result Z :=
  match ib_type ib with
  | eUint8EXT => Ok (1 * elementCount)
  | eUint16 => Ok (2 * elementCount)
  | eUint32 => Ok (4 * elementCount)
  | eNoneKHR => Throw "Unsupported Vulkan Index Type: {}"
  end.

(** The index buffer together with what the lookup produces: warnings and
    the spans handed to the buffer manager (latest first). *)
Record IndexBufferState := {
  indexBuffer : IndexBuffer;
  ib_warnings : list (string * Z);
  ib_requests : list span;
}.

Definition IndexBuffer_reset_view (ib : IndexBuffer) : IndexBuffer :=
  {| ib_start := ib_start ib; ib_end := ib_end ib; ib_type := ib_type ib;
     viewSize := viewSize ib; ib_view := None |}.

(** [SetIndexBufferStartIovaHigh], [...Low], [SetIndexBufferEndIovaHigh],
    [...Low] *)
Definition SetIndexBufferStartIovaHigh (high : Z) (ib : IndexBuffer) : IndexBuffer :=
  {| ib_start := IOVA_set_high high (ib_start ib); ib_end := ib_end ib; ib_type := ib_type ib;
     viewSize := viewSize ib; ib_view := None |}.

Definition SetIndexBufferStartIovaLow (low : Z) (ib : IndexBuffer) : IndexBuffer :=
  {| ib_start := IOVA_set_low low (ib_start ib); ib_end := ib_end ib; ib_type := ib_type ib;
     viewSize := viewSize ib; ib_view := None |}.

Definition SetIndexBufferEndIovaHigh (high : Z) (ib : IndexBuffer) : IndexBuffer :=
  {| ib_start := ib_start ib; ib_end := IOVA_set_high high (ib_end ib); ib_type := ib_type ib;
     viewSize := viewSize ib; ib_view := None |}.

Definition SetIndexBufferEndIovaLow (low : Z) (ib : IndexBuffer) : IndexBuffer :=
  {| ib_start := ib_start ib; ib_end := IOVA_set_low low (ib_end ib); ib_type := ib_type ib;
     viewSize := viewSize ib; ib_view := None |}.

(** [SetIndexBufferFormat]; [supportsUint8Indices] is the host trait.  The
    type is assigned before the check, so the result carries the index
    buffer as the call leaves it even when it throws. *)
Definition SetIndexBufferFormat (supportsUint8Indices : bool) (format : IndexBufferFormat)
    (ib : IndexBuffer) : IndexBuffer * Result unit :=
  let type :=
    match format with
    | Uint8 => eUint8EXT
    | Uint16 => eUint16
    | Uint32 => eUint32
    end in
  let typed :=
    {| ib_start := ib_start ib; ib_end := ib_end ib; ib_type := type;
       viewSize := viewSize ib; ib_view := ib_view ib |} in
  match type, supportsUint8Indices with
  | eUint8EXT, false => (typed, Throw "Cannot use U8 index buffer without host GPU support")
  | _, _ => (IndexBuffer_reset_view typed, Ok tt)
  end.

Section IndexBufferLookup.

Variable TranslateRange : Z -> Z -> list span.
Variable buffer_FindOrCreate : span -> Z.

(** [GetIndexBuffer(u32 elementCount)] *)
Definition GetIndexBuffer (elementCount : Z) (st : IndexBufferState)
  : Result (option Z * IndexBufferState) :=
  let ib := indexBuffer st in
  size ← GetIndexBufferSize elementCount ib;
  if (ib_start ib >? ib_end ib) || (ib_start ib =? 0) || (ib_end ib =? 0) || (size =? 0)
  then Ok (None, st)
  else
    match ib_view ib, size =? viewSize ib with
    | Some v, true => Ok (Some v, st)
    | _, _ =>
        let mappings := TranslateRange (ib_start ib) size in
        let warnings' :=
          if negb (Z.of_nat (length mappings) =? 1)
          then ("Multiple buffer mappings ({}) are not supported"%string,
                Z.of_nat (length mappings)) :: ib_warnings st
          else ib_warnings st in
        mapping ← front mappings;
        let requested := {| span_data := span_data mapping; span_size := size |} in
        let v := buffer_FindOrCreate requested in
        Ok (Some v,
            {| indexBuffer :=
                 {| ib_start := ib_start ib; ib_end := ib_end ib; ib_type := ib_type ib;
                    viewSize := viewSize ib; ib_view := Some v |};
               ib_warnings := warnings';
               ib_requests := requested :: ib_requests st |})
    end.

End IndexBufferLookup.

(** ** [GraphicsContext::Draw]: binding the vertex buffers *)

(** The inner [while] of the binding loop: how many handles from the start
    of the list are non-null. *)
Fixpoint bound_run (handles : list Z) : nat :=
  match handles with
  | handle :: rest => if handle =? 0 then 0%nat else S (bound_run rest)
  | [] => 0%nat
  end.

(** The binding loop of the draw: for every index that holds a non-null
    handle, [bindVertexBuffers] is called with that index and the number of
    non-null handles that follow from there without a gap.  The result is
    the list of calls, as first binding and binding count, for the handles
    from [bindingIndex] on. *)
Fixpoint bindVertexBuffers_calls (bindingIndex : nat) (handles : list Z) : list (nat * nat) :=
  match handles with
  | [] => []
  | handle :: rest =>
      if handle =? 0 then bindVertexBuffers_calls (S bindingIndex) rest
      else (bindingIndex, bound_run handles) :: bindVertexBuffers_calls (S bindingIndex) rest
  end.

(** ** [GraphicsContext]: samplers *)

(** The enumerations of the texture sampler control that the address mode
    conversion switches over; a value outside the enumeration is kept as a
    raw number. *)
Module TSC.

Inductive AddressMode :=
| Repeat | MirroredRepeat | ClampToEdge | ClampToBorder | Clamp
| MirrorClampToEdge | MirrorClampToBorder | MirrorClamp
| AddressMode_other (raw : Z).

End TSC.

Inductive VkSamplerAddressMode :=
| eRepeat | eMirroredRepeat | eClampToEdge | eClampToBorder | eMirrorClampToEdge.

(** [ConvertSamplerAddressMode]: the switch has no default and the function
    no return after it, so a mode outside the enumeration runs off its
    end. *)
Definition ConvertSamplerAddressMode (mode : TSC.AddressMode) : Result VkSamplerAddressMode :=
  match mode with
  | TSC.Repeat => Ok eRepeat
  | TSC.MirroredRepeat => Ok eMirroredRepeat
  | TSC.ClampToEdge => Ok eClampToEdge
  | TSC.ClampToBorder => Ok eClampToBorder
  | TSC.Clamp => Ok eClampToEdge
  | TSC.MirrorClampToEdge => Ok eMirrorClampToEdge
  | TSC.MirrorClampToBorder => Ok eMirrorClampToEdge
  | TSC.MirrorClamp => Ok eMirrorClampToEdge
  | TSC.AddressMode_other _ => Undefined
  end.

(** The lambda [convertAddressModeWithCheck] of [GetSampler];
    [supportsSamplerMirrorClampToEdge] is the host trait.  The result is
    the Vulkan mode and the warnings logged. *)
Definition convertAddressModeWithCheck (supportsSamplerMirrorClampToEdge : bool)
    (mode : TSC.AddressMode) : Result (VkSamplerAddressMode * list string) :=
  vkMode ← ConvertSamplerAddressMode mode;
  match vkMode, supportsSamplerMirrorClampToEdge with
  | eMirrorClampToEdge, false =>
      Ok (eClampToEdge,
          ["Cannot use Mirror Clamp To Edge as Sampler Address Mode without host GPU support"%string])
  | _, _ => Ok (vkMode, [])
  end.

(** A C++ [float] is an IEEE 754 binary32 number: 24 bits of precision,
    exponents below 128. *)
Definition float : Type := SpecFloat.spec_float.
Definition float_add (x y : float) : float := SpecFloat.SFadd 24 128 x y.
Definition float_eqb (x y : float) : bool := SpecFloat.SFeqb x y.
Definition float_gtb (x y : float) : bool := SpecFloat.SFltb y x.
(** The literals [1.0f] and [0.0f] *)
Definition float_one : float := SpecFloat.S754_finite false 8388608 (-23).
Definition float_zero : float := SpecFloat.S754_zero false.

Inductive VkBorderColor :=
| eFloatTransparentBlack | eFloatOpaqueBlack | eFloatOpaqueWhite | eFloatCustomEXT.

Definition VkBorderColor_eqb (x y : VkBorderColor) : bool :=
  match x, y with
  | eFloatTransparentBlack, eFloatTransparentBlack
  | eFloatOpaqueBlack, eFloatOpaqueBlack
  | eFloatOpaqueWhite, eFloatOpaqueWhite
  | eFloatCustomEXT, eFloatCustomEXT => true
  | _, _ => false
  end.

(** [ConvertBorderColorWithCustom] *)
Definition ConvertBorderColorWithCustom (red green blue alpha : float) : VkBorderColor :=
  if float_eqb alpha float_one then
    if float_eqb red float_one && float_eqb green float_one && float_eqb blue float_one
    then eFloatOpaqueWhite
    else if float_eqb red float_zero && float_eqb green float_zero && float_eqb blue float_zero
    then eFloatOpaqueBlack
    else eFloatCustomEXT
  else if float_eqb red float_one && float_eqb green float_one && float_eqb blue float_one
          && float_eqb alpha float_zero
  then eFloatTransparentBlack
  else eFloatCustomEXT.

(** [ConvertBorderColorFixed]: the same three tests, then an approximation
    by one of the fixed colours. *)
Definition ConvertBorderColorFixed (red green blue alpha : float) : VkBorderColor :=
  let approximation :=
    if float_gtb (float_add (float_add red green) blue) float_one
    then eFloatOpaqueWhite
    else if float_gtb alpha float_zero
    then eFloatOpaqueBlack
    else eFloatTransparentBlack in
  if float_eqb alpha float_one then
    if float_eqb red float_one && float_eqb green float_one && float_eqb blue float_one
    then eFloatOpaqueWhite
    else if float_eqb red float_zero && float_eqb green float_zero && float_eqb blue float_zero
    then eFloatOpaqueBlack
    else approximation
  else if float_eqb red float_one && float_eqb green float_one && float_eqb blue float_one
          && float_eqb alpha float_zero
  then eFloatTransparentBlack
  else approximation.

(** The border colour of the sampler that [GetSampler] creates, and whether
    the custom border colour structure stays linked in the structure
    chain; [supportsCustomBorderColor] is the host trait. *)
Definition GetSampler_borderColor (supportsCustomBorderColor : bool)
    (borderColorR borderColorG borderColorB borderColorA : float) : VkBorderColor * bool :=
  if supportsCustomBorderColor then
    let borderColor :=
      ConvertBorderColorWithCustom borderColorR borderColorG borderColorB borderColorA in
    (borderColor, VkBorderColor_eqb borderColor eFloatCustomEXT)
  else
    (ConvertBorderColorFixed borderColorR borderColorG borderColorB borderColorA, false).

(** ** [TraitManager]: the traits of the host GPU *)

Module TraitManager.

(** [vk::ExtensionProperties] *)
Record ExtensionProperties := {
  extensionName : string;
  specVersion : Z;
}.

(** The booleans that the constructor writes through its [EXT_SET] and
    [FEAT_SET] macros: the members of [TraitManager], then the locals of
    the constructor. *)
Inductive Property :=
| supportsUint8Indices | supportsSamplerMirrorClampToEdge | supportsSamplerReductionMode
| supportsCustomBorderColor | supportsLastProvokingVertex | supportsLogicOp
| supportsVertexAttributeDivisor | supportsVertexAttributeZeroDivisor
| supportsMultipleViewports | supportsShaderViewportIndexLayer | supportsSpirv14
| supportsShaderDemoteToHelper | supportsFloat16 | supportsInt8 | supportsInt16 | supportsInt64
| supportsAtomicInt64 | supportsFloatControls | supportsImageReadWithoutFormat
| supportsTopologyListRestart | supportsTopologyPatchListRestart | supportsSubgroupVote
| hasCustomBorderColorExt | hasShaderAtomicInt64Ext | hasShaderFloat16Int8Ext
| hasShaderDemoteToHelperExt | hasVertexAttributeDivisorExt | hasProvokingVertexExt
| hasPrimitiveTopologyListRestartExt | supportsUniformBufferStandardLayout
| hasCustomBorderColorFeature.

Definition Property_eqb (x y : Property) : bool :=
  match x, y with
  | supportsUint8Indices, supportsUint8Indices
  | supportsSamplerMirrorClampToEdge, supportsSamplerMirrorClampToEdge
  | supportsSamplerReductionMode, supportsSamplerReductionMode
  | supportsCustomBorderColor, supportsCustomBorderColor
  | supportsLastProvokingVertex, supportsLastProvokingVertex
  | supportsLogicOp, supportsLogicOp
  | supportsVertexAttributeDivisor, supportsVertexAttributeDivisor
  | supportsVertexAttributeZeroDivisor, supportsVertexAttributeZeroDivisor
  | supportsMultipleViewports, supportsMultipleViewports
  | supportsShaderViewportIndexLayer, supportsShaderViewportIndexLayer
  | supportsSpirv14, supportsSpirv14
  | supportsShaderDemoteToHelper, supportsShaderDemoteToHelper
  | supportsFloat16, supportsFloat16
  | supportsInt8, supportsInt8
  | supportsInt16, supportsInt16
  | supportsInt64, supportsInt64
  | supportsAtomicInt64, supportsAtomicInt64
  | supportsFloatControls, supportsFloatControls
  | supportsImageReadWithoutFormat, supportsImageReadWithoutFormat
  | supportsTopologyListRestart, supportsTopologyListRestart
  | supportsTopologyPatchListRestart, supportsTopologyPatchListRestart
  | supportsSubgroupVote, supportsSubgroupVote
  | hasCustomBorderColorExt, hasCustomBorderColorExt
  | hasShaderAtomicInt64Ext, hasShaderAtomicInt64Ext
  | hasShaderFloat16Int8Ext, hasShaderFloat16Int8Ext
  | hasShaderDemoteToHelperExt, hasShaderDemoteToHelperExt
  | hasVertexAttributeDivisorExt, hasVertexAttributeDivisorExt
  | hasProvokingVertexExt, hasProvokingVertexExt
  | hasPrimitiveTopologyListRestartExt, hasPrimitiveTopologyListRestartExt
  | supportsUniformBufferStandardLayout, supportsUniformBufferStandardLayout
  | hasCustomBorderColorFeature, hasCustomBorderColorFeature => true
  | _, _ => false
  end.

Definition is_local (p : Property) : bool :=
  match p with
  | hasCustomBorderColorExt
  | hasShaderAtomicInt64Ext
  | hasShaderFloat16Int8Ext
  | hasShaderDemoteToHelperExt
  | hasVertexAttributeDivisorExt
  | hasProvokingVertexExt
  | hasPrimitiveTopologyListRestartExt
  | supportsUniformBufferStandardLayout
  | hasCustomBorderColorFeature => true
  | _ => false
  end.

(** The structures of the feature chain ([DeviceFeatures2]) and the
    feature members that the constructor reads and writes. *)
Inductive FeatureStruct :=
| PhysicalDeviceFeatures2
| PhysicalDeviceCustomBorderColorFeaturesEXT
| PhysicalDeviceVertexAttributeDivisorFeaturesEXT
| PhysicalDeviceProvokingVertexFeaturesEXT
| PhysicalDeviceShaderAtomicInt64Features
| PhysicalDeviceShaderFloat16Int8Features
| PhysicalDeviceShaderDemoteToHelperInvocationFeaturesEXT
| PhysicalDeviceUniformBufferStandardLayoutFeatures
| PhysicalDevicePrimitiveTopologyListRestartFeaturesEXT.

Definition FeatureStruct_eqb (x y : FeatureStruct) : bool :=
  match x, y with
  | PhysicalDeviceFeatures2, PhysicalDeviceFeatures2
  | PhysicalDeviceCustomBorderColorFeaturesEXT, PhysicalDeviceCustomBorderColorFeaturesEXT
  | PhysicalDeviceVertexAttributeDivisorFeaturesEXT, PhysicalDeviceVertexAttributeDivisorFeaturesEXT
  | PhysicalDeviceProvokingVertexFeaturesEXT, PhysicalDeviceProvokingVertexFeaturesEXT
  | PhysicalDeviceShaderAtomicInt64Features, PhysicalDeviceShaderAtomicInt64Features
  | PhysicalDeviceShaderFloat16Int8Features, PhysicalDeviceShaderFloat16Int8Features
  | PhysicalDeviceShaderDemoteToHelperInvocationFeaturesEXT, PhysicalDeviceShaderDemoteToHelperInvocationFeaturesEXT
  | PhysicalDeviceUniformBufferStandardLayoutFeatures, PhysicalDeviceUniformBufferStandardLayoutFeatures
  | PhysicalDevicePrimitiveTopologyListRestartFeaturesEXT, PhysicalDevicePrimitiveTopologyListRestartFeaturesEXT => true
  | _, _ => false
  end.

Inductive Feature :=
| logicOp | multiViewport | shaderInt16 | shaderInt64 | shaderStorageImageReadWithoutFormat
| customBorderColors | customBorderColorWithoutFormat | vertexAttributeInstanceRateDivisor
| vertexAttributeInstanceRateZeroDivisor | provokingVertexLast | shaderBufferInt64Atomics
| shaderSharedInt64Atomics | shaderFloat16 | shaderInt8 | shaderDemoteToHelperInvocation
| uniformBufferStandardLayout | primitiveTopologyListRestart | primitiveTopologyPatchListRestart.

Definition Feature_eqb (x y : Feature) : bool :=
  match x, y with
  | logicOp, logicOp
  | multiViewport, multiViewport
  | shaderInt16, shaderInt16
  | shaderInt64, shaderInt64
  | shaderStorageImageReadWithoutFormat, shaderStorageImageReadWithoutFormat
  | customBorderColors, customBorderColors
  | customBorderColorWithoutFormat, customBorderColorWithoutFormat
  | vertexAttributeInstanceRateDivisor, vertexAttributeInstanceRateDivisor
  | vertexAttributeInstanceRateZeroDivisor, vertexAttributeInstanceRateZeroDivisor
  | provokingVertexLast, provokingVertexLast
  | shaderBufferInt64Atomics, shaderBufferInt64Atomics
  | shaderSharedInt64Atomics, shaderSharedInt64Atomics
  | shaderFloat16, shaderFloat16
  | shaderInt8, shaderInt8
  | shaderDemoteToHelperInvocation, shaderDemoteToHelperInvocation
  | uniformBufferStandardLayout, uniformBufferStandardLayout
  | primitiveTopologyListRestart, primitiveTopologyListRestart
  | primitiveTopologyPatchListRestart, primitiveTopologyPatchListRestart => true
  | _, _ => false
  end.

(** A feature chain: [get<structName>().feature], and whether the
    structure is still linked into the chain. *)
Definition Features : Type := FeatureStruct -> Feature -> bool.

Definition set_property (p : Property) (value : bool) (m : Property -> bool) : Property -> bool :=
  fun q => if Property_eqb q p then value else m q.

Definition set_feature (structName : FeatureStruct) (feature : Feature) (value : bool)
    (m : Features) : Features :=
  fun s f => if FeatureStruct_eqb s structName && Feature_eqb f feature then value else m s f.

Definition set_linked (structName : FeatureStruct) (value : bool) (m : FeatureStruct -> bool)
  : FeatureStruct -> bool :=
  fun s => if FeatureStruct_eqb s structName then value else m s.

(** What the constructor writes: the properties, the features it enables
    in [enabledFeatures2] and the structures it leaves linked there, the
    extensions it enables, the warnings it logs, and the two members copied
    from the device properties. *)
Record t {FloatControls : Type} := {
  properties : Property -> bool;
  enabledFeatures2 : Features;
  linked : FeatureStruct -> bool;
  enabledExtensions : list string;
  logged : list string;
  floatControls : FloatControls;
  subgroupSize : Z;
}.
Arguments t : clear implicits.

Section Constructor.

Context {FloatControls : Type}.

(** [util::Hash], which is not part of these sources. *)
Variable Hash : string -> Z.

(** The body of an [EXT_SET] case. *)
Definition EXT_SET (name : string) (property : Property) (extensionName : string)
    (s : t FloatControls) : t FloatControls :=
  if String.eqb name extensionName
  then {| properties := set_property property true (properties s);
          enabledFeatures2 := enabledFeatures2 s;
          linked := linked s;
          enabledExtensions := enabledExtensions s ++ [name];
          logged := logged s;
          floatControls := floatControls s;
          subgroupSize := subgroupSize s |}
  else s.

(** The cases of the [switch] over the hash of the extension name, in the
    order of the source. *)
Definition extension_cases : list (string * Property) :=
  [ ("VK_EXT_index_type_uint8"%string, supportsUint8Indices);
    ("VK_EXT_sampler_mirror_clamp_to_edge"%string, supportsSamplerMirrorClampToEdge);
    ("VK_EXT_sampler_filter_minmax"%string, supportsSamplerReductionMode);
    ("VK_EXT_custom_border_color"%string, hasCustomBorderColorExt);
    ("VK_EXT_provoking_vertex"%string, hasProvokingVertexExt);
    ("VK_EXT_vertex_attribute_divisor"%string, hasVertexAttributeDivisorExt);
    ("VK_EXT_shader_viewport_index_layer"%string, supportsShaderViewportIndexLayer);
    ("VK_KHR_spirv_1_4"%string, supportsSpirv14);
    ("VK_EXT_shader_demote_to_helper_invocation"%string, hasShaderDemoteToHelperExt);
    ("VK_KHR_shader_atomic_int64"%string, hasShaderAtomicInt64Ext);
    ("VK_KHR_shader_float16_int8"%string, hasShaderFloat16Int8Ext);
    ("VK_KHR_shader_float_controls"%string, supportsFloatControls);
    ("VK_KHR_uniform_buffer_standard_layout"%string, supportsUniformBufferStandardLayout);
    ("VK_EXT_primitive_topology_list_restart"%string, hasPrimitiveTopologyListRestartExt) ].

(** The [switch]: the case whose label is the hash of the extension name
    is run, and there is no default. *)
Fixpoint switch_Hash (cases : list (string * Property)) (extensionName : string)
    (s : t FloatControls) : t FloatControls :=
  match cases with
  | [] => s
  | (name, property) :: rest =>
      if Hash name =? Hash extensionName
      then EXT_SET name property extensionName s
      else switch_Hash rest extensionName s
  end.

(** The loop over the device extensions. *)
Definition extension_loop (deviceExtensions : list ExtensionProperties) (s : t FloatControls)
  : t FloatControls :=
  fold_left (fun s extension => switch_Hash extension_cases (extensionName extension) s)
    deviceExtensions s.

Variable deviceFeatures2 : Features.

(** The macro [FEAT_SET(structName, feature, property)] *)
Definition FEAT_SET (structName : FeatureStruct) (feature : Feature) (property : Property)
    (s : t FloatControls) : t FloatControls :=
  if deviceFeatures2 structName feature
  then {| properties := set_property property true (properties s);
          enabledFeatures2 := set_feature structName feature true (enabledFeatures2 s);
          linked := linked s;
          enabledExtensions := enabledExtensions s;
          logged := logged s;
          floatControls := floatControls s;
          subgroupSize := subgroupSize s |}
  else s.

(** [enabledFeatures2.unlink<structName>()] *)
Definition unlink (structName : FeatureStruct) (s : t FloatControls) : t FloatControls :=
  {| properties := properties s;
     enabledFeatures2 := enabledFeatures2 s;
     linked := set_linked structName false (linked s);
     enabledExtensions := enabledExtensions s;
     logged := logged s;
     floatControls := floatControls s;
     subgroupSize := subgroupSize s |}.

Definition assign (property : Property) (value : bool) (s : t FloatControls) : t FloatControls :=
  {| properties := set_property property value (properties s);
     enabledFeatures2 := enabledFeatures2 s;
     linked := linked s;
     enabledExtensions := enabledExtensions s;
     logged := logged s;
     floatControls := floatControls s;
     subgroupSize := subgroupSize s |}.

Definition Warn (message : string) (s : t FloatControls) : t FloatControls :=
  {| properties := properties s;
     enabledFeatures2 := enabledFeatures2 s;
     linked := linked s;
     enabledExtensions := enabledExtensions s;
     logged := logged s ++ [message];
     floatControls := floatControls s;
     subgroupSize := subgroupSize s |}.

(** [vk::SubgroupFeatureFlagBits::eVote] *)
Definition SubgroupFeature_eVote : Z := 2.

(** The state the constructor starts from: the members as their
    declarations initialise them ([members]; the class declaration is not
    part of these sources), the locals [false], and the caller's
    [enabledFeatures2] and [enabledExtensions]. *)
Definition initial (members : Property -> bool) (memberFloatControls : FloatControls)
    (memberSubgroupSize : Z) (enabled : Features) (enabledLinked : FeatureStruct -> bool)
    (extensions : list string) : t FloatControls :=
  {| properties := fun p => if is_local p then false else members p;
     enabledFeatures2 := enabled;
     linked := enabledLinked;
     enabledExtensions := extensions;
     logged := [];
     floatControls := memberFloatControls;
     subgroupSize := memberSubgroupSize |}.

(** [TraitManager::TraitManager], from the state [initial] builds;
    [deviceFloatControls], [supportedOperations] and [deviceSubgroupSize]
    are read from [deviceProperties2].  The member [quirks] is built by its
    own constructor before the body runs and is not part of this state. *)
Definition TraitManager (deviceExtensions : list ExtensionProperties)
    (deviceFloatControls : FloatControls) (supportedOperations deviceSubgroupSize : Z)
    (s : t FloatControls) : t FloatControls :=
  let s := extension_loop deviceExtensions s in
  let s := FEAT_SET PhysicalDeviceFeatures2 logicOp supportsLogicOp s in
  let s := FEAT_SET PhysicalDeviceFeatures2 multiViewport supportsMultipleViewports s in
  let s := FEAT_SET PhysicalDeviceFeatures2 shaderInt16 supportsInt16 s in
  let s := FEAT_SET PhysicalDeviceFeatures2 shaderInt64 supportsInt64 s in
  let s :=
    FEAT_SET PhysicalDeviceFeatures2 shaderStorageImageReadWithoutFormat
      supportsImageReadWithoutFormat s in
  let s :=
    if properties s hasCustomBorderColorExt then
      let s := assign hasCustomBorderColorFeature false s in
      let s :=
        FEAT_SET PhysicalDeviceCustomBorderColorFeaturesEXT customBorderColors
          hasCustomBorderColorFeature s in
      if properties s hasCustomBorderColorFeature
      then FEAT_SET PhysicalDeviceCustomBorderColorFeaturesEXT customBorderColorWithoutFormat
             supportsCustomBorderColor s
      else s
    else unlink PhysicalDeviceCustomBorderColorFeaturesEXT s in
  let s :=
    if properties s hasVertexAttributeDivisorExt then
      let s :=
        FEAT_SET PhysicalDeviceVertexAttributeDivisorFeaturesEXT
          vertexAttributeInstanceRateDivisor supportsVertexAttributeDivisor s in
      FEAT_SET PhysicalDeviceVertexAttributeDivisorFeaturesEXT
        vertexAttributeInstanceRateZeroDivisor supportsVertexAttributeZeroDivisor s
    else unlink PhysicalDeviceVertexAttributeDivisorFeaturesEXT s in
  let s :=
    if properties s hasProvokingVertexExt
    then FEAT_SET PhysicalDeviceProvokingVertexFeaturesEXT provokingVertexLast
           supportsLastProvokingVertex s
    else unlink PhysicalDeviceProvokingVertexFeaturesEXT s in
  let s :=
    if properties s hasShaderAtomicInt64Ext
       && deviceFeatures2 PhysicalDeviceShaderAtomicInt64Features shaderBufferInt64Atomics
       && deviceFeatures2 PhysicalDeviceShaderAtomicInt64Features shaderSharedInt64Atomics
    then assign supportsAtomicInt64 true s
    else unlink PhysicalDeviceShaderAtomicInt64Features s in
  let s :=
    if properties s hasShaderFloat16Int8Ext then
      let s := FEAT_SET PhysicalDeviceShaderFloat16Int8Features shaderFloat16 supportsFloat16 s in
      FEAT_SET PhysicalDeviceShaderFloat16Int8Features shaderInt8 supportsInt8 s
    else unlink PhysicalDeviceShaderFloat16Int8Features s in
  let s :=
    if properties s hasShaderDemoteToHelperExt
    then FEAT_SET PhysicalDeviceShaderDemoteToHelperInvocationFeaturesEXT
           shaderDemoteToHelperInvocation supportsShaderDemoteToHelper s
    else unlink PhysicalDeviceShaderDemoteToHelperInvocationFeaturesEXT s in
  let s :=
    if properties s supportsUniformBufferStandardLayout
    then FEAT_SET PhysicalDeviceUniformBufferStandardLayoutFeatures uniformBufferStandardLayout
           supportsUniformBufferStandardLayout s
    else Warn "Cannot find VK_KHR_uniform_buffer_standard_layout, assuming implicit support"
           (unlink PhysicalDeviceUniformBufferStandardLayoutFeatures s) in
  let s :=
    if properties s hasPrimitiveTopologyListRestartExt then
      let s :=
        FEAT_SET PhysicalDevicePrimitiveTopologyListRestartFeaturesEXT
          primitiveTopologyListRestart supportsTopologyListRestart s in
      FEAT_SET PhysicalDevicePrimitiveTopologyListRestartFeaturesEXT
        primitiveTopologyPatchListRestart supportsTopologyPatchListRestart s
    else unlink PhysicalDevicePrimitiveTopologyListRestartFeaturesEXT s in
  let s := assign supportsSubgroupVote
             (negb (Z.land supportedOperations SubgroupFeature_eVote =? 0)) s in
  {| properties := properties s;
     enabledFeatures2 := enabledFeatures2 s;
     linked := linked s;
     enabledExtensions := enabledExtensions s;
     logged := logged s;
     floatControls :=
       if properties s supportsFloatControls then deviceFloatControls else floatControls s;
     subgroupSize := deviceSubgroupSize |}.

End Constructor.

End TraitManager.

(** * Properties *)

(** ** Comparison operators decide what they compare *)

Lemma span_eqb_eq (x y : span) : span_eqb x y = true <-> x = y.
Proof.
  destruct x as [dx sx], y as [dy sy]; unfold span_eqb; simpl.
  rewrite andb_true_iff, !Z.eqb_eq.
  split; [intros [-> ->]; reflexivity | intros [= -> ->]; auto].
Qed.

Lemma Mappings_eqb_eq (xs ys : list span) : Mappings_eqb xs ys = true <-> xs = ys.
Proof.
  revert ys; induction xs as [|x xs IH]; intros [|y ys]; simpl;
    try (split; [discriminate | discriminate]); [tauto|].
  rewrite andb_true_iff, span_eqb_eq, IH.
  split; [intros [-> ->]; reflexivity | intros [= -> ->]; auto].
Qed.

Lemma Dimensions_eqb_eq (x y : texture.Dimensions) :
  texture.Dimensions_eqb x y = true <-> x = y.
Proof.
  destruct x, y; unfold texture.Dimensions_eqb; simpl.
  rewrite !andb_true_iff, !Z.eqb_eq.
  split; [intros [[-> ->] ->]; reflexivity | intros [= -> -> ->]; auto].
Qed.

Lemma TextureType_eqb_eq (x y : texture.TextureType) :
  texture.TextureType_eqb x y = true <-> x = y.
Proof. destruct x, y; simpl; split; congruence. Qed.

Lemma ImageViewType_eqb_eq (x y : vk.ImageViewType.t) :
  vk.ImageViewType.eqb x y = true <-> x = y.
Proof. destruct x, y; simpl; split; congruence. Qed.

Lemma ComponentSwizzle_eqb_eq (x y : vk.ComponentSwizzle.t) :
  vk.ComponentSwizzle.eqb x y = true <-> x = y.
Proof. destruct x, y; simpl; split; congruence. Qed.

Lemma ComponentMapping_eqb_eq (x y : vk.ComponentMapping) :
  vk.ComponentMapping_eqb x y = true <-> x = y.
Proof.
  destruct x, y; unfold vk.ComponentMapping_eqb; simpl.
  rewrite !andb_true_iff, !ComponentSwizzle_eqb_eq.
  split; [intros [[[-> ->] ->] ->]; reflexivity | intros [= -> -> -> ->]; auto].
Qed.

Lemma ImageSubresourceRange_eqb_eq (x y : vk.ImageSubresourceRange) :
  vk.ImageSubresourceRange_eqb x y = true <-> x = y.
Proof.
  destruct x, y; unfold vk.ImageSubresourceRange_eqb; simpl.
  rewrite !andb_true_iff, !Z.eqb_eq.
  split; [intros [[[[-> ->] ->] ->] ->]; reflexivity | intros [= -> -> -> -> ->]; auto].
Qed.

(** What [Format::operator==] decides: both formats are null, or neither is
    and they name the same host format. *)
Definition same_format (x y : texture.Format) : Prop :=
  match x, y with
  | Some bx, Some by_ => texture.vkFormat bx = texture.vkFormat by_
  | None, None => True
  | _, _ => False
  end.

Lemma Format_eqb_same (x y : texture.Format) :
  texture.Format_eqb x y = true <-> same_format x y.
Proof.
  destruct x as [bx|], y as [by_|]; simpl; try tauto;
    try (split; [discriminate | contradiction]).
  unfold texture.FormatBase_eqb; apply Z.eqb_eq.
Qed.

(** What [TileConfig::operator==] decides: the modes agree, and so do the
    parameters that the mode gives a meaning to. *)
Definition same_tiling (x y : texture.TileConfig) : Prop :=
  texture.mode x = texture.mode y
  /\ match texture.mode x with
     | texture.Linear => True
     | texture.Pitch => texture.pitch x = texture.pitch y
     | texture.Block =>
         texture.tileBlockHeight x = texture.tileBlockHeight y
         /\ texture.tileBlockDepth x = texture.tileBlockDepth y
     end.

Lemma TileConfig_eqb_same (x y : texture.TileConfig) :
  texture.TileConfig_eqb x y = true <-> same_tiling x y.
Proof.
  unfold texture.TileConfig_eqb, same_tiling.
  destruct (texture.mode x) eqn:Hx, (texture.mode y) eqn:Hy; simpl;
    try (split; [discriminate | intros [? _]; discriminate]).
  - tauto.
  - rewrite Z.eqb_eq; tauto.
  - rewrite andb_true_iff, !Z.eqb_eq; tauto.
Qed.

(** ** Shapes and sizes *)

(** The quotient rounded up, as arithmetic has it. *)
Definition ceil_div (a b : Z) : Z := - ((- a) / b).

Lemma DivideCeil_is_ceiling (a b : Z) : 0 < b -> texture.DivideCeil a b = ceil_div a b.
Proof.
  intros Hb; unfold texture.DivideCeil, ceil_div.
  pose proof (Z.div_mod a b ltac:(lia)) as Hdm.
  pose proof (Z.mod_pos_bound a b Hb) as Hm.
  destruct (Z.eqb_spec (a mod b) 0) as [H0|Hn0].
  - assert (Ha : a = (a / b) * b) by lia.
    replace (- a) with ((- (a / b)) * b) by lia.
    rewrite Z.div_mul by lia. lia.
  - symmetry. apply Z.opp_inj. rewrite Z.opp_involutive.
    symmetry. apply (Z.div_unique (- a) b (- (a / b + 1)) (b - a mod b)); lia.
Qed.

(** The size as the specification words it: the product of the two rounded-up block
    counts, the bytes per block and the depth, over the integers. *)
Definition GetSize_exact (f : texture.FormatBase) (width height depth : Z) : Z :=
  ceil_div width (texture.blockWidth f) * ceil_div height (texture.blockHeight f)
  * texture.bpb f * depth.

Lemma GetSize_modular (f : texture.FormatBase) (w h d : Z) :
  texture.GetSize f w h d
  = (texture.DivideCeil w (texture.blockWidth f) * texture.DivideCeil h (texture.blockHeight f)
     * texture.bpb f * d) mod u32_modulus.
Proof.
  unfold texture.GetSize, u32_mul.
  set (a := texture.DivideCeil w (texture.blockWidth f)).
  set (b := texture.DivideCeil h (texture.blockHeight f)).
  assert (Hm : u32_modulus <> 0) by (unfold u32_modulus; lia).
  rewrite (Z.mul_mod_idemp_l (((a * b) mod u32_modulus * texture.bpb f)) d) by exact Hm.
  rewrite <- (Z.mul_assoc ((a * b) mod u32_modulus)).
  rewrite (Z.mul_mod_idemp_l (a * b)) by exact Hm.
  rewrite !Z.mul_assoc. reflexivity.
Qed.

(** A four-byte uncompressed format, [R8G8B8A8Unorm] in Vulkan's numbering. *)
Definition rgba8 : texture.FormatBase :=
  {| texture.bpb := 4;
     texture.vkFormat := 37;
     texture.vkAspect := vk.ImageAspect_eColor;
     texture.blockHeight := 1;
     texture.blockWidth := 1;
     texture.swizzleMapping :=
       {| vk.r := vk.ComponentSwizzle.eR; vk.g := vk.ComponentSwizzle.eG;
          vk.b := vk.ComponentSwizzle.eB; vk.a := vk.ComponentSwizzle.eA |};
     texture.stencilFirst := false |}.

(** C9: [Dimensions::GetType] looks at the depth, then at the height, and
    never at the width: the result is 3D exactly when the depth exceeds one,
    otherwise 2D exactly when the height exceeds one, otherwise 1D.  So
    [(w, 1, 1)] is 1D for every [w], and [(0, 2, 1)] is 2D. *)
Theorem GetType_by_depth_then_height :
  forall d : texture.Dimensions,
    (texture.GetType d = vk.ImageType.e3D <-> texture.depth d > 1)
    /\ (texture.GetType d = vk.ImageType.e2D
        <-> texture.depth d <= 1 /\ texture.height d > 1)
    /\ (texture.GetType d = vk.ImageType.e1D
        <-> texture.depth d <= 1 /\ texture.height d <= 1)
    /\ (forall w : Z,
          texture.GetType
            {| texture.width := w; texture.height := texture.height d;
               texture.depth := texture.depth d |}
          = texture.GetType d)
    /\ (forall w : Z,
          texture.GetType {| texture.width := w; texture.height := 1; texture.depth := 1 |}
          = vk.ImageType.e1D)
    /\ texture.GetType {| texture.width := 0; texture.height := 2; texture.depth := 1 |}
       = vk.ImageType.e2D.
Proof.
  intros [w h d]; unfold texture.GetType; simpl.
  destruct (Z.gtb_spec d 1) as [Hd|Hd], (Z.gtb_spec h 1) as [Hh|Hh];
    repeat split; intros; try discriminate; try lia; try reflexivity;
    match goal with
    | H : _ /\ _ |- _ => destruct H; lia
    | _ => idtac
    end.
Qed.

(** C9, at the render target: the texture type [GetRenderTarget] derives
    from the dimensions [(0, 2, 1)] is the 2D one. *)
Lemma GetType_by_depth_then_height_witness :
  texture.TextureType_of_ImageType
    (texture.GetType {| texture.width := 0; texture.height := 2; texture.depth := 1 |})
  = texture.e2D.
Proof.
  rewrite (proj2 (proj2 (proj2 (proj2 (proj2
            (GetType_by_depth_then_height
               {| texture.width := 0; texture.height := 2; texture.depth := 1 |})))))).
  reflexivity.
Defined.

(** C10, as stated, fails: for the four-byte format and a 65536 by 65536
    texture, all of them values of the parameters' types, the product is
    [2^34] while [GetSize] returns [0]. *)
Lemma GetSize_exact_counterexample :
  is_u8 (texture.bpb rgba8) /\ is_u16 (texture.blockWidth rgba8)
  /\ is_u16 (texture.blockHeight rgba8) /\ is_u32 65536 /\ is_u32 1
  /\ GetSize_exact rgba8 65536 65536 1 = 17179869184
  /\ texture.GetSize rgba8 65536 65536 1 = 0
  /\ ~ (forall (f : texture.FormatBase) (w h d : Z),
          is_u8 (texture.bpb f) -> is_u16 (texture.blockWidth f) ->
          is_u16 (texture.blockHeight f) ->
          0 < texture.blockWidth f -> 0 < texture.blockHeight f ->
          is_u32 w -> is_u32 h -> is_u32 d ->
          texture.GetSize f w h d = GetSize_exact f w h d).
Proof.
  unfold is_u8, is_u16, is_u32.
  repeat split; try (simpl; lia); try reflexivity.
  intros H.
  specialize (H rgba8 65536 65536 1).
  unfold is_u8, is_u16, is_u32 in H; simpl in H.
  assert (Habs : texture.GetSize rgba8 65536 65536 1 = GetSize_exact rgba8 65536 65536 1)
    by (apply H; lia).
  vm_compute in Habs. discriminate Habs.
Qed.

(** C10, amended: [GetSize] is the product of the two rounded-up block
    counts, the bytes per block and the depth, reduced modulo [2^32]; it is
    the product itself whenever the product is below [2^32].  For a
    four-byte format with one-by-one blocks and dimensions 64 by 64 by 1 it
    is 16384. *)
Theorem GetSize_product_modulo_u32 :
  forall (f : texture.FormatBase) (w h d : Z),
    0 < texture.blockWidth f -> 0 < texture.blockHeight f ->
    texture.GetSize f w h d = GetSize_exact f w h d mod 2 ^ 32
    /\ (0 <= GetSize_exact f w h d < 2 ^ 32 ->
        texture.GetSize f w h d = GetSize_exact f w h d)
    /\ (texture.bpb f = 4 -> texture.blockWidth f = 1 -> texture.blockHeight f = 1 ->
        texture.IsCompressed f = false /\ texture.GetSize f 64 64 1 = 16384).
Proof.
  intros f w h d Hbw Hbh.
  assert (Hmod : texture.GetSize f w h d = GetSize_exact f w h d mod 2 ^ 32).
  { rewrite GetSize_modular. unfold GetSize_exact, u32_modulus.
    rewrite !DivideCeil_is_ceiling by assumption. reflexivity. }
  split; [exact Hmod|]. split.
  - intros Hrange. rewrite Hmod. apply Z.mod_small. exact Hrange.
  - intros Hb Hw Hh. split.
    + unfold texture.IsCompressed. rewrite Hw, Hh. reflexivity.
    + unfold texture.GetSize, texture.DivideCeil. rewrite Hb, Hw, Hh. reflexivity.
Qed.

Lemma GetSize_product_modulo_u32_witness :
  texture.GetSize rgba8 64 64 1 = GetSize_exact rgba8 64 64 1
  /\ texture.GetSize rgba8 64 64 1 = 16384.
Proof.
  assert (Hw : 0 < texture.blockWidth rgba8) by (simpl; lia).
  assert (Hh : 0 < texture.blockHeight rgba8) by (simpl; lia).
  destruct (GetSize_product_modulo_u32 rgba8 64 64 1 Hw Hh) as [_ [Hsmall Hex]].
  split.
  - apply Hsmall. vm_compute. split; [discriminate | reflexivity].
  - apply Hex; reflexivity.
Defined.

(** ** Descriptors and views as cache keys *)

Definition identity_swizzle : vk.ComponentMapping :=
  {| vk.r := vk.ComponentSwizzle.eR; vk.g := vk.ComponentSwizzle.eG;
     vk.b := vk.ComponentSwizzle.eB; vk.a := vk.ComponentSwizzle.eA |}.

(** Two depth-stencil formats over one host format ([eD24UnormS8Uint], 129
    in Vulkan's numbering) that differ in which channel comes first. *)
Definition depth_then_stencil : texture.FormatBase :=
  {| texture.bpb := 4;
     texture.vkFormat := 129;
     texture.vkAspect := Z.lor vk.ImageAspect_eDepth vk.ImageAspect_eStencil;
     texture.blockHeight := 1;
     texture.blockWidth := 1;
     texture.swizzleMapping := identity_swizzle;
     texture.stencilFirst := false |}.

Definition stencil_then_depth : texture.FormatBase :=
  {| texture.bpb := 4;
     texture.vkFormat := 129;
     texture.vkAspect := Z.lor vk.ImageAspect_eDepth vk.ImageAspect_eStencil;
     texture.blockHeight := 1;
     texture.blockWidth := 1;
     texture.swizzleMapping := identity_swizzle;
     texture.stencilFirst := true |}.

(** A 64 by 64 single-mapping block-linear descriptor of a given format. *)
Definition descriptor_of (f : texture.Format) : GuestTexture.t :=
  {| GuestTexture.mappings := [ {| span_data := 4096; span_size := 16384 |} ];
     GuestTexture.dimensions := {| texture.width := 64; texture.height := 64; texture.depth := 1 |};
     GuestTexture.format := f;
     GuestTexture.tileConfig := {| texture.mode := texture.Block; texture.storage := 16 + 256 * 1 |};
     GuestTexture.type := texture.e2D;
     GuestTexture.baseArrayLayer := 0;
     GuestTexture.layerCount := 1;
     GuestTexture.layerStride := 0;
     GuestTexture.swizzle := identity_swizzle;
     GuestTexture.aspect := match f with Some b => texture.vkAspect b | None => 0 end |}.

(** C4: two descriptors are cache-equal exactly when each of their
    mappings, dimensions, format, tile configuration, type, base layer,
    layer count and layer stride compares equal, every field with the
    comparison its type has in the header.  For the mappings, the
    dimensions, the type and the three layer numbers that is equality of
    the values; formats compare equal when both are null or both name the
    same host format ([FormatBase::operator==]); tile configurations
    compare equal when they have the same mode and the same parameters of
    that mode ([TileConfig::operator==]).  Two descriptors one of whose
    fields compares unequal are not cache-equal, and two descriptors with
    identical values in these fields are cache-equal, whichever instances
    they are. *)
Theorem cache_equal_fieldwise :
  forall x y : GuestTexture.t,
    (GuestTexture.cache_equal x y = true
     <-> Mappings_eqb (GuestTexture.mappings x) (GuestTexture.mappings y) = true
         /\ texture.Dimensions_eqb (GuestTexture.dimensions x) (GuestTexture.dimensions y) = true
         /\ texture.Format_eqb (GuestTexture.format x) (GuestTexture.format y) = true
         /\ texture.TileConfig_eqb (GuestTexture.tileConfig x) (GuestTexture.tileConfig y) = true
         /\ texture.TextureType_eqb (GuestTexture.type x) (GuestTexture.type y) = true
         /\ (GuestTexture.baseArrayLayer x =? GuestTexture.baseArrayLayer y) = true
         /\ (GuestTexture.layerCount x =? GuestTexture.layerCount y) = true
         /\ (GuestTexture.layerStride x =? GuestTexture.layerStride y) = true)
    /\ (GuestTexture.cache_equal x y = true
        <-> GuestTexture.mappings x = GuestTexture.mappings y
            /\ GuestTexture.dimensions x = GuestTexture.dimensions y
            /\ same_format (GuestTexture.format x) (GuestTexture.format y)
            /\ same_tiling (GuestTexture.tileConfig x) (GuestTexture.tileConfig y)
            /\ GuestTexture.type x = GuestTexture.type y
            /\ GuestTexture.baseArrayLayer x = GuestTexture.baseArrayLayer y
            /\ GuestTexture.layerCount x = GuestTexture.layerCount y
            /\ GuestTexture.layerStride x = GuestTexture.layerStride y)
    /\ (GuestTexture.cache_equal x y = false
        <-> Mappings_eqb (GuestTexture.mappings x) (GuestTexture.mappings y) = false
            \/ texture.Dimensions_eqb (GuestTexture.dimensions x) (GuestTexture.dimensions y) = false
            \/ texture.Format_eqb (GuestTexture.format x) (GuestTexture.format y) = false
            \/ texture.TileConfig_eqb (GuestTexture.tileConfig x) (GuestTexture.tileConfig y) = false
            \/ texture.TextureType_eqb (GuestTexture.type x) (GuestTexture.type y) = false
            \/ (GuestTexture.baseArrayLayer x =? GuestTexture.baseArrayLayer y) = false
            \/ (GuestTexture.layerCount x =? GuestTexture.layerCount y) = false
            \/ (GuestTexture.layerStride x =? GuestTexture.layerStride y) = false)
    /\ (GuestTexture.mappings x = GuestTexture.mappings y ->
        GuestTexture.dimensions x = GuestTexture.dimensions y ->
        GuestTexture.format x = GuestTexture.format y ->
        GuestTexture.tileConfig x = GuestTexture.tileConfig y ->
        GuestTexture.type x = GuestTexture.type y ->
        GuestTexture.baseArrayLayer x = GuestTexture.baseArrayLayer y ->
        GuestTexture.layerCount x = GuestTexture.layerCount y ->
        GuestTexture.layerStride x = GuestTexture.layerStride y ->
        GuestTexture.cache_equal x y = true).
Proof.
  intros x y.
  assert (Hiff : GuestTexture.cache_equal x y = true
     <-> GuestTexture.mappings x = GuestTexture.mappings y
         /\ GuestTexture.dimensions x = GuestTexture.dimensions y
         /\ same_format (GuestTexture.format x) (GuestTexture.format y)
         /\ same_tiling (GuestTexture.tileConfig x) (GuestTexture.tileConfig y)
         /\ GuestTexture.type x = GuestTexture.type y
         /\ GuestTexture.baseArrayLayer x = GuestTexture.baseArrayLayer y
         /\ GuestTexture.layerCount x = GuestTexture.layerCount y
         /\ GuestTexture.layerStride x = GuestTexture.layerStride y).
  { unfold GuestTexture.cache_equal.
    rewrite !andb_true_iff, Mappings_eqb_eq, Dimensions_eqb_eq, Format_eqb_same,
      TileConfig_eqb_same, TextureType_eqb_eq, !Z.eqb_eq.
    tauto. }
  split; [|split; [exact Hiff|split]].
  - unfold GuestTexture.cache_equal. rewrite !andb_true_iff. tauto.
  - unfold GuestTexture.cache_equal. rewrite !andb_false_iff. tauto.
  - intros Hm Hd Hf Ht Hty Hb Hc Hs. apply Hiff.
    rewrite Hm, Hd, Hf, Ht, Hty, Hb, Hc, Hs.
    repeat split; try reflexivity.
    + destruct (GuestTexture.format y); simpl; auto.
    + destruct (texture.mode (GuestTexture.tileConfig y)); auto.
Qed.

Lemma cache_equal_fieldwise_witness :
  GuestTexture.cache_equal (descriptor_of (Some rgba8)) (descriptor_of (Some rgba8)) = true
  /\ GuestTexture.cache_equal (descriptor_of (Some rgba8)) (descriptor_of (Some depth_then_stencil)) = false.
Proof.
  destruct (cache_equal_fieldwise (descriptor_of (Some rgba8)) (descriptor_of (Some rgba8)))
    as (_ & _ & _ & Hsame).
  destruct (cache_equal_fieldwise (descriptor_of (Some rgba8)) (descriptor_of (Some depth_then_stencil)))
    as (_ & _ & Hdiffer & _).
  split.
  - apply Hsame; reflexivity.
  - apply Hdiffer. right. right. left. reflexivity.
Defined.

(** A view of the first mip level and layer of the texture at address 1. *)
Definition view_of (f : texture.Format) : TextureView.t :=
  {| TextureView.view := None;
     TextureView.texture := 1;
     TextureView.type := vk.ImageViewType.e2D;
     TextureView.format := f;
     TextureView.mapping := identity_swizzle;
     TextureView.range :=
       {| vk.aspectMask := vk.ImageAspect_eColor; vk.baseMipLevel := 0; vk.levelCount := 1;
          vk.baseArrayLayer := 0; vk.layerCount := 1 |} |}.

(** The sRGB sibling of [rgba8], [R8G8B8A8Srgb] in Vulkan's numbering. *)
Definition rgba8_srgb : texture.FormatBase :=
  {| texture.bpb := 4;
     texture.vkFormat := 43;
     texture.vkAspect := vk.ImageAspect_eColor;
     texture.blockHeight := 1;
     texture.blockWidth := 1;
     texture.swizzleMapping := identity_swizzle;
     texture.stencilFirst := false |}.

(** C5, as stated, fails: two views of the same texture with the same
    range, view type and component mapping compare unequal when they are
    declared with different formats. *)
Lemma TextureView_eq_counterexample :
  TextureView.texture (view_of (Some rgba8)) = TextureView.texture (view_of (Some rgba8_srgb))
  /\ TextureView.range (view_of (Some rgba8)) = TextureView.range (view_of (Some rgba8_srgb))
  /\ TextureView.type (view_of (Some rgba8)) = TextureView.type (view_of (Some rgba8_srgb))
  /\ TextureView.mapping (view_of (Some rgba8)) = TextureView.mapping (view_of (Some rgba8_srgb))
  /\ TextureView.eqb (view_of (Some rgba8)) (view_of (Some rgba8_srgb)) = false
  /\ ~ (forall v w : TextureView.t,
          TextureView.eqb v w = true
          <-> TextureView.texture v = TextureView.texture w
              /\ TextureView.range v = TextureView.range w
              /\ TextureView.type v = TextureView.type w
              /\ TextureView.mapping v = TextureView.mapping w).
Proof.
  repeat split; try reflexivity.
  intros H.
  assert (Habs : TextureView.eqb (view_of (Some rgba8)) (view_of (Some rgba8_srgb)) = true)
    by (apply H; repeat split; reflexivity).
  vm_compute in Habs. discriminate Habs.
Qed.

(** C5, amended: two views compare equal exactly when they name the same
    texture, have the same view type, component mapping and subresource
    range, and their formats are both null or name the same host format. *)
Theorem TextureView_eq_fieldwise :
  forall v w : TextureView.t,
    TextureView.eqb v w = true
    <-> TextureView.texture v = TextureView.texture w
        /\ TextureView.type v = TextureView.type w
        /\ same_format (TextureView.format v) (TextureView.format w)
        /\ TextureView.mapping v = TextureView.mapping w
        /\ TextureView.range v = TextureView.range w.
Proof.
  intros v w. unfold TextureView.eqb.
  rewrite !andb_true_iff, Z.eqb_eq, ImageViewType_eqb_eq, Format_eqb_same,
    ComponentMapping_eqb_eq, ImageSubresourceRange_eqb_eq.
  tauto.
Qed.

Lemma TextureView_eq_fieldwise_witness :
  TextureView.eqb (view_of (Some depth_then_stencil)) (view_of (Some stencil_then_depth)) = true.
Proof.
  apply (proj2 (TextureView_eq_fieldwise (view_of (Some depth_then_stencil))
                  (view_of (Some stencil_then_depth)))).
  repeat split; reflexivity.
Defined.

(** ** The dirty state of a texture *)

(** A host environment and an empty store to run the operations in. *)
Definition example_host : Texture.Host :=
  {| Texture.AllocateImage := fun _ => Backing_MemoryImage 100 1;
     Texture.CreateMirror := fun _ =>
       ({| span_data := 4096; span_size := 16384 |}, {| span_data := 4096; span_size := 16384 |});
     Texture.TrapRegions := fun _ => 7;
     Texture.ImageTilingFor := fun _ => 0 |}.

Definition empty_store : Store :=
  {| textures := ∅; textureViews := ∅; managed := []; nextAddress := 1 |}.

(** C1: a texture constructed from a descriptor is [CpuDirty] (the spec's
    [HostPendingUpload]), and so is the texture behind the view that
    [FindOrCreate] returns on a cache miss, before any synchronisation. *)
Theorem new_texture_is_CpuDirty :
  forall (host : Texture.Host) (g : GuestTexture.t),
    Texture.dirtyState (Texture.of_guest host g) = CpuDirty
    /\ forall s : Store,
         lookup_descriptor (textures s) (managed s) g = None ->
         exists (vp : Z) (s' : Store) (v : TextureView.t) (x : Texture.t),
           FindOrCreate host g s = (vp, false, s')
           /\ textureViews s' !! vp = Some v
           /\ textures s' !! TextureView.texture v = Some x
           /\ Texture.guest x = Some g
           /\ Texture.dirtyState x = CpuDirty.
Proof.
  intros host g. split; [reflexivity|].
  intros s Hmiss. unfold FindOrCreate. rewrite Hmiss.
  eexists _, _, (full_view (nextAddress s) g), (Texture.of_guest host g).
  split; [reflexivity|]. simpl.
  split; [apply lookup_insert_eq|].
  split; [apply lookup_insert_eq|].
  split; reflexivity.
Qed.

Lemma new_texture_is_CpuDirty_witness :
  exists (vp : Z) (s' : Store) (v : TextureView.t) (x : Texture.t),
    FindOrCreate example_host (descriptor_of (Some rgba8)) empty_store = (vp, false, s')
    /\ textureViews s' !! vp = Some v
    /\ textures s' !! TextureView.texture v = Some x
    /\ Texture.guest x = Some (descriptor_of (Some rgba8))
    /\ Texture.dirtyState x = CpuDirty.
Proof.
  apply (proj2 (new_texture_is_CpuDirty example_host (descriptor_of (Some rgba8))) empty_store).
  reflexivity.
Defined.

(** The claim about one step of the state machine: the step does not take
    the state from [CpuDirty] to [GpuDirty]; when it enters [GpuDirty] it
    leaves [Clean]. *)
Definition enters_GpuDirty_from_Clean (step : Texture.t * Texture.t) : Prop :=
  ~ (Texture.dirtyState (fst step) = CpuDirty /\ Texture.dirtyState (snd step) = GpuDirty)
  /\ (Texture.dirtyState (snd step) = GpuDirty ->
      Texture.dirtyState (fst step) <> GpuDirty ->
      Texture.dirtyState (fst step) = Clean).

(** What the calls do: a call that enters [GpuDirty] is [MarkGpuDirty] on a
    [Clean] texture, or [SynchronizeHost] with [rwTrap] on a [CpuDirty]
    one. *)
Definition enters_GpuDirty_by (c : Call) (step : Texture.t * Texture.t) : Prop :=
  Texture.dirtyState (snd step) = GpuDirty ->
  Texture.dirtyState (fst step) <> GpuDirty ->
  (Texture.dirtyState (fst step) = Clean /\ c = CallMarkGpuDirty)
  \/ (Texture.dirtyState (fst step) = CpuDirty /\ c = CallSynchronizeHost true).

Lemma perform_enters_GpuDirty_by (c : Call) (x x' : Texture.t) :
  precondition c x = true -> perform c x = Ok x' -> enters_GpuDirty_by c (x, x').
Proof.
  unfold enters_GpuDirty_by; simpl.
  destruct c as [| |rwTrap|skipTrap| |]; simpl;
    unfold Texture.SynchronizeHost, Texture.SynchronizeGuest, Texture.MarkGpuDirty,
      Texture.TrapCallback, Texture.unlock;
    intros Hpre Hstep;
    destruct (Texture.dirtyState x) eqn:Hd;
    try destruct rwTrap;
    try destruct skipTrap;
    try (rewrite andb_false_r in Hpre);
    try discriminate;
    injection Hstep as <-; simpl; rewrite ?Hd;
    intros Hto Hfrom; try congruence; auto.
Qed.

Lemma enters_GpuDirty_without_rwTrap (c : Call) (step : Texture.t * Texture.t) :
  c <> CallSynchronizeHost true ->
  enters_GpuDirty_by c step -> enters_GpuDirty_from_Clean step.
Proof.
  unfold enters_GpuDirty_by, enters_GpuDirty_from_Clean.
  intros Hc Hby. split.
  - intros [Hfrom Hto].
    assert (Hne : Texture.dirtyState (fst step) <> GpuDirty) by congruence.
    destruct (Hby Hto Hne) as [[HClean _] | [_ Hcall]]; congruence.
  - intros Hto Hfrom.
    destruct (Hby Hto Hfrom) as [[HClean _] | [_ Hcall]]; congruence.
Qed.

Lemma run_starts_with (calls : list Call) (x : Texture.t) (trace : list Texture.t) :
  run calls x = Some trace -> exists rest, trace = x :: rest.
Proof.
  destruct calls as [|c calls]; simpl.
  - intros [= <-]. eauto.
  - destruct (precondition c x); [|discriminate].
    destruct (perform c x) as [x'| |]; try discriminate.
    destruct (run calls x'); [|discriminate].
    intros [= <-]. eauto.
Qed.

(** A fresh texture is locked and synchronised to the host with a
    read-write trap. *)
Definition rwTrap_calls : list Call := [CallLock; CallSynchronizeHost true].

(** C2, as stated, fails: a locked texture that is [CpuDirty], as every
    texture is when constructed, is taken to [GpuDirty] by one call of
    [SynchronizeHost] with [rwTrap] set.  Both calls of the sequence are
    within their preconditions. *)
Lemma no_CpuDirty_to_GpuDirty_step_counterexample :
  exists trace : list Texture.t,
    run rwTrap_calls (Texture.of_guest example_host (descriptor_of (Some rgba8))) = Some trace
    /\ map Texture.dirtyState trace = [CpuDirty; CpuDirty; GpuDirty]
    /\ ~ Forall enters_GpuDirty_from_Clean (adjacent trace)
    /\ ~ (forall (calls : list Call) (x : Texture.t) (trace' : list Texture.t),
            run calls x = Some trace' ->
            Forall enters_GpuDirty_from_Clean (adjacent trace')).
Proof.
  eexists. split; [reflexivity|]. split; [reflexivity|].
  assert (Hstep : ~ Forall enters_GpuDirty_from_Clean
                      (adjacent
                         [Texture.of_guest example_host (descriptor_of (Some rgba8));
                          Texture.set_mutex true
                            (Texture.of_guest example_host (descriptor_of (Some rgba8)));
                          Texture.SynchronizeHost true
                            (Texture.set_mutex true
                               (Texture.of_guest example_host (descriptor_of (Some rgba8))))])).
  { intros H. inversion H as [|? ? _ Hrest]; subst.
    inversion Hrest as [|? ? [Hno _] _]; subst.
    apply Hno. split; reflexivity. }
  split; [exact Hstep|].
  intros Hall. apply Hstep.
  apply (Hall rwTrap_calls (Texture.of_guest example_host (descriptor_of (Some rgba8)))).
  reflexivity.
Qed.

(** C2, amended: along every sequence of [lock], [unlock],
    [SynchronizeHost], [SynchronizeGuest], [MarkGpuDirty] calls and trap
    callbacks made within the stated preconditions, there is one state per
    call and a step enters [GpuDirty] only from [Clean], by [MarkGpuDirty],
    or from [CpuDirty], by [SynchronizeHost] with [rwTrap] set.  So along a
    sequence that never sets [rwTrap] no step takes the state from
    [CpuDirty] to [GpuDirty] and every step into [GpuDirty] starts in
    [Clean]. *)
Theorem GpuDirty_entered_from_Clean_or_by_rwTrap :
  forall (calls : list Call) (x : Texture.t) (trace : list Texture.t),
    run calls x = Some trace ->
    Forall2 enters_GpuDirty_by calls (adjacent trace)
    /\ (~ In (CallSynchronizeHost true) calls ->
        Forall enters_GpuDirty_from_Clean (adjacent trace)).
Proof.
  induction calls as [|c calls IH]; intros x trace; simpl.
  - intros [= <-]. split; [constructor | intros _; constructor].
  - destruct (precondition c x) eqn:Hpre; [|discriminate].
    destruct (perform c x) as [x'| |] eqn:Hstep; try discriminate.
    destruct (run calls x') as [trace'|] eqn:Hrun; [|discriminate].
    intros [= <-].
    destruct (run_starts_with _ _ _ Hrun) as [rest ->].
    change (adjacent (x :: x' :: rest)) with ((x, x') :: adjacent (x' :: rest)).
    destruct (IH x' (x' :: rest) Hrun) as [IHby IHclean].
    pose proof (perform_enters_GpuDirty_by c x x' Hpre Hstep) as Hby.
    split.
    + constructor; assumption.
    + intros Hnone. constructor.
      * apply (enters_GpuDirty_without_rwTrap c); [|exact Hby].
        intros ->. apply Hnone. left. reflexivity.
      * apply IHclean. intros Hin. apply Hnone. right. exact Hin.
Qed.

(** A fresh texture is locked, synchronised to the host, marked dirty on the
    GPU, synchronised back and unlocked; then the guest writes to it. *)
Definition example_calls : list Call :=
  [CallLock; CallSynchronizeHost false; CallMarkGpuDirty; CallSynchronizeGuest false;
   CallUnlock; CallTrap].

Lemma GpuDirty_entered_from_Clean_or_by_rwTrap_witness :
  exists trace : list Texture.t,
    run example_calls (Texture.of_guest example_host (descriptor_of (Some rgba8))) = Some trace
    /\ map Texture.dirtyState trace
       = [CpuDirty; CpuDirty; Clean; GpuDirty; Clean; Clean; CpuDirty]
    /\ Forall2 enters_GpuDirty_by example_calls (adjacent trace)
    /\ Forall enters_GpuDirty_from_Clean (adjacent trace).
Proof.
  eexists. split; [reflexivity|]. split; [reflexivity|].
  destruct (GpuDirty_entered_from_Clean_or_by_rwTrap example_calls
              (Texture.of_guest example_host (descriptor_of (Some rgba8))) _ eq_refl)
    as [Hby Hclean].
  split; [exact Hby|].
  apply Hclean. simpl. intros H.
  repeat (destruct H as [H|H]; [discriminate H|]). exact H.
Defined.

(** C3: with the texture locked, [MarkGpuDirty] takes [Clean] to
    [GpuDirty], leaves a [GpuDirty] texture as it is, and rejects the call
    on a [CpuDirty] texture, whose state it therefore does not change. *)
Theorem MarkGpuDirty_transitions :
  forall x : Texture.t,
    Texture.mutex x = true ->
    (Texture.dirtyState x = Clean ->
     exists x', Texture.MarkGpuDirty x = Ok x'
                /\ Texture.dirtyState x' = GpuDirty
                /\ Texture.mutex x' = true)
    /\ (Texture.dirtyState x = GpuDirty -> Texture.MarkGpuDirty x = Ok x)
    /\ (Texture.dirtyState x = CpuDirty ->
        throws (Texture.MarkGpuDirty x)
        /\ forall x', Texture.MarkGpuDirty x <> Ok x').
Proof.
  intros x Hlocked. unfold Texture.MarkGpuDirty, throws.
  split; [|split]; intros Hd; rewrite Hd.
  - eexists. split; [reflexivity|]. split; [reflexivity | exact Hlocked].
  - reflexivity.
  - split; [eauto | discriminate].
Qed.

Lemma MarkGpuDirty_transitions_witness :
  throws (Texture.MarkGpuDirty
            (Texture.set_mutex true (Texture.of_guest example_host (descriptor_of (Some rgba8))))).
Proof.
  apply (MarkGpuDirty_transitions
           (Texture.set_mutex true (Texture.of_guest example_host (descriptor_of (Some rgba8))))).
  - reflexivity.
  - reflexivity.
Defined.

(** ** Views across a change of backing *)

(** The members of a texture other than its backing and layout. *)
Definition same_but_backing (x y : Texture.t) : Prop :=
  Texture.mutex x = Texture.mutex y
  /\ Texture.mirror x = Texture.mirror y
  /\ Texture.alignedMirror x = Texture.alignedMirror y
  /\ Texture.trapHandle x = Texture.trapHandle y
  /\ Texture.trapProtection x = Texture.trapProtection y
  /\ Texture.dirtyState x = Texture.dirtyState y
  /\ Texture.views x = Texture.views y
  /\ Texture.cycle x = Texture.cycle y
  /\ Texture.guest x = Texture.guest y
  /\ Texture.dimensions x = Texture.dimensions y
  /\ Texture.format x = Texture.format y
  /\ Texture.tiling x = Texture.tiling y
  /\ Texture.mipLevels x = Texture.mipLevels y
  /\ Texture.layerCount x = Texture.layerCount y
  /\ Texture.sampleCount x = Texture.sampleCount y.

(** What a view declares, as opposed to the host object it caches. *)
Definition same_declaration (v w : TextureView.t) : Prop :=
  TextureView.texture v = TextureView.texture w
  /\ TextureView.type v = TextureView.type w
  /\ TextureView.format v = TextureView.format w
  /\ TextureView.mapping v = TextureView.mapping w
  /\ TextureView.range v = TextureView.range w.

Lemma GetView_targets_backing (s : Store) (vp : Z) (v : TextureView.t) (x : Texture.t) :
  textureViews s !! vp = Some v ->
  textures s !! TextureView.texture v = Some x ->
  exists (iv : ImageView) (s' : Store) (v' : TextureView.t),
    GetView vp s = Some (iv, s')
    /\ iv_image iv = Texture.GetBacking x
    /\ textures s' = textures s
    /\ textureViews s' !! vp = Some v'
    /\ same_declaration v' v.
Proof.
  intros Hv Hx. unfold GetView. rewrite Hv, Hx.
  destruct (TextureView.view v) as [iv|] eqn:Hcache.
  - destruct (Z.eqb_spec (iv_image iv) (Texture.GetBacking x)) as [Heq|Hne].
    + exists iv, s, v. repeat split; auto.
    + eexists _, _, (set_view (Some (make_ImageView v x)) v).
      split; [reflexivity|]. simpl.
      split; [reflexivity|]. split; [reflexivity|].
      split; [apply lookup_insert_eq | repeat split].
  - eexists _, _, (set_view (Some (make_ImageView v x)) v).
    split; [reflexivity|]. simpl.
    split; [reflexivity|]. split; [reflexivity|].
    split; [apply lookup_insert_eq | repeat split].
Qed.

(** C6: when the backing of a locked texture is swapped, the texture keeps
    every member other than the backing and its layout, no other texture
    and no view is touched, and [GetView] on a view that existed before the
    swap, taken at the same address, returns a host view of the new
    backing and leaves the view's declaration as it was. *)
Theorem SwapBacking_views_follow :
  forall (s : Store) (p vp : Z) (x : Texture.t) (v : TextureView.t)
         (b : BackingType) (l : vk.ImageLayout),
    textures s !! p = Some x ->
    Texture.mutex x = true ->
    textureViews s !! vp = Some v ->
    TextureView.texture v = p ->
    exists (s1 s2 : Store) (x1 : Texture.t) (iv : ImageView) (v2 : TextureView.t),
      SwapBacking_at p b l s = Some s1
      /\ textures s1 !! p = Some x1
      /\ Texture.backing x1 = b
      /\ Texture.layout x1 = l
      /\ same_but_backing x1 x
      /\ (forall q : Z, q <> p -> textures s1 !! q = textures s !! q)
      /\ textureViews s1 = textureViews s
      /\ GetView vp s1 = Some (iv, s2)
      /\ iv_image iv = Texture.GetBacking x1
      /\ textureViews s2 !! vp = Some v2
      /\ same_declaration v2 v.
Proof.
  intros s p vp x v b l Hx Hlocked Hv Hp.
  set (x1 := Texture.SwapBacking b l x).
  set (s1 := set_textures (<[p := x1]> (textures s)) s).
  assert (Hx1 : textures s1 !! TextureView.texture v = Some x1)
    by (rewrite Hp; apply lookup_insert_eq).
  assert (Hv1 : textureViews s1 !! vp = Some v) by exact Hv.
  destruct (GetView_targets_backing s1 vp v x1 Hv1 Hx1) as (iv & s2 & v2 & Hget & Himg & _ & Hv2 & Hdecl).
  exists s1, s2, x1, iv, v2.
  split; [unfold SwapBacking_at; rewrite Hx; reflexivity|].
  split; [rewrite <- Hp; exact Hx1|].
  split; [reflexivity|]. split; [reflexivity|].
  split; [repeat split|].
  split; [intros q Hq; apply lookup_insert_ne; congruence|].
  split; [reflexivity|].
  auto.
Qed.

(** A store holding one locked texture with an image, and one view of it
    whose host object was created over that image. *)
Definition example_texture : Texture.t :=
  Texture.set_mutex true (Texture.of_guest example_host (descriptor_of (Some rgba8))).

Definition example_view : TextureView.t :=
  set_view (Some (make_ImageView (view_of (Some rgba8)) example_texture)) (view_of (Some rgba8)).

Definition example_store : Store :=
  {| textures := {[ 1 := example_texture ]};
     textureViews := {[ 2 := example_view ]};
     managed := [1];
     nextAddress := 3 |}.

Lemma SwapBacking_views_follow_witness :
  iv_image (make_ImageView (view_of (Some rgba8)) example_texture) = 100
  /\ exists (s1 s2 : Store) (x1 : Texture.t) (iv : ImageView) (v2 : TextureView.t),
       SwapBacking_at 1 (Backing_Image 200) 0 example_store = Some s1
       /\ textures s1 !! 1 = Some x1
       /\ Texture.backing x1 = Backing_Image 200
       /\ Texture.layout x1 = 0
       /\ same_but_backing x1 example_texture
       /\ (forall q : Z, q <> 1 -> textures s1 !! q = textures example_store !! q)
       /\ textureViews s1 = textureViews example_store
       /\ GetView 2 s1 = Some (iv, s2)
       /\ iv_image iv = Texture.GetBacking x1
       /\ textureViews s2 !! 2 = Some v2
       /\ same_declaration v2 example_view.
Proof.
  split; [reflexivity|].
  apply (SwapBacking_views_follow example_store 1 2 example_texture example_view
           (Backing_Image 200) 0).
  - reflexivity.
  - reflexivity.
  - reflexivity.
  - reflexivity.
Defined.

(** ** Address translation that returns several mappings *)

Definition multiple_mappings_warning (count : nat) : string * Z :=
  ("Multiple buffer mappings ({}) are not supported"%string, Z.of_nat count).

Section MappingProperties.

Variable TranslateRange : Z -> Z -> list span.
Variable GetLayerSize : GuestTexture.t -> Z.
Variable buffer_FindOrCreate : span -> Z.
Variable texture_FindOrCreate : GuestTexture.t -> Z.
Variable ConstantBuffer_Read : ConstantBuffer -> Z -> Z * Z.

Lemma lookup_buffer_first_mapping (address size : Z) (ctx : GraphicsContext) (m : span) (rest : list span) :
  TranslateRange address size = m :: rest ->
  rest <> [] ->
  exists ctx',
    lookup_buffer TranslateRange buffer_FindOrCreate address size ctx
    = Ok (buffer_FindOrCreate m, ctx')
    /\ warnings ctx' = multiple_mappings_warning (length (m :: rest)) :: warnings ctx
    /\ bufferRequests ctx' = m :: bufferRequests ctx
    /\ vertexBuffers ctx' = vertexBuffers ctx
    /\ textureRequests ctx' = textureRequests ctx.
Proof.
  intros Htr Hrest. unfold lookup_buffer. rewrite Htr.
  destruct rest as [|m2 rest]; [contradiction|].
  eexists. split; [reflexivity|].
  simpl length. cbv zeta.
  replace (Z.of_nat (S (S (length rest))) =? 1) with false
    by (symmetry; apply Z.eqb_neq; lia).
  repeat split.
Qed.

(** C7, amended: when the translation of a vertex buffer's or a storage
    buffer's range returns more than one mapping, the lookup does not
    fail and a warning is recorded, and the buffer view is the one of the
    first mapping, the only one handed to the buffer manager.  When the
    translation of a render target's range returns several mappings, all
    of them are stored in the descriptor handed to the texture manager. *)
Theorem several_mappings_tolerated :
  (forall (index : nat) (ctx : GraphicsContext) (vb : VertexBuffer) (m : span) (rest : list span),
      vertexBuffers ctx !! index = Some vb ->
      (start vb >? end_ vb) || (start vb =? 0) || (end_ vb =? 0) = false ->
      vertexBufferView vb = None ->
      TranslateRange (start vb) (((end_ vb + 1) - start vb) mod u64_modulus) = m :: rest ->
      rest <> [] ->
      exists ctx',
        GetVertexBuffer TranslateRange buffer_FindOrCreate index ctx
        = Ok (Some (buffer_FindOrCreate m), ctx')
        /\ warnings ctx' = multiple_mappings_warning (length (m :: rest)) :: warnings ctx
        /\ bufferRequests ctx' = m :: bufferRequests ctx
        /\ vertexBuffers ctx' !! index
           = Some {| start := start vb; end_ := end_ vb;
                     vertexBufferView := Some (buffer_FindOrCreate m) |})
  /\ (forall (descriptor : StorageBufferDescriptor) (constantBuffers : list ConstantBuffer)
             (cbuf : ConstantBuffer) (ctx : GraphicsContext) (m : span) (rest : list span),
        constantBuffers !! cbuf_index descriptor = Some cbuf ->
        TranslateRange (fst (ConstantBuffer_Read cbuf (cbuf_offset descriptor)))
          (snd (ConstantBuffer_Read cbuf (cbuf_offset descriptor))) = m :: rest ->
        rest <> [] ->
        exists ctx',
          GetSsboViewFromDescriptor TranslateRange buffer_FindOrCreate ConstantBuffer_Read
            descriptor constantBuffers ctx
          = Ok (buffer_FindOrCreate m, ctx')
          /\ warnings ctx' = multiple_mappings_warning (length (m :: rest)) :: warnings ctx
          /\ bufferRequests ctx' = m :: bufferRequests ctx)
  /\ (forall (rt : RenderTarget) (requests : list GuestTexture.t),
        disabled rt = false ->
        view rt = None ->
        GuestTexture.mappings (guest rt) = [] ->
        exists (v : Z) (rt' : RenderTarget) (g : GuestTexture.t),
          GetRenderTarget TranslateRange GetLayerSize texture_FindOrCreate rt requests
          = (Some v, rt', g :: requests)
          /\ guest rt' = g
          /\ v = texture_FindOrCreate g
          /\ GuestTexture.mappings g
             = TranslateRange (iova rt)
                 ((GetLayerSize (guest rt)
                   * (GuestTexture.layerCount (guest rt) - GuestTexture.baseArrayLayer (guest rt)))
                    mod u64_modulus)).
Proof.
  split; [|split].
  - intros index ctx vb m rest Hvb Hrange Hview Htr Hrest.
    destruct (lookup_buffer_first_mapping _ _ ctx m rest Htr Hrest)
      as (ctx1 & Hlookup & Hwarn & Hreq & Hvbs & _).
    unfold GetVertexBuffer, at_. rewrite Hvb. simpl.
    rewrite Hrange, Hview, Hlookup. simpl.
    eexists. split; [reflexivity|]. simpl.
    split; [exact Hwarn|]. split; [exact Hreq|].
    rewrite Hvbs. apply list_lookup_insert_eq.
    eapply lookup_lt_Some; eassumption.
  - intros descriptor constantBuffers cbuf ctx m rest Hcbuf Htr Hrest.
    destruct (lookup_buffer_first_mapping _ _ ctx m rest Htr Hrest)
      as (ctx1 & Hlookup & Hwarn & Hreq & _).
    exists ctx1. unfold GetSsboViewFromDescriptor. rewrite Hcbuf. auto.
  - intros rt requests Hdis Hview Hmap.
    unfold GetRenderTarget. rewrite Hdis, Hview, Hmap.
    eexists _, _, _. split; [reflexivity|]. simpl.
    repeat split.
Qed.

End MappingProperties.

(** A translation that splits every range into two mappings, a buffer
    manager that names a buffer view by the address of its guest span, and
    a context with one vertex buffer over [4096, 12287]. *)
Definition first_half : span := {| span_data := 4096; span_size := 4096 |}.
Definition second_half : span := {| span_data := 81920; span_size := 4096 |}.
Definition split_translation (address size : Z) : list span := [first_half; second_half].
Definition view_by_address (m : span) : Z := span_data m.

Definition example_render_target : RenderTarget :=
  {| disabled := false; iova := 4096; widthBytes := 256;
     guest := GuestTextureUpdate.set_mappings [] (descriptor_of (Some rgba8));
     view := None |}.

Definition example_context : GraphicsContext :=
  {| colorRenderTargets := [example_render_target];
     depthRenderTarget := example_render_target;
     vertexBuffers := [ {| start := 4096; end_ := 12287; vertexBufferView := None |} ];
     warnings := [];
     bufferRequests := [];
     textureRequests := [] |}.

(** C7, as stated, fails: the vertex buffer whose range translates to two
    mappings is looked up without failure and with a warning, but only the
    first mapping reaches the buffer manager; the second is covered by no
    buffer. *)
Lemma several_mappings_counterexample :
  (exists ctx',
      GetVertexBuffer split_translation view_by_address 0 example_context
      = Ok (Some (view_by_address first_half), ctx')
      /\ warnings ctx' = [multiple_mappings_warning 2]
      /\ bufferRequests ctx' = [first_half]
      /\ In second_half (split_translation 4096 8192)
      /\ ~ In second_half (bufferRequests ctx'))
  /\ ~ (forall (TranslateRange : Z -> Z -> list span) (buffer_FindOrCreate : span -> Z)
               (index : nat) (ctx : GraphicsContext) (vb : VertexBuffer),
          vertexBuffers ctx !! index = Some vb ->
          (start vb >? end_ vb) || (start vb =? 0) || (end_ vb =? 0) = false ->
          vertexBufferView vb = None ->
          1 < Z.of_nat (length (TranslateRange (start vb) (((end_ vb + 1) - start vb) mod u64_modulus))) ->
          exists v ctx',
            GetVertexBuffer TranslateRange buffer_FindOrCreate index ctx = Ok (v, ctx')
            /\ forall m : span,
                 In m (TranslateRange (start vb) (((end_ vb + 1) - start vb) mod u64_modulus)) ->
                 In m (bufferRequests ctx')).
Proof.
  split.
  - eexists. split; [reflexivity|]. simpl.
    repeat split; auto.
    intros [H|[]]. discriminate H.
  - intros H.
    destruct (H split_translation view_by_address 0%nat example_context
                {| start := 4096; end_ := 12287; vertexBufferView := None |})
      as (v & ctx' & Hrun & Hall); try reflexivity.
    + vm_compute in Hrun. injection Hrun as _ <-.
      specialize (Hall second_half (or_intror (or_introl eq_refl))).
      simpl in Hall. destruct Hall as [Hall|[]]. discriminate Hall.
Qed.

Lemma several_mappings_tolerated_witness :
  exists ctx',
    GetVertexBuffer split_translation view_by_address 0 example_context
    = Ok (Some (view_by_address first_half), ctx')
    /\ warnings ctx' = multiple_mappings_warning 2 :: warnings example_context
    /\ bufferRequests ctx' = first_half :: bufferRequests example_context
    /\ vertexBuffers ctx' !! 0%nat
       = Some {| start := 4096; end_ := 12287;
                 vertexBufferView := Some (view_by_address first_half) |}.
Proof.
  apply (proj1 (several_mappings_tolerated split_translation (fun _ => 16384)
                  view_by_address (fun _ => 9) (fun _ _ => (4096, 8192)))
           0%nat example_context
           {| start := 4096; end_ := 12287; vertexBufferView := None |}
           first_half [second_half]).
  - reflexivity.
  - reflexivity.
  - reflexivity.
  - reflexivity.
  - discriminate.
Defined.

(** ** Formats without a host equivalent *)

(** The translation tables, entry by entry as the case macros of the three
    switches expand: a guest value and the name of the host format constant
    returned for it.  The colour switch has one more case, [None], which
    returns the null format. *)
Definition color_formats : list (CRT.t * format.id) :=
  [
   (CRT.R8Snorm, format.R8Snorm); (CRT.R8Unorm, format.R8Unorm);
   (CRT.R8Sint, format.R8Sint); (CRT.R8Uint, format.R8Uint);
   (CRT.R16Snorm, format.R16Snorm); (CRT.R16Unorm, format.R16Unorm);
   (CRT.R16Sint, format.R16Sint); (CRT.R16Uint, format.R16Uint);
   (CRT.R16Float, format.R16Float); (CRT.R8G8Snorm, format.R8G8Snorm);
   (CRT.R8G8Unorm, format.R8G8Unorm); (CRT.R8G8Sint, format.R8G8Sint);
   (CRT.R8G8Uint, format.R8G8Uint); (CRT.B5G6R5Unorm, format.B5G6R5Unorm);
   (CRT.B5G5R5A1Unorm, format.B5G5R5A1Unorm); (CRT.R32Sint, format.R32Sint);
   (CRT.R32Uint, format.R32Uint); (CRT.R32Float, format.R32Float);
   (CRT.B10G11R11Float, format.B10G11R11Float); (CRT.R16G16Snorm, format.R16G16Snorm);
   (CRT.R16G16Unorm, format.R16G16Unorm); (CRT.R16G16Sint, format.R16G16Sint);
   (CRT.R16G16Uint, format.R16G16Uint); (CRT.R16G16Float, format.R16G16Float);
   (CRT.R8G8B8A8Unorm, format.R8G8B8A8Unorm); (CRT.R8G8B8A8Srgb, format.R8G8B8A8Srgb);
   (CRT.R8G8B8X8Snorm, format.R8G8B8A8Snorm);
   (CRT.R8G8B8X8Unorm, format.R8G8B8A8Unorm); (CRT.R8G8B8X8Sint, format.R8G8B8A8Sint);
   (CRT.R8G8B8X8Uint, format.R8G8B8A8Uint); (CRT.R8G8B8X8Srgb, format.R8G8B8A8Srgb);
   (CRT.B8G8R8A8Unorm, format.B8G8R8A8Unorm); (CRT.B8G8R8A8Srgb, format.B8G8R8A8Srgb);
   (CRT.A2B10G10R10Unorm, format.A2B10G10R10Unorm);
   (CRT.A2B10G10R10Uint, format.A2B10G10R10Uint); (CRT.R32G32Sint, format.R32G32Sint);
   (CRT.R32G32Uint, format.R32G32Uint); (CRT.R32G32Float, format.R32G32Float);
   (CRT.R16G16B16A16Float, format.R16G16B16A16Float);
   (CRT.R16G16B16X16Snorm, format.R16G16B16A16Snorm);
   (CRT.R16G16B16X16Unorm, format.R16G16B16A16Unorm);
   (CRT.R16G16B16X16Sint, format.R16G16B16A16Sint);
   (CRT.R16G16B16X16Uint, format.R16G16B16A16Uint);
   (CRT.R16G16B16X16Float, format.R16G16B16A16Float);
   (CRT.R32G32B32A32Float, format.R32G32B32A32Float);
   (CRT.R32G32B32X32Sint, format.R32G32B32A32Sint);
   (CRT.R32G32B32X32Uint, format.R32G32B32A32Uint);
   (CRT.R32G32B32X32Float, format.R32G32B32A32Float)
  ].

Definition depth_formats : list (DRT.t * format.id) :=
  [
   (DRT.D16Unorm, format.D16Unorm); (DRT.D32Float, format.D32Float);
   (DRT.S8D24Unorm, format.S8UintD24Unorm); (DRT.D24S8Unorm, format.D24UnormS8Uint);
   (DRT.D32S8X24Float, format.D32FloatS8Uint)
  ].

(** What the switch of [ConvertTicFormat] is over: the format, the four
    component types and the sRGB flag. *)
Definition tic_key : Type :=
  TIC.ImageFormat * TIC.ImageComponent * TIC.ImageComponent * TIC.ImageComponent
  * TIC.ImageComponent * bool.

Definition tic_key_of (format : TIC.FormatWord) (srgb : bool) : tic_key :=
  (TIC.format format, TIC.componentR format, TIC.componentG format,
   TIC.componentB format, TIC.componentA format, srgb).

Definition tic_formats : list (tic_key * format.id) :=
  [
   (TIC.R8, TIC.Unorm, TIC.Unorm, TIC.Unorm, TIC.Unorm, false, format.R8Unorm);
   (TIC.R8, TIC.Snorm, TIC.Snorm, TIC.Snorm, TIC.Snorm, false, format.R8Snorm);
   (TIC.R8, TIC.Uint, TIC.Uint, TIC.Uint, TIC.Uint, false, format.R8Uint);
   (TIC.R8, TIC.Sint, TIC.Sint, TIC.Sint, TIC.Sint, false, format.R8Sint);
   (TIC.R16, TIC.Unorm, TIC.Unorm, TIC.Unorm, TIC.Unorm, false, format.R16Unorm);
   (TIC.R16, TIC.Snorm, TIC.Snorm, TIC.Snorm, TIC.Snorm, false, format.R16Snorm);
   (TIC.R16, TIC.Uint, TIC.Uint, TIC.Uint, TIC.Uint, false, format.R16Uint);
   (TIC.R16, TIC.Sint, TIC.Sint, TIC.Sint, TIC.Sint, false, format.R16Sint);
   (TIC.R16, TIC.Float, TIC.Float, TIC.Float, TIC.Float, false, format.R16Float);
   (TIC.D16, TIC.Unorm, TIC.Unorm, TIC.Unorm, TIC.Unorm, false, format.D16Unorm);
   (TIC.R8G8, TIC.Unorm, TIC.Unorm, TIC.Unorm, TIC.Unorm, false, format.R8G8Unorm);
   (TIC.R8G8, TIC.Snorm, TIC.Snorm, TIC.Snorm, TIC.Snorm, false, format.R8G8Snorm);
   (TIC.R8G8, TIC.Uint, TIC.Uint, TIC.Uint, TIC.Uint, false, format.R8G8Uint);
   (TIC.R8G8, TIC.Sint, TIC.Sint, TIC.Sint, TIC.Sint, false, format.R8G8Sint);
   (TIC.B5G6R5, TIC.Unorm, TIC.Unorm, TIC.Unorm, TIC.Unorm, false, format.B5G6R5Unorm);
   (TIC.R4G4B4A4, TIC.Unorm, TIC.Unorm, TIC.Unorm, TIC.Unorm, false, format.R4G4B4A4Unorm);
   (TIC.A1B5G5R5, TIC.Unorm, TIC.Unorm, TIC.Unorm, TIC.Unorm, false, format.A1B5G5R5Unorm);
   (TIC.R32, TIC.Uint, TIC.Uint, TIC.Uint, TIC.Uint, false, format.R32Uint);
   (TIC.R32, TIC.Sint, TIC.Sint, TIC.Sint, TIC.Sint, false, format.R32Sint);
   (TIC.R32, TIC.Float, TIC.Float, TIC.Float, TIC.Float, false, format.R32Float);
   (TIC.D32, TIC.Float, TIC.Float, TIC.Float, TIC.Float, false, format.D32Float);
   (TIC.R16G16, TIC.Unorm, TIC.Unorm, TIC.Unorm, TIC.Unorm, false, format.R16G16Unorm);
   (TIC.R16G16, TIC.Snorm, TIC.Snorm, TIC.Snorm, TIC.Snorm, false, format.R16G16Snorm);
   (TIC.R16G16, TIC.Uint, TIC.Uint, TIC.Uint, TIC.Uint, false, format.R16G16Uint);
   (TIC.R16G16, TIC.Sint, TIC.Sint, TIC.Sint, TIC.Sint, false, format.R16G16Sint);
   (TIC.R16G16, TIC.Float, TIC.Float, TIC.Float, TIC.Float, false, format.R16G16Float);
   (TIC.R8G24, TIC.Uint, TIC.Unorm, TIC.Unorm, TIC.Unorm, false, format.D24UnormS8Uint);
   (TIC.S8D24, TIC.Uint, TIC.Unorm, TIC.Uint, TIC.Uint, false, format.D24UnormS8Uint);
   (TIC.S8D24, TIC.Uint, TIC.Unorm, TIC.Unorm, TIC.Unorm, false, format.D24UnormS8Uint);
   (TIC.B10G11R11, TIC.Float, TIC.Float, TIC.Float, TIC.Float, false, format.B10G11R11Float);
   (TIC.A8B8G8R8, TIC.Unorm, TIC.Unorm, TIC.Unorm, TIC.Unorm, false, format.A8B8G8R8Unorm);
   (TIC.A8B8G8R8, TIC.Snorm, TIC.Snorm, TIC.Snorm, TIC.Snorm, false, format.A8B8G8R8Snorm);
   (TIC.A8B8G8R8, TIC.Uint, TIC.Uint, TIC.Uint, TIC.Uint, false, format.A8B8G8R8Uint);
   (TIC.A8B8G8R8, TIC.Sint, TIC.Sint, TIC.Sint, TIC.Sint, false, format.A8B8G8R8Sint);
   (TIC.A8B8G8R8, TIC.Unorm, TIC.Unorm, TIC.Unorm, TIC.Unorm, true, format.A8B8G8R8Srgb);
   (TIC.A2B10G10R10, TIC.Unorm, TIC.Unorm, TIC.Unorm, TIC.Unorm, false, format.A2B10G10R10Unorm);
   (TIC.A2B10G10R10, TIC.Snorm, TIC.Snorm, TIC.Snorm, TIC.Snorm, false, format.A2B10G10R10Snorm);
   (TIC.A2B10G10R10, TIC.Uint, TIC.Uint, TIC.Uint, TIC.Uint, false, format.A2B10G10R10Uint);
   (TIC.A2B10G10R10, TIC.Sint, TIC.Sint, TIC.Sint, TIC.Sint, false, format.A2B10G10R10Sint);
   (TIC.E5B9G9R9, TIC.Float, TIC.Float, TIC.Float, TIC.Float, false, format.E5B9G9R9Float);
   (TIC.BC1, TIC.Unorm, TIC.Unorm, TIC.Unorm, TIC.Unorm, false, format.BC1Unorm);
   (TIC.BC1, TIC.Unorm, TIC.Unorm, TIC.Unorm, TIC.Unorm, true, format.BC1Srgb);
   (TIC.BC4, TIC.Unorm, TIC.Unorm, TIC.Unorm, TIC.Unorm, false, format.BC4Unorm);
   (TIC.BC4, TIC.Snorm, TIC.Snorm, TIC.Snorm, TIC.Snorm, false, format.BC4Snorm);
   (TIC.R32G32, TIC.Uint, TIC.Uint, TIC.Uint, TIC.Uint, false, format.R32G32Uint);
   (TIC.R32G32, TIC.Sint, TIC.Sint, TIC.Sint, TIC.Sint, false, format.R32G32Sint);
   (TIC.R32G32, TIC.Float, TIC.Float, TIC.Float, TIC.Float, false, format.R32G32Float);
   (TIC.D32S8, TIC.Float, TIC.Uint, TIC.Uint, TIC.Unorm, false, format.D32FloatS8Uint);
   (TIC.D32S8, TIC.Float, TIC.Uint, TIC.Unorm, TIC.Unorm, false, format.D32FloatS8Uint);
   (TIC.R16G16B16A16, TIC.Unorm, TIC.Unorm, TIC.Unorm, TIC.Unorm, false, format.R16G16B16A16Unorm);
   (TIC.R16G16B16A16, TIC.Snorm, TIC.Snorm, TIC.Snorm, TIC.Snorm, false, format.R16G16B16A16Snorm);
   (TIC.R16G16B16A16, TIC.Uint, TIC.Uint, TIC.Uint, TIC.Uint, false, format.R16G16B16A16Uint);
   (TIC.R16G16B16A16, TIC.Sint, TIC.Sint, TIC.Sint, TIC.Sint, false, format.R16G16B16A16Sint);
   (TIC.R16G16B16A16, TIC.Float, TIC.Float, TIC.Float, TIC.Float, false, format.R16G16B16A16Float);
   (TIC.Astc4x4, TIC.Unorm, TIC.Unorm, TIC.Unorm, TIC.Unorm, false, format.Astc4x4Unorm);
   (TIC.Astc4x4, TIC.Unorm, TIC.Unorm, TIC.Unorm, TIC.Unorm, true, format.Astc4x4Srgb);
   (TIC.Astc6x6, TIC.Unorm, TIC.Unorm, TIC.Unorm, TIC.Unorm, false, format.Astc6x6Unorm);
   (TIC.Astc6x6, TIC.Unorm, TIC.Unorm, TIC.Unorm, TIC.Unorm, true, format.Astc6x6Srgb);
   (TIC.Astc8x8, TIC.Unorm, TIC.Unorm, TIC.Unorm, TIC.Unorm, false, format.Astc8x8Unorm);
   (TIC.Astc8x8, TIC.Unorm, TIC.Unorm, TIC.Unorm, TIC.Unorm, true, format.Astc8x8Srgb);
   (TIC.BC2, TIC.Unorm, TIC.Unorm, TIC.Unorm, TIC.Unorm, false, format.BC2Unorm);
   (TIC.BC2, TIC.Unorm, TIC.Unorm, TIC.Unorm, TIC.Unorm, true, format.BC2Srgb);
   (TIC.BC3, TIC.Unorm, TIC.Unorm, TIC.Unorm, TIC.Unorm, false, format.BC3Unorm);
   (TIC.BC3, TIC.Unorm, TIC.Unorm, TIC.Unorm, TIC.Unorm, true, format.BC3Srgb);
   (TIC.BC5, TIC.Unorm, TIC.Unorm, TIC.Unorm, TIC.Unorm, false, format.BC5Unorm);
   (TIC.BC5, TIC.Snorm, TIC.Snorm, TIC.Snorm, TIC.Snorm, false, format.BC5Snorm);
   (TIC.Bc6HUfloat, TIC.Float, TIC.Float, TIC.Float, TIC.Float, false, format.Bc6HUfloat);
   (TIC.Bc6HSfloat, TIC.Float, TIC.Float, TIC.Float, TIC.Float, false, format.Bc6HSfloat);
   (TIC.BC7, TIC.Unorm, TIC.Unorm, TIC.Unorm, TIC.Unorm, false, format.BC7Unorm);
   (TIC.BC7, TIC.Unorm, TIC.Unorm, TIC.Unorm, TIC.Unorm, true, format.BC7Srgb);
   (TIC.R32G32B32A32, TIC.Uint, TIC.Uint, TIC.Uint, TIC.Uint, false, format.R32G32B32A32Uint);
   (TIC.R32G32B32A32, TIC.Sint, TIC.Sint, TIC.Sint, TIC.Sint, false, format.R32G32B32A32Sint);
   (TIC.R32G32B32A32, TIC.Float, TIC.Float, TIC.Float, TIC.Float, false, format.R32G32B32A32Float)
  ].

(** A guest value is listed in a table when the table has an entry for
    it. *)
Definition in_table {K : Type} (table : list (K * format.id)) (k : K) : Prop :=
  exists id : format.id, In (k, id) table.

Ltac find_entry := simpl; repeat (first [left; reflexivity | right]).

Ltac each_entry H :=
  simpl in H;
  repeat (destruct H as [H|H]; [injection H as <- <-; try reflexivity|]);
  try contradiction.

Section FormatProperties.

Variable fmt : format.id -> texture.FormatBase.
Variable TranslateRange : Z -> Z -> list span.
Variable GetLayerSize : GuestTexture.t -> Z.
Variable PitchAlignmentBits : Z.

Lemma TranslateColorRenderTargetFormat_listed (format : CRT.t) (id : format.id) :
  In (format, id) color_formats ->
  TranslateColorRenderTargetFormat fmt format = Ok (Some (fmt id)).
Proof. intros H. unfold color_formats in H. each_entry H. Qed.

Lemma TranslateColorRenderTargetFormat_unlisted (format : CRT.t) :
  format <> CRT.None -> ~ in_table color_formats format ->
  TranslateColorRenderTargetFormat fmt format
  = Throw "Cannot translate the supplied color RT format: 0x{:X}".
Proof.
  intros Hnone Hnot.
  destruct format; try reflexivity; try contradiction;
    exfalso; apply Hnot; eexists; unfold color_formats; find_entry.
Qed.

Lemma TranslateDepthRenderTargetFormat_listed (format : DRT.t) (id : format.id) :
  In (format, id) depth_formats ->
  TranslateDepthRenderTargetFormat fmt format = Ok (Some (fmt id)).
Proof. intros H. unfold depth_formats in H. each_entry H. Qed.

Lemma TranslateDepthRenderTargetFormat_unlisted (format : DRT.t) :
  ~ in_table depth_formats format ->
  TranslateDepthRenderTargetFormat fmt format
  = Throw "Cannot translate the supplied depth RT format: 0x{:X}".
Proof.
  intros Hnot.
  destruct format; try reflexivity;
    exfalso; apply Hnot; eexists; unfold depth_formats; find_entry.
Qed.

Lemma apply_format_translated (w : Z) (f : texture.Format) (g : GuestTexture.t) :
  (forall base, f = Some base ->
                texture.mode (GuestTexture.tileConfig g) = texture.Linear ->
                texture.bpb base <> 0) ->
  exists g', apply_format w f g = Ok g' /\ GuestTexture.format g' = f.
Proof.
  intros Hvalid. unfold apply_format.
  destruct f as [base|]; simpl.
  - destruct (texture.mode (GuestTexture.tileConfig g)) eqn:Hmode; simpl; eauto.
    destruct (Z.eqb_spec (texture.bpb base) 0) as [H0|_]; eauto.
    exfalso. exact (Hvalid base eq_refl eq_refl H0).
  - destruct (texture.mode (GuestTexture.tileConfig g)); simpl; eauto.
Qed.

Lemma apply_format_returns (w : Z) (f : texture.Format) (g : GuestTexture.t) :
  ~ throws (apply_format w f g).
Proof.
  unfold apply_format, throws.
  destruct f as [base|]; simpl;
    destruct (texture.mode (GuestTexture.tileConfig g)); simpl;
    try destruct (Z.eqb_spec (texture.bpb base) 0); intros [what H]; discriminate H.
Qed.

Lemma SetColorRenderTargetFormat_translated
    (index : nat) (format : CRT.t) (f : texture.Format) (ctx : GraphicsContext)
    (rt : RenderTarget) :
  colorRenderTargets ctx !! index = Some rt ->
  TranslateColorRenderTargetFormat fmt format = Ok f ->
  (forall base, f = Some base ->
                texture.mode (GuestTexture.tileConfig (guest rt)) = texture.Linear ->
                texture.bpb base <> 0) ->
  exists (ctx' : GraphicsContext) (rt' : RenderTarget),
    SetColorRenderTargetFormat fmt index format ctx = Ok ctx'
    /\ colorRenderTargets ctx' !! index = Some rt'
    /\ GuestTexture.format (guest rt') = f
    /\ disabled rt' = negb (texture.Format_bool f).
Proof.
  intros Hrt Htr Hvalid.
  destruct (apply_format_translated (widthBytes rt) f (guest rt) Hvalid) as (g' & Hg' & Hfmt).
  unfold SetColorRenderTargetFormat, at_. rewrite Hrt. simpl. rewrite Htr. simpl.
  rewrite Hg'. simpl.
  eexists _, _. split; [reflexivity|]. simpl.
  split; [apply list_lookup_insert_eq; eapply lookup_lt_Some; eassumption|].
  simpl. split; [exact Hfmt | reflexivity].
Qed.

Lemma ConvertTicFormat_cases (format : TIC.FormatWord) (srgb : bool) :
  (exists id, ConvertTicFormat fmt format srgb = Ok (Some (fmt id)))
  \/ ConvertTicFormat fmt format srgb = Throw "Cannot translate TIC format: 0x{:X}".
Proof.
  unfold ConvertTicFormat.
  destruct (TIC.format format); try (right; reflexivity);
    destruct (TIC.componentR format); try (right; reflexivity);
    destruct (TIC.componentG format); try (right; reflexivity);
    destruct (TIC.componentB format); try (right; reflexivity);
    destruct (TIC.componentA format); try (right; reflexivity);
    destruct srgb; try (right; reflexivity); left; eauto.
Qed.

Lemma ConvertTicFormat_listed (format : TIC.FormatWord) (srgb : bool) (id : format.id) :
  In (tic_key_of format srgb, id) tic_formats ->
  ConvertTicFormat fmt format srgb = Ok (Some (fmt id))
  /\ TIC.ImageFormat_is_Invalid (TIC.format format) = false.
Proof.
  unfold tic_key_of, ConvertTicFormat, tic_formats. intros H. simpl in H.
  repeat (destruct H as [H|H];
          [injection H as <- <- <- <- <- <- <-; split; reflexivity|]).
  contradiction.
Qed.

Lemma ConvertTicFormat_unlisted (format : TIC.FormatWord) (srgb : bool) :
  ~ in_table tic_formats (tic_key_of format srgb) ->
  ConvertTicFormat fmt format srgb = Throw "Cannot translate TIC format: 0x{:X}".
Proof.
  unfold tic_key_of, ConvertTicFormat.
  destruct (TIC.format format); try (intros _; reflexivity);
    destruct (TIC.componentR format); try (intros _; reflexivity);
    destruct (TIC.componentG format); try (intros _; reflexivity);
    destruct (TIC.componentB format); try (intros _; reflexivity);
    destruct (TIC.componentA format); try (intros _; reflexivity);
    destruct srgb; try (intros _; reflexivity);
    intros Hnot; exfalso; apply Hnot; eexists; unfold tic_formats; find_entry.
Qed.

Lemma ImageFormat_is_Invalid_false (f : TIC.ImageFormat) :
  TIC.ImageFormat_is_Invalid f = false <-> f <> TIC.Invalid.
Proof. destruct f; simpl; split; congruence. Qed.

Lemma convertComponentSwizzle_defined (m : vk.ComponentMapping) (s : TIC.ImageSwizzle) :
  convertComponentSwizzle m s <> Undefined.
Proof. destruct s; discriminate. Qed.

Lemma ConvertTicSwizzleMapping_defined (format : TIC.FormatWord) (m : vk.ComponentMapping) :
  ConvertTicSwizzleMapping format m <> Undefined.
Proof.
  unfold ConvertTicSwizzleMapping.
  pose proof (convertComponentSwizzle_defined m (TIC.swizzleX format)) as HX.
  pose proof (convertComponentSwizzle_defined m (TIC.swizzleY format)) as HY.
  pose proof (convertComponentSwizzle_defined m (TIC.swizzleZ format)) as HZ.
  pose proof (convertComponentSwizzle_defined m (TIC.swizzleW format)) as HW.
  destruct (convertComponentSwizzle m (TIC.swizzleX format)); [|discriminate|contradiction].
  destruct (convertComponentSwizzle m (TIC.swizzleY format)); [|discriminate|contradiction].
  destruct (convertComponentSwizzle m (TIC.swizzleZ format)); [|discriminate|contradiction].
  destruct (convertComponentSwizzle m (TIC.swizzleW format)); [|discriminate|contradiction].
  discriminate.
Qed.

(** C8, amended: a guest format outside the translation tables makes the
    translating operation throw, and a format in the tables is translated
    to the host format of its entry without an exception, with one
    exception: a texture pool entry whose format is [Invalid] is not
    translated at all and is given the null view, although [Invalid] is
    not in the table of [ConvertTicFormat].  In detail:
    - the colour translation returns the table's format for every listed
      value, the null format for [None] and throws for every other value;
      [SetColorRenderTargetFormat] throws likewise, and for a listed value
      stores that format and enables the render target (for [None] it
      stores the null format and disables it);
    - the same holds of the depth translation and
      [SetDepthRenderTargetFormat];
    - [ConvertTicFormat] returns the table's format for every listed
      combination of format, component types and sRGB flag and throws for
      every other one;
    - the header type gives a pitch or a block tile configuration and
      throws for every other value;
    - the conversion of a pool entry returns no descriptor for an
      [Invalid] entry, throws for any other entry whose format is not
      listed or whose header type is unsupported, and returns a descriptor
      of the table's format for a listed one.
    A linear render target divides its width by the bytes per block of the
    format; with a format that has none the division is undefined, which is
    not an exception either. *)
Theorem untranslatable_format_throws :
  (forall (format : CRT.t) (id : format.id),
      In (format, id) color_formats ->
      TranslateColorRenderTargetFormat fmt format = Ok (Some (fmt id)))
  /\ TranslateColorRenderTargetFormat fmt CRT.None = Ok None
  /\ (forall format : CRT.t,
        format <> CRT.None -> ~ in_table color_formats format ->
        TranslateColorRenderTargetFormat fmt format
        = Throw "Cannot translate the supplied color RT format: 0x{:X}")
  /\ (forall (index : nat) (format : CRT.t) (ctx : GraphicsContext),
        format <> CRT.None -> ~ in_table color_formats format ->
        throws (SetColorRenderTargetFormat fmt index format ctx)
        /\ (forall rt : RenderTarget,
              colorRenderTargets ctx !! index = Some rt ->
              SetColorRenderTargetFormat fmt index format ctx
              = Throw "Cannot translate the supplied color RT format: 0x{:X}"))
  /\ (forall (index : nat) (format : CRT.t) (id : format.id) (ctx : GraphicsContext)
             (rt : RenderTarget),
        colorRenderTargets ctx !! index = Some rt ->
        In (format, id) color_formats ->
        ~ throws (SetColorRenderTargetFormat fmt index format ctx)
        /\ ((texture.mode (GuestTexture.tileConfig (guest rt)) = texture.Linear ->
             texture.bpb (fmt id) <> 0) ->
            exists (ctx' : GraphicsContext) (rt' : RenderTarget),
              SetColorRenderTargetFormat fmt index format ctx = Ok ctx'
              /\ colorRenderTargets ctx' !! index = Some rt'
              /\ GuestTexture.format (guest rt') = Some (fmt id)
              /\ disabled rt' = false))
  /\ (forall (index : nat) (ctx : GraphicsContext) (rt : RenderTarget),
        colorRenderTargets ctx !! index = Some rt ->
        exists (ctx' : GraphicsContext) (rt' : RenderTarget),
          SetColorRenderTargetFormat fmt index CRT.None ctx = Ok ctx'
          /\ colorRenderTargets ctx' !! index = Some rt'
          /\ GuestTexture.format (guest rt') = None
          /\ disabled rt' = true)
  /\ (forall (format : DRT.t) (id : format.id),
        In (format, id) depth_formats ->
        TranslateDepthRenderTargetFormat fmt format = Ok (Some (fmt id)))
  /\ (forall format : DRT.t,
        ~ in_table depth_formats format ->
        TranslateDepthRenderTargetFormat fmt format
        = Throw "Cannot translate the supplied depth RT format: 0x{:X}")
  /\ (forall (format : DRT.t) (ctx : GraphicsContext),
        ~ in_table depth_formats format ->
        SetDepthRenderTargetFormat fmt format ctx
        = Throw "Cannot translate the supplied depth RT format: 0x{:X}")
  /\ (forall (format : DRT.t) (id : format.id) (ctx : GraphicsContext),
        In (format, id) depth_formats ->
        ~ throws (SetDepthRenderTargetFormat fmt format ctx)
        /\ ((texture.mode (GuestTexture.tileConfig (guest (depthRenderTarget ctx)))
             = texture.Linear ->
             texture.bpb (fmt id) <> 0) ->
            exists ctx' : GraphicsContext,
              SetDepthRenderTargetFormat fmt format ctx = Ok ctx'
              /\ GuestTexture.format (guest (depthRenderTarget ctx')) = Some (fmt id)))
  /\ (forall (format : TIC.FormatWord) (srgb : bool) (id : format.id),
        In (tic_key_of format srgb, id) tic_formats ->
        ConvertTicFormat fmt format srgb = Ok (Some (fmt id)))
  /\ (forall (format : TIC.FormatWord) (srgb : bool),
        ~ in_table tic_formats (tic_key_of format srgb) ->
        ConvertTicFormat fmt format srgb = Throw "Cannot translate TIC format: 0x{:X}")
  /\ (forall textureControl : TIC.t,
        TIC.headerType textureControl = TIC.Pitch ->
        ConvertTicHeaderType PitchAlignmentBits textureControl
        = Ok {| texture.mode := texture.Pitch;
                texture.storage :=
                  Z.shiftl (TIC.pitchHigh (TIC.tileConfig textureControl)) PitchAlignmentBits
                    mod 2 ^ 32 |})
  /\ (forall textureControl : TIC.t,
        TIC.headerType textureControl = TIC.BlockLinear ->
        ConvertTicHeaderType PitchAlignmentBits textureControl
        = Ok {| texture.mode := texture.Block;
                texture.storage :=
                  Z.shiftl 1 (TIC.tileHeightGobsLog2 (TIC.tileConfig textureControl)) mod 2 ^ 8
                  + 256 * (Z.shiftl 1 (TIC.tileDepthGobsLog2 (TIC.tileConfig textureControl))
                           mod 2 ^ 8) |})
  /\ (forall (textureControl : TIC.t) (raw : Z),
        TIC.headerType textureControl = TIC.HeaderType_other raw ->
        ConvertTicHeaderType PitchAlignmentBits textureControl
        = Throw "Unsupported TIC Header Type: {}")
  /\ (forall textureControl : TIC.t,
        TIC.format (TIC.formatWord textureControl) = TIC.Invalid ->
        ConvertTextureControl fmt TranslateRange GetLayerSize PitchAlignmentBits textureControl
        = Ok None)
  /\ (forall textureControl : TIC.t,
        TIC.format (TIC.formatWord textureControl) <> TIC.Invalid ->
        ~ in_table tic_formats
            (tic_key_of (TIC.formatWord textureControl) (TIC.isSrgb textureControl)) ->
        ConvertTextureControl fmt TranslateRange GetLayerSize PitchAlignmentBits textureControl
        = Throw "Cannot translate TIC format: 0x{:X}")
  /\ (forall (textureControl : TIC.t) (raw : Z),
        TIC.format (TIC.formatWord textureControl) <> TIC.Invalid ->
        TIC.headerType textureControl = TIC.HeaderType_other raw ->
        throws (ConvertTextureControl fmt TranslateRange GetLayerSize PitchAlignmentBits
                  textureControl))
  /\ (forall (textureControl : TIC.t) (id : format.id) (swizzle : vk.ComponentMapping)
             (tileConfig : texture.TileConfig),
        In (tic_key_of (TIC.formatWord textureControl) (TIC.isSrgb textureControl), id)
           tic_formats ->
        ConvertTicSwizzleMapping (TIC.formatWord textureControl)
          (texture.swizzleMapping (fmt id)) = Ok swizzle ->
        TIC.textureType textureControl <> TIC.e1DBuffer ->
        ConvertTicHeaderType PitchAlignmentBits textureControl = Ok tileConfig ->
        exists g : GuestTexture.t,
          ConvertTextureControl fmt TranslateRange GetLayerSize PitchAlignmentBits textureControl
          = Ok (Some g)
          /\ GuestTexture.format g = Some (fmt id)
          /\ GuestTexture.tileConfig g = tileConfig
          /\ GuestTexture.swizzle g = swizzle).
Proof.
  repeat apply conj.
  - exact TranslateColorRenderTargetFormat_listed.
  - reflexivity.
  - exact TranslateColorRenderTargetFormat_unlisted.
  - intros index format ctx Hnone Hnot.
    pose proof (TranslateColorRenderTargetFormat_unlisted format Hnone Hnot) as Htr.
    unfold SetColorRenderTargetFormat, at_, throws. split.
    + destruct (colorRenderTargets ctx !! index); simpl; [rewrite Htr; simpl|]; eauto.
    + intros rt ->. simpl. rewrite Htr. reflexivity.
  - intros index format id ctx rt Hrt Hin.
    pose proof (TranslateColorRenderTargetFormat_listed format id Hin) as Htr.
    split.
    + pose proof (apply_format_returns (widthBytes rt) (Some (fmt id)) (guest rt)) as Hreturns.
      unfold SetColorRenderTargetFormat, at_. rewrite Hrt. simpl. rewrite Htr. simpl.
      destruct (apply_format (widthBytes rt) (Some (fmt id)) (guest rt)) as [g'|what|]; simpl;
        intros [what' H]; try discriminate H.
      apply Hreturns. eexists. reflexivity.
    + intros Hvalid.
      destruct (SetColorRenderTargetFormat_translated index format (Some (fmt id)) ctx rt Hrt Htr)
        as (ctx' & rt' & Hset & Hat & Hfmt & Hdis).
      { intros base [= <-]. exact Hvalid. }
      exists ctx', rt'. repeat split; assumption.
  - intros index ctx rt Hrt.
    destruct (SetColorRenderTargetFormat_translated index CRT.None None ctx rt Hrt eq_refl)
      as (ctx' & rt' & Hset & Hat & Hfmt & Hdis).
    { intros base H. discriminate H. }
    exists ctx', rt'. repeat split; assumption.
  - exact TranslateDepthRenderTargetFormat_listed.
  - exact TranslateDepthRenderTargetFormat_unlisted.
  - intros format ctx Hnot. unfold SetDepthRenderTargetFormat.
    rewrite (TranslateDepthRenderTargetFormat_unlisted format Hnot). reflexivity.
  - intros format id ctx Hin.
    split.
    + pose proof (apply_format_returns (widthBytes (depthRenderTarget ctx)) (Some (fmt id))
                    (guest (depthRenderTarget ctx))) as Hreturns.
      unfold SetDepthRenderTargetFormat.
      rewrite (TranslateDepthRenderTargetFormat_listed format id Hin). simpl.
      destruct (apply_format (widthBytes (depthRenderTarget ctx)) (Some (fmt id))
                  (guest (depthRenderTarget ctx))) as [g'|what|]; simpl;
        intros [what' H]; try discriminate H.
      apply Hreturns. eexists. reflexivity.
    + intros Hvalid.
      destruct (apply_format_translated (widthBytes (depthRenderTarget ctx)) (Some (fmt id))
                  (guest (depthRenderTarget ctx))) as (g' & Hg' & Hfmt).
      { intros base [= <-]. exact Hvalid. }
      unfold SetDepthRenderTargetFormat.
      rewrite (TranslateDepthRenderTargetFormat_listed format id Hin). simpl.
      rewrite Hg'. simpl. eexists. split; [reflexivity | exact Hfmt].
  - intros format srgb id Hin. apply ConvertTicFormat_listed. exact Hin.
  - exact ConvertTicFormat_unlisted.
  - intros textureControl H. unfold ConvertTicHeaderType. rewrite H. reflexivity.
  - intros textureControl H. unfold ConvertTicHeaderType. rewrite H. reflexivity.
  - intros textureControl raw H. unfold ConvertTicHeaderType. rewrite H. reflexivity.
  - intros textureControl H. unfold ConvertTextureControl. rewrite H. reflexivity.
  - intros textureControl Hvalid Hnot. unfold ConvertTextureControl.
    apply ImageFormat_is_Invalid_false in Hvalid. rewrite Hvalid.
    rewrite (ConvertTicFormat_unlisted _ _ Hnot). reflexivity.
  - intros textureControl raw Hvalid Hraw.
    assert (Hheader : ConvertTicHeaderType PitchAlignmentBits textureControl
                      = Throw "Unsupported TIC Header Type: {}")
      by (unfold ConvertTicHeaderType; rewrite Hraw; reflexivity).
    unfold ConvertTextureControl, throws.
    apply ImageFormat_is_Invalid_false in Hvalid. rewrite Hvalid.
    destruct (ConvertTicFormat_cases (TIC.formatWord textureControl) (TIC.isSrgb textureControl))
      as [[id ->]| ->]; simpl; [|eauto].
    pose proof (ConvertTicSwizzleMapping_defined (TIC.formatWord textureControl)
                  (texture.swizzleMapping (fmt id))) as Hswizzle.
    destruct (ConvertTicSwizzleMapping (TIC.formatWord textureControl)
                (texture.swizzleMapping (fmt id))); simpl; [|eauto|contradiction].
    rewrite Hheader.
    destruct (TIC.textureType textureControl); simpl; eauto.
  - intros textureControl id swizzle tileConfig Hin Hswizzle Htype Hheader.
    destruct (ConvertTicFormat_listed _ _ _ Hin) as [Hformat Hvalid].
    unfold ConvertTextureControl. rewrite Hvalid, Hformat. simpl.
    rewrite Hswizzle. simpl. rewrite Hheader.
    destruct (TIC.textureType textureControl); try contradiction; simpl;
      eexists; (split; [reflexivity|]); repeat split.
Qed.

End FormatProperties.

(** A format table in which every constant is the four-byte format. *)
Definition example_formats (id : format.id) : texture.FormatBase := rgba8.

(** A format table that tells the depth-stencil constants and the sRGB
    colour format apart. *)
Definition example_format_table (id : format.id) : texture.FormatBase :=
  match id with
  | format.S8UintD24Unorm => stencil_then_depth
  | format.D24UnormS8Uint => depth_then_stencil
  | format.A8B8G8R8Srgb | format.R8G8B8A8Srgb => rgba8_srgb
  | _ => rgba8
  end.

(** A pool entry of format [Invalid]; its texture type and header type are
    ones the conversion refuses. *)
Definition invalid_entry : TIC.t :=
  {| TIC.formatWord :=
       {| TIC.format := TIC.Invalid;
          TIC.componentR := TIC.Unorm; TIC.componentG := TIC.Unorm;
          TIC.componentB := TIC.Unorm; TIC.componentA := TIC.Unorm;
          TIC.swizzleX := TIC.R; TIC.swizzleY := TIC.G;
          TIC.swizzleZ := TIC.B; TIC.swizzleW := TIC.A;
          TIC._pad_ := false |};
     TIC.isSrgb := false;
     TIC.BaseLayer := 0;
     TIC.widthMinusOne := 63;
     TIC.heightMinusOne := 63;
     TIC.depthMinusOne := 0;
     TIC.textureType := TIC.e1DBuffer;
     TIC.headerType := TIC.HeaderType_other 7;
     TIC.tileConfig :=
       {| TIC.pitchHigh := 0; TIC.tileHeightGobsLog2 := 0; TIC.tileDepthGobsLog2 := 0 |};
     TIC.Iova := 4096 |}.

(** C8, as stated, fails: [Invalid] is a texture format outside the
    translation table, [ConvertTicFormat] would throw for it, and yet the
    pool's conversion of an entry of that format returns, with the null
    view, and no exception reaches the caller. *)
Lemma untranslatable_format_throws_counterexample :
  ConvertTextureControl example_format_table split_translation (fun _ => 16384) 5 invalid_entry
  = Ok None
  /\ ~ in_table tic_formats
         (tic_key_of (TIC.formatWord invalid_entry) (TIC.isSrgb invalid_entry))
  /\ throws (ConvertTicFormat example_format_table (TIC.formatWord invalid_entry)
               (TIC.isSrgb invalid_entry))
  /\ ~ throws (ConvertTextureControl example_format_table split_translation (fun _ => 16384) 5
                 invalid_entry)
  /\ ~ (forall textureControl : TIC.t,
          ~ in_table tic_formats
              (tic_key_of (TIC.formatWord textureControl) (TIC.isSrgb textureControl)) ->
          throws (ConvertTextureControl example_format_table split_translation
                    (fun _ => 16384) 5 textureControl)).
Proof.
  assert (Hnot : ~ in_table tic_formats
                     (tic_key_of (TIC.formatWord invalid_entry) (TIC.isSrgb invalid_entry))).
  { intros [id H]. unfold tic_formats in H. simpl in H.
    repeat (destruct H as [H|H]; [discriminate H|]). exact H. }
  assert (Hreturns : ~ throws (ConvertTextureControl example_format_table split_translation
                                 (fun _ => 16384) 5 invalid_entry)).
  { intros [what H]. discriminate H. }
  split; [reflexivity|]. split; [exact Hnot|].
  split; [eexists; reflexivity|]. split; [exact Hreturns|].
  intros Hall. exact (Hreturns (Hall invalid_entry Hnot)).
Qed.

(** An sRGB texture of format [A8B8G8R8]. *)
Definition srgb_word : TIC.FormatWord :=
  {| TIC.format := TIC.A8B8G8R8;
     TIC.componentR := TIC.Unorm; TIC.componentG := TIC.Unorm;
     TIC.componentB := TIC.Unorm; TIC.componentA := TIC.Unorm;
     TIC.swizzleX := TIC.R; TIC.swizzleY := TIC.G;
     TIC.swizzleZ := TIC.B; TIC.swizzleW := TIC.A;
     TIC._pad_ := true |}.

Lemma untranslatable_format_throws_witness :
  (exists ctx' : GraphicsContext,
     SetDepthRenderTargetFormat example_format_table DRT.S8D24Unorm example_context = Ok ctx'
     /\ GuestTexture.format (guest (depthRenderTarget ctx')) = Some stencil_then_depth)
  /\ SetColorRenderTargetFormat example_format_table 0 (CRT.Unlisted 255) example_context
     = Throw "Cannot translate the supplied color RT format: 0x{:X}"
  /\ ConvertTicFormat example_format_table srgb_word true = Ok (Some rgba8_srgb)
  /\ ConvertTicFormat example_format_table srgb_word false = Ok (Some rgba8).
Proof.
  destruct (untranslatable_format_throws example_format_table split_translation
              (fun _ => 16384) 5)
    as (_ & _ & _ & Hcolor & _ & _ & _ & _ & _ & Hdepth & Htic & _).
  split; [|split; [|split]].
  - apply (proj2 (Hdepth DRT.S8D24Unorm format.S8UintD24Unorm example_context
                    ltac:(simpl; tauto))).
    intros _. discriminate.
  - apply (proj2 (Hcolor 0%nat (CRT.Unlisted 255) example_context ltac:(discriminate)
                    ltac:(intros [id H]; unfold color_formats in H; simpl in H;
                          repeat (destruct H as [H|H]; [discriminate H|]); exact H))
             example_render_target).
    reflexivity.
  - apply (Htic srgb_word true format.A8B8G8R8Srgb). simpl. tauto.
  - apply (Htic srgb_word false format.A8B8G8R8Unorm). simpl. tauto.
Defined.

(** * Further properties of the header *)

Lemma DivideCeil_multiple (k b : Z) : 0 < b -> texture.DivideCeil (k * b) b = k.
Proof.
  intros Hb. unfold texture.DivideCeil.
  rewrite Z.div_mul by lia. rewrite Z.mod_mul by lia. simpl. lia.
Qed.

Lemma DivideCeil_zero (b : Z) : 0 < b -> texture.DivideCeil 0 b = 0.
Proof.
  intros Hb. unfold texture.DivideCeil.
  rewrite Z.div_0_l, Z.mod_0_l by lia. reflexivity.
Qed.

Lemma GetSize_below_u32 (f : texture.FormatBase) (w h d : Z) :
  0 < texture.blockWidth f -> 0 < texture.blockHeight f ->
  0 <= GetSize_exact f w h d < 2 ^ 32 ->
  texture.GetSize f w h d = GetSize_exact f w h d.
Proof.
  intros Hbw Hbh Hrange.
  rewrite GetSize_modular. unfold u32_modulus.
  rewrite !DivideCeil_is_ceiling by assumption.
  apply Z.mod_small. exact Hrange.
Qed.

Lemma ceil_div_positive (a b : Z) : 0 < a -> 0 < b -> 0 < ceil_div a b.
Proof.
  intros Ha Hb. unfold ceil_div.
  assert (H : (- a) / b < 0) by (apply Z.div_lt_upper_bound; lia).
  lia.
Qed.

(** X1: [IsCompatible] is an equivalence on formats, and two compatible
    formats give every texture the same size in bytes. *)
Theorem IsCompatible_equivalence_same_size :
  forall f g h : texture.FormatBase,
    texture.IsCompatible f f = true
    /\ texture.IsCompatible f g = texture.IsCompatible g f
    /\ (texture.IsCompatible f g = true -> texture.IsCompatible g h = true ->
        texture.IsCompatible f h = true)
    /\ (texture.IsCompatible f g = true ->
        forall width height depth : Z,
          texture.GetSize f width height depth = texture.GetSize g width height depth).
Proof.
  intros f g h. unfold texture.IsCompatible.
  split; [rewrite !Z.eqb_refl; reflexivity|].
  split; [rewrite (Z.eqb_sym (texture.bpb f)), (Z.eqb_sym (texture.blockHeight f)),
            (Z.eqb_sym (texture.blockWidth f)); reflexivity|].
  split.
  - rewrite !andb_true_iff, !Z.eqb_eq. intros [[-> ->] ->] [[-> ->] ->]. auto.
  - rewrite !andb_true_iff, !Z.eqb_eq. intros [[Hb Hh] Hw] width height depth.
    unfold texture.GetSize. rewrite Hb, Hh, Hw. reflexivity.
Qed.

Lemma IsCompatible_equivalence_same_size_witness :
  texture.GetSize rgba8 100 30 2 = texture.GetSize rgba8_srgb 100 30 2.
Proof.
  apply (proj2 (proj2 (proj2 (IsCompatible_equivalence_same_size rgba8 rgba8_srgb rgba8)))).
  reflexivity.
Defined.

(** X2: dimensions that convert to [false] (some component is zero) have
    size zero in every format; dimensions that convert to [true] have a
    positive size whenever the format has a positive number of bytes per
    block and the product does not reach [2^32]. *)
Theorem GetSize_zero_iff_invalid_dimensions :
  forall (f : texture.FormatBase) (d : texture.Dimensions),
    0 < texture.blockWidth f -> 0 < texture.blockHeight f ->
    0 <= texture.width d -> 0 <= texture.height d -> 0 <= texture.depth d ->
    (Dimensions_bool d = false -> texture.GetSize_dim f d = 0)
    /\ (Dimensions_bool d = true -> 0 < texture.bpb f ->
        GetSize_exact f (texture.width d) (texture.height d) (texture.depth d) < 2 ^ 32 ->
        0 < texture.GetSize_dim f d).
Proof.
  intros f [w h d] Hbw Hbh Hw Hh Hd; simpl in *.
  unfold Dimensions_bool, texture.GetSize_dim; simpl.
  split.
  - intros Hfalse. rewrite GetSize_modular.
    assert (Hzero : w = 0 \/ h = 0 \/ d = 0).
    { destruct (Z.eqb_spec w 0); [auto|].
      destruct (Z.eqb_spec h 0); [auto|].
      destruct (Z.eqb_spec d 0); [auto|]. discriminate Hfalse. }
    destruct Hzero as [-> | [-> | ->]].
    + rewrite DivideCeil_zero by assumption. reflexivity.
    + rewrite DivideCeil_zero by assumption. rewrite Z.mul_0_r. reflexivity.
    + rewrite Z.mul_0_r. reflexivity.
  - intros Htrue Hbpb Hsmall.
    rewrite !andb_true_iff, !negb_true_iff, !Z.eqb_neq in Htrue.
    destruct Htrue as [[Hw0 Hh0] Hd0].
    assert (Hpos : 0 < GetSize_exact f w h d).
    { unfold GetSize_exact.
      pose proof (ceil_div_positive w (texture.blockWidth f) ltac:(lia) Hbw).
      pose proof (ceil_div_positive h (texture.blockHeight f) ltac:(lia) Hbh).
      repeat apply Z.mul_pos_pos; lia. }
    rewrite (GetSize_below_u32 f w h d Hbw Hbh); lia.
Qed.

Lemma GetSize_zero_iff_invalid_dimensions_witness :
  texture.GetSize_dim rgba8 Dimensions_default = 0
  /\ 0 < texture.GetSize_dim rgba8 (Dimensions_2 64 64).
Proof.
  split.
  - apply (GetSize_zero_iff_invalid_dimensions rgba8 Dimensions_default);
      simpl; try lia; reflexivity.
  - apply (GetSize_zero_iff_invalid_dimensions rgba8 (Dimensions_2 64 64));
      simpl; try lia; try reflexivity.
Defined.

(** X3: [Format::operator!=] is the negation of [Format::operator==], and
    the [operator==] of [Format] and of [TileConfig] are equivalences. *)
Theorem Format_and_TileConfig_comparisons :
  (forall x y : texture.Format, Format_neqb x y = negb (texture.Format_eqb x y))
  /\ (forall x : texture.Format, texture.Format_eqb x x = true)
  /\ (forall x y : texture.Format, texture.Format_eqb x y = texture.Format_eqb y x)
  /\ (forall x y z : texture.Format,
        texture.Format_eqb x y = true -> texture.Format_eqb y z = true ->
        texture.Format_eqb x z = true)
  /\ (forall x : texture.TileConfig, texture.TileConfig_eqb x x = true)
  /\ (forall x y : texture.TileConfig,
        texture.TileConfig_eqb x y = texture.TileConfig_eqb y x)
  /\ (forall x y z : texture.TileConfig,
        texture.TileConfig_eqb x y = true -> texture.TileConfig_eqb y z = true ->
        texture.TileConfig_eqb x z = true).
Proof.
  repeat apply conj.
  - intros [bx|] [by_|]; reflexivity.
  - intros [bx|]; simpl; [apply Z.eqb_refl | reflexivity].
  - intros [bx|] [by_|]; simpl; try reflexivity. apply Z.eqb_sym.
  - intros x y z. rewrite !Format_eqb_same.
    destruct x, y, z; simpl; try tauto; congruence.
  - intros x. apply TileConfig_eqb_same. unfold same_tiling.
    split; [reflexivity|]. destruct (texture.mode x); auto.
  - intros x y. unfold texture.TileConfig_eqb.
    destruct (texture.mode x) eqn:Hx, (texture.mode y) eqn:Hy; simpl; try reflexivity.
    + apply Z.eqb_sym.
    + rewrite (Z.eqb_sym (texture.tileBlockHeight x)), (Z.eqb_sym (texture.tileBlockDepth x)).
      reflexivity.
  - intros x y z. rewrite !TileConfig_eqb_same. unfold same_tiling.
    intros [Hxy Pxy] [Hyz Pyz]. split; [congruence|].
    rewrite <- Hxy in Pyz.
    destruct (texture.mode x); auto; try congruence.
    destruct Pxy, Pyz. split; congruence.
Qed.

Lemma Format_and_TileConfig_comparisons_witness :
  texture.Format_eqb (Some depth_then_stencil) (Some depth_then_stencil) = true.
Proof.
  apply (proj1 (proj2 (proj2 (proj2 Format_and_TileConfig_comparisons)))
           (Some depth_then_stencil) (Some stencil_then_depth) (Some depth_then_stencil));
    reflexivity.
Defined.

Definition has_depth_and_stencil (f : texture.FormatBase) : Prop :=
  Z.land (texture.vkAspect f) vk.ImageAspect_eDepth <> 0
  /\ Z.land (texture.vkAspect f) vk.ImageAspect_eStencil <> 0.

(** X4: for a format with both the depth and the stencil aspect,
    [Aspect(true)] and [Aspect(false)] are the two aspects, one each, and
    [Aspect(true)] is the stencil aspect exactly when the format is
    stencil-first; for every other format [Aspect] is the format's aspect
    whatever the argument. *)
Theorem Aspect_selects_one_plane :
  forall f : texture.FormatBase,
    (has_depth_and_stencil f ->
     (Aspect f true = vk.ImageAspect_eStencil /\ Aspect f false = vk.ImageAspect_eDepth
      /\ texture.stencilFirst f = true)
     \/ (Aspect f true = vk.ImageAspect_eDepth /\ Aspect f false = vk.ImageAspect_eStencil
         /\ texture.stencilFirst f = false))
    /\ (~ has_depth_and_stencil f ->
        forall first : bool, Aspect f first = texture.vkAspect f).
Proof.
  intros f. unfold has_depth_and_stencil, Aspect.
  destruct (Z.eqb_spec (Z.land (texture.vkAspect f) vk.ImageAspect_eDepth) 0) as [Hd|Hd];
    destruct (Z.eqb_spec (Z.land (texture.vkAspect f) vk.ImageAspect_eStencil) 0) as [Hs|Hs];
    simpl; split; try (intros [? ?]; contradiction); try (intros; reflexivity).
  - intros _. destruct (texture.stencilFirst f); auto.
  - intros Hnot. exfalso. apply Hnot. split; assumption.
Qed.

Lemma Aspect_selects_one_plane_witness :
  Aspect rgba8 true = vk.ImageAspect_eColor /\ Aspect rgba8 false = vk.ImageAspect_eColor.
Proof.
  assert (Hcolor : ~ has_depth_and_stencil rgba8).
  { intros [H _]. apply H. reflexivity. }
  split; apply (proj2 (Aspect_selects_one_plane rgba8) Hcolor).
Defined.

(** X5: the size depends on the width and the height only through the
    number of blocks they span: rounding both up to the next multiple of
    the block size does not change the size. *)
Theorem GetSize_block_padding :
  forall (f : texture.FormatBase) (width height depth : Z),
    0 < texture.blockWidth f -> 0 < texture.blockHeight f ->
    texture.GetSize f
      (texture.DivideCeil width (texture.blockWidth f) * texture.blockWidth f)
      (texture.DivideCeil height (texture.blockHeight f) * texture.blockHeight f)
      depth
    = texture.GetSize f width height depth.
Proof.
  intros f width height depth Hbw Hbh.
  unfold texture.GetSize.
  rewrite !DivideCeil_multiple by assumption. reflexivity.
Qed.

(** A block-compressed format with four by four blocks of eight bytes
    ([BC1]). *)
Definition bc1 : texture.FormatBase :=
  {| texture.bpb := 8;
     texture.vkFormat := 131;
     texture.vkAspect := vk.ImageAspect_eColor;
     texture.blockHeight := 4;
     texture.blockWidth := 4;
     texture.swizzleMapping := identity_swizzle;
     texture.stencilFirst := false |}.

Lemma GetSize_block_padding_witness :
  texture.GetSize bc1 13 5 1 = texture.GetSize bc1 16 8 1
  /\ texture.GetSize bc1 13 5 1 = 64.
Proof.
  split; [|reflexivity].
  symmetry.
  apply (GetSize_block_padding bc1 13 5 1); simpl; lia.
Defined.

(** * Properties of the render target registers *)

Lemma IOVA_halves_compose (high low iova : Z) :
  is_u32 high -> is_u32 low ->
  IOVA_set_low low (IOVA_set_high high iova) = high * u32_modulus + low
  /\ IOVA_set_high high (IOVA_set_low low iova) = high * u32_modulus + low.
Proof.
  unfold is_u32, IOVA_set_low, IOVA_set_high, IOVA_high, IOVA_low, u32_modulus.
  intros Hh Hl.
  pose proof (Z.mod_pos_bound iova (2 ^ 32) ltac:(lia)) as Hm.
  split.
  - replace ((high * 2 ^ 32 + iova mod 2 ^ 32) / 2 ^ 32) with high; [reflexivity|].
    apply (Z.div_unique _ _ high (iova mod 2 ^ 32)); lia.
  - replace ((iova / 2 ^ 32 * 2 ^ 32 + low) mod 2 ^ 32) with low; [reflexivity|].
    apply (Z.mod_unique _ _ (iova / 2 ^ 32) low); lia.
Qed.

(** X6: the two halves of a render target's address can be written in
    either order and give the address [high * 2^32 + low]; each write
    empties the stored mappings and drops the cached view, so that the next
    [GetRenderTarget] of an enabled render target translates the new
    address and asks the texture manager again. *)
Theorem render_target_address_registers :
  forall (TranslateRange : Z -> Z -> list span) (GetLayerSize : GuestTexture.t -> Z)
         (texture_FindOrCreate : GuestTexture.t -> Z)
         (high low : Z) (rt : RenderTarget) (requests : list GuestTexture.t),
    is_u32 high -> is_u32 low ->
    let rt1 := SetRenderTargetAddressLow low (SetRenderTargetAddressHigh high rt) in
    let rt2 := SetRenderTargetAddressHigh high (SetRenderTargetAddressLow low rt) in
    rt1 = rt2
    /\ iova rt1 = high * u32_modulus + low
    /\ GuestTexture.mappings (guest rt1) = []
    /\ view rt1 = None
    /\ (disabled rt = false ->
        exists (v : Z) (rt' : RenderTarget) (g : GuestTexture.t),
          GetRenderTarget TranslateRange GetLayerSize texture_FindOrCreate rt1 requests
          = (Some v, rt', g :: requests)
          /\ GuestTexture.mappings g
             = TranslateRange (high * u32_modulus + low)
                 ((GetLayerSize (guest rt1)
                   * (GuestTexture.layerCount (guest rt) - GuestTexture.baseArrayLayer (guest rt)))
                    mod u64_modulus)).
Proof.
  intros TranslateRange GetLayerSize texture_FindOrCreate high low rt requests Hh Hl rt1 rt2.
  destruct (IOVA_halves_compose high low (iova rt) Hh Hl) as [H1 H2].
  assert (Hiova : iova rt1 = high * u32_modulus + low) by exact H1.
  split.
  { unfold rt1, rt2, SetRenderTargetAddressLow, SetRenderTargetAddressHigh; simpl.
    rewrite H1, H2. reflexivity. }
  split; [exact Hiova|]. split; [reflexivity|]. split; [reflexivity|].
  intros Henabled.
  unfold GetRenderTarget.
  replace (disabled rt1) with false by (symmetry; exact Henabled).
  replace (view rt1) with (@None Z) by reflexivity.
  replace (GuestTexture.mappings (guest rt1)) with (@nil span) by reflexivity.
  eexists _, _, _. split; [reflexivity|]. simpl. rewrite H1. reflexivity.
Qed.

Lemma render_target_address_registers_witness :
  iova (SetRenderTargetAddressLow 4096 (SetRenderTargetAddressHigh 1 example_render_target))
  = 1 * u32_modulus + 4096.
Proof.
  apply (render_target_address_registers split_translation (fun _ => 16384) (fun _ => 9)
           1 4096 example_render_target []); unfold is_u32; lia.
Defined.

(** The width of a render target agrees with its width register: it is the
    register divided by the bytes per block for a linear render target that
    has a format, and the register itself otherwise. *)
Definition width_consistent (rt : RenderTarget) : Prop :=
  texture.width (GuestTexture.dimensions (guest rt))
  = match texture.mode (GuestTexture.tileConfig (guest rt)), GuestTexture.format (guest rt) with
    | texture.Linear, Some base => widthBytes rt / texture.bpb base
    | _, _ => widthBytes rt
    end.

Definition valid_format (f : texture.Format) : Prop :=
  forall base, f = Some base -> texture.bpb base <> 0.

(** X7: writing the width register makes the width agree with the
    register, and a change of tile mode keeps them in agreement: going from
    block-linear to linear divides the width by the bytes per block, going
    back restores the register's value.  A change to a non-null format
    keeps the agreement as well. *)
Theorem render_target_width_tracks_register :
  forall (rt : RenderTarget),
    valid_format (GuestTexture.format (guest rt)) ->
    (forall value : Z,
        exists rt', SetRenderTargetWidth value rt = Ok rt'
                    /\ widthBytes rt' = value /\ width_consistent rt')
    /\ (forall mode : RenderTargetTileMode,
          width_consistent rt ->
          exists rt', SetRenderTargetTileMode mode rt = Ok rt'
                      /\ widthBytes rt' = widthBytes rt
                      /\ texture.mode (GuestTexture.tileConfig (guest rt'))
                         = (if isLinear mode then texture.Linear else texture.Block)
                      /\ width_consistent rt')
    /\ (forall base : texture.FormatBase,
          texture.bpb base <> 0 ->
          width_consistent rt ->
          exists g, apply_format (widthBytes rt) (Some base) (guest rt) = Ok g
                    /\ width_consistent (RenderTarget_set_guest g rt)).
Proof.
  intros rt Hvalid. unfold valid_format in Hvalid.
  split; [|split].
  - intros value. unfold SetRenderTargetWidth, width_consistent.
    destruct (texture.mode (GuestTexture.tileConfig (guest rt))) eqn:Hmode;
      destruct (GuestTexture.format (guest rt)) as [base|] eqn:Hfmt;
      try (eexists; split; [reflexivity|]; simpl; rewrite ?Hmode, ?Hfmt; auto).
    destruct (Z.eqb_spec (texture.bpb base) 0) as [H0|_];
      [exfalso; exact (Hvalid base eq_refl H0)|].
    eexists; split; [reflexivity|]; simpl; rewrite ?Hmode, ?Hfmt; auto.
  - intros mode Hcons. unfold SetRenderTargetTileMode, width_consistent in *.
    destruct (isLinear mode);
      destruct (texture.mode (GuestTexture.tileConfig (guest rt))) eqn:Hmode;
      destruct (GuestTexture.format (guest rt)) as [base|] eqn:Hfmt;
      try (destruct (Z.eqb_spec (texture.bpb base) 0) as [H0|_];
           [exfalso; exact (Hvalid base eq_refl H0)|]);
      eexists; (split; [reflexivity|]); simpl; rewrite ?Hfmt;
      repeat split; auto; congruence.
  - intros base Hbpb Hcons. unfold apply_format, width_consistent in *. simpl.
    destruct (texture.mode (GuestTexture.tileConfig (guest rt))) eqn:Hmode; simpl.
    + destruct (Z.eqb_spec (texture.bpb base) 0) as [H0|_]; [contradiction|].
      eexists; split; [reflexivity|]. simpl. rewrite Hmode. reflexivity.
    + eexists; split; [reflexivity|]. simpl. rewrite Hmode.
      destruct (GuestTexture.format (guest rt)); exact Hcons.
    + eexists; split; [reflexivity|]. simpl. rewrite Hmode.
      destruct (GuestTexture.format (guest rt)); exact Hcons.
Qed.

Definition linear_mode : RenderTargetTileMode :=
  {| isLinear := true; blockHeightLog2 := 0; blockDepthLog2 := 0 |}.

Lemma render_target_width_tracks_register_witness :
  exists rt', SetRenderTargetWidth 256 example_render_target = Ok rt'
              /\ widthBytes rt' = 256 /\ width_consistent rt'.
Proof.
  apply (proj1 (render_target_width_tracks_register example_render_target
                  ltac:(intros base [= <-]; simpl; lia))).
Defined.

(** X8: [SetColorRenderTargetBaseLayer] stores a base layer of at most
    65535 unchanged and drops the cached view; a larger one is refused with
    an exception.  The layer stride register is stored multiplied by four,
    in 32 bits: the result is four times the register's low 30 bits. *)
Theorem render_target_layer_registers :
  (forall (index : nat) (baseArrayLayer : Z) (ctx : GraphicsContext) (rt : RenderTarget),
      colorRenderTargets ctx !! index = Some rt ->
      0 <= baseArrayLayer ->
      (baseArrayLayer <= 65535 ->
       exists (ctx' : GraphicsContext) (rt' : RenderTarget),
         SetColorRenderTargetBaseLayer index baseArrayLayer ctx = Ok ctx'
         /\ colorRenderTargets ctx' !! index = Some rt'
         /\ GuestTexture.baseArrayLayer (guest rt') = baseArrayLayer
         /\ view rt' = None)
      /\ (65535 < baseArrayLayer ->
          throws (SetColorRenderTargetBaseLayer index baseArrayLayer ctx)))
  /\ (forall (layerStrideLsr2 : Z) (rt : RenderTarget),
        0 <= layerStrideLsr2 ->
        GuestTexture.layerStride (guest (SetRenderTargetLayerStride layerStrideLsr2 rt))
        = 4 * (layerStrideLsr2 mod 2 ^ 30)).
Proof.
  split.
  - intros index b ctx rt Hrt Hnonneg.
    unfold SetColorRenderTargetBaseLayer, at_, throws. rewrite Hrt. simpl.
    split.
    + intros Hle. destruct (Z.gtb_spec b 65535) as [Hgt|_]; [lia|].
      eexists _, _. split; [reflexivity|]. simpl.
      split; [apply list_lookup_insert_eq; eapply lookup_lt_Some; eassumption|].
      simpl. split; [|reflexivity].
      apply Z.mod_small. unfold u16_modulus. lia.
    + intros Hgt. destruct (Z.gtb_spec b 65535) as [_|Hle]; [|lia].
      eauto.
  - intros n rt Hn. simpl. unfold u32_wrap, u32_modulus.
    rewrite Z.shiftl_mul_pow2 by lia.
    change (2 ^ 32) with (2 ^ 30 * 4). change (2 ^ 2) with 4.
    rewrite Z.mul_mod_distr_r by lia. lia.
Qed.

Lemma render_target_layer_registers_witness :
  throws (SetColorRenderTargetBaseLayer 0 65536 example_context).
Proof.
  apply (proj1 render_target_layer_registers 0%nat 65536 example_context example_render_target).
  - reflexivity.
  - lia.
  - lia.
Defined.

Lemma GetRenderTarget_without_view
    (TranslateRange : Z -> Z -> list span) (GetLayerSize : GuestTexture.t -> Z)
    (texture_FindOrCreate : GuestTexture.t -> Z)
    (rt : RenderTarget) (requests : list GuestTexture.t) :
  disabled rt = false ->
  view rt = None ->
  exists (v : Z) (rt' : RenderTarget) (g : GuestTexture.t),
    GetRenderTarget TranslateRange GetLayerSize texture_FindOrCreate rt requests
    = (Some v, rt', g :: requests)
    /\ disabled rt' = false
    /\ view rt' = Some v
    /\ GuestTexture.dimensions g = GuestTexture.dimensions (guest rt)
    /\ GuestTexture.layerCount g = GuestTexture.layerCount (guest rt).
Proof.
  intros Hen Hview. unfold GetRenderTarget. rewrite Hen, Hview.
  destruct (GuestTexture.mappings (guest rt));
    eexists _, _, _; (split; [reflexivity|]); simpl; auto.
Qed.

(** X9: [GetRenderTarget] returns null for a disabled render target without
    asking the texture manager; for an enabled one the view it returns is
    kept, so that a second call returns the same view and asks the texture
    manager nothing, until a register write drops the view. *)
Theorem GetRenderTarget_caches_view :
  forall (TranslateRange : Z -> Z -> list span) (GetLayerSize : GuestTexture.t -> Z)
         (texture_FindOrCreate : GuestTexture.t -> Z)
         (rt : RenderTarget) (requests : list GuestTexture.t),
    (disabled rt = true ->
     GetRenderTarget TranslateRange GetLayerSize texture_FindOrCreate rt requests
     = (None, rt, requests))
    /\ (disabled rt = false ->
        exists (v : Z) (rt1 : RenderTarget) (requests1 : list GuestTexture.t),
          GetRenderTarget TranslateRange GetLayerSize texture_FindOrCreate rt requests
          = (Some v, rt1, requests1)
          /\ GetRenderTarget TranslateRange GetLayerSize texture_FindOrCreate rt1 requests1
             = (Some v, rt1, requests1)
          /\ (forall height : Z,
                exists (v' : Z) (rt2 : RenderTarget) (g : GuestTexture.t),
                  GetRenderTarget TranslateRange GetLayerSize texture_FindOrCreate
                    (SetRenderTargetHeight height rt1) requests1
                  = (Some v', rt2, g :: requests1)
                  /\ texture.height (GuestTexture.dimensions g) = height)).
Proof.
  intros TranslateRange GetLayerSize texture_FindOrCreate rt requests.
  split.
  - intros Hdis. unfold GetRenderTarget. rewrite Hdis. reflexivity.
  - intros Hen.
    assert (Hcached : exists (v : Z) (rt1 : RenderTarget) (requests1 : list GuestTexture.t),
               GetRenderTarget TranslateRange GetLayerSize texture_FindOrCreate rt requests
               = (Some v, rt1, requests1)
               /\ disabled rt1 = false /\ view rt1 = Some v).
    { destruct (view rt) as [v|] eqn:Hview.
      - exists v, rt, requests. unfold GetRenderTarget. rewrite Hen, Hview. auto.
      - destruct (GetRenderTarget_without_view TranslateRange GetLayerSize texture_FindOrCreate
                    rt requests Hen Hview) as (v & rt1 & g & Hget & Hen1 & Hview1 & _).
        exists v, rt1, (g :: requests). auto. }
    destruct Hcached as (v & rt1 & requests1 & Hget & Hen1 & Hview1).
    exists v, rt1, requests1. split; [exact Hget|]. split.
    + unfold GetRenderTarget. rewrite Hen1, Hview1. reflexivity.
    + intros height.
      destruct (GetRenderTarget_without_view TranslateRange GetLayerSize texture_FindOrCreate
                  (SetRenderTargetHeight height rt1) requests1 Hen1 eq_refl)
        as (v' & rt2 & g & Hget2 & _ & _ & Hdim & _).
      exists v', rt2, g. split; [exact Hget2|]. rewrite Hdim. reflexivity.
Qed.

Lemma GetRenderTarget_caches_view_witness :
  exists (v : Z) (rt1 : RenderTarget) (requests1 : list GuestTexture.t),
    GetRenderTarget split_translation (fun _ => 16384) (fun _ => 9) example_render_target []
    = (Some v, rt1, requests1)
    /\ GetRenderTarget split_translation (fun _ => 16384) (fun _ => 9) rt1 requests1
       = (Some v, rt1, requests1)
    /\ (forall height : Z,
          exists (v' : Z) (rt2 : RenderTarget) (g : GuestTexture.t),
            GetRenderTarget split_translation (fun _ => 16384) (fun _ => 9)
              (SetRenderTargetHeight height rt1) requests1
            = (Some v', rt2, g :: requests1)
            /\ texture.height (GuestTexture.dimensions g) = height).
Proof.
  apply (proj2 (GetRenderTarget_caches_view split_translation (fun _ => 16384) (fun _ => 9)
                  example_render_target [])).
  reflexivity.
Defined.

(** X10: the array mode register stores its layer count as the depth of
    the render target and leaves the descriptor's layer count alone, so a
    render target given more than one layer is requested from the texture
    manager as a 3D texture. *)
Theorem layered_render_target_is_3D :
  forall (TranslateRange : Z -> Z -> list span) (GetLayerSize : GuestTexture.t -> Z)
         (texture_FindOrCreate : GuestTexture.t -> Z)
         (mode : RenderTargetArrayMode) (rt : RenderTarget) (requests : list GuestTexture.t),
    disabled rt = false ->
    1 < arrayLayerCount mode ->
    exists (v : Z) (rt' : RenderTarget) (g : GuestTexture.t),
      GetRenderTarget TranslateRange GetLayerSize texture_FindOrCreate
        (SetRenderTargetArrayMode mode rt) requests
      = (Some v, rt', g :: requests)
      /\ GuestTexture.type g = texture.e3D
      /\ texture.depth (GuestTexture.dimensions g) = arrayLayerCount mode
      /\ GuestTexture.layerCount g = GuestTexture.layerCount (guest rt).
Proof.
  intros TranslateRange GetLayerSize texture_FindOrCreate mode rt requests Hen Hlayers.
  unfold GetRenderTarget, SetRenderTargetArrayMode. simpl. rewrite Hen.
  assert (Hgt : (arrayLayerCount mode >? 1) = true)
    by (destruct (Z.gtb_spec (arrayLayerCount mode) 1); [reflexivity | lia]).
  destruct (GuestTexture.mappings (guest rt)); eexists _, _, _;
    (split; [reflexivity|]); simpl; unfold texture.GetType; simpl; rewrite Hgt; auto.
Qed.

Lemma layered_render_target_is_3D_witness :
  exists (v : Z) (rt' : RenderTarget) (g : GuestTexture.t),
    GetRenderTarget split_translation (fun _ => 16384) (fun _ => 9)
      (SetRenderTargetArrayMode {| arrayLayerCount := 6; volume := false |} example_render_target) []
    = (Some v, rt', [g])
    /\ GuestTexture.type g = texture.e3D
    /\ texture.depth (GuestTexture.dimensions g) = 6
    /\ GuestTexture.layerCount g = 1.
Proof.
  apply (layered_render_target_is_3D split_translation (fun _ => 16384) (fun _ => 9)
           {| arrayLayerCount := 6; volume := false |} example_render_target []).
  - reflexivity.
  - simpl. lia.
Defined.

(** * Properties of the scissors and of clears *)

Lemma u32_wrap_small_difference (a b : Z) :
  - 2 ^ 16 < a < 2 ^ 16 -> - 2 ^ 16 < b < 2 ^ 16 -> u32_wrap a = u32_wrap b -> a = b.
Proof.
  unfold u32_wrap, u32_modulus. intros Ha Hb Heq.
  pose proof (Z.div_mod a (2 ^ 32) ltac:(lia)) as Hda.
  pose proof (Z.div_mod b (2 ^ 32) ltac:(lia)) as Hdb.
  pose proof (Z.mod_pos_bound a (2 ^ 32) ltac:(lia)) as Hma.
  assert (Hq : a / 2 ^ 32 = b / 2 ^ 32 \/ a / 2 ^ 32 <> b / 2 ^ 32) by lia.
  destruct Hq as [Hq|Hq]; [lia|].
  assert (Hbound : - 2 ^ 17 < a - b < 2 ^ 17) by lia.
  assert (Hmul : a - b = 2 ^ 32 * (a / 2 ^ 32 - b / 2 ^ 32)) by lia.
  assert (Hcases : a / 2 ^ 32 - b / 2 ^ 32 <= -1 \/ 1 <= a / 2 ^ 32 - b / 2 ^ 32) by lia.
  destruct Hcases; nia.
Qed.

Definition valid_bounds (b : ScissorBounds) : Prop :=
  is_u16 (minimum b) /\ is_u16 (maximum b).

(** X11: [SetScissor] with no scissor stores the default scissor.  With a
    scissor it stores the same horizontal offset and width, and the same
    vertical offset, as [SetScissorHorizontal] followed by
    [SetScissorVertical]; its height is taken from the horizontal maximum,
    so the two results are the same rectangle exactly when the horizontal
    and the vertical maximum are equal.  The two single-axis setters
    commute. *)
Theorem SetScissor_against_axis_setters :
  forall (index : nat) (s : Scissor) (scissors : list Rect2D) (r : Rect2D),
    scissors !! index = Some r ->
    valid_bounds (horizontal s) -> valid_bounds (vertical s) ->
    exists both axes : Rect2D,
      SetScissor index None scissors = Ok (<[index := DefaultScissor]> scissors)
      /\ SetScissor index (Some s) scissors = Ok (<[index := both]> scissors)
      /\ (scissors1 ← SetScissorHorizontal index (horizontal s) scissors;
          SetScissorVertical index (vertical s) scissors1)
         = Ok (<[index := axes]> scissors)
      /\ (scissors1 ← SetScissorVertical index (vertical s) scissors;
          SetScissorHorizontal index (horizontal s) scissors1)
         = Ok (<[index := axes]> scissors)
      /\ offset_x both = offset_x axes
      /\ extent_width both = extent_width axes
      /\ offset_y both = offset_y axes
      /\ (both = axes <-> maximum (horizontal s) = maximum (vertical s)).
Proof.
  intros index s scissors r Hr [Hhmin Hhmax] [Hvmin Hvmax].
  unfold is_u16 in *.
  assert (Hlt : (index < length scissors)%nat) by (eapply lookup_lt_Some; eassumption).
  eexists _, _.
  split; [unfold SetScissor, at_; rewrite Hr; reflexivity|].
  split; [unfold SetScissor, at_; rewrite Hr; reflexivity|].
  split.
  { unfold SetScissorHorizontal, SetScissorVertical, at_. rewrite Hr. simpl.
    rewrite list_lookup_insert_eq by exact Hlt. simpl.
    rewrite list_insert_insert_eq. reflexivity. }
  split.
  { unfold SetScissorHorizontal, SetScissorVertical, at_. rewrite Hr. simpl.
    rewrite list_lookup_insert_eq by exact Hlt. simpl.
    rewrite list_insert_insert_eq. reflexivity. }
  simpl. repeat split; try reflexivity.
  - intros [= Heq].
    apply u32_wrap_small_difference in Heq; lia.
  - intros ->. reflexivity.
Qed.

Definition example_scissor : Scissor :=
  {| horizontal := {| minimum := 16; maximum := 1280 |};
     vertical := {| minimum := 8; maximum := 720 |} |}.

Lemma SetScissor_against_axis_setters_witness :
  exists both axes : Rect2D,
    SetScissor 0 (Some example_scissor) [DefaultScissor] = Ok [both]
    /\ (scissors1 ← SetScissorHorizontal 0 (horizontal example_scissor) [DefaultScissor];
        SetScissorVertical 0 (vertical example_scissor) scissors1)
       = Ok [axes]
    /\ extent_height both = 1272
    /\ extent_height axes = 712.
Proof.
  destruct (SetScissor_against_axis_setters 0 example_scissor [DefaultScissor] DefaultScissor)
    as (both & axes & _ & Hboth & Haxes & _).
  - reflexivity.
  - unfold valid_bounds, is_u16; simpl; lia.
  - unfold valid_bounds, is_u16; simpl; lia.
  - exists both, axes.
    split; [exact Hboth|]. split; [exact Haxes|].
    injection Hboth as <-. injection Haxes as <-. split; reflexivity.
Defined.

Lemma to_i32_small (x : Z) : 0 <= x < 2 ^ 31 -> to_i32 x = x.
Proof.
  intros Hx. unfold to_i32, u32_modulus.
  rewrite Z.mod_small by lia. lia.
Qed.

(** X12: for a texture and a scissor whose sizes are below [2^31] and a
    scissor offset inside the texture, [ClearColorRt] never clears outside
    the texture: a rectangle it hands to [clearAttachments] is non-empty and
    lies within the texture, a whole-subpass clear is chosen only for a
    scissor that covers the texture from its origin, and nothing is cleared
    only when the clamped scissor is empty. *)
Theorem ClearColorRt_stays_inside_texture :
  forall (dimensions : texture.Dimensions) (range : vk.ImageSubresourceRange)
         (scissor : Rect2D) (layerIndex : Z),
    0 <= texture.width dimensions < 2 ^ 31 ->
    0 <= texture.height dimensions < 2 ^ 31 ->
    0 <= offset_x scissor <= texture.width dimensions ->
    0 <= offset_y scissor <= texture.height dimensions ->
    0 <= extent_width scissor < 2 ^ 31 ->
    0 <= extent_height scissor < 2 ^ 31 ->
    match ClearColorRt dimensions range scissor layerIndex with
    | ClearAttachments rect baseArrayLayer =>
        baseArrayLayer = layerIndex
        /\ offset_x rect = offset_x scissor /\ offset_y rect = offset_y scissor
        /\ 0 < extent_width rect <= extent_width scissor
        /\ 0 < extent_height rect <= extent_height scissor
        /\ offset_x rect + extent_width rect <= texture.width dimensions
        /\ offset_y rect + extent_height rect <= texture.height dimensions
    | ClearColorSubpass =>
        offset_x scissor = 0 /\ offset_y scissor = 0
        /\ texture.width dimensions <= extent_width scissor
        /\ texture.height dimensions <= extent_height scissor
        /\ layerIndex = 0 /\ vk.baseArrayLayer range = 0 /\ vk.layerCount range = 1
    | NoClear =>
        extent_width scissor = 0 \/ extent_height scissor = 0
        \/ offset_x scissor = texture.width dimensions
        \/ offset_y scissor = texture.height dimensions
    end.
Proof.
  intros [w h d] range [ox oy ew eh] layerIndex; simpl.
  intros Hw Hh Hox Hoy Hew Heh.
  unfold ClearColorRt; simpl.
  rewrite !to_i32_small by lia.
  unfold u32_wrap, u32_modulus.
  rewrite (Z.mod_small (Z.min (w - ox) ew)) by lia.
  rewrite (Z.mod_small (Z.min (h - oy) eh)) by lia.
  destruct (Z.eqb_spec (Z.min (w - ox) ew) 0) as [Hw0|Hw0]; simpl; [lia|].
  destruct (Z.eqb_spec (Z.min (h - oy) eh) 0) as [Hh0|Hh0]; simpl; [lia|].
  destruct (Z.eqb_spec (Z.min (w - ox) ew) w) as [Hfw|Hfw]; simpl; [|lia].
  destruct (Z.eqb_spec (Z.min (h - oy) eh) h) as [Hfh|Hfh]; simpl; [|lia].
  destruct (Z.eqb_spec (vk.baseArrayLayer range) 0) as [Hb|Hb]; simpl; [|lia].
  destruct (Z.eqb_spec (vk.layerCount range) 1) as [Hl|Hl]; simpl; [|lia].
  destruct (Z.eqb_spec layerIndex 0) as [Hi|Hi]; simpl; lia.
Qed.

Lemma ClearColorRt_stays_inside_texture_witness :
  ClearColorRt (Dimensions_2 1280 720) (TextureView.range (view_of (Some rgba8))) DefaultScissor 0
  = ClearColorSubpass
  /\ offset_x DefaultScissor = 0.
Proof.
  split; [reflexivity|].
  pose proof (ClearColorRt_stays_inside_texture (Dimensions_2 1280 720)
                (TextureView.range (view_of (Some rgba8))) DefaultScissor 0) as H.
  simpl in H. apply H; unfold i32_max; lia.
Defined.

(** * Properties of the constant buffer selector *)

(** X13: a selector of size zero yields no constant buffer and no request.
    After a lookup that missed the cache, the view is cached under the
    selector's size and address: once the selector's registers have been
    rewritten (which drops its view) to the same size and address, the
    next lookup returns the same view without asking the buffer manager
    again, and entries under other keys are as they were. *)
Theorem constant_buffer_views_are_cached :
  forall (TranslateRange : Z -> Z -> list span) (buffer_FindOrCreate : span -> Z)
         (st : ConstantBufferState),
    (cb_size (constantBufferSelector st) = 0 ->
     GetConstantBufferSelector TranslateRange buffer_FindOrCreate st = Ok (None, st))
    /\ (forall (m : span) (rest : list span),
          cb_size (constantBufferSelector st) <> 0 ->
          cb_view (constantBufferSelector st) = None ->
          ConstantBufferCache_Lookup (cb_size (constantBufferSelector st))
            (cb_iova (constantBufferSelector st)) (constantBufferCache st) = None ->
          TranslateRange (cb_iova (constantBufferSelector st)) (cb_size (constantBufferSelector st))
          = m :: rest ->
          exists (selector' : ConstantBuffer) (st1 : ConstantBufferState),
            GetConstantBufferSelector TranslateRange buffer_FindOrCreate st
            = Ok (Some selector', st1)
            /\ cb_view selector' = Some (buffer_FindOrCreate m)
            /\ constantBufferRequests st1 = m :: constantBufferRequests st
            /\ GetConstantBufferSelector TranslateRange buffer_FindOrCreate
                 (SetConstantBufferSelectorSize (cb_size (constantBufferSelector st)) st1)
               = Ok (Some selector', st1)
            /\ (forall size iova : Z,
                  (size, iova) <> (cb_size (constantBufferSelector st),
                                   cb_iova (constantBufferSelector st)) ->
                  ConstantBufferCache_Lookup size iova (constantBufferCache st1)
                  = ConstantBufferCache_Lookup size iova (constantBufferCache st))).
Proof.
  intros TranslateRange buffer_FindOrCreate st. split.
  - intros Hzero. unfold GetConstantBufferSelector. rewrite Hzero. reflexivity.
  - intros m rest Hsize Hview Hmiss Htr.
    destruct st as [[ciova csize cview] cache requests]; simpl in *. subst cview.
    unfold GetConstantBufferSelector; simpl.
    destruct (Z.eqb_spec csize 0) as [H0|_]; [contradiction|].
    rewrite Hmiss, Htr. simpl.
    eexists _, _. split; [reflexivity|]. simpl.
    split; [reflexivity|]. split; [reflexivity|]. split.
    + destruct (Z.eqb_spec csize 0) as [H0|_]; [contradiction|].
      unfold ConstantBufferCache_Lookup, ConstantBufferCache_Insert.
      rewrite lookup_insert_eq. reflexivity.
    + intros size iova Hne.
      unfold ConstantBufferCache_Lookup, ConstantBufferCache_Insert.
      apply lookup_insert_ne. congruence.
Qed.

Definition example_constant_buffers : ConstantBufferState :=
  {| constantBufferSelector := {| cb_iova := 4096; cb_size := 256; cb_view := None |};
     constantBufferCache := ∅;
     constantBufferRequests := [] |}.

Lemma constant_buffer_views_are_cached_witness :
  exists (selector' : ConstantBuffer) (st1 : ConstantBufferState),
    GetConstantBufferSelector split_translation view_by_address example_constant_buffers
    = Ok (Some selector', st1)
    /\ cb_view selector' = Some (view_by_address first_half)
    /\ constantBufferRequests st1 = [first_half]
    /\ GetConstantBufferSelector split_translation view_by_address
         (SetConstantBufferSelectorSize 256 st1)
       = Ok (Some selector', st1).
Proof.
  destruct (proj2 (constant_buffer_views_are_cached split_translation view_by_address
                     example_constant_buffers) first_half [second_half])
    as (selector' & st1 & H1 & H2 & H3 & H4 & _).
  - simpl. lia.
  - reflexivity.
  - reflexivity.
  - reflexivity.
  - exists selector', st1. auto.
Defined.

(** * Properties of the shader bytecode checks *)

Definition is_BraSelf (instruction : Z) : Prop :=
  instruction = BraSelf1 \/ instruction = BraSelf2.

Lemma is_BraSelf_decide (instruction : Z) :
  (instruction =? BraSelf1) || (instruction =? BraSelf2) = true <-> is_BraSelf instruction.
Proof. unfold is_BraSelf. rewrite orb_true_iff, !Z.eqb_eq. tauto. Qed.

Lemma FindShaderEnd_from_Some (k : Z) (l : list Z) (offset : Z) :
  FindShaderEnd_from k l = Some offset ->
  exists (i : nat) (instruction : Z),
    offset = (k + Z.of_nat i) * 8
    /\ l !! i = Some instruction
    /\ is_BraSelf instruction
    /\ forall (j : nat) (earlier : Z), (j < i)%nat -> l !! j = Some earlier -> ~ is_BraSelf earlier.
Proof.
  revert k. induction l as [|x l IH]; intros k; simpl; [discriminate|].
  destruct ((x =? BraSelf1) || (x =? BraSelf2)) eqn:Hx.
  - intros [= <-]. exists 0%nat, x.
    split; [f_equal; lia|]. split; [reflexivity|].
    split; [apply is_BraSelf_decide; exact Hx|]. intros j earlier Hj. lia.
  - intros Hrest. destruct (IH (k + 1) Hrest) as (i & instruction & Hoff & Hi & Hbra & Hearlier).
    exists (S i), instruction.
    split; [rewrite Hoff; f_equal; lia|]. split; [exact Hi|]. split; [exact Hbra|].
    intros [|j] earlier Hj; simpl.
    + intros [= <-] Habs. apply is_BraSelf_decide in Habs. congruence.
    + apply Hearlier. lia.
Qed.

Lemma FindShaderEnd_from_None (k : Z) (l : list Z) :
  FindShaderEnd_from k l = None <-> forall instruction, In instruction l -> ~ is_BraSelf instruction.
Proof.
  revert k. induction l as [|x l IH]; intros k; simpl.
  - split; [intros _ ? [] | reflexivity].
  - destruct ((x =? BraSelf1) || (x =? BraSelf2)) eqn:Hx.
    + split; [discriminate|]. intros Hall. exfalso.
      apply (Hall x (or_introl eq_refl)). apply is_BraSelf_decide. exact Hx.
    + rewrite IH. split.
      * intros Hall y [<-|Hin]; [|auto].
        intros Habs. apply is_BraSelf_decide in Habs. congruence.
      * intros Hall y Hin. apply Hall. right. exact Hin.
Qed.

(** X14: the scan for the end of a shader returns the byte offset of the
    first instruction that is a branch to itself (eight times its index,
    every earlier instruction being something else), and returns nothing
    exactly when no instruction is such a branch. *)
Theorem FindShaderEnd_first_branch_to_self :
  forall shaderInstructions : list Z,
    (forall offset : Z,
        FindShaderEnd shaderInstructions = Some offset ->
        exists (i : nat) (instruction : Z),
          offset = Z.of_nat i * 8
          /\ shaderInstructions !! i = Some instruction
          /\ is_BraSelf instruction
          /\ forall (j : nat) (earlier : Z),
               (j < i)%nat -> shaderInstructions !! j = Some earlier -> ~ is_BraSelf earlier)
    /\ (FindShaderEnd shaderInstructions = None
        <-> forall instruction, In instruction shaderInstructions -> ~ is_BraSelf instruction).
Proof.
  intros l. split.
  - intros offset H. apply FindShaderEnd_from_Some in H.
    destruct H as (i & instruction & Hoff & H). exists i, instruction.
    split; [rewrite Hoff; f_equal; lia | exact H].
  - apply FindShaderEnd_from_None.
Qed.

Lemma FindShaderEnd_first_branch_to_self_witness :
  exists (i : nat) (instruction : Z),
    16 = Z.of_nat i * 8
    /\ [7; BraSelf2 + 1; BraSelf2; BraSelf1] !! i = Some instruction
    /\ is_BraSelf instruction.
Proof.
  destruct (proj1 (FindShaderEnd_first_branch_to_self [7; BraSelf2 + 1; BraSelf2; BraSelf1]) 16)
    as (i & instruction & H1 & H2 & H3 & _).
  - reflexivity.
  - exists i, instruction. auto.
Defined.

Lemma bytes_eqb_eq (xs ys : list Z) : bytes_eqb xs ys = true <-> xs = ys.
Proof. unfold bytes_eqb. destruct (decide (xs = ys)); split; congruence. Qed.

Lemma take_app_length_iff (b c d : list Z) :
  take (length (b ++ c)) d = b ++ c
  <-> take (length b) d = b /\ take (length c) (drop (length b) d) = c.
Proof.
  revert d. induction b as [|x b IH]; intros d; simpl.
  - rewrite drop_0. split; [intros H; split; [destruct d; reflexivity | exact H] | intros [_ H]; exact H].
  - destruct d as [|y d]; simpl.
    + split; [discriminate | intros [H _]; discriminate].
    + split.
      * intros [= -> H]. apply IH in H. destruct H as [H1 H2]. rewrite H1. auto.
      * intros [[= -> H1] H2]. f_equal. apply IH. auto.
Qed.

Lemma ranges_differ_false (newIovaRanges : list (option (list Z))) (originalShader : list Z) :
  ranges_differ newIovaRanges originalShader = false
  <-> exists chunks : list (list Z),
        newIovaRanges = map Some chunks
        /\ take (length (concat chunks)) originalShader = concat chunks.
Proof.
  revert originalShader. induction newIovaRanges as [|r rs IH]; intros d; simpl.
  - split; [intros _; exists []; split; [reflexivity | destruct d; reflexivity] | reflexivity].
  - destruct r as [bytes|].
    + destruct (bytes_eqb bytes (take (length bytes) d)) eqn:Hb.
      * apply bytes_eqb_eq in Hb. rewrite IH. split.
        -- intros (chunks & -> & Htake). exists (bytes :: chunks).
           split; [reflexivity|]. simpl. apply take_app_length_iff. auto.
        -- intros (chunks & Hmap & Htake). destruct chunks as [|c chunks]; [discriminate|].
           injection Hmap as -> ->. simpl in Htake. apply take_app_length_iff in Htake.
           exists chunks. split; [reflexivity | tauto].
      * split; [discriminate|].
        intros (chunks & Hmap & Htake). destruct chunks as [|c chunks]; [discriminate|].
        injection Hmap as -> ->. simpl in Htake. apply take_app_length_iff in Htake.
        destruct Htake as [Htake _]. symmetry in Htake. apply bytes_eqb_eq in Htake. congruence.
    + split; [discriminate|].
      intros (chunks & Hmap & _). destruct chunks; discriminate.
Qed.

(** X15: a shader is parsed again unless it has stored bytecode and is
    flagged for the comparison, in which case the flag is raised for the
    next time.  When the comparison is made, parsing is skipped exactly
    when every translated range has data and the ranges, one after the
    other, are the bytes at the start of the stored bytecode; for ranges
    that add up to the length of the stored bytecode, exactly when they
    are the stored bytecode. *)
Theorem shouldParseShader_compares_ranges :
  forall (data : list Z) (shouldCheckSame : bool) (newIovaRanges : list (option (list Z))),
    (data = [] \/ shouldCheckSame = false ->
     shouldParseShader data shouldCheckSame newIovaRanges = (true, true))
    /\ (data <> [] -> shouldCheckSame = true ->
        snd (shouldParseShader data shouldCheckSame newIovaRanges) = true
        /\ (fst (shouldParseShader data shouldCheckSame newIovaRanges) = false
            <-> exists chunks : list (list Z),
                  newIovaRanges = map Some chunks
                  /\ take (length (concat chunks)) data = concat chunks)
        /\ (forall chunks : list (list Z),
              newIovaRanges = map Some chunks ->
              length (concat chunks) = length data ->
              (fst (shouldParseShader data shouldCheckSame newIovaRanges) = false
               <-> concat chunks = data))).
Proof.
  intros data shouldCheckSame ranges. unfold shouldParseShader. split.
  - intros [-> | ->]; [reflexivity|]. rewrite andb_false_r. reflexivity.
  - intros Hdata ->. destruct data as [|x data]; [contradiction|]. simpl.
    split; [reflexivity|]. split; [apply ranges_differ_false|].
    intros chunks Hranges Hlen. rewrite ranges_differ_false. split.
    + intros (chunks' & Hmap & Htake).
      assert (chunks' = chunks) as ->.
      { rewrite Hranges in Hmap. clear - Hmap. revert chunks' Hmap.
        induction chunks as [|c chunks IH]; intros [|c' chunks'] Hmap; try discriminate; auto.
        injection Hmap as -> Hmap. f_equal. auto. }
      rewrite take_ge in Htake by (rewrite Hlen; reflexivity). auto.
    + intros Heq. exists chunks. split; [exact Hranges|].
      rewrite take_ge by (rewrite Hlen; reflexivity). auto.
Qed.

Lemma shouldParseShader_compares_ranges_witness :
  fst (shouldParseShader [1; 2; 3; 4; 5] true [Some [1; 2]; Some [3; 4; 5]]) = false.
Proof.
  apply (proj2 (proj2 (proj2 (shouldParseShader_compares_ranges [1; 2; 3; 4; 5] true
                                [Some [1; 2]; Some [3; 4; 5]])
                                ltac:(discriminate) eq_refl))
           [[1; 2]; [3; 4; 5]] eq_refl eq_refl).
  reflexivity.
Defined.

(** * Properties of the rasterizer and stencil state *)

(** The cull mode of the host pipeline is "none" while culling is disabled,
    and is otherwise "none" or the mode last chosen by the guest. *)
Definition cull_mode_invariant (r : Rasterizer) : Prop :=
  (cullFaceEnabled r = false -> rasterizer_cullMode r = eCullNone)
  /\ (rasterizer_cullMode r = eCullNone \/ rasterizer_cullMode r = cullMode r).

Lemma cull_mode_invariant_step (c : RasterizerCall) (r : Rasterizer) :
  cull_mode_invariant r -> cull_mode_invariant (Rasterizer_perform c r).
Proof.
  unfold cull_mode_invariant. intros [Hoff Hmode].
  destruct c as [enabled|face|face|enabled]; simpl.
  - destruct enabled; simpl; split; auto; discriminate.
  - destruct (cullFaceEnabled r) eqn:Hen; simpl; split; auto; discriminate.
  - auto.
  - unfold SetFrontFaceFlipEnabled, UpdateRuntimeInformation.
    destruct enabled, (frontFaceFlip r), (y_negate r); simpl; auto.
Qed.

(** X16: along every sequence of face setter calls from the initial state,
    the host cull mode is "none" whenever culling is disabled, and is
    otherwise "none" or the guest's mode.  It can be "none" while culling
    is enabled: enabling culling does not install the mode chosen while it
    was disabled, whereas choosing the mode after enabling does. *)
Theorem cull_mode_follows_enable :
  (forall calls : list RasterizerCall,
      cull_mode_invariant (Rasterizer_run calls Rasterizer_initial))
  /\ (forall (face : MaxwellCullFace) (r : Rasterizer),
        cull_mode_invariant r -> cullFaceEnabled r = false ->
        rasterizer_cullMode (SetCullFaceEnabled true (SetCullFace face r)) = eCullNone
        /\ cullFaceEnabled (SetCullFaceEnabled true (SetCullFace face r)) = true
        /\ rasterizer_cullMode (SetCullFace face (SetCullFaceEnabled true r))
           = cullMode (SetCullFace face r)
        /\ cullMode (SetCullFace face r) <> eCullNone).
Proof.
  split.
  - intros calls.
    assert (Hgen : forall r, cull_mode_invariant r -> cull_mode_invariant (Rasterizer_run calls r)).
    { induction calls as [|c calls IH]; intros r Hr; simpl; [exact Hr|].
      apply IH. apply cull_mode_invariant_step. exact Hr. }
    apply Hgen. unfold cull_mode_invariant. simpl. auto.
  - intros face r [Hoff _] Hdis. simpl. rewrite Hdis. simpl.
    split; [apply Hoff; exact Hdis|]. split; [reflexivity|].
    split; [reflexivity|]. destruct face; discriminate.
Qed.

Lemma cull_mode_follows_enable_witness :
  rasterizer_cullMode (SetCullFaceEnabled true (SetCullFace CullBack Rasterizer_initial)) = eCullNone
  /\ rasterizer_cullMode (SetCullFace CullBack (SetCullFaceEnabled true Rasterizer_initial))
     = eCullBack.
Proof.
  destruct (proj2 cull_mode_follows_enable CullBack Rasterizer_initial) as (H1 & _ & H2 & _).
  - unfold cull_mode_invariant. simpl. auto.
  - reflexivity.
  - split; [exact H1 | exact H2].
Defined.

(** The host front face for a guest front face under a flip. *)
Definition host_front_face (face : MaxwellFrontFace) (flip : bool) : VkFrontFace :=
  match face, flip with
  | Clockwise, false | CounterClockwise, true => eClockwise
  | Clockwise, true | CounterClockwise, false => eCounterClockwise
  end.

Definition sets_front_face (c : RasterizerCall) : bool :=
  match c with CallSetFrontFace _ => true | _ => false end.

Lemma front_face_step (face : MaxwellFrontFace) (c : RasterizerCall) (r : Rasterizer) :
  sets_front_face c = false ->
  rasterizer_frontFace r = host_front_face face (frontFaceFlip r) ->
  rasterizer_frontFace (Rasterizer_perform c r)
  = host_front_face face (frontFaceFlip (Rasterizer_perform c r)).
Proof.
  destruct c as [enabled|cface|face'|enabled]; simpl; try discriminate; auto.
  intros _ Hr. unfold SetFrontFaceFlipEnabled, UpdateRuntimeInformation.
  destruct enabled, (frontFaceFlip r) eqn:Hflip, (y_negate r); simpl;
    rewrite ?Hflip, ?Hr; destruct face; reflexivity.
Qed.

(** X17: once the guest has set the front face, the host front face is
    that face, reversed exactly when the flip is enabled, whatever cull and
    flip calls follow and in whatever order: the flip setter and the front
    face setter can be called in either order. *)
Theorem front_face_tracks_flip :
  forall (face : MaxwellFrontFace) (calls : list RasterizerCall) (r : Rasterizer),
    forallb (fun c => negb (sets_front_face c)) calls = true ->
    rasterizer_frontFace (Rasterizer_run calls (SetFrontFace face r))
    = host_front_face face (frontFaceFlip (Rasterizer_run calls (SetFrontFace face r))).
Proof.
  intros face calls r Hcalls.
  assert (Hgen : forall r0,
             rasterizer_frontFace r0 = host_front_face face (frontFaceFlip r0) ->
             rasterizer_frontFace (Rasterizer_run calls r0)
             = host_front_face face (frontFaceFlip (Rasterizer_run calls r0))).
  { induction calls as [|c calls IH]; intros r0 Hr0; simpl; [exact Hr0|].
    simpl in Hcalls. apply andb_true_iff in Hcalls. destruct Hcalls as [Hc Hcalls].
    apply IH; [exact Hcalls|].
    apply front_face_step; [|exact Hr0].
    destruct (sets_front_face c); [discriminate | reflexivity]. }
  apply Hgen. simpl. destruct face, (frontFaceFlip r); reflexivity.
Qed.

Lemma front_face_tracks_flip_witness :
  rasterizer_frontFace
    (Rasterizer_run [CallSetFrontFaceFlipEnabled true; CallSetCullFaceEnabled true]
       (SetFrontFace Clockwise Rasterizer_initial))
  = eCounterClockwise.
Proof.
  rewrite (front_face_tracks_flip Clockwise
             [CallSetFrontFaceFlipEnabled true; CallSetCullFaceEnabled true]
             Rasterizer_initial eq_refl).
  reflexivity.
Defined.

Definition listed_stage (stage : PipelineStageId) (stages : list PipelineStageId) : bool :=
  existsb (PipelineStageId_eqb stage) stages.

(** X18: [UpdateRuntimeInformation] leaves the member equal to the value,
    and afterwards a stage is marked for recompilation exactly when it was
    marked before or the member differed from the value and the stage is
    among those listed: marks are only ever added, and none is added for
    an unchanged value.  In particular the flip setter keeps [y_negate]
    equal to the flip and marks at most the vertex and fragment stages. *)
Theorem UpdateRuntimeInformation_marks_changed :
  (forall (T : Type) (eqb : T -> T -> bool) (member value : T)
          (stages : list PipelineStageId) (marks : PipelineStageId -> bool),
      (forall x y : T, eqb x y = true <-> x = y) ->
      fst (UpdateRuntimeInformation eqb member value stages marks) = value
      /\ forall stage : PipelineStageId,
           snd (UpdateRuntimeInformation eqb member value stages marks) stage = true
           <-> marks stage = true \/ (member <> value /\ listed_stage stage stages = true))
  /\ (forall (enabled : bool) (r : Rasterizer),
        y_negate r = frontFaceFlip r ->
        frontFaceFlip (SetFrontFaceFlipEnabled enabled r) = enabled
        /\ y_negate (SetFrontFaceFlipEnabled enabled r) = enabled
        /\ forall stage : PipelineStageId,
             needsRecompile (SetFrontFaceFlipEnabled enabled r) stage = true
             <-> needsRecompile r stage = true
                 \/ (frontFaceFlip r <> enabled
                     /\ (stage = StageVertex \/ stage = StageFragment))).
Proof.
  split.
  - intros T eqb member value stages marks Heqb.
    unfold UpdateRuntimeInformation, listed_stage.
    destruct (eqb member value) eqn:He; simpl.
    + apply Heqb in He. split; [exact He|]. intros stage. split; [auto|].
      intros [H|[Hne _]]; [exact H | contradiction].
    + assert (Hne : member <> value)
        by (intros Heq; apply Heqb in Heq; congruence).
      split; [reflexivity|]. intros stage.
      destruct (existsb (PipelineStageId_eqb stage) stages); split; auto.
      intros [H|[_ H]]; [exact H | discriminate].
  - intros enabled r Hy. unfold SetFrontFaceFlipEnabled, UpdateRuntimeInformation.
    rewrite Hy.
    destruct enabled, (frontFaceFlip r) eqn:Hflip; simpl;
      (split; [auto|]); (split; [auto|]); intros stage;
      try (split; [auto | intros [H|[Hne _]]; [exact H | congruence]]);
      destruct stage; simpl; split; auto;
      try (intros [H|[_ [H|H]]]; [exact H | discriminate H | discriminate H]);
      intros _; right; (split; [discriminate | auto]).
Qed.

Lemma UpdateRuntimeInformation_marks_changed_witness :
  needsRecompile (SetFrontFaceFlipEnabled true Rasterizer_initial) StageFragment = true
  /\ needsRecompile (SetFrontFaceFlipEnabled true Rasterizer_initial) StageGeometry = false.
Proof.
  destruct (proj2 UpdateRuntimeInformation_marks_changed true Rasterizer_initial eq_refl)
    as (_ & _ & Hmarks).
  split.
  - apply Hmarks. right. split; [discriminate | auto].
  - reflexivity.
Defined.

Lemma twoSideStencilEnabled_step (c : StencilCall) (s : StencilState) :
  twoSideStencilEnabled (Stencil_perform c s) = twoSideStencilEnabled s.
Proof.
  destruct c as [enabled|f|f]; simpl; try reflexivity.
  unfold SetStencilTwoSideEnabled.
  destruct (Bool.eqb (twoSideStencilEnabled s) enabled) eqn:He; [|reflexivity].
  simpl. apply Bool.eqb_prop in He. auto.
Qed.

Lemma stencil_sides_step (c : StencilCall) (s : StencilState) :
  twoSideStencilEnabled s = false ->
  depthState_back s = depthState_front s ->
  depthState_back (Stencil_perform c s) = depthState_front (Stencil_perform c s).
Proof.
  intros Hoff Hsame.
  destruct c as [enabled|f|f]; simpl.
  - unfold SetStencilTwoSideEnabled. rewrite Hoff.
    destruct enabled; simpl; auto.
  - rewrite Hoff. simpl. rewrite Hsame. reflexivity.
  - rewrite Hoff. exact Hsame.
Qed.

(** X19: no stencil setter changes the two-side flag, because
    [SetStencilTwoSideEnabled] writes it only when it already has the
    requested value.  From the initial state the flag therefore stays
    false, and the back side of the stencil state is always equal to the
    front side: values written with the back setters are kept aside and
    never reach the pipeline state. *)
Theorem stencil_two_side_never_enabled :
  forall (calls : list StencilCall) (s : StencilState),
    twoSideStencilEnabled (Stencil_run calls s) = twoSideStencilEnabled s
    /\ (twoSideStencilEnabled s = false ->
        depthState_back s = depthState_front s ->
        depthState_back (Stencil_run calls s) = depthState_front (Stencil_run calls s))
    /\ depthState_back (Stencil_run calls StencilState_initial)
       = depthState_front (Stencil_run calls StencilState_initial).
Proof.
  assert (Hflag : forall calls s,
             twoSideStencilEnabled (Stencil_run calls s) = twoSideStencilEnabled s).
  { induction calls as [|c calls IH]; intros s; simpl; [reflexivity|].
    rewrite IH. apply twoSideStencilEnabled_step. }
  assert (Hsides : forall calls s,
             twoSideStencilEnabled s = false ->
             depthState_back s = depthState_front s ->
             depthState_back (Stencil_run calls s) = depthState_front (Stencil_run calls s)).
  { induction calls as [|c calls IH]; intros s Hoff Hsame; simpl; [exact Hsame|].
    apply IH.
    - rewrite twoSideStencilEnabled_step. exact Hoff.
    - apply stencil_sides_step; assumption. }
  intros calls s. split; [apply Hflag|]. split; [apply Hsides|].
  apply Hsides; reflexivity.
Qed.

Lemma stencil_two_side_never_enabled_witness :
  depthState_back
    (Stencil_run [CallSetStencilTwoSideEnabled true;
                  CallSetStencilBack (FieldReference 255);
                  CallSetStencilFront (FieldReference 1)] StencilState_initial)
  = depthState_front
      (Stencil_run [CallSetStencilTwoSideEnabled true;
                    CallSetStencilBack (FieldReference 255);
                    CallSetStencilFront (FieldReference 1)] StencilState_initial).
Proof.
  apply (proj1 (proj2 (stencil_two_side_never_enabled
                         [CallSetStencilTwoSideEnabled true;
                          CallSetStencilBack (FieldReference 255);
                          CallSetStencilFront (FieldReference 1)] StencilState_initial)));
    reflexivity.
Defined.

(** * Properties of the blend state *)

(** What holds of the blend state at all times: the two arrays have the
    same length, hold the same write mask at every index, and the common
    attachments differ from one another in their write mask only. *)
Definition blend_invariant (s : BlendState) : Prop :=
  map colorWriteMask (commonRtBlendState s) = map colorWriteMask (independentRtBlendState s)
  /\ exists b : BlendAttachment,
       Forall (fun c => BlendAttachment_set_mask 0 c = b) (commonRtBlendState s).

Lemma map_insert_same {A B : Type} (f : A -> B) (l : list A) (i : nat) (x : A) :
  map f (<[i := x]> l) = <[i := f x]> (map f l).
Proof.
  revert i. induction l as [|y l IH]; intros [|i]; simpl; try reflexivity.
  f_equal. apply IH.
Qed.

Lemma blend_invariant_step (c : BlendCall) (s s' : BlendState) :
  blend_invariant s -> Blend_perform c s = Ok s' -> blend_invariant s'.
Proof.
  unfold blend_invariant. intros [Hmasks [b Huniform]].
  destruct c as [enable|f|index f|index mask]; simpl.
  - intros [= <-]. simpl. eauto.
  - intros [= <-]. simpl. split.
    + rewrite <- Hmasks. rewrite map_map. apply map_ext. intros a. reflexivity.
    + exists (BlendAttachment_set_mask 0 (BlendAttachment_write f b)).
      apply Forall_map. eapply Forall_impl; [exact Huniform|].
      intros a Ha. simpl in *. rewrite <- Ha. reflexivity.
  - unfold SetIndependentBlend, subscript.
    destruct (independentRtBlendState s !! index) as [i|] eqn:Hi; simpl; [|discriminate].
    intros [= <-]. simpl. split; [|eauto].
    rewrite Hmasks, map_insert_same. simpl.
    symmetry. apply list_insert_id. rewrite list_lookup_fmap, Hi. reflexivity.
  - unfold SetColorWriteMask, subscript.
    destruct (independentRtBlendState s !! index) as [i|] eqn:Hi; simpl; [|discriminate].
    destruct (commonRtBlendState s !! index) as [c|] eqn:Hc; simpl; [|discriminate].
    intros [= <-]. simpl. split.
    + rewrite !map_insert_same. simpl. rewrite Hmasks. reflexivity.
    + exists b. apply Forall_insert; [exact Huniform|].
      rewrite Forall_lookup in Huniform. specialize (Huniform index c Hc).
      simpl in *. rewrite <- Huniform. reflexivity.
Qed.

(** X20: along every sequence of blend setter calls that stays within the
    arrays, starting from the constructor's state, the common and the
    independent attachment of each render target hold the same colour
    write mask, and the common attachments differ from one another in
    their write mask only.  [SetColorWriteMask] stores a mask whose bits 0
    to 3 are the red, green, blue and alpha flags and whose other bits are
    clear. *)
Theorem blend_write_masks_agree :
  (forall (RenderTargetCount : nat) (calls : list BlendCall) (s' : BlendState),
      Blend_run calls (BlendState_initial RenderTargetCount) = Ok s' ->
      blend_invariant s')
  /\ (forall (index : nat) (mask : ColorWriteMask) (s s' : BlendState),
        SetColorWriteMask index mask s = Ok s' ->
        exists c i : BlendAttachment,
          commonRtBlendState s' !! index = Some c
          /\ independentRtBlendState s' !! index = Some i
          /\ colorWriteMask c = colorWriteMask i
          /\ Z.testbit (colorWriteMask c) 0 = red mask
          /\ Z.testbit (colorWriteMask c) 1 = green mask
          /\ Z.testbit (colorWriteMask c) 2 = blue mask
          /\ Z.testbit (colorWriteMask c) 3 = alpha mask
          /\ 0 <= colorWriteMask c < 16).
Proof.
  split.
  - intros n calls.
    assert (Hgen : forall s s', blend_invariant s -> Blend_run calls s = Ok s' -> blend_invariant s').
    { induction calls as [|c calls IH]; intros s s' Hs; simpl.
      - intros [= <-]. exact Hs.
      - destruct (Blend_perform c s) as [s1| |] eqn:Hstep; simpl; try discriminate.
        apply IH. eapply blend_invariant_step; eassumption. }
    intros s'. apply Hgen. unfold blend_invariant. simpl. split; [reflexivity|].
    exists (BlendAttachment_set_mask 0 BlendAttachment_initial).
    apply Forall_forall. intros c Hc. apply elem_of_replicate in Hc. destruct Hc as [-> _].
    reflexivity.
  - intros index mask s s'. unfold SetColorWriteMask, subscript.
    destruct (independentRtBlendState s !! index) as [i|] eqn:Hi; simpl; [|discriminate].
    destruct (commonRtBlendState s !! index) as [c|] eqn:Hc; simpl; [|discriminate].
    intros [= <-]. simpl.
    eexists _, _.
    split; [apply list_lookup_insert_eq; eapply lookup_lt_Some; eassumption|].
    split; [apply list_lookup_insert_eq; eapply lookup_lt_Some; eassumption|].
    simpl. destruct mask as [[] [] [] []]; vm_compute; repeat split; discriminate.
Qed.

Lemma blend_write_masks_agree_witness :
  exists s' : BlendState,
    Blend_run [CallSetCommonBlend (BlendEnabled true);
               CallSetColorWriteMask 1 {| red := true; green := false; blue := false; alpha := true |};
               CallSetIndependentBlend 1 (ColorBlendOp BlendOp_MaximumGL)]
      (BlendState_initial 8) = Ok s'
    /\ blend_invariant s'.
Proof.
  eexists. split; [reflexivity|].
  apply (proj1 blend_write_masks_agree 8%nat
           [CallSetCommonBlend (BlendEnabled true);
            CallSetColorWriteMask 1 {| red := true; green := false; blue := false; alpha := true |};
            CallSetIndependentBlend 1 (ColorBlendOp BlendOp_MaximumGL)]).
  reflexivity.
Defined.

(** * Properties of the buffer lookups *)

Definition index_range_valid (ib : IndexBuffer) : Prop :=
  ib_start ib <= ib_end ib /\ ib_start ib <> 0 /\ ib_end ib <> 0.

Definition element_size (t : VkIndexType) : Z :=
  match t with
  | eUint8EXT => 1
  | eUint16 => 2
  | eUint32 => 4
  | eNoneKHR => 0
  end.

(** X21: no setter of the index buffer and no lookup writes [viewSize], so
    while it has its initial value of zero the cached view is never
    reused: every lookup of a valid, non-empty index buffer translates the
    range and asks the buffer manager again, also when repeated with the
    same count.  The span requested starts at the first returned mapping
    and has the size of the whole index range, whatever the size of that
    mapping and however many mappings were returned. *)
Theorem GetIndexBuffer_never_reuses_view :
  forall (TranslateRange : Z -> Z -> list span) (buffer_FindOrCreate : span -> Z)
         (elementCount : Z) (st : IndexBufferState) (m : span) (rest : list span),
    viewSize (indexBuffer st) = 0 ->
    index_range_valid (indexBuffer st) ->
    ib_type (indexBuffer st) <> eNoneKHR ->
    0 < elementCount ->
    TranslateRange (ib_start (indexBuffer st))
      (element_size (ib_type (indexBuffer st)) * elementCount) = m :: rest ->
    let requested :=
      {| span_data := span_data m;
         span_size := element_size (ib_type (indexBuffer st)) * elementCount |} in
    exists st1 st2 : IndexBufferState,
      GetIndexBuffer TranslateRange buffer_FindOrCreate elementCount st
      = Ok (Some (buffer_FindOrCreate requested), st1)
      /\ ib_requests st1 = requested :: ib_requests st
      /\ ib_view (indexBuffer st1) = Some (buffer_FindOrCreate requested)
      /\ viewSize (indexBuffer st1) = 0
      /\ GetIndexBuffer TranslateRange buffer_FindOrCreate elementCount st1
         = Ok (Some (buffer_FindOrCreate requested), st2)
      /\ ib_requests st2 = requested :: requested :: ib_requests st
      /\ (forall (high : Z) (supports : bool) (format : IndexBufferFormat),
            viewSize (SetIndexBufferStartIovaHigh high (indexBuffer st1)) = 0
            /\ viewSize (SetIndexBufferStartIovaLow high (indexBuffer st1)) = 0
            /\ viewSize (SetIndexBufferEndIovaHigh high (indexBuffer st1)) = 0
            /\ viewSize (SetIndexBufferEndIovaLow high (indexBuffer st1)) = 0
            /\ viewSize (fst (SetIndexBufferFormat supports format (indexBuffer st1))) = 0).
Proof.
  intros TranslateRange buffer_FindOrCreate elementCount st m rest
    Hvs [Hle [Hs He]] Htype Hcount Htr requested.
  assert (Hsize : GetIndexBufferSize elementCount (indexBuffer st)
                  = Ok (element_size (ib_type (indexBuffer st)) * elementCount)).
  { unfold GetIndexBufferSize, element_size.
    destruct (ib_type (indexBuffer st)); try reflexivity. contradiction. }
  assert (Hpos : 0 < element_size (ib_type (indexBuffer st)) * elementCount).
  { unfold element_size. destruct (ib_type (indexBuffer st)); try lia. contradiction. }
  assert (Hcond : (ib_start (indexBuffer st) >? ib_end (indexBuffer st))
                  || (ib_start (indexBuffer st) =? 0) || (ib_end (indexBuffer st) =? 0)
                  || (element_size (ib_type (indexBuffer st)) * elementCount =? 0) = false).
  { destruct (Z.gtb_spec (ib_start (indexBuffer st)) (ib_end (indexBuffer st))); [lia|].
    destruct (Z.eqb_spec (ib_start (indexBuffer st)) 0); [contradiction|].
    destruct (Z.eqb_spec (ib_end (indexBuffer st)) 0); [contradiction|].
    destruct (Z.eqb_spec (element_size (ib_type (indexBuffer st)) * elementCount) 0); [lia|].
    reflexivity. }
  assert (Hmiss : (element_size (ib_type (indexBuffer st)) * elementCount =? 0) = false)
    by (apply Z.eqb_neq; lia).
  assert (Hfirst : forall st0 : IndexBufferState,
             ib_start (indexBuffer st0) = ib_start (indexBuffer st) ->
             ib_end (indexBuffer st0) = ib_end (indexBuffer st) ->
             ib_type (indexBuffer st0) = ib_type (indexBuffer st) ->
             viewSize (indexBuffer st0) = 0 ->
             exists st1,
               GetIndexBuffer TranslateRange buffer_FindOrCreate elementCount st0
               = Ok (Some (buffer_FindOrCreate requested), st1)
               /\ ib_requests st1 = requested :: ib_requests st0
               /\ ib_view (indexBuffer st1) = Some (buffer_FindOrCreate requested)
               /\ viewSize (indexBuffer st1) = 0
               /\ ib_start (indexBuffer st1) = ib_start (indexBuffer st)
               /\ ib_end (indexBuffer st1) = ib_end (indexBuffer st)
               /\ ib_type (indexBuffer st1) = ib_type (indexBuffer st)).
  { intros st0 Hs0 He0 Ht0 Hv0. unfold GetIndexBuffer.
    assert (Hsize0 : GetIndexBufferSize elementCount (indexBuffer st0)
                     = Ok (element_size (ib_type (indexBuffer st)) * elementCount))
      by (unfold GetIndexBufferSize in *; rewrite Ht0; exact Hsize).
    rewrite Hsize0. simpl. rewrite Hs0, He0, Hcond, Hv0, Hmiss, Htr. simpl.
    destruct (ib_view (indexBuffer st0)); eexists; (split; [reflexivity|]); simpl;
      rewrite ?Ht0, ?Hs0, ?He0, ?Hv0; repeat split; reflexivity. }
  destruct (Hfirst st eq_refl eq_refl eq_refl Hvs)
    as (st1 & Hget1 & Hreq1 & Hview1 & Hvs1 & Hs1 & He1 & Ht1).
  destruct (Hfirst st1 Hs1 He1 Ht1 Hvs1) as (st2 & Hget2 & Hreq2 & _).
  exists st1, st2.
  split; [exact Hget1|]. split; [exact Hreq1|]. split; [exact Hview1|].
  split; [exact Hvs1|]. split; [exact Hget2|].
  split; [rewrite Hreq2, Hreq1; reflexivity|].
  intros high supports format. simpl. repeat split; try exact Hvs1.
  unfold SetIndexBufferFormat. destruct format, supports; simpl; exact Hvs1.
Qed.

Definition example_index_buffer : IndexBufferState :=
  {| indexBuffer :=
       {| ib_start := 4096; ib_end := 2 ^ 40; ib_type := eUint16; viewSize := 0; ib_view := None |};
     ib_warnings := [];
     ib_requests := [] |}.

Lemma GetIndexBuffer_never_reuses_view_witness :
  exists st1 st2 : IndexBufferState,
    GetIndexBuffer split_translation view_by_address 3000 example_index_buffer
    = Ok (Some 4096, st1)
    /\ GetIndexBuffer split_translation view_by_address 3000 st1 = Ok (Some 4096, st2)
    /\ ib_requests st2
       = [ {| span_data := 4096; span_size := 6000 |}; {| span_data := 4096; span_size := 6000 |} ].
Proof.
  destruct (GetIndexBuffer_never_reuses_view split_translation view_by_address 3000
              example_index_buffer first_half [second_half])
    as (st1 & st2 & H1 & _ & _ & _ & H2 & H3 & _).
  - reflexivity.
  - unfold index_range_valid. simpl. lia.
  - discriminate.
  - lia.
  - reflexivity.
  - exists st1, st2. split; [exact H1|]. split; [exact H2 | exact H3].
Defined.

(** X22: [GetVertexBuffer] returns null, without translating anything, for
    a vertex buffer whose start lies beyond its end or whose start or end
    is zero.  For any other vertex buffer the view it obtains is kept: a
    second call returns the same view and neither warns nor asks the
    buffer manager again. *)
Theorem GetVertexBuffer_caches_view :
  forall (TranslateRange : Z -> Z -> list span) (buffer_FindOrCreate : span -> Z)
         (index : nat) (ctx : GraphicsContext) (vb : VertexBuffer),
    vertexBuffers ctx !! index = Some vb ->
    (end_ vb < start vb \/ start vb = 0 \/ end_ vb = 0 ->
     GetVertexBuffer TranslateRange buffer_FindOrCreate index ctx = Ok (None, ctx))
    /\ (start vb <= end_ vb -> start vb <> 0 -> end_ vb <> 0 ->
        TranslateRange (start vb) (((end_ vb + 1) - start vb) mod u64_modulus) <> [] ->
        exists (v : Z) (ctx1 : GraphicsContext),
          GetVertexBuffer TranslateRange buffer_FindOrCreate index ctx = Ok (Some v, ctx1)
          /\ GetVertexBuffer TranslateRange buffer_FindOrCreate index ctx1 = Ok (Some v, ctx1)).
Proof.
  intros TranslateRange buffer_FindOrCreate index ctx vb Hvb.
  assert (Hlt : (index < length (vertexBuffers ctx))%nat) by (eapply lookup_lt_Some; eassumption).
  split.
  - intros Hinvalid. unfold GetVertexBuffer, at_. rewrite Hvb. simpl.
    destruct (Z.gtb_spec (start vb) (end_ vb)); simpl; [reflexivity|].
    destruct (Z.eqb_spec (start vb) 0); simpl; [reflexivity|].
    destruct (Z.eqb_spec (end_ vb) 0); simpl; [reflexivity|]. lia.
  - intros Hle Hs He Hmappings.
    assert (Hcond : (start vb >? end_ vb) || (start vb =? 0) || (end_ vb =? 0) = false).
    { destruct (Z.gtb_spec (start vb) (end_ vb)); [lia|].
      destruct (Z.eqb_spec (start vb) 0); [contradiction|].
      destruct (Z.eqb_spec (end_ vb) 0); [contradiction|]. reflexivity. }
    unfold GetVertexBuffer at 1, at_. rewrite Hvb. simpl. rewrite Hcond.
    destruct (vertexBufferView vb) as [v|] eqn:Hview.
    + exists v, ctx. split; [reflexivity|].
      unfold GetVertexBuffer, at_. rewrite Hvb. simpl. rewrite Hcond, Hview. reflexivity.
    + unfold lookup_buffer.
      destruct (TranslateRange (start vb) (((end_ vb + 1) - start vb) mod u64_modulus))
        as [|m rest] eqn:Htr; [contradiction|].
      simpl. eexists _, _. split; [reflexivity|].
      unfold GetVertexBuffer, at_. simpl.
      rewrite list_lookup_insert_eq by exact Hlt. simpl. rewrite Hcond. reflexivity.
Qed.

Lemma GetVertexBuffer_caches_view_witness :
  exists (v : Z) (ctx1 : GraphicsContext),
    GetVertexBuffer split_translation view_by_address 0 example_context = Ok (Some v, ctx1)
    /\ GetVertexBuffer split_translation view_by_address 0 ctx1 = Ok (Some v, ctx1).
Proof.
  apply (proj2 (GetVertexBuffer_caches_view split_translation view_by_address 0 example_context
                  {| start := 4096; end_ := 12287; vertexBufferView := None |} eq_refl)).
  - simpl. lia.
  - simpl. lia.
  - simpl. lia.
  - discriminate.
Defined.

(** * Properties of the vertex buffer binding loop *)

Lemma bound_run_nonnull (handles : list Z) (j : nat) :
  (j < bound_run handles)%nat -> exists h, handles !! j = Some h /\ h <> 0.
Proof.
  revert j. induction handles as [|x handles IH]; intros j; simpl; [lia|].
  destruct (Z.eqb_spec x 0) as [->|Hx]; [lia|].
  destruct j as [|j]; simpl; [eauto|]. intros Hj. apply IH. lia.
Qed.

Lemma bound_run_maximal (handles : list Z) :
  handles !! bound_run handles = None \/ handles !! bound_run handles = Some 0.
Proof.
  induction handles as [|x handles IH]; simpl; [auto|].
  destruct (Z.eqb_spec x 0) as [->|Hx]; simpl; auto.
Qed.

Lemma bindVertexBuffers_calls_spec (k : nat) (handles : list Z) (first count : nat) :
  In (first, count) (bindVertexBuffers_calls k handles)
  <-> exists i h, first = (k + i)%nat /\ handles !! i = Some h /\ h <> 0
                  /\ count = bound_run (drop i handles).
Proof.
  revert k. induction handles as [|x handles IH]; intros k; simpl.
  - split; [intros [] | intros (i & h & _ & H & _); destruct i; discriminate].
  - destruct (Z.eqb_spec x 0) as [->|Hx].
    + rewrite IH. split.
      * intros (i & h & -> & Hi & Hh & ->). exists (S i), h. simpl.
        split; [lia|]. auto.
      * intros (i & h & -> & Hi & Hh & ->). destruct i as [|i]; simpl in *.
        -- injection Hi as <-. contradiction.
        -- exists i, h. split; [lia|]. auto.
    + simpl. rewrite IH. split.
      * intros [[= <- <-] | (i & h & -> & Hi & Hh & ->)].
        -- exists 0%nat, x. simpl. split; [lia|].
           destruct (Z.eqb_spec x 0); [contradiction|]. auto.
        -- exists (S i), h. simpl. split; [lia|]. auto.
      * intros (i & h & -> & Hi & Hh & ->). destruct i as [|i]; simpl in *.
        -- left. f_equal; [lia|]. destruct (Z.eqb_spec x 0); [contradiction|]. reflexivity.
        -- right. exists i, h. split; [lia|]. auto.
Qed.

(** X23: the binding loop of a draw calls [bindVertexBuffers] once for
    every non-null vertex buffer handle, not once for every run of them:
    there is a call starting at binding [i] exactly when handle [i] is
    non-null, its count is the number of non-null handles from [i] up to
    the next null handle or the end, every binding it covers is non-null,
    and so the number of calls is the number of non-null handles. *)
Theorem bindVertexBuffers_one_call_per_handle :
  forall handles : list Z,
    (forall first count : nat,
        In (first, count) (bindVertexBuffers_calls 0 handles)
        <-> exists h, handles !! first = Some h /\ h <> 0
                      /\ count = bound_run (drop first handles))
    /\ (forall first count : nat,
          In (first, count) (bindVertexBuffers_calls 0 handles) ->
          (0 < count)%nat
          /\ (forall j : nat, (j < count)%nat ->
                exists h, handles !! (first + j)%nat = Some h /\ h <> 0)
          /\ (handles !! (first + count)%nat = None
              \/ handles !! (first + count)%nat = Some 0))
    /\ length (bindVertexBuffers_calls 0 handles)
       = length (filter (fun h => h <> 0) handles).
Proof.
  intros handles.
  assert (Hspec : forall first count : nat,
             In (first, count) (bindVertexBuffers_calls 0 handles)
             <-> exists h, handles !! first = Some h /\ h <> 0
                           /\ count = bound_run (drop first handles)).
  { intros first count. rewrite bindVertexBuffers_calls_spec. split.
    - intros (i & h & -> & H). exists h. exact H.
    - intros (h & H). exists first, h. split; [reflexivity | exact H]. }
  split; [exact Hspec|]. split.
  - intros first count Hin. apply Hspec in Hin. destruct Hin as (h & Hh & Hne & ->).
    assert (Hdrop : drop first handles = h :: drop (S first) handles)
      by (apply drop_S; exact Hh).
    split.
    + rewrite Hdrop. simpl. destruct (Z.eqb_spec h 0); [contradiction | lia].
    + split.
      * intros j Hj. apply bound_run_nonnull in Hj. rewrite lookup_drop in Hj. exact Hj.
      * pose proof (bound_run_maximal (drop first handles)) as Hmax.
        rewrite lookup_drop in Hmax. exact Hmax.
  - clear Hspec. generalize 0%nat.
    induction handles as [|x handles IH]; intros k; simpl; [reflexivity|].
    rewrite filter_cons.
    destruct (Z.eqb_spec x 0) as [->|Hx].
    + destruct (decide (0 <> 0)); [contradiction|]. apply IH.
    + destruct (decide (x <> 0)); [|contradiction]. simpl. f_equal. apply IH.
Qed.

Lemma bindVertexBuffers_one_call_per_handle_witness :
  bindVertexBuffers_calls 0 [7; 8; 0; 9] = [(0, 2); (1, 1); (3, 1)]%nat
  /\ (0 < 2)%nat.
Proof.
  split; [reflexivity|].
  apply (proj1 (proj2 (bindVertexBuffers_one_call_per_handle [7; 8; 0; 9])) 0%nat 2%nat).
  simpl. auto.
Defined.

(** * Properties of the texture pool conversion *)

Definition gob_log2 (x : Z) : Prop := 0 <= x <= 7.

Lemma gob_log2_cases (x : Z) :
  gob_log2 x -> x = 0 \/ x = 1 \/ x = 2 \/ x = 3 \/ x = 4 \/ x = 5 \/ x = 6 \/ x = 7.
Proof. unfold gob_log2. lia. Qed.

Lemma block_linear_decoding (h d : Z) :
  gob_log2 h -> gob_log2 d ->
  let c := {| texture.mode := texture.Block;
              texture.storage :=
                Z.shiftl 1 h mod u8_modulus + 256 * (Z.shiftl 1 d mod u8_modulus) |} in
  texture.tileBlockHeight c = 2 ^ h /\ texture.tileBlockDepth c = 2 ^ d.
Proof.
  intros Hh Hd.
  destruct (gob_log2_cases h Hh) as [->|[->|[->|[->|[->|[->|[->| ->]]]]]]];
    destruct (gob_log2_cases d Hd) as [->|[->|[->|[->|[->|[->|[->| ->]]]]]]];
    split; reflexivity.
Qed.

(** X24: a block-linear texture header whose two gob fields hold [h] and
    [d] (three bits each, so between 0 and 7) is converted to a block tile
    configuration of block height [2^h] and block depth [2^d]; two such
    headers give tile configurations that compare equal exactly when their
    fields are the same.  A pitch header gives the pitch field shifted left
    by the alignment bits, in 32 bits. *)
Theorem TIC_tile_config_decoding :
  forall (PitchAlignmentBits : Z) (x y : TIC.t),
    (TIC.headerType x = TIC.BlockLinear ->
     gob_log2 (TIC.tileHeightGobsLog2 (TIC.tileConfig x)) ->
     gob_log2 (TIC.tileDepthGobsLog2 (TIC.tileConfig x)) ->
     exists c : texture.TileConfig,
       ConvertTicHeaderType PitchAlignmentBits x = Ok c
       /\ texture.mode c = texture.Block
       /\ texture.tileBlockHeight c = 2 ^ TIC.tileHeightGobsLog2 (TIC.tileConfig x)
       /\ texture.tileBlockDepth c = 2 ^ TIC.tileDepthGobsLog2 (TIC.tileConfig x)
       /\ (TIC.headerType y = TIC.BlockLinear ->
           gob_log2 (TIC.tileHeightGobsLog2 (TIC.tileConfig y)) ->
           gob_log2 (TIC.tileDepthGobsLog2 (TIC.tileConfig y)) ->
           exists c' : texture.TileConfig,
             ConvertTicHeaderType PitchAlignmentBits y = Ok c'
             /\ (texture.TileConfig_eqb c c' = true
                 <-> TIC.tileHeightGobsLog2 (TIC.tileConfig x)
                     = TIC.tileHeightGobsLog2 (TIC.tileConfig y)
                     /\ TIC.tileDepthGobsLog2 (TIC.tileConfig x)
                        = TIC.tileDepthGobsLog2 (TIC.tileConfig y))))
    /\ (TIC.headerType x = TIC.Pitch ->
        0 <= PitchAlignmentBits ->
        exists c : texture.TileConfig,
          ConvertTicHeaderType PitchAlignmentBits x = Ok c
          /\ texture.mode c = texture.Pitch
          /\ texture.pitch c
             = (TIC.pitchHigh (TIC.tileConfig x) * 2 ^ PitchAlignmentBits) mod 2 ^ 32).
Proof.
  intros bits x y. split.
  - intros Hx Hh Hd. unfold ConvertTicHeaderType. rewrite Hx.
    destruct (block_linear_decoding _ _ Hh Hd) as [Hheight Hdepth].
    eexists. split; [reflexivity|]. split; [reflexivity|].
    split; [exact Hheight|]. split; [exact Hdepth|].
    intros Hy Hh' Hd'. rewrite Hy.
    destruct (block_linear_decoding _ _ Hh' Hd') as [Hheight' Hdepth'].
    eexists. split; [reflexivity|].
    unfold texture.TileConfig_eqb. cbn [texture.mode texture.TileMode_eqb].
    rewrite Hheight, Hdepth, Hheight', Hdepth'.
    rewrite andb_true_iff, !Z.eqb_eq.
    unfold gob_log2 in *.
    split; intros [H1 H2].
    + split; (eapply Z.pow_inj_r; [| | | eassumption]; lia).
    + rewrite H1, H2. split; reflexivity.
  - intros Hx Hbits. unfold ConvertTicHeaderType. rewrite Hx.
    eexists. split; [reflexivity|]. split; [reflexivity|].
    unfold texture.pitch. cbn [texture.storage].
    rewrite Z.shiftl_mul_pow2 by exact Hbits. reflexivity.
Qed.

Definition block_linear_header (h d : Z) : TIC.t :=
  {| TIC.formatWord :=
       {| TIC.format := TIC.A8B8G8R8;
          TIC.componentR := TIC.Unorm; TIC.componentG := TIC.Unorm;
          TIC.componentB := TIC.Unorm; TIC.componentA := TIC.Unorm;
          TIC.swizzleX := TIC.R; TIC.swizzleY := TIC.G;
          TIC.swizzleZ := TIC.B; TIC.swizzleW := TIC.A;
          TIC._pad_ := false |};
     TIC.isSrgb := false;
     TIC.BaseLayer := 0;
     TIC.widthMinusOne := 63;
     TIC.heightMinusOne := 63;
     TIC.depthMinusOne := 3;
     TIC.textureType := TIC.e2DArray;
     TIC.headerType := TIC.BlockLinear;
     TIC.tileConfig :=
       {| TIC.pitchHigh := 0; TIC.tileHeightGobsLog2 := h; TIC.tileDepthGobsLog2 := d |};
     TIC.Iova := 4096 |}.

Lemma TIC_tile_config_decoding_witness :
  exists c : texture.TileConfig,
    ConvertTicHeaderType 5 (block_linear_header 4 0) = Ok c
    /\ texture.tileBlockHeight c = 16 /\ texture.tileBlockDepth c = 1.
Proof.
  destruct (proj1 (TIC_tile_config_decoding 5 (block_linear_header 4 0) (block_linear_header 4 0)))
    as (c & Hc & _ & Hheight & Hdepth & _).
  - reflexivity.
  - unfold gob_log2. simpl. lia.
  - unfold gob_log2. simpl. lia.
  - exists c. split; [exact Hc|]. split; [exact Hheight | exact Hdepth].
Defined.



Definition valid_swizzle (s : TIC.ImageSwizzle) : Prop :=
  match s with
  | TIC.ImageSwizzle_other _ => False
  | _ => True
  end.

Definition swizzle_source (m : vk.ComponentMapping) (c : vk.ComponentSwizzle.t) : Prop :=
  c = vk.r m \/ c = vk.g m \/ c = vk.b m \/ c = vk.a m
  \/ c = vk.ComponentSwizzle.eZero \/ c = vk.ComponentSwizzle.eOne.

Lemma convertComponentSwizzle_valid (m : vk.ComponentMapping) (s : TIC.ImageSwizzle) :
  (valid_swizzle s ->
   exists c, convertComponentSwizzle m s = Ok c /\ swizzle_source m c)
  /\ (~ valid_swizzle s -> convertComponentSwizzle m s = Throw "Invalid swizzle: {:X}").
Proof.
  unfold swizzle_source.
  destruct s; simpl; split; intros H; try (exfalso; tauto); eauto 10.
Qed.

(** X26: the swizzle of a texture header is converted exactly when each of
    its four fields is one of the seven swizzle values; otherwise the
    conversion throws.  Every component of the result is a component of the
    format's own swizzle mapping, zero or one: the header's swizzle is
    applied on top of the format's, and a header that maps each channel to
    itself yields the format's mapping. *)
Theorem ConvertTicSwizzleMapping_composes :
  forall (format : TIC.FormatWord) (swizzleMapping : vk.ComponentMapping),
    (valid_swizzle (TIC.swizzleX format) /\ valid_swizzle (TIC.swizzleY format)
     /\ valid_swizzle (TIC.swizzleZ format) /\ valid_swizzle (TIC.swizzleW format) ->
     exists m : vk.ComponentMapping,
       ConvertTicSwizzleMapping format swizzleMapping = Ok m
       /\ swizzle_source swizzleMapping (vk.r m) /\ swizzle_source swizzleMapping (vk.g m)
       /\ swizzle_source swizzleMapping (vk.b m) /\ swizzle_source swizzleMapping (vk.a m))
    /\ (~ (valid_swizzle (TIC.swizzleX format) /\ valid_swizzle (TIC.swizzleY format)
           /\ valid_swizzle (TIC.swizzleZ format) /\ valid_swizzle (TIC.swizzleW format)) ->
        ConvertTicSwizzleMapping format swizzleMapping = Throw "Invalid swizzle: {:X}")
    /\ (TIC.swizzleX format = TIC.R -> TIC.swizzleY format = TIC.G ->
        TIC.swizzleZ format = TIC.B -> TIC.swizzleW format = TIC.A ->
        ConvertTicSwizzleMapping format swizzleMapping = Ok swizzleMapping).
Proof.
  intros format m. unfold ConvertTicSwizzleMapping.
  destruct (convertComponentSwizzle_valid m (TIC.swizzleX format)) as [HX HX'].
  destruct (convertComponentSwizzle_valid m (TIC.swizzleY format)) as [HY HY'].
  destruct (convertComponentSwizzle_valid m (TIC.swizzleZ format)) as [HZ HZ'].
  destruct (convertComponentSwizzle_valid m (TIC.swizzleW format)) as [HW HW'].
  split; [|split].
  - intros (Vx & Vy & Vz & Vw).
    destruct (HX Vx) as (r & -> & Hr). destruct (HY Vy) as (g & -> & Hg).
    destruct (HZ Vz) as (b & -> & Hb). destruct (HW Vw) as (a & -> & Ha).
    simpl. eauto 10.
  - intros Hinvalid.
    assert (Hdec : forall s, valid_swizzle s \/ ~ valid_swizzle s)
      by (intros s; destruct s; simpl; tauto).
    destruct (Hdec (TIC.swizzleX format)) as [Vx|Vx]; [|rewrite (HX' Vx); reflexivity].
    destruct (HX Vx) as (r & -> & _). simpl.
    destruct (Hdec (TIC.swizzleY format)) as [Vy|Vy]; [|rewrite (HY' Vy); reflexivity].
    destruct (HY Vy) as (g & -> & _). simpl.
    destruct (Hdec (TIC.swizzleZ format)) as [Vz|Vz]; [|rewrite (HZ' Vz); reflexivity].
    destruct (HZ Vz) as (b & -> & _). simpl.
    destruct (Hdec (TIC.swizzleW format)) as [Vw|Vw]; [|rewrite (HW' Vw); reflexivity].
    exfalso. apply Hinvalid. auto.
  - intros -> -> -> ->. simpl. destruct m; reflexivity.
Qed.

Lemma ConvertTicSwizzleMapping_composes_witness :
  ConvertTicSwizzleMapping (TIC.formatWord (block_linear_header 4 0))
    {| vk.r := vk.ComponentSwizzle.eB; vk.g := vk.ComponentSwizzle.eG;
       vk.b := vk.ComponentSwizzle.eR; vk.a := vk.ComponentSwizzle.eOne |}
  = Ok {| vk.r := vk.ComponentSwizzle.eB; vk.g := vk.ComponentSwizzle.eG;
          vk.b := vk.ComponentSwizzle.eR; vk.a := vk.ComponentSwizzle.eOne |}.
Proof.
  apply (proj2 (proj2 (ConvertTicSwizzleMapping_composes
                         (TIC.formatWord (block_linear_header 4 0))
                         {| vk.r := vk.ComponentSwizzle.eB; vk.g := vk.ComponentSwizzle.eG;
                            vk.b := vk.ComponentSwizzle.eR; vk.a := vk.ComponentSwizzle.eOne |})));
    reflexivity.
Defined.

(** * Properties of the sampler conversion *)

Definition is_mirror_clamp (mode : TSC.AddressMode) : Prop :=
  mode = TSC.MirrorClampToEdge \/ mode = TSC.MirrorClampToBorder \/ mode = TSC.MirrorClamp.

(** X27: the address mode of a sampler is never one the host lacks: without
    host support for mirror-clamp-to-edge, each of the three mirror clamp
    modes of the guest becomes clamp-to-edge with a warning, and no other
    mode warns; with host support, or for every other mode, the result is
    that of [ConvertSamplerAddressMode] and nothing is logged. *)
Theorem sampler_address_mode_supported :
  forall (supportsSamplerMirrorClampToEdge : bool) (mode : TSC.AddressMode)
         (vkMode : VkSamplerAddressMode) (logged : list string),
    convertAddressModeWithCheck supportsSamplerMirrorClampToEdge mode = Ok (vkMode, logged) ->
    (supportsSamplerMirrorClampToEdge = false -> vkMode <> eMirrorClampToEdge)
    /\ (logged <> [] <-> supportsSamplerMirrorClampToEdge = false /\ is_mirror_clamp mode)
    /\ (logged <> [] -> vkMode = eClampToEdge)
    /\ (logged = [] -> ConvertSamplerAddressMode mode = Ok vkMode).
Proof.
  intros supports mode vkMode logged. unfold is_mirror_clamp.
  destruct mode, supports; simpl; intros [= <- <-];
    repeat split; try discriminate; try congruence;
    try (intros [_ [H|[H|H]]]; discriminate H); try (intros [H _]; discriminate H); auto.
Qed.

Lemma sampler_address_mode_supported_witness :
  convertAddressModeWithCheck false TSC.MirrorClampToBorder
  = Ok (eClampToEdge,
        ["Cannot use Mirror Clamp To Edge as Sampler Address Mode without host GPU support"%string])
  /\ eClampToEdge <> eMirrorClampToEdge.
Proof.
  split; [reflexivity|].
  apply (proj1 (sampler_address_mode_supported false TSC.MirrorClampToBorder eClampToEdge
                  ["Cannot use Mirror Clamp To Edge as Sampler Address Mode without host GPU support"%string]
                  eq_refl)).
  reflexivity.
Defined.

Lemma float_eqb_zero_not_one (x : float) :
  float_eqb x float_zero = true -> float_eqb x float_one = false.
Proof. destruct x as [s|s| |s m e]; try destruct s; simpl; try discriminate; reflexivity. Qed.

Lemma float_eqb_zero_is_zero (x : float) :
  float_eqb x float_zero = true -> exists s : bool, x = SpecFloat.S754_zero s.
Proof. destruct x as [s|s| |s m e]; try destruct s; simpl; try discriminate; eauto. Qed.

(** X28: the border colour of a sampler is the custom colour only on a host
    that supports custom border colours, and the custom colour structure
    stays in the chain exactly then.  Where [ConvertBorderColorWithCustom]
    finds a fixed colour, [ConvertBorderColorFixed] finds the same one.
    Opaque white and opaque black are recognised as themselves; the fixed
    colour "transparent black" is recognised for the components
    [(1, 1, 1, 0)] and for no others, so with custom colour support the
    components [(0, 0, 0, 0)] give a custom colour. *)
Theorem sampler_border_color_fixed_unless_custom :
  forall (supportsCustomBorderColor : bool) (red green blue alpha : float),
    let result := GetSampler_borderColor supportsCustomBorderColor red green blue alpha in
    (snd result = true <-> fst result = eFloatCustomEXT)
    /\ (fst result = eFloatCustomEXT -> supportsCustomBorderColor = true)
    /\ (ConvertBorderColorWithCustom red green blue alpha <> eFloatCustomEXT ->
        ConvertBorderColorFixed red green blue alpha
        = ConvertBorderColorWithCustom red green blue alpha)
    /\ (ConvertBorderColorWithCustom red green blue alpha = eFloatTransparentBlack
        <-> float_eqb red float_one = true /\ float_eqb green float_one = true
            /\ float_eqb blue float_one = true /\ float_eqb alpha float_zero = true)
    /\ (ConvertBorderColorWithCustom red green blue alpha = eFloatOpaqueWhite
        <-> float_eqb red float_one = true /\ float_eqb green float_one = true
            /\ float_eqb blue float_one = true /\ float_eqb alpha float_one = true)
    /\ (float_eqb red float_zero = true -> float_eqb green float_zero = true ->
        float_eqb blue float_zero = true ->
        (float_eqb alpha float_one = true ->
         ConvertBorderColorWithCustom red green blue alpha = eFloatOpaqueBlack)
        /\ (float_eqb alpha float_zero = true ->
            ConvertBorderColorWithCustom red green blue alpha = eFloatCustomEXT
            /\ ConvertBorderColorFixed red green blue alpha = eFloatTransparentBlack)).
Proof.
  intros supports red green blue alpha result.
  assert (Hfixed : ConvertBorderColorFixed red green blue alpha <> eFloatCustomEXT).
  { unfold ConvertBorderColorFixed.
    repeat match goal with |- context [if ?c then _ else _] => destruct c end; discriminate. }
  split; [|split; [|split; [|split; [|split]]]].
  - subst result. unfold GetSampler_borderColor. destruct supports; simpl.
    + destruct (ConvertBorderColorWithCustom red green blue alpha); simpl;
        split; intros H; try discriminate; reflexivity.
    + split; [discriminate | intros H; contradiction].
  - subst result. unfold GetSampler_borderColor. destruct supports; simpl; [reflexivity|].
    intros H. contradiction.
  - unfold ConvertBorderColorFixed, ConvertBorderColorWithCustom.
    destruct (float_eqb alpha float_one);
      destruct (float_eqb red float_one), (float_eqb green float_one),
        (float_eqb blue float_one); simpl;
      destruct (float_eqb red float_zero), (float_eqb green float_zero),
        (float_eqb blue float_zero), (float_eqb alpha float_zero); simpl;
      intros H; try reflexivity; contradiction.
  - unfold ConvertBorderColorWithCustom. split.
    + destruct (float_eqb alpha float_one) eqn:Ha.
      * destruct (float_eqb red float_one && float_eqb green float_one
                  && float_eqb blue float_one); [discriminate|].
        destruct (float_eqb red float_zero && float_eqb green float_zero
                  && float_eqb blue float_zero); discriminate.
      * destruct (float_eqb red float_one), (float_eqb green float_one),
          (float_eqb blue float_one), (float_eqb alpha float_zero); simpl;
          intros H; try discriminate; auto.
    + intros (-> & -> & -> & Ha). rewrite (float_eqb_zero_not_one alpha Ha), Ha. reflexivity.
  - unfold ConvertBorderColorWithCustom. split.
    + destruct (float_eqb alpha float_one) eqn:Ha.
      * destruct (float_eqb red float_one), (float_eqb green float_one),
          (float_eqb blue float_one); simpl; auto;
          destruct (float_eqb red float_zero && float_eqb green float_zero
                    && float_eqb blue float_zero); discriminate.
      * destruct (float_eqb red float_one && float_eqb green float_one
                  && float_eqb blue float_one && float_eqb alpha float_zero); discriminate.
    + intros (-> & -> & -> & ->). reflexivity.
  - intros Hr Hg Hb.
    pose proof (float_eqb_zero_not_one red Hr) as Hr1.
    unfold ConvertBorderColorFixed, ConvertBorderColorWithCustom.
    rewrite Hr, Hg, Hb, Hr1. simpl. split.
    + intros ->. reflexivity.
    + intros Ha. rewrite (float_eqb_zero_not_one alpha Ha). split; [reflexivity|].
      destruct (float_eqb_zero_is_zero red Hr) as [sr ->].
      destruct (float_eqb_zero_is_zero green Hg) as [sg ->].
      destruct (float_eqb_zero_is_zero blue Hb) as [sb ->].
      destruct (float_eqb_zero_is_zero alpha Ha) as [sa ->].
      destruct sr, sg, sb; reflexivity.
Qed.

Lemma sampler_border_color_fixed_unless_custom_witness :
  GetSampler_borderColor true float_zero float_zero float_zero float_zero
  = (eFloatCustomEXT, true)
  /\ GetSampler_borderColor false float_zero float_zero float_zero float_zero
     = (eFloatTransparentBlack, false).
Proof.
  destruct (proj2 (proj2 (proj2 (proj2 (proj2
              (sampler_border_color_fixed_unless_custom true
                 float_zero float_zero float_zero float_zero)))))
              eq_refl eq_refl eq_refl) as [_ Htransparent].
  destruct (Htransparent eq_refl) as [Hcustom Hfixed].
  unfold GetSampler_borderColor. rewrite Hcustom, Hfixed. split; reflexivity.
Defined.

(** * Properties of the trait manager *)

Section TraitManagerProperties.

Import TraitManager.

Context {FloatControls : Type}.
Variable Hash : string -> Z.
Variable deviceFeatures2 : Features.

(** The case labels of the [switch] are distinct, as the language requires
    of them: two listed names with the same hash are the same name. *)
Definition labels_distinct (cases : list (string * Property)) : bool :=
  forallb (fun a =>
    forallb (fun b => implb (Hash (fst a) =? Hash (fst b)) (String.eqb (fst a) (fst b))) cases)
    cases.

(** The device offers an extension of this name. *)
Definition offered (deviceExtensions : list ExtensionProperties) (name : string) : bool :=
  existsb (fun extension => String.eqb name (extensionName extension)) deviceExtensions.

(** The name is one of those the constructor looks for. *)
Definition listed (name : string) : bool :=
  existsb (fun c => String.eqb (fst c) name) extension_cases.

Definition case_of (cases : list (string * Property)) (name : string)
  : option (string * Property) :=
  List.find (fun c => String.eqb (fst c) name) cases.

(** ** The blocks of the constructor *)

Definition core_features (s : t FloatControls) : t FloatControls :=
  FEAT_SET deviceFeatures2 PhysicalDeviceFeatures2 shaderStorageImageReadWithoutFormat
    supportsImageReadWithoutFormat
    (FEAT_SET deviceFeatures2 PhysicalDeviceFeatures2 shaderInt64 supportsInt64
       (FEAT_SET deviceFeatures2 PhysicalDeviceFeatures2 shaderInt16 supportsInt16
          (FEAT_SET deviceFeatures2 PhysicalDeviceFeatures2 multiViewport supportsMultipleViewports
             (FEAT_SET deviceFeatures2 PhysicalDeviceFeatures2 logicOp supportsLogicOp s)))).

Definition custom_border_color (s : t FloatControls) : t FloatControls :=
  if properties s hasCustomBorderColorExt then
    let s := assign hasCustomBorderColorFeature false s in
    let s :=
      FEAT_SET deviceFeatures2 PhysicalDeviceCustomBorderColorFeaturesEXT customBorderColors
        hasCustomBorderColorFeature s in
    if properties s hasCustomBorderColorFeature
    then FEAT_SET deviceFeatures2 PhysicalDeviceCustomBorderColorFeaturesEXT
           customBorderColorWithoutFormat supportsCustomBorderColor s
    else s
  else unlink PhysicalDeviceCustomBorderColorFeaturesEXT s.

Definition vertex_attribute_divisor (s : t FloatControls) : t FloatControls :=
  if properties s hasVertexAttributeDivisorExt then
    FEAT_SET deviceFeatures2 PhysicalDeviceVertexAttributeDivisorFeaturesEXT
      vertexAttributeInstanceRateZeroDivisor supportsVertexAttributeZeroDivisor
      (FEAT_SET deviceFeatures2 PhysicalDeviceVertexAttributeDivisorFeaturesEXT
         vertexAttributeInstanceRateDivisor supportsVertexAttributeDivisor s)
  else unlink PhysicalDeviceVertexAttributeDivisorFeaturesEXT s.

Definition provoking_vertex (s : t FloatControls) : t FloatControls :=
  if properties s hasProvokingVertexExt
  then FEAT_SET deviceFeatures2 PhysicalDeviceProvokingVertexFeaturesEXT provokingVertexLast
         supportsLastProvokingVertex s
  else unlink PhysicalDeviceProvokingVertexFeaturesEXT s.

Definition atomic_int64 (s : t FloatControls) : t FloatControls :=
  if properties s hasShaderAtomicInt64Ext
     && deviceFeatures2 PhysicalDeviceShaderAtomicInt64Features shaderBufferInt64Atomics
     && deviceFeatures2 PhysicalDeviceShaderAtomicInt64Features shaderSharedInt64Atomics
  then assign supportsAtomicInt64 true s
  else unlink PhysicalDeviceShaderAtomicInt64Features s.

Definition float16_int8 (s : t FloatControls) : t FloatControls :=
  if properties s hasShaderFloat16Int8Ext then
    FEAT_SET deviceFeatures2 PhysicalDeviceShaderFloat16Int8Features shaderInt8 supportsInt8
      (FEAT_SET deviceFeatures2 PhysicalDeviceShaderFloat16Int8Features shaderFloat16
         supportsFloat16 s)
  else unlink PhysicalDeviceShaderFloat16Int8Features s.

Definition demote_to_helper (s : t FloatControls) : t FloatControls :=
  if properties s hasShaderDemoteToHelperExt
  then FEAT_SET deviceFeatures2 PhysicalDeviceShaderDemoteToHelperInvocationFeaturesEXT
         shaderDemoteToHelperInvocation supportsShaderDemoteToHelper s
  else unlink PhysicalDeviceShaderDemoteToHelperInvocationFeaturesEXT s.

Definition uniform_buffer_layout (s : t FloatControls) : t FloatControls :=
  if properties s supportsUniformBufferStandardLayout
  then FEAT_SET deviceFeatures2 PhysicalDeviceUniformBufferStandardLayoutFeatures
         uniformBufferStandardLayout supportsUniformBufferStandardLayout s
  else Warn "Cannot find VK_KHR_uniform_buffer_standard_layout, assuming implicit support"
         (unlink PhysicalDeviceUniformBufferStandardLayoutFeatures s).

Definition topology_list_restart (s : t FloatControls) : t FloatControls :=
  if properties s hasPrimitiveTopologyListRestartExt then
    FEAT_SET deviceFeatures2 PhysicalDevicePrimitiveTopologyListRestartFeaturesEXT
      primitiveTopologyPatchListRestart supportsTopologyPatchListRestart
      (FEAT_SET deviceFeatures2 PhysicalDevicePrimitiveTopologyListRestartFeaturesEXT
         primitiveTopologyListRestart supportsTopologyListRestart s)
  else unlink PhysicalDevicePrimitiveTopologyListRestartFeaturesEXT s.

Definition device_properties (deviceFloatControls : FloatControls)
    (supportedOperations deviceSubgroupSize : Z) (s : t FloatControls) : t FloatControls :=
  let s := assign supportsSubgroupVote
             (negb (Z.land supportedOperations SubgroupFeature_eVote =? 0)) s in
  {| properties := properties s;
     enabledFeatures2 := enabledFeatures2 s;
     linked := linked s;
     enabledExtensions := enabledExtensions s;
     logged := logged s;
     floatControls :=
       if properties s supportsFloatControls then deviceFloatControls else floatControls s;
     subgroupSize := deviceSubgroupSize |}.

Definition feature_blocks (s : t FloatControls) : t FloatControls :=
  topology_list_restart
    (uniform_buffer_layout
       (demote_to_helper
          (float16_int8
             (atomic_int64
                (provoking_vertex
                   (vertex_attribute_divisor (custom_border_color (core_features s)))))))).

Lemma TraitManager_blocks (deviceExtensions : list ExtensionProperties)
    (deviceFloatControls : FloatControls) (supportedOperations deviceSubgroupSize : Z)
    (s : t FloatControls) :
  TraitManager Hash deviceFeatures2 deviceExtensions deviceFloatControls supportedOperations
    deviceSubgroupSize s
  = device_properties deviceFloatControls supportedOperations deviceSubgroupSize
      (feature_blocks (extension_loop Hash deviceExtensions s)).
Proof. reflexivity. Qed.

(** ** The extension loop *)

Lemma labels_distinct_cons (c : string * Property) (cases : list (string * Property)) :
  labels_distinct (c :: cases) = true ->
  labels_distinct cases = true
  /\ forall b, In b cases -> Hash (fst c) = Hash (fst b) -> fst c = fst b.
Proof.
  unfold labels_distinct. intros H.
  rewrite forallb_forall in H. split.
  - rewrite forallb_forall. intros a Ha. specialize (H a (or_intror Ha)).
    rewrite forallb_forall in H |- *. intros b Hb. exact (H b (or_intror Hb)).
  - intros b Hb Hhash. specialize (H c (or_introl eq_refl)).
    rewrite forallb_forall in H. specialize (H b (or_intror Hb)).
    apply Z.eqb_eq in Hhash. rewrite Hhash in H. simpl in H.
    apply String.eqb_eq. exact H.
Qed.

Lemma switch_Hash_find (cases : list (string * Property)) (name : string)
    (s : t FloatControls) :
  labels_distinct cases = true ->
  switch_Hash Hash cases name s
  = match case_of cases name with
    | Some (_, property) => EXT_SET name property name s
    | None => s
    end.
Proof.
  unfold case_of. induction cases as [|[label property] cases IH]; intros Hdistinct;
    [reflexivity|].
  destruct (labels_distinct_cons _ _ Hdistinct) as [Hrest Hhead].
  cbn [switch_Hash List.find fst].
  destruct (Z.eqb_spec (Hash label) (Hash name)) as [Hhash|Hhash].
  - destruct (String.eqb_spec label name) as [->|Hname]; [reflexivity|].
    unfold EXT_SET at 1. rewrite (proj2 (String.eqb_neq label name) Hname).
    destruct (List.find (fun c => String.eqb (fst c) name) cases) as [[label' property']|] eqn:Hfind;
      [|reflexivity].
    exfalso. apply find_some in Hfind. destruct Hfind as [Hin Heq].
    apply String.eqb_eq in Heq. simpl in Heq. subst label'.
    apply Hname. apply (Hhead _ Hin). exact Hhash.
  - destruct (String.eqb_spec label name) as [->|Hname]; [contradiction|].
    apply IH. exact Hrest.
Qed.

Definition extension_property (p : Property) (name : string) : bool :=
  match case_of extension_cases name with
  | Some (_, property) => Property_eqb p property
  | None => false
  end.

Lemma Property_eqb_eq (x y : Property) : Property_eqb x y = true <-> x = y.
Proof. destruct x, y; simpl; split; intros H; try reflexivity; discriminate H. Qed.

Lemma FeatureStruct_eqb_eq (x y : FeatureStruct) : FeatureStruct_eqb x y = true <-> x = y.
Proof. destruct x, y; simpl; split; intros H; try reflexivity; discriminate H. Qed.

Lemma Feature_eqb_eq (x y : Feature) : Feature_eqb x y = true <-> x = y.
Proof. destruct x, y; simpl; split; intros H; try reflexivity; discriminate H. Qed.

Lemma listed_case_of (name : string) :
  listed name = match case_of extension_cases name with Some _ => true | None => false end.
Proof.
  unfold listed, case_of. induction extension_cases as [|c cases IH]; [reflexivity|].
  simpl. destruct (String.eqb (fst c) name); [reflexivity | exact IH].
Qed.

Lemma switch_Hash_step (name : string) (s : t FloatControls) :
  labels_distinct extension_cases = true ->
  (forall p : Property,
      properties (switch_Hash Hash extension_cases name s) p
      = properties s p || extension_property p name)
  /\ enabledExtensions (switch_Hash Hash extension_cases name s)
     = enabledExtensions s ++ (if listed name then [name] else [])
  /\ enabledFeatures2 (switch_Hash Hash extension_cases name s) = enabledFeatures2 s
  /\ linked (switch_Hash Hash extension_cases name s) = linked s
  /\ logged (switch_Hash Hash extension_cases name s) = logged s
  /\ floatControls (switch_Hash Hash extension_cases name s) = floatControls s
  /\ subgroupSize (switch_Hash Hash extension_cases name s) = subgroupSize s.
Proof.
  intros Hdistinct. rewrite switch_Hash_find by exact Hdistinct.
  rewrite listed_case_of. unfold extension_property.
  destruct (case_of extension_cases name) as [[label property]|].
  - unfold EXT_SET. rewrite String.eqb_refl. cbn. repeat split.
    intros p. unfold set_property.
    destruct (Property_eqb p property); [rewrite orb_true_r | rewrite orb_false_r]; reflexivity.
  - rewrite app_nil_r. repeat split. intros p. rewrite orb_false_r. reflexivity.
Qed.

Lemma extension_loop_spec (deviceExtensions : list ExtensionProperties) (s : t FloatControls) :
  labels_distinct extension_cases = true ->
  (forall p : Property,
      properties (extension_loop Hash deviceExtensions s) p
      = properties s p
        || existsb (fun extension => extension_property p (extensionName extension))
             deviceExtensions)
  /\ enabledExtensions (extension_loop Hash deviceExtensions s)
     = enabledExtensions s ++ List.filter listed (map extensionName deviceExtensions)
  /\ enabledFeatures2 (extension_loop Hash deviceExtensions s) = enabledFeatures2 s
  /\ linked (extension_loop Hash deviceExtensions s) = linked s
  /\ logged (extension_loop Hash deviceExtensions s) = logged s
  /\ floatControls (extension_loop Hash deviceExtensions s) = floatControls s
  /\ subgroupSize (extension_loop Hash deviceExtensions s) = subgroupSize s.
Proof.
  intros Hdistinct. unfold extension_loop. revert s.
  induction deviceExtensions as [|extension rest IH]; intros s.
  - simpl. repeat split.
    + intros p. rewrite orb_false_r. reflexivity.
    + rewrite app_nil_r. reflexivity.
  - cbn [fold_left map List.filter existsb].
    destruct (IH (switch_Hash Hash extension_cases (extensionName extension) s))
      as (Hp & He & Hf & Hl & Hw & Hc & Hz).
    destruct (switch_Hash_step (extensionName extension) s Hdistinct)
      as (Hp' & He' & Hf' & Hl' & Hw' & Hc' & Hz').
    rewrite He, Hf, Hl, Hw, Hc, Hz, He', Hf', Hl', Hw', Hc', Hz'.
    repeat split.
    + intros p. rewrite Hp, Hp', orb_assoc. reflexivity.
    + rewrite <- app_assoc. destruct (listed (extensionName extension)); reflexivity.
Qed.

(** For a name the constructor looks for, the extension loop sets its
    property exactly when the device offers an extension of that name. *)
Lemma extension_property_offered (deviceExtensions : list ExtensionProperties)
    (label : string) (property : Property) :
  (forall name : string, extension_property property name = String.eqb label name) ->
  existsb (fun extension => extension_property property (extensionName extension))
    deviceExtensions
  = offered deviceExtensions label.
Proof.
  intros H. unfold offered. induction deviceExtensions as [|extension rest IH]; [reflexivity|].
  simpl. rewrite H, IH. reflexivity.
Qed.

Lemma extension_property_listed (property : Property) (name : string) :
  extension_property property name
  = existsb (fun c => Property_eqb property (snd c) && String.eqb (fst c) name) extension_cases.
Proof.
  unfold extension_property, case_of, extension_cases. cbn [List.find existsb fst snd].
  repeat match goal with
         | |- context [String.eqb ?label name] =>
             destruct (String.eqb_spec label name) as [<-|?];
               [destruct property; reflexivity|]
         end.
  rewrite !andb_false_r. reflexivity.
Qed.


(** The extension that sets a property in the loop. *)
Definition extension_of (p : Property) : option string :=
  option_map fst (List.find (fun c => Property_eqb p (snd c)) extension_cases).

Definition extension_flag (deviceExtensions : list ExtensionProperties) (p : Property) : bool :=
  match extension_of p with
  | Some label => offered deviceExtensions label
  | None => false
  end.

Lemma extension_property_of (p : Property) (name : string) :
  extension_property p name
  = match extension_of p with
    | Some label => String.eqb label name
    | None => false
    end.
Proof.
  rewrite extension_property_listed.
  destruct p; cbn; rewrite ?orb_false_r; reflexivity.
Qed.

Lemma extension_loop_properties (deviceExtensions : list ExtensionProperties)
    (s : t FloatControls) (p : Property) :
  labels_distinct extension_cases = true ->
  properties (extension_loop Hash deviceExtensions s) p
  = properties s p || extension_flag deviceExtensions p.
Proof.
  intros Hdistinct.
  rewrite (proj1 (extension_loop_spec deviceExtensions s Hdistinct)).
  f_equal. unfold extension_flag, offered.
  induction deviceExtensions as [|extension rest IH].
  - simpl. destruct (extension_of p); reflexivity.
  - cbn [existsb]. rewrite IH, extension_property_of.
    destruct (extension_of p); reflexivity.
Qed.

(** ** The effect of each block on each part of the state *)

Lemma FEAT_SET_properties (structName : FeatureStruct) (feature : Feature) (property : Property)
    (s : t FloatControls) (p : Property) :
  properties (FEAT_SET deviceFeatures2 structName feature property s) p
  = properties s p || (Property_eqb p property && deviceFeatures2 structName feature).
Proof.
  unfold FEAT_SET, set_property. destruct (deviceFeatures2 structName feature); cbn.
  - destruct (Property_eqb p property); rewrite ?orb_true_r, ?orb_false_r; reflexivity.
  - rewrite andb_false_r, orb_false_r. reflexivity.
Qed.

Lemma FEAT_SET_enabledFeatures2 (structName : FeatureStruct) (feature : Feature)
    (property : Property) (s : t FloatControls) (structName' : FeatureStruct)
    (feature' : Feature) :
  enabledFeatures2 (FEAT_SET deviceFeatures2 structName feature property s) structName' feature'
  = enabledFeatures2 s structName' feature'
    || (FeatureStruct_eqb structName' structName
        && (Feature_eqb feature' feature && deviceFeatures2 structName feature)).
Proof.
  unfold FEAT_SET, set_feature. destruct (deviceFeatures2 structName feature); cbn.
  - destruct (FeatureStruct_eqb structName' structName), (Feature_eqb feature' feature); cbn;
      rewrite ?orb_true_r, ?orb_false_r; reflexivity.
  - rewrite !andb_false_r, orb_false_r. reflexivity.
Qed.

Lemma FEAT_SET_linked (structName : FeatureStruct) (feature : Feature) (property : Property)
    (s : t FloatControls) :
  linked (FEAT_SET deviceFeatures2 structName feature property s) = linked s.
Proof. unfold FEAT_SET. destruct (deviceFeatures2 structName feature); reflexivity. Qed.

Lemma FEAT_SET_logged (structName : FeatureStruct) (feature : Feature) (property : Property)
    (s : t FloatControls) :
  logged (FEAT_SET deviceFeatures2 structName feature property s) = logged s.
Proof. unfold FEAT_SET. destruct (deviceFeatures2 structName feature); reflexivity. Qed.

Lemma FEAT_SET_enabledExtensions (structName : FeatureStruct) (feature : Feature)
    (property : Property) (s : t FloatControls) :
  enabledExtensions (FEAT_SET deviceFeatures2 structName feature property s)
  = enabledExtensions s.
Proof. unfold FEAT_SET. destruct (deviceFeatures2 structName feature); reflexivity. Qed.

Lemma FEAT_SET_floatControls (structName : FeatureStruct) (feature : Feature)
    (property : Property) (s : t FloatControls) :
  floatControls (FEAT_SET deviceFeatures2 structName feature property s) = floatControls s.
Proof. unfold FEAT_SET. destruct (deviceFeatures2 structName feature); reflexivity. Qed.

Lemma properties_if (c : bool) (x y : t FloatControls) (p : Property) :
  properties (if c then x else y) p = if c then properties x p else properties y p.
Proof. destruct c; reflexivity. Qed.

Lemma enabledFeatures2_if (c : bool) (x y : t FloatControls) (structName : FeatureStruct)
    (feature : Feature) :
  enabledFeatures2 (if c then x else y) structName feature
  = if c then enabledFeatures2 x structName feature else enabledFeatures2 y structName feature.
Proof. destruct c; reflexivity. Qed.

Lemma linked_if (c : bool) (x y : t FloatControls) (structName : FeatureStruct) :
  linked (if c then x else y) structName
  = if c then linked x structName else linked y structName.
Proof. destruct c; reflexivity. Qed.

Lemma logged_if (c : bool) (x y : t FloatControls) :
  logged (if c then x else y) = if c then logged x else logged y.
Proof. destruct c; reflexivity. Qed.

Lemma enabledExtensions_if (c : bool) (x y : t FloatControls) :
  enabledExtensions (if c then x else y)
  = if c then enabledExtensions x else enabledExtensions y.
Proof. destruct c; reflexivity. Qed.

Lemma floatControls_if (c : bool) (x y : t FloatControls) :
  floatControls (if c then x else y) = if c then floatControls x else floatControls y.
Proof. destruct c; reflexivity. Qed.

Ltac unfold_blocks :=
  unfold core_features, custom_border_color, vertex_attribute_divisor, provoking_vertex,
    atomic_int64, float16_int8, demote_to_helper, uniform_buffer_layout,
    topology_list_restart;
  cbv zeta.

Ltac project_state :=
  repeat first
    [ rewrite properties_if | rewrite enabledFeatures2_if | rewrite linked_if
    | rewrite logged_if | rewrite enabledExtensions_if | rewrite floatControls_if
    | rewrite FEAT_SET_properties | rewrite FEAT_SET_enabledFeatures2
    | rewrite FEAT_SET_linked | rewrite FEAT_SET_logged
    | rewrite FEAT_SET_enabledExtensions | rewrite FEAT_SET_floatControls
    | progress cbn [properties enabledFeatures2 linked logged enabledExtensions floatControls
                    unlink assign Warn set_property set_linked] ].

Ltac destruct_atom s :=
  match goal with
  | |- context [deviceFeatures2 ?a ?b] => destruct (deviceFeatures2 a b)
  | |- context [properties s ?x] => destruct (properties s x)
  | |- context [enabledFeatures2 s ?a ?b] => destruct (enabledFeatures2 s a b)
  | |- context [linked s ?a] => destruct (linked s a)
  end.

Ltac block_cases s :=
  cbn;
  repeat (destruct_atom s; cbn);
  reflexivity.

Lemma core_features_properties (s : t FloatControls) (p : Property) :
  properties (core_features s) p
  = properties s p
    || (Property_eqb p supportsLogicOp && deviceFeatures2 PhysicalDeviceFeatures2 logicOp)
    || (Property_eqb p supportsMultipleViewports && deviceFeatures2 PhysicalDeviceFeatures2 multiViewport)
    || (Property_eqb p supportsInt16 && deviceFeatures2 PhysicalDeviceFeatures2 shaderInt16)
    || (Property_eqb p supportsInt64 && deviceFeatures2 PhysicalDeviceFeatures2 shaderInt64)
    || (Property_eqb p supportsImageReadWithoutFormat
        && deviceFeatures2 PhysicalDeviceFeatures2 shaderStorageImageReadWithoutFormat).
Proof. unfold_blocks; project_state; destruct p; block_cases s. Qed.

Lemma custom_border_color_properties (s : t FloatControls) (p : Property) :
  properties (custom_border_color s) p
  = if Property_eqb p hasCustomBorderColorFeature
    then (if properties s hasCustomBorderColorExt
          then deviceFeatures2 PhysicalDeviceCustomBorderColorFeaturesEXT customBorderColors
          else properties s p)
    else properties s p
         || (Property_eqb p supportsCustomBorderColor
             && (properties s hasCustomBorderColorExt
                 && (deviceFeatures2 PhysicalDeviceCustomBorderColorFeaturesEXT customBorderColors
                     && deviceFeatures2 PhysicalDeviceCustomBorderColorFeaturesEXT
                          customBorderColorWithoutFormat))).
Proof. unfold_blocks; project_state; destruct p; block_cases s. Qed.

Lemma vertex_attribute_divisor_properties (s : t FloatControls) (p : Property) :
  properties (vertex_attribute_divisor s) p
  = properties s p
    || (Property_eqb p supportsVertexAttributeDivisor
        && (properties s hasVertexAttributeDivisorExt
            && deviceFeatures2 PhysicalDeviceVertexAttributeDivisorFeaturesEXT
                 vertexAttributeInstanceRateDivisor))
    || (Property_eqb p supportsVertexAttributeZeroDivisor
        && (properties s hasVertexAttributeDivisorExt
            && deviceFeatures2 PhysicalDeviceVertexAttributeDivisorFeaturesEXT
                 vertexAttributeInstanceRateZeroDivisor)).
Proof. unfold_blocks; project_state; destruct p; block_cases s. Qed.

Lemma provoking_vertex_properties (s : t FloatControls) (p : Property) :
  properties (provoking_vertex s) p
  = properties s p
    || (Property_eqb p supportsLastProvokingVertex
        && (properties s hasProvokingVertexExt
            && deviceFeatures2 PhysicalDeviceProvokingVertexFeaturesEXT provokingVertexLast)).
Proof. unfold_blocks; project_state; destruct p; block_cases s. Qed.

Lemma atomic_int64_properties (s : t FloatControls) (p : Property) :
  properties (atomic_int64 s) p
  = properties s p
    || (Property_eqb p supportsAtomicInt64
        && (properties s hasShaderAtomicInt64Ext
            && (deviceFeatures2 PhysicalDeviceShaderAtomicInt64Features shaderBufferInt64Atomics
                && deviceFeatures2 PhysicalDeviceShaderAtomicInt64Features shaderSharedInt64Atomics))).
Proof. unfold_blocks; project_state; destruct p; block_cases s. Qed.

Lemma float16_int8_properties (s : t FloatControls) (p : Property) :
  properties (float16_int8 s) p
  = properties s p
    || (Property_eqb p supportsFloat16
        && (properties s hasShaderFloat16Int8Ext
            && deviceFeatures2 PhysicalDeviceShaderFloat16Int8Features shaderFloat16))
    || (Property_eqb p supportsInt8
        && (properties s hasShaderFloat16Int8Ext
            && deviceFeatures2 PhysicalDeviceShaderFloat16Int8Features shaderInt8)).
Proof. unfold_blocks; project_state; destruct p; block_cases s. Qed.

Lemma demote_to_helper_properties (s : t FloatControls) (p : Property) :
  properties (demote_to_helper s) p
  = properties s p
    || (Property_eqb p supportsShaderDemoteToHelper
        && (properties s hasShaderDemoteToHelperExt
            && deviceFeatures2 PhysicalDeviceShaderDemoteToHelperInvocationFeaturesEXT
                 shaderDemoteToHelperInvocation)).
Proof. unfold_blocks; project_state; destruct p; block_cases s. Qed.

Lemma uniform_buffer_layout_properties (s : t FloatControls) (p : Property) :
  properties (uniform_buffer_layout s) p = properties s p.
Proof. unfold_blocks; project_state; destruct p; block_cases s. Qed.

Lemma topology_list_restart_properties (s : t FloatControls) (p : Property) :
  properties (topology_list_restart s) p
  = properties s p
    || (Property_eqb p supportsTopologyListRestart
        && (properties s hasPrimitiveTopologyListRestartExt
            && deviceFeatures2 PhysicalDevicePrimitiveTopologyListRestartFeaturesEXT
                 primitiveTopologyListRestart))
    || (Property_eqb p supportsTopologyPatchListRestart
        && (properties s hasPrimitiveTopologyListRestartExt
            && deviceFeatures2 PhysicalDevicePrimitiveTopologyListRestartFeaturesEXT
                 primitiveTopologyPatchListRestart)).
Proof. unfold_blocks; project_state; destruct p; block_cases s. Qed.

Lemma core_features_enabledFeatures2 (s : t FloatControls) (structName : FeatureStruct)
    (feature : Feature) :
  enabledFeatures2 (core_features s) structName feature
  = enabledFeatures2 s structName feature
    || (FeatureStruct_eqb structName PhysicalDeviceFeatures2
        && (Feature_eqb feature logicOp
            && (deviceFeatures2 PhysicalDeviceFeatures2
                  logicOp)))
    || (FeatureStruct_eqb structName PhysicalDeviceFeatures2
        && (Feature_eqb feature multiViewport
            && (deviceFeatures2 PhysicalDeviceFeatures2
                  multiViewport)))
    || (FeatureStruct_eqb structName PhysicalDeviceFeatures2
        && (Feature_eqb feature shaderInt16
            && (deviceFeatures2 PhysicalDeviceFeatures2
                  shaderInt16)))
    || (FeatureStruct_eqb structName PhysicalDeviceFeatures2
        && (Feature_eqb feature shaderInt64
            && (deviceFeatures2 PhysicalDeviceFeatures2
                  shaderInt64)))
    || (FeatureStruct_eqb structName PhysicalDeviceFeatures2
        && (Feature_eqb feature shaderStorageImageReadWithoutFormat
            && (deviceFeatures2 PhysicalDeviceFeatures2
                  shaderStorageImageReadWithoutFormat))).
Proof. unfold_blocks; project_state; destruct structName, feature; block_cases s. Qed.

Lemma core_features_linked (s : t FloatControls) (structName : FeatureStruct) :
  linked (core_features s) structName
  = linked s structName.
Proof. unfold_blocks; project_state; destruct structName; block_cases s. Qed.

Lemma core_features_logged (s : t FloatControls) : logged (core_features s) = logged s.
Proof. unfold_blocks; project_state; block_cases s. Qed.

Lemma core_features_enabledExtensions (s : t FloatControls) :
  enabledExtensions (core_features s) = enabledExtensions s.
Proof. unfold_blocks; project_state; block_cases s. Qed.

Lemma core_features_floatControls (s : t FloatControls) :
  floatControls (core_features s) = floatControls s.
Proof. unfold_blocks; project_state; block_cases s. Qed.

Lemma custom_border_color_enabledFeatures2 (s : t FloatControls) (structName : FeatureStruct)
    (feature : Feature) :
  enabledFeatures2 (custom_border_color s) structName feature
  = enabledFeatures2 s structName feature
    || (FeatureStruct_eqb structName PhysicalDeviceCustomBorderColorFeaturesEXT
        && (Feature_eqb feature customBorderColors
            && ((properties s hasCustomBorderColorExt)
                && deviceFeatures2 PhysicalDeviceCustomBorderColorFeaturesEXT
                  customBorderColors)))
    || (FeatureStruct_eqb structName PhysicalDeviceCustomBorderColorFeaturesEXT
        && (Feature_eqb feature customBorderColorWithoutFormat
            && ((properties s hasCustomBorderColorExt
                && deviceFeatures2 PhysicalDeviceCustomBorderColorFeaturesEXT customBorderColors)
                && deviceFeatures2 PhysicalDeviceCustomBorderColorFeaturesEXT
                  customBorderColorWithoutFormat))).
Proof. unfold_blocks; project_state; destruct structName, feature; block_cases s. Qed.

Lemma custom_border_color_linked (s : t FloatControls) (structName : FeatureStruct) :
  linked (custom_border_color s) structName
  = linked s structName
    && negb (FeatureStruct_eqb structName PhysicalDeviceCustomBorderColorFeaturesEXT
             && negb (properties s hasCustomBorderColorExt)).
Proof. unfold_blocks; project_state; destruct structName; block_cases s. Qed.

Lemma custom_border_color_logged (s : t FloatControls) : logged (custom_border_color s) = logged s.
Proof. unfold_blocks; project_state; block_cases s. Qed.

Lemma custom_border_color_enabledExtensions (s : t FloatControls) :
  enabledExtensions (custom_border_color s) = enabledExtensions s.
Proof. unfold_blocks; project_state; block_cases s. Qed.

Lemma custom_border_color_floatControls (s : t FloatControls) :
  floatControls (custom_border_color s) = floatControls s.
Proof. unfold_blocks; project_state; block_cases s. Qed.

Lemma vertex_attribute_divisor_enabledFeatures2 (s : t FloatControls) (structName : FeatureStruct)
    (feature : Feature) :
  enabledFeatures2 (vertex_attribute_divisor s) structName feature
  = enabledFeatures2 s structName feature
    || (FeatureStruct_eqb structName PhysicalDeviceVertexAttributeDivisorFeaturesEXT
        && (Feature_eqb feature vertexAttributeInstanceRateDivisor
            && ((properties s hasVertexAttributeDivisorExt)
                && deviceFeatures2 PhysicalDeviceVertexAttributeDivisorFeaturesEXT
                  vertexAttributeInstanceRateDivisor)))
    || (FeatureStruct_eqb structName PhysicalDeviceVertexAttributeDivisorFeaturesEXT
        && (Feature_eqb feature vertexAttributeInstanceRateZeroDivisor
            && ((properties s hasVertexAttributeDivisorExt)
                && deviceFeatures2 PhysicalDeviceVertexAttributeDivisorFeaturesEXT
                  vertexAttributeInstanceRateZeroDivisor))).
Proof. unfold_blocks; project_state; destruct structName, feature; block_cases s. Qed.

Lemma vertex_attribute_divisor_linked (s : t FloatControls) (structName : FeatureStruct) :
  linked (vertex_attribute_divisor s) structName
  = linked s structName
    && negb (FeatureStruct_eqb structName PhysicalDeviceVertexAttributeDivisorFeaturesEXT
             && negb (properties s hasVertexAttributeDivisorExt)).
Proof. unfold_blocks; project_state; destruct structName; block_cases s. Qed.

Lemma vertex_attribute_divisor_logged (s : t FloatControls) : logged (vertex_attribute_divisor s) = logged s.
Proof. unfold_blocks; project_state; block_cases s. Qed.

Lemma vertex_attribute_divisor_enabledExtensions (s : t FloatControls) :
  enabledExtensions (vertex_attribute_divisor s) = enabledExtensions s.
Proof. unfold_blocks; project_state; block_cases s. Qed.

Lemma vertex_attribute_divisor_floatControls (s : t FloatControls) :
  floatControls (vertex_attribute_divisor s) = floatControls s.
Proof. unfold_blocks; project_state; block_cases s. Qed.

Lemma provoking_vertex_enabledFeatures2 (s : t FloatControls) (structName : FeatureStruct)
    (feature : Feature) :
  enabledFeatures2 (provoking_vertex s) structName feature
  = enabledFeatures2 s structName feature
    || (FeatureStruct_eqb structName PhysicalDeviceProvokingVertexFeaturesEXT
        && (Feature_eqb feature provokingVertexLast
            && ((properties s hasProvokingVertexExt)
                && deviceFeatures2 PhysicalDeviceProvokingVertexFeaturesEXT
                  provokingVertexLast))).
Proof. unfold_blocks; project_state; destruct structName, feature; block_cases s. Qed.

Lemma provoking_vertex_linked (s : t FloatControls) (structName : FeatureStruct) :
  linked (provoking_vertex s) structName
  = linked s structName
    && negb (FeatureStruct_eqb structName PhysicalDeviceProvokingVertexFeaturesEXT
             && negb (properties s hasProvokingVertexExt)).
Proof. unfold_blocks; project_state; destruct structName; block_cases s. Qed.

Lemma provoking_vertex_logged (s : t FloatControls) : logged (provoking_vertex s) = logged s.
Proof. unfold_blocks; project_state; block_cases s. Qed.

Lemma provoking_vertex_enabledExtensions (s : t FloatControls) :
  enabledExtensions (provoking_vertex s) = enabledExtensions s.
Proof. unfold_blocks; project_state; block_cases s. Qed.

Lemma provoking_vertex_floatControls (s : t FloatControls) :
  floatControls (provoking_vertex s) = floatControls s.
Proof. unfold_blocks; project_state; block_cases s. Qed.

Lemma atomic_int64_enabledFeatures2 (s : t FloatControls) (structName : FeatureStruct)
    (feature : Feature) :
  enabledFeatures2 (atomic_int64 s) structName feature
  = enabledFeatures2 s structName feature.
Proof. unfold_blocks; project_state; destruct structName, feature; block_cases s. Qed.

Lemma atomic_int64_linked (s : t FloatControls) (structName : FeatureStruct) :
  linked (atomic_int64 s) structName
  = linked s structName
    && negb (FeatureStruct_eqb structName PhysicalDeviceShaderAtomicInt64Features
             && negb (properties s hasShaderAtomicInt64Ext
            && deviceFeatures2 PhysicalDeviceShaderAtomicInt64Features shaderBufferInt64Atomics
            && deviceFeatures2 PhysicalDeviceShaderAtomicInt64Features shaderSharedInt64Atomics)).
Proof. unfold_blocks; project_state; destruct structName; block_cases s. Qed.

Lemma atomic_int64_logged (s : t FloatControls) : logged (atomic_int64 s) = logged s.
Proof. unfold_blocks; project_state; block_cases s. Qed.

Lemma atomic_int64_enabledExtensions (s : t FloatControls) :
  enabledExtensions (atomic_int64 s) = enabledExtensions s.
Proof. unfold_blocks; project_state; block_cases s. Qed.

Lemma atomic_int64_floatControls (s : t FloatControls) :
  floatControls (atomic_int64 s) = floatControls s.
Proof. unfold_blocks; project_state; block_cases s. Qed.

Lemma float16_int8_enabledFeatures2 (s : t FloatControls) (structName : FeatureStruct)
    (feature : Feature) :
  enabledFeatures2 (float16_int8 s) structName feature
  = enabledFeatures2 s structName feature
    || (FeatureStruct_eqb structName PhysicalDeviceShaderFloat16Int8Features
        && (Feature_eqb feature shaderFloat16
            && ((properties s hasShaderFloat16Int8Ext)
                && deviceFeatures2 PhysicalDeviceShaderFloat16Int8Features
                  shaderFloat16)))
    || (FeatureStruct_eqb structName PhysicalDeviceShaderFloat16Int8Features
        && (Feature_eqb feature shaderInt8
            && ((properties s hasShaderFloat16Int8Ext)
                && deviceFeatures2 PhysicalDeviceShaderFloat16Int8Features
                  shaderInt8))).
Proof. unfold_blocks; project_state; destruct structName, feature; block_cases s. Qed.

Lemma float16_int8_linked (s : t FloatControls) (structName : FeatureStruct) :
  linked (float16_int8 s) structName
  = linked s structName
    && negb (FeatureStruct_eqb structName PhysicalDeviceShaderFloat16Int8Features
             && negb (properties s hasShaderFloat16Int8Ext)).
Proof. unfold_blocks; project_state; destruct structName; block_cases s. Qed.

Lemma float16_int8_logged (s : t FloatControls) : logged (float16_int8 s) = logged s.
Proof. unfold_blocks; project_state; block_cases s. Qed.

Lemma float16_int8_enabledExtensions (s : t FloatControls) :
  enabledExtensions (float16_int8 s) = enabledExtensions s.
Proof. unfold_blocks; project_state; block_cases s. Qed.

Lemma float16_int8_floatControls (s : t FloatControls) :
  floatControls (float16_int8 s) = floatControls s.
Proof. unfold_blocks; project_state; block_cases s. Qed.

Lemma demote_to_helper_enabledFeatures2 (s : t FloatControls) (structName : FeatureStruct)
    (feature : Feature) :
  enabledFeatures2 (demote_to_helper s) structName feature
  = enabledFeatures2 s structName feature
    || (FeatureStruct_eqb structName PhysicalDeviceShaderDemoteToHelperInvocationFeaturesEXT
        && (Feature_eqb feature shaderDemoteToHelperInvocation
            && ((properties s hasShaderDemoteToHelperExt)
                && deviceFeatures2 PhysicalDeviceShaderDemoteToHelperInvocationFeaturesEXT
                  shaderDemoteToHelperInvocation))).
Proof. unfold_blocks; project_state; destruct structName, feature; block_cases s. Qed.

Lemma demote_to_helper_linked (s : t FloatControls) (structName : FeatureStruct) :
  linked (demote_to_helper s) structName
  = linked s structName
    && negb (FeatureStruct_eqb structName PhysicalDeviceShaderDemoteToHelperInvocationFeaturesEXT
             && negb (properties s hasShaderDemoteToHelperExt)).
Proof. unfold_blocks; project_state; destruct structName; block_cases s. Qed.

Lemma demote_to_helper_logged (s : t FloatControls) : logged (demote_to_helper s) = logged s.
Proof. unfold_blocks; project_state; block_cases s. Qed.

Lemma demote_to_helper_enabledExtensions (s : t FloatControls) :
  enabledExtensions (demote_to_helper s) = enabledExtensions s.
Proof. unfold_blocks; project_state; block_cases s. Qed.

Lemma demote_to_helper_floatControls (s : t FloatControls) :
  floatControls (demote_to_helper s) = floatControls s.
Proof. unfold_blocks; project_state; block_cases s. Qed.

Lemma uniform_buffer_layout_enabledFeatures2 (s : t FloatControls) (structName : FeatureStruct)
    (feature : Feature) :
  enabledFeatures2 (uniform_buffer_layout s) structName feature
  = enabledFeatures2 s structName feature
    || (FeatureStruct_eqb structName PhysicalDeviceUniformBufferStandardLayoutFeatures
        && (Feature_eqb feature uniformBufferStandardLayout
            && ((properties s supportsUniformBufferStandardLayout)
                && deviceFeatures2 PhysicalDeviceUniformBufferStandardLayoutFeatures
                  uniformBufferStandardLayout))).
Proof. unfold_blocks; project_state; destruct structName, feature; block_cases s. Qed.

Lemma uniform_buffer_layout_linked (s : t FloatControls) (structName : FeatureStruct) :
  linked (uniform_buffer_layout s) structName
  = linked s structName
    && negb (FeatureStruct_eqb structName PhysicalDeviceUniformBufferStandardLayoutFeatures
             && negb (properties s supportsUniformBufferStandardLayout)).
Proof. unfold_blocks; project_state; destruct structName; block_cases s. Qed.

Lemma uniform_buffer_layout_logged (s : t FloatControls) :
  logged (uniform_buffer_layout s)
  = logged s
    ++ (if properties s supportsUniformBufferStandardLayout
        then []
        else ["Cannot find VK_KHR_uniform_buffer_standard_layout, assuming implicit support"%string]).
Proof. unfold_blocks; project_state; destruct_atom s; [rewrite app_nil_r|]; reflexivity. Qed.

Lemma uniform_buffer_layout_enabledExtensions (s : t FloatControls) :
  enabledExtensions (uniform_buffer_layout s) = enabledExtensions s.
Proof. unfold_blocks; project_state; block_cases s. Qed.

Lemma uniform_buffer_layout_floatControls (s : t FloatControls) :
  floatControls (uniform_buffer_layout s) = floatControls s.
Proof. unfold_blocks; project_state; block_cases s. Qed.

Lemma topology_list_restart_enabledFeatures2 (s : t FloatControls) (structName : FeatureStruct)
    (feature : Feature) :
  enabledFeatures2 (topology_list_restart s) structName feature
  = enabledFeatures2 s structName feature
    || (FeatureStruct_eqb structName PhysicalDevicePrimitiveTopologyListRestartFeaturesEXT
        && (Feature_eqb feature primitiveTopologyListRestart
            && ((properties s hasPrimitiveTopologyListRestartExt)
                && deviceFeatures2 PhysicalDevicePrimitiveTopologyListRestartFeaturesEXT
                  primitiveTopologyListRestart)))
    || (FeatureStruct_eqb structName PhysicalDevicePrimitiveTopologyListRestartFeaturesEXT
        && (Feature_eqb feature primitiveTopologyPatchListRestart
            && ((properties s hasPrimitiveTopologyListRestartExt)
                && deviceFeatures2 PhysicalDevicePrimitiveTopologyListRestartFeaturesEXT
                  primitiveTopologyPatchListRestart))).
Proof. unfold_blocks; project_state; destruct structName, feature; block_cases s. Qed.

Lemma topology_list_restart_linked (s : t FloatControls) (structName : FeatureStruct) :
  linked (topology_list_restart s) structName
  = linked s structName
    && negb (FeatureStruct_eqb structName PhysicalDevicePrimitiveTopologyListRestartFeaturesEXT
             && negb (properties s hasPrimitiveTopologyListRestartExt)).
Proof. unfold_blocks; project_state; destruct structName; block_cases s. Qed.

Lemma topology_list_restart_logged (s : t FloatControls) : logged (topology_list_restart s) = logged s.
Proof. unfold_blocks; project_state; block_cases s. Qed.

Lemma topology_list_restart_enabledExtensions (s : t FloatControls) :
  enabledExtensions (topology_list_restart s) = enabledExtensions s.
Proof. unfold_blocks; project_state; block_cases s. Qed.

Lemma topology_list_restart_floatControls (s : t FloatControls) :
  floatControls (topology_list_restart s) = floatControls s.
Proof. unfold_blocks; project_state; block_cases s. Qed.


(** ** The constructor as a whole *)

Ltac simplify_flags :=
  cbn [Property_eqb FeatureStruct_eqb Feature_eqb andb negb];
  rewrite ?orb_false_r, ?andb_true_r.

Ltac through_blocks :=
  unfold feature_blocks;
  rewrite ?topology_list_restart_properties, ?topology_list_restart_enabledFeatures2,
    ?topology_list_restart_linked; simplify_flags;
  rewrite ?uniform_buffer_layout_properties, ?uniform_buffer_layout_enabledFeatures2,
    ?uniform_buffer_layout_linked; simplify_flags;
  rewrite ?demote_to_helper_properties, ?demote_to_helper_enabledFeatures2,
    ?demote_to_helper_linked; simplify_flags;
  rewrite ?float16_int8_properties, ?float16_int8_enabledFeatures2,
    ?float16_int8_linked; simplify_flags;
  rewrite ?atomic_int64_properties, ?atomic_int64_enabledFeatures2,
    ?atomic_int64_linked; simplify_flags;
  rewrite ?provoking_vertex_properties, ?provoking_vertex_enabledFeatures2,
    ?provoking_vertex_linked; simplify_flags;
  rewrite ?vertex_attribute_divisor_properties, ?vertex_attribute_divisor_enabledFeatures2,
    ?vertex_attribute_divisor_linked; simplify_flags;
  rewrite ?custom_border_color_properties, ?custom_border_color_enabledFeatures2,
    ?custom_border_color_linked; simplify_flags;
  rewrite ?core_features_properties, ?core_features_enabledFeatures2,
    ?core_features_linked; simplify_flags.

(** What a trait needs of the device: the extension that must be offered,
    if any, and the features that must be reported. *)
Definition requirement (p : Property) : option string * list (FeatureStruct * Feature) :=
  match p with
  | supportsUint8Indices => (Some "VK_EXT_index_type_uint8"%string, [])
  | supportsSamplerMirrorClampToEdge => (Some "VK_EXT_sampler_mirror_clamp_to_edge"%string, [])
  | supportsSamplerReductionMode => (Some "VK_EXT_sampler_filter_minmax"%string, [])
  | supportsCustomBorderColor =>
      (Some "VK_EXT_custom_border_color"%string,
       [(PhysicalDeviceCustomBorderColorFeaturesEXT, customBorderColors);
        (PhysicalDeviceCustomBorderColorFeaturesEXT, customBorderColorWithoutFormat)])
  | supportsLastProvokingVertex =>
      (Some "VK_EXT_provoking_vertex"%string,
       [(PhysicalDeviceProvokingVertexFeaturesEXT, provokingVertexLast)])
  | supportsLogicOp => (None, [(PhysicalDeviceFeatures2, logicOp)])
  | supportsVertexAttributeDivisor =>
      (Some "VK_EXT_vertex_attribute_divisor"%string,
       [(PhysicalDeviceVertexAttributeDivisorFeaturesEXT, vertexAttributeInstanceRateDivisor)])
  | supportsVertexAttributeZeroDivisor =>
      (Some "VK_EXT_vertex_attribute_divisor"%string,
       [(PhysicalDeviceVertexAttributeDivisorFeaturesEXT,
         vertexAttributeInstanceRateZeroDivisor)])
  | supportsMultipleViewports => (None, [(PhysicalDeviceFeatures2, multiViewport)])
  | supportsShaderViewportIndexLayer => (Some "VK_EXT_shader_viewport_index_layer"%string, [])
  | supportsSpirv14 => (Some "VK_KHR_spirv_1_4"%string, [])
  | supportsShaderDemoteToHelper =>
      (Some "VK_EXT_shader_demote_to_helper_invocation"%string,
       [(PhysicalDeviceShaderDemoteToHelperInvocationFeaturesEXT,
         shaderDemoteToHelperInvocation)])
  | supportsFloat16 =>
      (Some "VK_KHR_shader_float16_int8"%string,
       [(PhysicalDeviceShaderFloat16Int8Features, shaderFloat16)])
  | supportsInt8 =>
      (Some "VK_KHR_shader_float16_int8"%string,
       [(PhysicalDeviceShaderFloat16Int8Features, shaderInt8)])
  | supportsInt16 => (None, [(PhysicalDeviceFeatures2, shaderInt16)])
  | supportsInt64 => (None, [(PhysicalDeviceFeatures2, shaderInt64)])
  | supportsAtomicInt64 =>
      (Some "VK_KHR_shader_atomic_int64"%string,
       [(PhysicalDeviceShaderAtomicInt64Features, shaderBufferInt64Atomics);
        (PhysicalDeviceShaderAtomicInt64Features, shaderSharedInt64Atomics)])
  | supportsFloatControls => (Some "VK_KHR_shader_float_controls"%string, [])
  | supportsImageReadWithoutFormat =>
      (None, [(PhysicalDeviceFeatures2, shaderStorageImageReadWithoutFormat)])
  | supportsTopologyListRestart =>
      (Some "VK_EXT_primitive_topology_list_restart"%string,
       [(PhysicalDevicePrimitiveTopologyListRestartFeaturesEXT, primitiveTopologyListRestart)])
  | supportsTopologyPatchListRestart =>
      (Some "VK_EXT_primitive_topology_list_restart"%string,
       [(PhysicalDevicePrimitiveTopologyListRestartFeaturesEXT,
         primitiveTopologyPatchListRestart)])
  | _ => (None, [])
  end.

(** What a structure of the feature chain needs of the device to stay
    linked; the core features are never unlinked. *)
Definition structure_requirement (structName : FeatureStruct)
  : option (string * list (FeatureStruct * Feature)) :=
  match structName with
  | PhysicalDeviceFeatures2 => None
  | PhysicalDeviceCustomBorderColorFeaturesEXT => Some ("VK_EXT_custom_border_color"%string, [])
  | PhysicalDeviceVertexAttributeDivisorFeaturesEXT =>
      Some ("VK_EXT_vertex_attribute_divisor"%string, [])
  | PhysicalDeviceProvokingVertexFeaturesEXT => Some ("VK_EXT_provoking_vertex"%string, [])
  | PhysicalDeviceShaderAtomicInt64Features =>
      Some ("VK_KHR_shader_atomic_int64"%string,
            [(PhysicalDeviceShaderAtomicInt64Features, shaderBufferInt64Atomics);
             (PhysicalDeviceShaderAtomicInt64Features, shaderSharedInt64Atomics)])
  | PhysicalDeviceShaderFloat16Int8Features => Some ("VK_KHR_shader_float16_int8"%string, [])
  | PhysicalDeviceShaderDemoteToHelperInvocationFeaturesEXT =>
      Some ("VK_EXT_shader_demote_to_helper_invocation"%string, [])
  | PhysicalDeviceUniformBufferStandardLayoutFeatures =>
      Some ("VK_KHR_uniform_buffer_standard_layout"%string, [])
  | PhysicalDevicePrimitiveTopologyListRestartFeaturesEXT =>
      Some ("VK_EXT_primitive_topology_list_restart"%string, [])
  end.

Definition reported (features : list (FeatureStruct * Feature)) : bool :=
  forallb (fun feature => deviceFeatures2 (fst feature) (snd feature)) features.

Definition met (deviceExtensions : list ExtensionProperties)
    (r : option string * list (FeatureStruct * Feature)) : bool :=
  match fst r with
  | Some name => offered deviceExtensions name && reported (snd r)
  | None => reported (snd r)
  end.

Definition kept (deviceExtensions : list ExtensionProperties) (structName : FeatureStruct)
  : bool :=
  match structure_requirement structName with
  | Some (name, features) => offered deviceExtensions name && reported features
  | None => true
  end.

Section Constructed.

Variable deviceExtensions : list ExtensionProperties.
Variable deviceFloatControls memberFloatControls : FloatControls.
Variable supportedOperations deviceSubgroupSize memberSubgroupSize : Z.
Variable members : Property -> bool.
Variable enabled : Features.
Variable enabledLinked : FeatureStruct -> bool.
Variable extensions : list string.

Hypothesis Hdistinct : labels_distinct extension_cases = true.

(** The state the constructor starts from, and the one it leaves. *)
Definition s0 : t FloatControls :=
  initial members memberFloatControls memberSubgroupSize enabled enabledLinked extensions.

Definition constructed : t FloatControls :=
  TraitManager Hash deviceFeatures2 deviceExtensions deviceFloatControls supportedOperations
    deviceSubgroupSize s0.

Lemma loop_flag (p : Property) :
  properties (extension_loop Hash deviceExtensions s0) p
  = (if is_local p then false else members p) || extension_flag deviceExtensions p.
Proof. rewrite extension_loop_properties by exact Hdistinct. reflexivity. Qed.

Ltac from_loop :=
  rewrite ?loop_flag;
  rewrite ?(proj1 (proj2 (proj2 (extension_loop_spec deviceExtensions s0 Hdistinct)))),
    ?(proj1 (proj2 (proj2 (proj2 (extension_loop_spec deviceExtensions s0 Hdistinct)))));
  cbn [s0 initial enabledFeatures2 linked is_local orb];
  unfold extension_flag, extension_of; cbn [List.find option_map fst snd extension_cases Property_eqb].

Lemma constructed_properties (p : Property) :
  is_local p = false -> p <> supportsSubgroupVote ->
  properties constructed p = members p || met deviceExtensions (requirement p).
Proof.
  intros Hlocal Hvote. unfold constructed. rewrite TraitManager_blocks.
  unfold device_properties; cbv zeta; cbn [properties assign]; unfold set_property.
  destruct p; try discriminate Hlocal; try contradiction; cbn [Property_eqb];
    through_blocks; from_loop; unfold met, reported; cbn [requirement fst snd forallb];
    rewrite ?andb_true_r, ?orb_false_r, ?andb_assoc; reflexivity.
Qed.

Lemma constructed_linked (structName : FeatureStruct) :
  linked constructed structName = enabledLinked structName && kept deviceExtensions structName.
Proof.
  unfold constructed. rewrite TraitManager_blocks.
  unfold device_properties; cbv zeta; cbn [linked assign].
  destruct structName; through_blocks; from_loop; unfold kept, reported;
    cbn [structure_requirement forallb fst snd];
    rewrite ?andb_true_r, ?negb_involutive, ?andb_assoc; reflexivity.
Qed.

Lemma constructed_enabledFeatures2 (structName : FeatureStruct) (feature : Feature) :
  enabledFeatures2 constructed structName feature = enabled structName feature
  \/ (enabledFeatures2 constructed structName feature = true
      /\ deviceFeatures2 structName feature = true
      /\ kept deviceExtensions structName = true).
Proof.
  unfold constructed. rewrite TraitManager_blocks.
  unfold device_properties; cbv zeta; cbn [enabledFeatures2 assign].
  destruct structName, feature; through_blocks; from_loop; unfold kept, reported;
    cbn [structure_requirement forallb fst snd];
    repeat match goal with
           | |- context [offered ?a ?b] => destruct (offered a b)
           | |- context [deviceFeatures2 ?a ?b] => destruct (deviceFeatures2 a b)
           | |- context [enabled ?a ?b] => destruct (enabled a b)
           end;
    cbn; auto.
Qed.

Lemma constructed_rest :
  enabledExtensions constructed
  = extensions ++ List.filter listed (map extensionName deviceExtensions)
  /\ logged constructed
     = (if offered deviceExtensions "VK_KHR_uniform_buffer_standard_layout"
        then []
        else ["Cannot find VK_KHR_uniform_buffer_standard_layout, assuming implicit support"%string])
  /\ floatControls constructed
     = (if members supportsFloatControls
           || offered deviceExtensions "VK_KHR_shader_float_controls"
        then deviceFloatControls
        else memberFloatControls)
  /\ subgroupSize constructed = deviceSubgroupSize.
Proof.
  unfold constructed. rewrite TraitManager_blocks.
  destruct (extension_loop_spec deviceExtensions s0 Hdistinct)
    as (_ & Hextensions & _ & _ & Hlogged & Hfloat & _).
  unfold device_properties; cbv zeta;
    cbn [enabledExtensions logged floatControls subgroupSize properties assign];
    unfold set_property; cbn [Property_eqb].
  unfold feature_blocks.
  rewrite topology_list_restart_enabledExtensions, uniform_buffer_layout_enabledExtensions,
    demote_to_helper_enabledExtensions, float16_int8_enabledExtensions,
    atomic_int64_enabledExtensions, provoking_vertex_enabledExtensions,
    vertex_attribute_divisor_enabledExtensions, custom_border_color_enabledExtensions,
    core_features_enabledExtensions.
  rewrite topology_list_restart_logged, uniform_buffer_layout_logged,
    demote_to_helper_logged, float16_int8_logged, atomic_int64_logged,
    provoking_vertex_logged, vertex_attribute_divisor_logged, custom_border_color_logged,
    core_features_logged.
  rewrite topology_list_restart_floatControls, uniform_buffer_layout_floatControls,
    demote_to_helper_floatControls, float16_int8_floatControls, atomic_int64_floatControls,
    provoking_vertex_floatControls, vertex_attribute_divisor_floatControls,
    custom_border_color_floatControls, core_features_floatControls.
  rewrite Hextensions, Hlogged, Hfloat.
  fold feature_blocks. through_blocks. from_loop.
  repeat split.
Qed.

(** X29: the constructor enables exactly those extensions the device
    offers that are among the fourteen it looks for, in the device's order
    and once for each time the device lists them, after the extensions
    that were enabled already; the version of an extension is not looked
    at.  It logs one warning exactly when the device does not offer
    [VK_KHR_uniform_buffer_standard_layout], and takes the float controls
    of the device exactly when float controls are supported. *)
Theorem TraitManager_enables_offered_extensions :
  enabledExtensions constructed
  = extensions ++ List.filter listed (map extensionName deviceExtensions)
  /\ (forall name : string,
        In name (enabledExtensions constructed) ->
        In name extensions
        \/ (listed name = true /\ offered deviceExtensions name = true))
  /\ logged constructed
     = (if offered deviceExtensions "VK_KHR_uniform_buffer_standard_layout"
        then []
        else ["Cannot find VK_KHR_uniform_buffer_standard_layout, assuming implicit support"%string])
  /\ floatControls constructed
     = (if properties constructed supportsFloatControls
        then deviceFloatControls
        else memberFloatControls)
  /\ subgroupSize constructed = deviceSubgroupSize.
Proof.
  destruct constructed_rest as (Hextensions & Hlogged & Hfloat & Hsize).
  split; [exact Hextensions|]. split; [|split; [exact Hlogged|split; [|exact Hsize]]].
  - intros name. rewrite Hextensions, in_app_iff, filter_In, in_map_iff.
    intros [Hin | [(extension & <- & Hin) Hlisted]]; [left; exact Hin|].
    right. split; [exact Hlisted|].
    unfold offered. apply existsb_exists. exists extension.
    split; [exact Hin | apply String.eqb_refl].
  - rewrite Hfloat, constructed_properties by (reflexivity || discriminate).
    unfold met, reported. cbn [requirement fst snd forallb]. rewrite andb_true_r. reflexivity.
Qed.

(** X30: a trait is reported by the constructor exactly when its member
    was initialised to true or the device meets the trait's requirement:
    it offers the trait's extension, where there is one, and reports every
    feature the trait depends on.  A structure of the feature chain stays
    linked exactly when it was linked and its extension is offered (for the
    64-bit atomics, the two features are reported as well).  A feature is
    only ever switched on if the device reports it, and only in a structure
    that the constructor leaves linked. *)
Theorem traits_backed_by_device :
  (forall p : Property,
      is_local p = false -> p <> supportsSubgroupVote ->
      properties constructed p = members p || met deviceExtensions (requirement p))
  /\ properties constructed supportsSubgroupVote
     = negb (Z.land supportedOperations 2 =? 0)
  /\ (forall structName : FeatureStruct,
        linked constructed structName
        = enabledLinked structName && kept deviceExtensions structName)
  /\ (forall (structName : FeatureStruct) (feature : Feature),
        enabledFeatures2 constructed structName feature = true ->
        enabled structName feature = true \/ deviceFeatures2 structName feature = true)
  /\ (forall (structName : FeatureStruct) (feature : Feature),
        enabledFeatures2 constructed structName feature <> enabled structName feature ->
        deviceFeatures2 structName feature = true
        /\ linked constructed structName = enabledLinked structName).
Proof.
  split; [exact constructed_properties|]. split; [reflexivity|].
  split; [exact constructed_linked|]. split.
  - intros structName feature Hon.
    destruct (constructed_enabledFeatures2 structName feature) as [Hsame | (_ & Hdevice & _)].
    + left. rewrite <- Hsame. exact Hon.
    + right. exact Hdevice.
  - intros structName feature Hchanged.
    destruct (constructed_enabledFeatures2 structName feature) as [Hsame | (_ & Hdevice & Hkept)].
    + contradiction.
    + split; [exact Hdevice|].
      rewrite constructed_linked, Hkept, andb_true_r. reflexivity.
Qed.

End Constructed.

End TraitManagerProperties.

(** A hash that tells the fourteen extension names apart. *)
Definition example_Hash (name : string) : Z :=
  fold_left (fun h c => (h * 31 + Z.of_N (Ascii.N_of_ascii c)) mod 2 ^ 32)
    (list_ascii_of_string name) 0.

Definition example_extensions : list TraitManager.ExtensionProperties :=
  [ {| TraitManager.extensionName := "VK_EXT_custom_border_color";
       TraitManager.specVersion := 12 |};
    {| TraitManager.extensionName := "VK_KHR_maintenance1"; TraitManager.specVersion := 2 |};
    {| TraitManager.extensionName := "VK_EXT_index_type_uint8";
       TraitManager.specVersion := 1 |};
    {| TraitManager.extensionName := "VK_EXT_custom_border_color";
       TraitManager.specVersion := 12 |} ].

(** A device that reports custom border colours, but not without a
    format, and every core feature. *)
Definition example_features : TraitManager.Features :=
  fun structName feature =>
    match structName, feature with
    | TraitManager.PhysicalDeviceFeatures2, _ => true
    | TraitManager.PhysicalDeviceCustomBorderColorFeaturesEXT,
      TraitManager.customBorderColors => true
    | _, _ => false
    end.

Lemma TraitManager_enables_offered_extensions_witness :
  TraitManager.enabledExtensions
    (constructed example_Hash example_features example_extensions tt tt 2 32 0
       (fun _ => false) (fun _ _ => false) (fun _ => true) [])
  = [ "VK_EXT_custom_border_color"; "VK_EXT_index_type_uint8"; "VK_EXT_custom_border_color" ]%string.
Proof.
  apply (proj1 (TraitManager_enables_offered_extensions example_Hash example_features
                  example_extensions tt tt 2 32 0 (fun _ => false) (fun _ _ => false)
                  (fun _ => true) [] eq_refl)).
Defined.

Lemma traits_backed_by_device_witness :
  TraitManager.properties
    (constructed example_Hash example_features example_extensions tt tt 2 32 0
       (fun _ => false) (fun _ _ => false) (fun _ => true) [])
    TraitManager.supportsCustomBorderColor
  = false
  /\ TraitManager.properties
       (constructed example_Hash example_features example_extensions tt tt 2 32 0
          (fun _ => false) (fun _ _ => false) (fun _ => true) [])
       TraitManager.supportsUint8Indices
     = true.
Proof.
  pose proof (proj1 (traits_backed_by_device example_Hash example_features
                       example_extensions tt tt 2 32 0 (fun _ => false) (fun _ _ => false)
                       (fun _ => true) [] eq_refl)) as H.
  split.
  - rewrite (H TraitManager.supportsCustomBorderColor) by (reflexivity || discriminate).
    reflexivity.
  - rewrite (H TraitManager.supportsUint8Indices) by (reflexivity || discriminate).
    reflexivity.
Defined.
